(** * Tree-sitter SysML parsers: lexical automata, parse tables and the
      table interpreter that consumes them.

    Two generated parsers are embedded, each in its own module:
    - [Zed]   : sysml-lsp-zed-extension/grammars/tree-sitter-sysml/src/parser.c
    - [SysmlTs] : sysml-ts/tree-sitter/src/parser.c

    Both are written against the interface of [tree_sitter/parser.h]
    (types, lexer macros, table macros).  That interface and the engine
    that interprets the tables are shared, and come first. *)

From Stdlib Require Import ZArith String Ascii List Bool Lia.
Import ListNotations.
Local Open Scope Z_scope.

(** ** Characters and text *)

(** Code point of a character literal of the source, ['a'] is [ch "a"]. *)
Definition ch (c : ascii) : Z := Z.of_nat (nat_of_ascii c).
Arguments ch c%_char.

Fixpoint codes (s : string) : list Z :=
  match s with
  | EmptyString => []
  | String c s' => ch c :: codes s'
  end.

Definition slice (text : list Z) (a b : nat) : list Z :=
  firstn (b - a) (skipn a text).

(** ** Interface of tree_sitter/parser.h *)

Definition TSSymbol := Z.
Definition TSStateId := Z.
Definition TSFieldId := Z.

Definition ts_builtin_sym_end : TSSymbol := 0.
Definition ts_builtin_sym_error : TSSymbol := 65535.

(** What one [case] of a lexer function does with the lookahead, after
    its optional [ACCEPT_TOKEN]. *)
Inductive LexAction :=
| ADVANCE (state_value : TSStateId)
| SKIP (state_value : TSStateId)
| END_STATE.

(** One [case] of the [switch]: the symbol of its [ACCEPT_TOKEN], if it
    has one, and the transition taken. *)
Definition LexCase := (option TSSymbol * LexAction)%type.

(** A lexer function: [None] is the [default: return false] branch. *)
Definition LexFn := TSStateId -> bool -> Z -> option LexCase.

(** [ADVANCE_MAP(c1, s1, c2, s2, ...)]: the first pair whose character is
    the lookahead decides; without one, control falls through to [rest]. *)
Fixpoint ADVANCE_MAP (map : list (Z * TSStateId)) (lookahead : Z)
    (rest : LexAction) : LexAction :=
  match map with
  | [] => rest
  | (c, s) :: map' =>
      if lookahead =? c then ADVANCE s else ADVANCE_MAP map' lookahead rest
  end.

(** The range test [('\t' <= lookahead && lookahead <= '\r') || lookahead == ' ']. *)
Definition is_space (lookahead : Z) : bool :=
  ((9 <=? lookahead) && (lookahead <=? 13)) || (lookahead =? ch " ").

Inductive TSParseAction :=
| SHIFT (state : TSStateId)
| SHIFT_REPEAT (state : TSStateId)
| SHIFT_EXTRA
| REDUCE (symbol : TSSymbol) (child_count : nat) (dynamic_precedence : Z)
         (production_id : Z)
| RECOVER
| ACCEPT_INPUT.

(** [{.entry = {.count = n, .reusable = r}}, a1, ..., an] at index [i]. *)
Record TSParseActionEntry := mkEntry {
  entry_index : Z;
  reusable : bool;
  actions : list TSParseAction
}.

Record TSSymbolMetadata := mkMeta { visible : bool; named : bool }.

Record TSFieldMapSlice := mkSlice { slice_index : nat; slice_length : nat }.
Record TSFieldMapEntry := mkFieldEntry { field_id : TSFieldId; child_index : nat }.

(** The [TSLanguage] object returned by [tree_sitter_sysml]: the fields
    the interpreter reads. Tables with designated initialisers are kept
    as association lists from the designator to the value. *)
Record TSLanguage := mkLanguage {
  symbol_count : Z;
  token_count : Z;
  state_count : Z;
  large_state_count : Z;
  parse_table : list (TSStateId * list (TSSymbol * Z));
  small_parse_table : list Z;
  small_parse_table_map : list (TSStateId * nat);
  parse_actions : list TSParseActionEntry;
  symbol_names : list (TSSymbol * string);
  field_names : list (TSFieldId * string);
  field_map_slices : list (Z * TSFieldMapSlice);
  field_map_entries : list TSFieldMapEntry;
  symbol_metadata : list (TSSymbol * TSSymbolMetadata);
  lex_modes : list (TSStateId * TSStateId);
  lex_fn : LexFn;
  keyword_lex_fn : LexFn;
  keyword_capture_token : TSSymbol
}.

(** [STATE(id)] and [ACTIONS(id)] are the identity: a table cell holds a
    state for a nonterminal column and an action index for a terminal one. *)
Definition STATE (id : Z) : Z := id.
Definition ACTIONS (id : Z) : Z := id.

Fixpoint assoc_Z {A : Type} (k : Z) (l : list (Z * A)) : option A :=
  match l with
  | [] => None
  | (k', v) :: l' => if k =? k' then Some v else assoc_Z k l'
  end.

(** ** The lexer loop

    Modelled from the spec: the lexer macros [START_LEXER], [ADVANCE],
    [SKIP], [ACCEPT_TOKEN], [END_STATE] of tree_sitter/parser.h and the
    [TSLexer] callbacks behind them ([advance], [mark_end], [eof]), which
    the repository includes but does not hold.  Section 4.1: the scan
    starts at the cursor in a requested start state and follows the
    automaton one character at a time; an accepting case records its
    symbol and the current position as the end of the token
    ([ACCEPT_TOKEN]), later accepts replace earlier ones (longest match);
    when no transition matches, the scan ends and succeeds exactly when
    some case accepted on the way.  [SKIP] advances like [ADVANCE] and
    moves the start of the token past the character; at end of input the
    lookahead is 0, [eof] holds and advancing does not move. *)

Inductive Lexed :=
| Token (symbol : TSSymbol) (start end_ : nat)
| NoToken (start : nat).

Definition accept_token (accept : option TSSymbol) (pos : nat)
    (found : option (TSSymbol * nat)) : option (TSSymbol * nat) :=
  match accept with
  | Some symbol => Some (symbol, pos)
  | None => found
  end.

Definition finish_lex (start : nat) (found : option (TSSymbol * nat)) : Lexed :=
  match found with
  | Some (symbol, end_) => Token symbol start end_
  | None => NoToken start
  end.

Section LexerLoop.
Variable lex : LexFn.

(** At end of input. Advancing does not move, so an automaton could
    spin here: [None] after [fuel] rounds. *)
Fixpoint lex_at_eof (fuel : nat) (state : TSStateId) (pos start : nat)
    (found : option (TSSymbol * nat)) : option Lexed :=
  match lex state true 0 with
  | None => Some (NoToken start)
  | Some (accept, action) =>
      let found := accept_token accept pos found in
      match action with
      | END_STATE => Some (finish_lex start found)
      | ADVANCE s =>
          match fuel with
          | O => None
          | S fuel' => lex_at_eof fuel' s pos start found
          end
      | SKIP s =>
          match fuel with
          | O => None
          | S fuel' => lex_at_eof fuel' s pos pos found
          end
      end
  end.

Definition eof_rounds : nat := 8.

(** [text] is the input from position [pos] on; [start] is the start of
    the token, [found] the last accepted symbol and its end. *)
Fixpoint lex_loop (text : list Z) (state : TSStateId) (pos start : nat)
    (found : option (TSSymbol * nat)) {struct text} : option Lexed :=
  match text with
  | [] => lex_at_eof eof_rounds state pos start found
  | lookahead :: text' =>
      match lex state false lookahead with
      | None => Some (NoToken start)
      | Some (accept, action) =>
          let found := accept_token accept pos found in
          match action with
          | END_STATE => Some (finish_lex start found)
          | ADVANCE s => lex_loop text' s (S pos) start found
          | SKIP s => lex_loop text' s (S pos) (S pos) found
          end
      end
  end.

(** One call [lex(lexer, state)] with the lexer positioned at [pos]. *)
Definition run_lexer (state : TSStateId) (text : list Z) (pos : nat)
    : option Lexed :=
  lex_loop text state pos pos None.
End LexerLoop.

(** ** The table interpreter

    Modelled from the spec: the engine that interprets the generated
    tables (table lookup, keyword capture, the shift-reduce loop with
    its error recovery, and the tree builder) is the tree-sitter library,
    which the repository links against but does not hold.  The
    definitions below follow sections 3, 4.2, 4.3, 4.4 and 7, and read
    the tables through the layout that the table macros of the generated
    source fix. *)

(** ** Trees (section 3, Node) *)

(** A leaf wraps a token: its symbol, the position where the scan
    began ([padding]: skipped characters lie between it and [start])
    and the span of the token.  An inner node keeps its children in
    order, each with the field of its slot (0 for none). *)
#[local] Unset Elimination Schemes.
Inductive Node :=
| Leaf (symbol : TSSymbol) (padding start end_ : nat)
| Tree (symbol : TSSymbol) (children : list (TSFieldId * Node)).
#[local] Set Elimination Schemes.

Section Interpreter.
Variable L : TSLanguage.

(** *** Table lookup *)

(** Modelled from the spec: lookup in the sparse rows of
    [ts_small_parse_table].  A row is [group_count] followed by groups
    [section_value, symbol_count, symbol, ...]. *)
Fixpoint small_groups (group_count : nat) (data : list Z) (symbol : TSSymbol) : Z :=
  match group_count with
  | O => 0
  | S g =>
      match data with
      | section_value :: symbol_count :: data' =>
          let n := Z.to_nat symbol_count in
          if existsb (Z.eqb symbol) (firstn n data') then section_value
          else small_groups g (skipn n data') symbol
      | _ => 0
      end
  end.

(** Modelled from the spec: the cell of (state, symbol), dense for a
    "large" state and sparse for a "small" one (section 3); 0 when the
    tables have no cell. *)
Definition ts_language_lookup (state : TSStateId) (symbol : TSSymbol) : Z :=
  if large_state_count L <=? state then
    match assoc_Z (state - large_state_count L) (small_parse_table_map L) with
    | Some index =>
        match skipn index (small_parse_table L) with
        | group_count :: data => small_groups (Z.to_nat group_count) data symbol
        | [] => 0
        end
    | None => 0
    end
  else
    match assoc_Z state (parse_table L) with
    | Some row =>
        match assoc_Z symbol row with
        | Some cell => cell
        | None => 0
        end
    | None => 0
    end.

Definition ts_language_has_actions (state : TSStateId) (symbol : TSSymbol) : bool :=
  negb (ts_language_lookup state symbol =? 0).

(** Modelled from the spec: the actions of (state, lookahead terminal). *)
Definition ts_language_actions (state : TSStateId) (symbol : TSSymbol)
    : list TSParseAction :=
  match find (fun e => entry_index e =? ts_language_lookup state symbol)
             (parse_actions L) with
  | Some e => actions e
  | None => []
  end.

(** Modelled from the spec: the state entered on a nonterminal. *)
Definition ts_language_next_state (state : TSStateId) (symbol : TSSymbol)
    : TSStateId :=
  ts_language_lookup state symbol.

Definition ts_language_lex_state (state : TSStateId) : TSStateId :=
  match assoc_Z state (lex_modes L) with
  | Some lex_state => lex_state
  | None => 0
  end.

Definition ts_language_symbol_metadata (symbol : TSSymbol) : TSSymbolMetadata :=
  match assoc_Z symbol (symbol_metadata L) with
  | Some m => m
  | None => mkMeta true true
  end.

Definition is_terminal (symbol : TSSymbol) : bool := symbol <? token_count L.

(** Modelled from the spec: the field of child slot [index] in the
    field map of a production, 0 when the slot has none. *)
Definition ts_language_field (production_id : Z) (index : nat) : TSFieldId :=
  match assoc_Z production_id (field_map_slices L) with
  | Some s =>
      match find (fun e => (child_index e =? index)%nat)
                 (firstn (slice_length s) (skipn (slice_index s) (field_map_entries L))) with
      | Some e => field_id e
      | None => 0
      end
  | None => 0
  end.

(** *** Keyword capture (section 4.2) *)

(** Modelled from the spec: the span of an identifier-shaped token is
    scanned again by the keyword automaton from its state 0; the
    keyword replaces the identifier when the automaton accepts the
    whole span and the keyword is [active] in the current state. *)
Definition capture_keyword (active : TSSymbol -> bool) (text : list Z)
    (pos : nat) (lexed : Lexed) : option Lexed :=
  match lexed with
  | Token symbol start end_ =>
      if symbol =? keyword_capture_token L then
        match run_lexer (keyword_lex_fn L) 0 (skipn (start - pos) text) start with
        | Some (Token keyword _ keyword_end) =>
            if (keyword_end =? end_)%nat && active keyword
            then Some (Token keyword start end_)
            else Some lexed
        | Some (NoToken _) => Some lexed
        | None => None
        end
      else Some lexed
  | NoToken _ => Some lexed
  end.

Definition lex_with_keywords (active : TSSymbol -> bool) (lex_state : TSStateId)
    (text : list Z) (pos : nat) : option Lexed :=
  match run_lexer (lex_fn L) lex_state text pos with
  | Some lexed => capture_keyword active text pos lexed
  | None => None
  end.

(** Modelled from the spec: the next token for a parser state: the main
    automaton in the lexical mode of the state, then keyword capture,
    active for the keywords on which the state has an action. *)
Definition ts_parser_lex (parse_state : TSStateId) (text : list Z) (pos : nat)
    : option Lexed :=
  lex_with_keywords (ts_language_has_actions parse_state)
    (ts_language_lex_state parse_state) text pos.

(** *** Reading trees *)

Definition node_symbol (n : Node) : TSSymbol :=
  match n with
  | Leaf symbol _ _ _ => symbol
  | Tree symbol _ => symbol
  end.

Definition node_children (n : Node) : list (TSFieldId * Node) :=
  match n with
  | Leaf _ _ _ _ => []
  | Tree _ children => children
  end.

(** The leaves of a tree in tree order, as (symbol, padding, start, end). *)
Fixpoint leaves (n : Node) : list (TSSymbol * nat * nat * nat) :=
  match n with
  | Leaf symbol padding start end_ => [(symbol, padding, start, end_)]
  | Tree _ children => flat_map (fun c => leaves (snd c)) children
  end.

Definition is_hidden (symbol : TSSymbol) : bool :=
  negb (is_terminal symbol) && negb (visible (ts_language_symbol_metadata symbol)).

(** Section 4.4: a child produced by an auxiliary (hidden) production is
    replaced by its own children. *)
Definition splice (c : TSFieldId * Node) : list (TSFieldId * Node) :=
  match snd c with
  | Tree symbol children => if is_hidden symbol then children else [c]
  | Leaf _ _ _ _ => [c]
  end.

(** *** The parse session (section 3) *)

(** A frame: the parser state, the node that led to it, and the nodes
    attached after it without a state change (comments, error leaves). *)
Definition Frame := (TSStateId * Node * list Node)%type.

Record Session := mkSession {
  leading : list Node;     (* nodes attached before the first frame *)
  stack : list Frame;      (* top first *)
  recovering : bool;
  cursor : nat;
  input : list Z           (* the text from [cursor] on *)
}.

Variable start_state : TSStateId.

Definition top_state (st : list Frame) : TSStateId :=
  match st with
  | [] => start_state
  | (s, _, _) :: _ => s
  end.

Definition frame_nodes (f : Frame) : list Node :=
  let '(_, n, extras) := f in n :: extras.

(** All nodes of a stack, oldest first. *)
Definition stack_nodes (st : list Frame) : list Node :=
  flat_map frame_nodes (rev st).

Definition attach (n : Node) (leading : list Node) (st : list Frame)
    : list Node * list Frame :=
  match st with
  | [] => (leading ++ [n], [])
  | (s, top, extras) :: st' => (leading, (s, top, extras ++ [n]) :: st')
  end.

Definition unfielded (ns : list Node) : list (TSFieldId * Node) :=
  map (fun n => (0, n)) ns.

Inductive Outcome :=
| Continue (s : Session)
| Done (root : Node)
| Fatal.

Definition error_root (s : Session) (eof_leaf : Node) : Outcome :=
  Done (Tree ts_builtin_sym_error
          (unfielded (leading s ++ stack_nodes (stack s) ++ [eof_leaf]))).

(** Children of a reduction from the popped frames (oldest first):
    slot [index] carries its field, attached nodes carry none; the
    nodes attached after the last frame stay outside. *)
Fixpoint reduction_children (production_id : Z) (index : nat) (popped : list Frame)
    : list (TSFieldId * Node) * list Node :=
  match popped with
  | [] => ([], [])
  | [(_, n, extras)] => ([(ts_language_field production_id index, n)], extras)
  | (_, n, extras) :: popped' =>
      let (cs, trailing) := reduction_children production_id (S index) popped' in
      ((ts_language_field production_id index, n) :: unfielded extras ++ cs, trailing)
  end.

(** Reduce (sections 4.3 and 4.4). *)
Definition ts_parser_reduce (s : Session) (symbol : TSSymbol) (child_count : nat)
    (production_id : Z) : Outcome :=
  if (length (stack s) <? child_count)%nat then Fatal else
  let popped := rev (firstn child_count (stack s)) in
  let below := skipn child_count (stack s) in
  let next := ts_language_next_state (top_state below) symbol in
  if next =? 0 then Fatal else
  let (cs, trailing) := reduction_children production_id 0 popped in
  Continue (mkSession (leading s)
              ((next, Tree symbol (flat_map splice cs), trailing) :: below)
              false (cursor s) (input s)).

(** Accept: the stack holds exactly the node of the start symbol; the
    root takes the attached nodes around it and the end leaf. *)
Definition ts_parser_accept (s : Session) (eof_leaf : Node) : Outcome :=
  match stack s with
  | [(_, Tree symbol children, extras)] =>
      Done (Tree symbol (unfielded (leading s) ++ children
                           ++ unfielded (extras ++ [eof_leaf])))
  | _ => Fatal
  end.

(** A token at the offsets [start], [end_] from the cursor becomes a
    leaf at absolute positions. *)
Definition token_leaf (s : Session) (symbol : TSSymbol) (start end_ : nat) : Node :=
  Leaf symbol (cursor s) (start + cursor s) (end_ + cursor s).

(** Shift, or attach without a state change, and move the cursor by
    [end_] characters. *)
Definition consume (s : Session) (end_ : nat) (recovering' : bool)
    (leading' : list Node) (stack' : list Frame) : Outcome :=
  Continue (mkSession leading' stack' recovering' (end_ + cursor s)
              (skipn end_ (input s))).

Definition attach_leaf (s : Session) (n : Node) (end_ : nat) (recovering' : bool)
    : Outcome :=
  let (leading', stack') := attach n (leading s) (stack s) in
  consume s end_ recovering' leading' stack'.

(** Section 7 (b): no action for the token.  At end of input the parse
    ends with what the stack holds, marked as an error; otherwise the
    token becomes an error leaf and recovery starts. *)
Definition syntax_error (s : Session) (symbol : TSSymbol) (start end_ : nat)
    : Outcome :=
  if symbol =? ts_builtin_sym_end
  then error_root s (token_leaf s symbol start end_)
  else attach_leaf s (token_leaf s ts_builtin_sym_error start end_) end_ true.

(** One step in the normal mode, on the token [symbol]. *)
Definition ts_parser_advance (s : Session) (symbol : TSSymbol) (start end_ : nat)
    : Outcome :=
  match ts_language_actions (top_state (stack s)) symbol with
  | SHIFT next :: _ | SHIFT_REPEAT next :: _ =>
      consume s end_ false (leading s)
        ((next, token_leaf s symbol start end_, []) :: stack s)
  | SHIFT_EXTRA :: _ =>
      attach_leaf s (token_leaf s symbol start end_) end_ false
  | REDUCE symbol' child_count _ production_id :: _ =>
      ts_parser_reduce s symbol' child_count production_id
  | ACCEPT_INPUT :: _ =>
      ts_parser_accept s (token_leaf s symbol start end_)
  | RECOVER :: _ | [] => syntax_error s symbol start end_
  end.

(** The frames to discard so that the state on top has an action for
    [symbol]: [None] when no state of the stack has one. *)
Fixpoint resynchronize (st : list Frame) (symbol : TSSymbol)
    : option (list Frame * list Frame) :=
  if ts_language_has_actions (top_state st) symbol then Some ([], st) else
  match st with
  | [] => None
  | f :: st' =>
      match resynchronize st' symbol with
      | Some (popped, kept) => Some (f :: popped, kept)
      | None => None
      end
  end.

(** One step in recovery, on the token [symbol] scanned in the mode of
    state 0: a comment is attached; a token for which some state of the
    stack has an action ends recovery there, the discarded frames
    becoming one error node; any other token is discarded. *)
Definition ts_parser_recover (s : Session) (symbol : TSSymbol) (start end_ : nat)
    : Outcome :=
  match ts_language_actions 0 symbol with
  | SHIFT_EXTRA :: _ =>
      attach_leaf s (token_leaf s symbol start end_) end_ true
  | _ =>
      if symbol =? ts_builtin_sym_end
      then error_root s (token_leaf s symbol start end_)
      else
        match resynchronize (stack s) symbol with
        | Some ([], _) =>
            Continue (mkSession (leading s) (stack s) false (cursor s) (input s))
        | Some (popped, kept) =>
            let (leading', stack') :=
              attach (Tree ts_builtin_sym_error (unfielded (stack_nodes popped)))
                     (leading s) kept in
            Continue (mkSession leading' stack' false (cursor s) (input s))
        | None =>
            attach_leaf s (token_leaf s ts_builtin_sym_error start end_) end_ true
        end
  end.

(** One iteration of the loop: scan a token from the cursor in the mode
    of the current state and act on it; the positions of the scan count
    from the cursor.  Section 7 (a): where the scan fails, one character
    becomes an error leaf; a scan that fails with the input exhausted
    stands for the end of input. *)
Definition ts_parser_step (s : Session) : Outcome :=
  let state := if recovering s then 0 else top_state (stack s) in
  match ts_parser_lex state (input s) 0 with
  | None => Fatal
  | Some (Token symbol start end_) =>
      if recovering s then ts_parser_recover s symbol start end_
      else ts_parser_advance s symbol start end_
  | Some (NoToken start) =>
      match skipn start (input s) with
      | [] =>
          if recovering s
          then ts_parser_recover s ts_builtin_sym_end start start
          else ts_parser_advance s ts_builtin_sym_end start start
      | _ :: _ =>
          attach_leaf s (token_leaf s ts_builtin_sym_error start (S start))
            (S start) (recovering s)
      end
  end.

Fixpoint ts_parser_run (fuel : nat) (s : Session) : option Node :=
  match fuel with
  | O => None
  | S fuel' =>
      match ts_parser_step s with
      | Continue s' => ts_parser_run fuel' s'
      | Done root => Some root
      | Fatal => None
      end
  end.

Definition ts_parser_parse (fuel : nat) (text : list Z) : option Node :=
  ts_parser_run fuel (mkSession [] [] false 0 text).

(** *** What a caller sees of a node (sections 4.4 and 6) *)

Definition is_visible (n : Node) : bool :=
  (node_symbol n =? ts_builtin_sym_error)
  || visible (ts_language_symbol_metadata (node_symbol n)).

Definition is_named (n : Node) : bool :=
  is_visible n &&
  ((node_symbol n =? ts_builtin_sym_error)
   || named (ts_language_symbol_metadata (node_symbol n))).

Definition ts_node_children (n : Node) : list Node :=
  filter is_visible (map snd (node_children n)).

Definition ts_node_named_children (n : Node) : list Node :=
  filter is_named (map snd (node_children n)).

Definition ts_field_id_for_name (name : string) : TSFieldId :=
  match find (fun p => String.eqb (snd p) name) (field_names L) with
  | Some p => fst p
  | None => 0
  end.

Definition ts_node_child_by_field_name (n : Node) (name : string) : option Node :=
  match find (fun c => negb (fst c =? 0) && (fst c =? ts_field_id_for_name name))
             (node_children n) with
  | Some c => Some (snd c)
  | None => None
  end.

Fixpoint ts_node_has_error (n : Node) : bool :=
  (node_symbol n =? ts_builtin_sym_error)
  || match n with
     | Leaf _ _ _ _ => false
     | Tree _ children => existsb (fun c => ts_node_has_error (snd c)) children
     end.

(** Span of a node: from the start of its first leaf to the end of its
    last one; extent: the same with the characters skipped before the
    first leaf. *)
Definition ts_node_start (n : Node) : nat :=
  match leaves n with
  | (_, _, start, _) :: _ => start
  | [] => 0
  end.

Definition ts_node_extent_start (n : Node) : nat :=
  match leaves n with
  | (_, padding, _, _) :: _ => padding
  | [] => 0
  end.

Definition ts_node_end (n : Node) : nat :=
  match rev (leaves n) with
  | (_, _, _, end_) :: _ => end_
  | [] => 0
  end.

Definition ts_node_text (text : list Z) (n : Node) : list Z :=
  slice text (ts_node_start n) (ts_node_end n).

(** Modelled from the spec: the span reported for the root of a parse
    (sections 6 and 8).  The root answers for the whole input, so the
    text skipped before its first token belongs to it. *)
Definition ts_tree_root_span (root : Node) : nat * nat :=
  (ts_node_extent_start root, ts_node_end root).
End Interpreter.

(** ** sysml-lsp-zed-extension/grammars/tree-sitter-sysml/src/parser.c *)

Module Zed.

Definition LANGUAGE_VERSION : Z := 14.
Definition STATE_COUNT : Z := 54.
Definition LARGE_STATE_COUNT : Z := 11.
Definition SYMBOL_COUNT : Z := 37.
Definition ALIAS_COUNT : Z := 0.
Definition TOKEN_COUNT : Z := 24.
Definition EXTERNAL_TOKEN_COUNT : Z := 0.
Definition FIELD_COUNT : Z := 2.
Definition MAX_ALIAS_SEQUENCE_LENGTH : Z := 6.
Definition PRODUCTION_ID_COUNT : Z := 4.

(** [enum ts_symbol_identifiers] *)
Definition sym_identifier : TSSymbol := 1.
Definition anon_sym_LBRACE : TSSymbol := 2.
Definition anon_sym_RBRACE : TSSymbol := 3.
Definition anon_sym_package : TSSymbol := 4.
Definition anon_sym_part : TSSymbol := 5.
Definition anon_sym_def : TSSymbol := 6.
Definition anon_sym_SEMI : TSSymbol := 7.
Definition anon_sym_attribute : TSSymbol := 8.
Definition anon_sym_import : TSSymbol := 9.
Definition aux_sym_import_decl_token1 : TSSymbol := 10.
Definition anon_sym_action : TSSymbol := 11.
Definition anon_sym_state : TSSymbol := 12.
Definition anon_sym_interface : TSSymbol := 13.
Definition anon_sym_port : TSSymbol := 14.
Definition anon_sym_requirement : TSSymbol := 15.
Definition anon_sym_constraint : TSSymbol := 16.
Definition anon_sym_enum : TSSymbol := 17.
Definition anon_sym_type : TSSymbol := 18.
Definition anon_sym_COLON : TSSymbol := 19.
Definition anon_sym_COLON_COLON : TSSymbol := 20.
Definition sym_string : TSSymbol := 21.
Definition sym_number : TSSymbol := 22.
Definition sym_comment : TSSymbol := 23.
Definition sym_source_file : TSSymbol := 24.
Definition sym__statement : TSSymbol := 25.
Definition sym_block : TSSymbol := 26.
Definition sym_package_decl : TSSymbol := 27.
Definition sym_part_def : TSSymbol := 28.
Definition sym_attribute_decl : TSSymbol := 29.
Definition sym_import_decl : TSSymbol := 30.
Definition sym_definition : TSSymbol := 31.
Definition sym_typing : TSSymbol := 32.
Definition sym_type_ref : TSSymbol := 33.
Definition sym_qualified_name : TSSymbol := 34.
Definition aux_sym_source_file_repeat1 : TSSymbol := 35.
Definition aux_sym_qualified_name_repeat1 : TSSymbol := 36.

Definition ts_symbol_names : list (TSSymbol * string) := [
  (ts_builtin_sym_end, "end"%string);
  (sym_identifier, "identifier"%string);
  (anon_sym_LBRACE, "{"%string);
  (anon_sym_RBRACE, "}"%string);
  (anon_sym_package, "package"%string);
  (anon_sym_part, "part"%string);
  (anon_sym_def, "def"%string);
  (anon_sym_SEMI, ";"%string);
  (anon_sym_attribute, "attribute"%string);
  (anon_sym_import, "import"%string);
  (aux_sym_import_decl_token1, "import_decl_token1"%string);
  (anon_sym_action, "action"%string);
  (anon_sym_state, "state"%string);
  (anon_sym_interface, "interface"%string);
  (anon_sym_port, "port"%string);
  (anon_sym_requirement, "requirement"%string);
  (anon_sym_constraint, "constraint"%string);
  (anon_sym_enum, "enum"%string);
  (anon_sym_type, "type"%string);
  (anon_sym_COLON, ":"%string);
  (anon_sym_COLON_COLON, "::"%string);
  (sym_string, "string"%string);
  (sym_number, "number"%string);
  (sym_comment, "comment"%string);
  (sym_source_file, "source_file"%string);
  (sym__statement, "_statement"%string);
  (sym_block, "block"%string);
  (sym_package_decl, "package_decl"%string);
  (sym_part_def, "part_def"%string);
  (sym_attribute_decl, "attribute_decl"%string);
  (sym_import_decl, "import_decl"%string);
  (sym_definition, "definition"%string);
  (sym_typing, "typing"%string);
  (sym_type_ref, "type_ref"%string);
  (sym_qualified_name, "qualified_name"%string);
  (aux_sym_source_file_repeat1, "source_file_repeat1"%string);
  (aux_sym_qualified_name_repeat1, "qualified_name_repeat1"%string)
].

Definition ts_symbol_metadata : list (TSSymbol * TSSymbolMetadata) := [
  (ts_builtin_sym_end, mkMeta false true);
  (sym_identifier, mkMeta true true);
  (anon_sym_LBRACE, mkMeta true false);
  (anon_sym_RBRACE, mkMeta true false);
  (anon_sym_package, mkMeta true false);
  (anon_sym_part, mkMeta true false);
  (anon_sym_def, mkMeta true false);
  (anon_sym_SEMI, mkMeta true false);
  (anon_sym_attribute, mkMeta true false);
  (anon_sym_import, mkMeta true false);
  (aux_sym_import_decl_token1, mkMeta false false);
  (anon_sym_action, mkMeta true false);
  (anon_sym_state, mkMeta true false);
  (anon_sym_interface, mkMeta true false);
  (anon_sym_port, mkMeta true false);
  (anon_sym_requirement, mkMeta true false);
  (anon_sym_constraint, mkMeta true false);
  (anon_sym_enum, mkMeta true false);
  (anon_sym_type, mkMeta true false);
  (anon_sym_COLON, mkMeta true false);
  (anon_sym_COLON_COLON, mkMeta true false);
  (sym_string, mkMeta true true);
  (sym_number, mkMeta true true);
  (sym_comment, mkMeta true true);
  (sym_source_file, mkMeta true true);
  (sym__statement, mkMeta false true);
  (sym_block, mkMeta true true);
  (sym_package_decl, mkMeta true true);
  (sym_part_def, mkMeta true true);
  (sym_attribute_decl, mkMeta true true);
  (sym_import_decl, mkMeta true true);
  (sym_definition, mkMeta true true);
  (sym_typing, mkMeta true true);
  (sym_type_ref, mkMeta true true);
  (sym_qualified_name, mkMeta true true);
  (aux_sym_source_file_repeat1, mkMeta false false);
  (aux_sym_qualified_name_repeat1, mkMeta false false)
].

(** [enum ts_field_identifiers] *)
Definition field_name : TSFieldId := 1.
Definition field_type : TSFieldId := 2.

Definition ts_field_names : list (TSFieldId * string) := [
  (field_name, "name"%string);
  (field_type, "type"%string)
].

Definition ts_field_map_slices : list (Z * TSFieldMapSlice) := [
  (1, mkSlice 0 1);
  (2, mkSlice 1 1);
  (3, mkSlice 2 1)
].

Definition ts_field_map_entries : list TSFieldMapEntry := [
  mkFieldEntry field_name 1;
  mkFieldEntry field_name 2;
  mkFieldEntry field_type 1
].

Definition ts_lex : LexFn := fun state eof lookahead =>
  match state with
  | 0 => Some (None,
      if eof then ADVANCE 11 else
      if lookahead =? 34 then ADVANCE 1 else
      if lookahead =? ch "/" then ADVANCE 2 else
      if lookahead =? ch ":" then ADVANCE 22 else
      if lookahead =? ch ";" then ADVANCE 14 else
      if lookahead =? ch "{" then ADVANCE 12 else
      if lookahead =? ch "}" then ADVANCE 13 else
      if ((9 <=? lookahead) && (lookahead <=? 13)) || (lookahead =? ch " ") then SKIP 0 else
      if (ch "0" <=? lookahead) && (lookahead <=? ch "9") then ADVANCE 26 else
      if ((ch "A" <=? lookahead) && (lookahead <=? ch "Z")) || (lookahead =? ch "_") || ((ch "a" <=? lookahead) && (lookahead <=? ch "z")) then ADVANCE 24 else
      END_STATE)
  | 1 => Some (None,
      if lookahead =? 34 then ADVANCE 25 else
      if lookahead =? 92 then ADVANCE 8 else
      if negb (lookahead =? 0) then ADVANCE 1 else
      END_STATE)
  | 2 => Some (None,
      if lookahead =? ch "*" then ADVANCE 4 else
      if lookahead =? ch "/" then ADVANCE 29 else
      END_STATE)
  | 3 => Some (None,
      if lookahead =? ch "*" then ADVANCE 3 else
      if lookahead =? ch "/" then ADVANCE 28 else
      if negb (lookahead =? 0) then ADVANCE 4 else
      END_STATE)
  | 4 => Some (None,
      if lookahead =? ch "*" then ADVANCE 3 else
      if negb (lookahead =? 0) then ADVANCE 4 else
      END_STATE)
  | 5 => Some (None,
      if lookahead =? ch "/" then ADVANCE 16 else
      if ((9 <=? lookahead) && (lookahead <=? 13)) || (lookahead =? ch " ") then ADVANCE 19 else
      if negb (lookahead =? 0) && negb (lookahead =? ch ";") then ADVANCE 20 else
      END_STATE)
  | 6 => Some (None,
      if lookahead =? ch ":" then ADVANCE 23 else
      END_STATE)
  | 7 => Some (None,
      if (ch "0" <=? lookahead) && (lookahead <=? ch "9") then ADVANCE 27 else
      END_STATE)
  | 8 => Some (None,
      if negb (lookahead =? 0) && negb (lookahead =? 10) then ADVANCE 1 else
      END_STATE)
  | 9 => Some (None,
      if eof then ADVANCE 11 else
      if lookahead =? ch "/" then ADVANCE 2 else
      if lookahead =? ch ":" then ADVANCE 21 else
      if lookahead =? ch ";" then ADVANCE 14 else
      if lookahead =? ch "{" then ADVANCE 12 else
      if lookahead =? ch "}" then ADVANCE 13 else
      if ((9 <=? lookahead) && (lookahead <=? 13)) || (lookahead =? ch " ") then SKIP 9 else
      if ((ch "A" <=? lookahead) && (lookahead <=? ch "Z")) || (lookahead =? ch "_") || ((ch "a" <=? lookahead) && (lookahead <=? ch "z")) then ADVANCE 24 else
      END_STATE)
  | 10 => Some (None,
      if eof then ADVANCE 11 else
      if lookahead =? ch "/" then ADVANCE 2 else
      if lookahead =? ch ":" then ADVANCE 6 else
      if lookahead =? ch ";" then ADVANCE 14 else
      if lookahead =? ch "{" then ADVANCE 12 else
      if lookahead =? ch "}" then ADVANCE 13 else
      if ((9 <=? lookahead) && (lookahead <=? 13)) || (lookahead =? ch " ") then SKIP 10 else
      if ((ch "A" <=? lookahead) && (lookahead <=? ch "Z")) || (lookahead =? ch "_") || ((ch "a" <=? lookahead) && (lookahead <=? ch "z")) then ADVANCE 24 else
      END_STATE)
  | 11 => Some (Some ts_builtin_sym_end, END_STATE)
  | 12 => Some (Some anon_sym_LBRACE, END_STATE)
  | 13 => Some (Some anon_sym_RBRACE, END_STATE)
  | 14 => Some (Some anon_sym_SEMI, END_STATE)
  | 15 => Some (Some aux_sym_import_decl_token1,
      if lookahead =? 10 then ADVANCE 20 else
      if lookahead =? ch ";" then ADVANCE 29 else
      if negb (lookahead =? 0) then ADVANCE 15 else
      END_STATE)
  | 16 => Some (Some aux_sym_import_decl_token1,
      if lookahead =? ch "*" then ADVANCE 18 else
      if lookahead =? ch "/" then ADVANCE 15 else
      if negb (lookahead =? 0) && negb (lookahead =? ch ";") then ADVANCE 20 else
      END_STATE)
  | 17 => Some (Some aux_sym_import_decl_token1,
      if lookahead =? ch "*" then ADVANCE 17 else
      if lookahead =? ch "/" then ADVANCE 20 else
      if lookahead =? ch ";" then ADVANCE 4 else
      if negb (lookahead =? 0) then ADVANCE 18 else
      END_STATE)
  | 18 => Some (Some aux_sym_import_decl_token1,
      if lookahead =? ch "*" then ADVANCE 17 else
      if lookahead =? ch ";" then ADVANCE 4 else
      if negb (lookahead =? 0) then ADVANCE 18 else
      END_STATE)
  | 19 => Some (Some aux_sym_import_decl_token1,
      if lookahead =? ch "/" then ADVANCE 16 else
      if ((9 <=? lookahead) && (lookahead <=? 13)) || (lookahead =? ch " ") then ADVANCE 19 else
      if negb (lookahead =? 0) && negb (lookahead =? ch ";") then ADVANCE 20 else
      END_STATE)
  | 20 => Some (Some aux_sym_import_decl_token1,
      if negb (lookahead =? 0) && negb (lookahead =? ch ";") then ADVANCE 20 else
      END_STATE)
  | 21 => Some (Some anon_sym_COLON, END_STATE)
  | 22 => Some (Some anon_sym_COLON,
      if lookahead =? ch ":" then ADVANCE 23 else
      END_STATE)
  | 23 => Some (Some anon_sym_COLON_COLON, END_STATE)
  | 24 => Some (Some sym_identifier,
      if ((ch "0" <=? lookahead) && (lookahead <=? ch "9")) || ((ch "A" <=? lookahead) && (lookahead <=? ch "Z")) || (lookahead =? ch "_") || ((ch "a" <=? lookahead) && (lookahead <=? ch "z")) then ADVANCE 24 else
      END_STATE)
  | 25 => Some (Some sym_string, END_STATE)
  | 26 => Some (Some sym_number,
      if lookahead =? ch "." then ADVANCE 7 else
      if (ch "0" <=? lookahead) && (lookahead <=? ch "9") then ADVANCE 26 else
      END_STATE)
  | 27 => Some (Some sym_number,
      if (ch "0" <=? lookahead) && (lookahead <=? ch "9") then ADVANCE 27 else
      END_STATE)
  | 28 => Some (Some sym_comment, END_STATE)
  | 29 => Some (Some sym_comment,
      if negb (lookahead =? 0) && negb (lookahead =? 10) then ADVANCE 29 else
      END_STATE)
  | _ => None
  end.

(** Cases 1 and up of [ts_lex_keywords]: each is an optional
    [ACCEPT_TOKEN] followed by [if (lookahead == c) ADVANCE(s);] lines,
    kept as the list of their [(c, s)] pairs in source order. *)
Definition ts_lex_keywords_cases
  : list (TSStateId * (option TSSymbol * list (Z * TSStateId))) := [
  (1, (None, [(ch "c", 10); (ch "t", 11)]));
  (2, (None, [(ch "o", 12)]));
  (3, (None, [(ch "e", 13)]));
  (4, (None, [(ch "n", 14)]));
  (5, (None, [(ch "m", 15); (ch "n", 16)]));
  (6, (None, [(ch "a", 17); (ch "o", 18)]));
  (7, (None, [(ch "e", 19)]));
  (8, (None, [(ch "t", 20)]));
  (9, (None, [(ch "y", 21)]));
  (10, (None, [(ch "t", 22)]));
  (11, (None, [(ch "t", 23)]));
  (12, (None, [(ch "n", 24)]));
  (13, (None, [(ch "f", 25)]));
  (14, (None, [(ch "u", 26)]));
  (15, (None, [(ch "p", 27)]));
  (16, (None, [(ch "t", 28)]));
  (17, (None, [(ch "c", 29); (ch "r", 30)]));
  (18, (None, [(ch "r", 31)]));
  (19, (None, [(ch "q", 32)]));
  (20, (None, [(ch "a", 33)]));
  (21, (None, [(ch "p", 34)]));
  (22, (None, [(ch "i", 35)]));
  (23, (None, [(ch "r", 36)]));
  (24, (None, [(ch "s", 37)]));
  (25, (Some anon_sym_def, []));
  (26, (None, [(ch "m", 38)]));
  (27, (None, [(ch "o", 39)]));
  (28, (None, [(ch "e", 40)]));
  (29, (None, [(ch "k", 41)]));
  (30, (None, [(ch "t", 42)]));
  (31, (None, [(ch "t", 43)]));
  (32, (None, [(ch "u", 44)]));
  (33, (None, [(ch "t", 45)]));
  (34, (None, [(ch "e", 46)]));
  (35, (None, [(ch "o", 47)]));
  (36, (None, [(ch "i", 48)]));
  (37, (None, [(ch "t", 49)]));
  (38, (Some anon_sym_enum, []));
  (39, (None, [(ch "r", 50)]));
  (40, (None, [(ch "r", 51)]));
  (41, (None, [(ch "a", 52)]));
  (42, (Some anon_sym_part, []));
  (43, (Some anon_sym_port, []));
  (44, (None, [(ch "i", 53)]));
  (45, (None, [(ch "e", 54)]));
  (46, (Some anon_sym_type, []));
  (47, (None, [(ch "n", 55)]));
  (48, (None, [(ch "b", 56)]));
  (49, (None, [(ch "r", 57)]));
  (50, (None, [(ch "t", 58)]));
  (51, (None, [(ch "f", 59)]));
  (52, (None, [(ch "g", 60)]));
  (53, (None, [(ch "r", 61)]));
  (54, (Some anon_sym_state, []));
  (55, (Some anon_sym_action, []));
  (56, (None, [(ch "u", 62)]));
  (57, (None, [(ch "a", 63)]));
  (58, (Some anon_sym_import, []));
  (59, (None, [(ch "a", 64)]));
  (60, (None, [(ch "e", 65)]));
  (61, (None, [(ch "e", 66)]));
  (62, (None, [(ch "t", 67)]));
  (63, (None, [(ch "i", 68)]));
  (64, (None, [(ch "c", 69)]));
  (65, (Some anon_sym_package, []));
  (66, (None, [(ch "m", 70)]));
  (67, (None, [(ch "e", 71)]));
  (68, (None, [(ch "n", 72)]));
  (69, (None, [(ch "e", 73)]));
  (70, (None, [(ch "e", 74)]));
  (71, (Some anon_sym_attribute, []));
  (72, (None, [(ch "t", 75)]));
  (73, (Some anon_sym_interface, []));
  (74, (None, [(ch "n", 76)]));
  (75, (Some anon_sym_constraint, []));
  (76, (None, [(ch "t", 77)]));
  (77, (Some anon_sym_requirement, []))
].

(** The [ADVANCE_MAP] of case 0 of [ts_lex_keywords]. *)
Definition ts_lex_keywords_start : list (Z * TSStateId) :=
  [(ch "a", 1); (ch "c", 2); (ch "d", 3); (ch "e", 4); (ch "i", 5); (ch "p", 6); (ch "r", 7); (ch "s", 8); (ch "t", 9)].

Definition ts_lex_keywords : LexFn := fun state eof lookahead =>
  if state =? 0 then Some (None,
      ADVANCE_MAP ts_lex_keywords_start lookahead (
      if ((9 <=? lookahead) && (lookahead <=? 13)) || (lookahead =? ch " ") then SKIP 0 else
      END_STATE))
  else
    match assoc_Z state ts_lex_keywords_cases with
    | Some (accept, map) => Some (accept, ADVANCE_MAP map lookahead END_STATE)
    | None => None
    end.

(** [ts_lex_modes]: parse state, then its [.lex_state]. *)
Definition ts_lex_modes : list (TSStateId * TSStateId) := [
  (0, 0); (1, 0); (2, 0); (3, 0); (4, 0); (5, 0);
  (6, 9); (7, 9); (8, 10); (9, 10); (10, 10); (11, 9);
  (12, 0); (13, 0); (14, 0); (15, 0); (16, 10); (17, 0);
  (18, 0); (19, 0); (20, 0); (21, 0); (22, 0); (23, 0);
  (24, 0); (25, 0); (26, 0); (27, 0); (28, 0); (29, 0);
  (30, 0); (31, 0); (32, 0); (33, 0); (34, 0); (35, 0);
  (36, 0); (37, 0); (38, 0); (39, 0); (40, 0); (41, 0);
  (42, 0); (43, 0); (44, 0); (45, 0); (46, 0); (47, 0);
  (48, 5); (49, 0); (50, 0); (51, 0); (52, 0); (53, 0)
].

Definition ts_parse_table : list (TSStateId * list (TSSymbol * Z)) := [
  (0, [
    (ts_builtin_sym_end, ACTIONS 1);
    (sym_identifier, ACTIONS 1);
    (anon_sym_LBRACE, ACTIONS 1);
    (anon_sym_RBRACE, ACTIONS 1);
    (anon_sym_package, ACTIONS 1);
    (anon_sym_part, ACTIONS 1);
    (anon_sym_def, ACTIONS 1);
    (anon_sym_SEMI, ACTIONS 1);
    (anon_sym_attribute, ACTIONS 1);
    (anon_sym_import, ACTIONS 1);
    (anon_sym_action, ACTIONS 1);
    (anon_sym_state, ACTIONS 1);
    (anon_sym_interface, ACTIONS 1);
    (anon_sym_port, ACTIONS 1);
    (anon_sym_requirement, ACTIONS 1);
    (anon_sym_constraint, ACTIONS 1);
    (anon_sym_enum, ACTIONS 1);
    (anon_sym_type, ACTIONS 1);
    (anon_sym_COLON, ACTIONS 1);
    (anon_sym_COLON_COLON, ACTIONS 1);
    (sym_string, ACTIONS 1);
    (sym_number, ACTIONS 1);
    (sym_comment, ACTIONS 3)]);
  (1, [
    (sym_source_file, STATE 46);
    (sym__statement, STATE 3);
    (sym_package_decl, STATE 3);
    (sym_part_def, STATE 3);
    (sym_attribute_decl, STATE 3);
    (sym_import_decl, STATE 3);
    (sym_definition, STATE 3);
    (aux_sym_source_file_repeat1, STATE 3);
    (ts_builtin_sym_end, ACTIONS 5);
    (anon_sym_package, ACTIONS 7);
    (anon_sym_part, ACTIONS 9);
    (anon_sym_attribute, ACTIONS 11);
    (anon_sym_import, ACTIONS 13);
    (anon_sym_action, ACTIONS 15);
    (anon_sym_state, ACTIONS 15);
    (anon_sym_interface, ACTIONS 15);
    (anon_sym_port, ACTIONS 15);
    (anon_sym_requirement, ACTIONS 15);
    (anon_sym_constraint, ACTIONS 15);
    (anon_sym_enum, ACTIONS 15);
    (anon_sym_type, ACTIONS 15);
    (sym_comment, ACTIONS 3)]);
  (2, [
    (sym__statement, STATE 2);
    (sym_package_decl, STATE 2);
    (sym_part_def, STATE 2);
    (sym_attribute_decl, STATE 2);
    (sym_import_decl, STATE 2);
    (sym_definition, STATE 2);
    (aux_sym_source_file_repeat1, STATE 2);
    (ts_builtin_sym_end, ACTIONS 17);
    (anon_sym_RBRACE, ACTIONS 17);
    (anon_sym_package, ACTIONS 19);
    (anon_sym_part, ACTIONS 22);
    (anon_sym_attribute, ACTIONS 25);
    (anon_sym_import, ACTIONS 28);
    (anon_sym_action, ACTIONS 31);
    (anon_sym_state, ACTIONS 31);
    (anon_sym_interface, ACTIONS 31);
    (anon_sym_port, ACTIONS 31);
    (anon_sym_requirement, ACTIONS 31);
    (anon_sym_constraint, ACTIONS 31);
    (anon_sym_enum, ACTIONS 31);
    (anon_sym_type, ACTIONS 31);
    (sym_comment, ACTIONS 3)]);
  (3, [
    (sym__statement, STATE 2);
    (sym_package_decl, STATE 2);
    (sym_part_def, STATE 2);
    (sym_attribute_decl, STATE 2);
    (sym_import_decl, STATE 2);
    (sym_definition, STATE 2);
    (aux_sym_source_file_repeat1, STATE 2);
    (ts_builtin_sym_end, ACTIONS 34);
    (anon_sym_package, ACTIONS 7);
    (anon_sym_part, ACTIONS 9);
    (anon_sym_attribute, ACTIONS 11);
    (anon_sym_import, ACTIONS 13);
    (anon_sym_action, ACTIONS 15);
    (anon_sym_state, ACTIONS 15);
    (anon_sym_interface, ACTIONS 15);
    (anon_sym_port, ACTIONS 15);
    (anon_sym_requirement, ACTIONS 15);
    (anon_sym_constraint, ACTIONS 15);
    (anon_sym_enum, ACTIONS 15);
    (anon_sym_type, ACTIONS 15);
    (sym_comment, ACTIONS 3)]);
  (4, [
    (sym__statement, STATE 5);
    (sym_package_decl, STATE 5);
    (sym_part_def, STATE 5);
    (sym_attribute_decl, STATE 5);
    (sym_import_decl, STATE 5);
    (sym_definition, STATE 5);
    (aux_sym_source_file_repeat1, STATE 5);
    (anon_sym_RBRACE, ACTIONS 36);
    (anon_sym_package, ACTIONS 7);
    (anon_sym_part, ACTIONS 9);
    (anon_sym_attribute, ACTIONS 11);
    (anon_sym_import, ACTIONS 13);
    (anon_sym_action, ACTIONS 15);
    (anon_sym_state, ACTIONS 15);
    (anon_sym_interface, ACTIONS 15);
    (anon_sym_port, ACTIONS 15);
    (anon_sym_requirement, ACTIONS 15);
    (anon_sym_constraint, ACTIONS 15);
    (anon_sym_enum, ACTIONS 15);
    (anon_sym_type, ACTIONS 15);
    (sym_comment, ACTIONS 3)]);
  (5, [
    (sym__statement, STATE 2);
    (sym_package_decl, STATE 2);
    (sym_part_def, STATE 2);
    (sym_attribute_decl, STATE 2);
    (sym_import_decl, STATE 2);
    (sym_definition, STATE 2);
    (aux_sym_source_file_repeat1, STATE 2);
    (anon_sym_RBRACE, ACTIONS 38);
    (anon_sym_package, ACTIONS 7);
    (anon_sym_part, ACTIONS 9);
    (anon_sym_attribute, ACTIONS 11);
    (anon_sym_import, ACTIONS 13);
    (anon_sym_action, ACTIONS 15);
    (anon_sym_state, ACTIONS 15);
    (anon_sym_interface, ACTIONS 15);
    (anon_sym_port, ACTIONS 15);
    (anon_sym_requirement, ACTIONS 15);
    (anon_sym_constraint, ACTIONS 15);
    (anon_sym_enum, ACTIONS 15);
    (anon_sym_type, ACTIONS 15);
    (sym_comment, ACTIONS 3)]);
  (6, [
    (sym_block, STATE 22);
    (sym_typing, STATE 14);
    (ts_builtin_sym_end, ACTIONS 40);
    (anon_sym_LBRACE, ACTIONS 42);
    (anon_sym_RBRACE, ACTIONS 40);
    (anon_sym_package, ACTIONS 40);
    (anon_sym_part, ACTIONS 40);
    (anon_sym_SEMI, ACTIONS 44);
    (anon_sym_attribute, ACTIONS 40);
    (anon_sym_import, ACTIONS 40);
    (anon_sym_action, ACTIONS 40);
    (anon_sym_state, ACTIONS 40);
    (anon_sym_interface, ACTIONS 40);
    (anon_sym_port, ACTIONS 40);
    (anon_sym_requirement, ACTIONS 40);
    (anon_sym_constraint, ACTIONS 40);
    (anon_sym_enum, ACTIONS 40);
    (anon_sym_type, ACTIONS 40);
    (anon_sym_COLON, ACTIONS 46);
    (sym_comment, ACTIONS 3)]);
  (7, [
    (sym_block, STATE 21);
    (sym_typing, STATE 13);
    (ts_builtin_sym_end, ACTIONS 48);
    (anon_sym_LBRACE, ACTIONS 42);
    (anon_sym_RBRACE, ACTIONS 48);
    (anon_sym_package, ACTIONS 48);
    (anon_sym_part, ACTIONS 48);
    (anon_sym_SEMI, ACTIONS 50);
    (anon_sym_attribute, ACTIONS 48);
    (anon_sym_import, ACTIONS 48);
    (anon_sym_action, ACTIONS 48);
    (anon_sym_state, ACTIONS 48);
    (anon_sym_interface, ACTIONS 48);
    (anon_sym_port, ACTIONS 48);
    (anon_sym_requirement, ACTIONS 48);
    (anon_sym_constraint, ACTIONS 48);
    (anon_sym_enum, ACTIONS 48);
    (anon_sym_type, ACTIONS 48);
    (anon_sym_COLON, ACTIONS 46);
    (sym_comment, ACTIONS 3)]);
  (8, [
    (aux_sym_qualified_name_repeat1, STATE 9);
    (ts_builtin_sym_end, ACTIONS 52);
    (anon_sym_LBRACE, ACTIONS 52);
    (anon_sym_RBRACE, ACTIONS 52);
    (anon_sym_package, ACTIONS 52);
    (anon_sym_part, ACTIONS 52);
    (anon_sym_SEMI, ACTIONS 52);
    (anon_sym_attribute, ACTIONS 52);
    (anon_sym_import, ACTIONS 52);
    (anon_sym_action, ACTIONS 52);
    (anon_sym_state, ACTIONS 52);
    (anon_sym_interface, ACTIONS 52);
    (anon_sym_port, ACTIONS 52);
    (anon_sym_requirement, ACTIONS 52);
    (anon_sym_constraint, ACTIONS 52);
    (anon_sym_enum, ACTIONS 52);
    (anon_sym_type, ACTIONS 52);
    (anon_sym_COLON_COLON, ACTIONS 54);
    (sym_comment, ACTIONS 3)]);
  (9, [
    (aux_sym_qualified_name_repeat1, STATE 10);
    (ts_builtin_sym_end, ACTIONS 56);
    (anon_sym_LBRACE, ACTIONS 56);
    (anon_sym_RBRACE, ACTIONS 56);
    (anon_sym_package, ACTIONS 56);
    (anon_sym_part, ACTIONS 56);
    (anon_sym_SEMI, ACTIONS 56);
    (anon_sym_attribute, ACTIONS 56);
    (anon_sym_import, ACTIONS 56);
    (anon_sym_action, ACTIONS 56);
    (anon_sym_state, ACTIONS 56);
    (anon_sym_interface, ACTIONS 56);
    (anon_sym_port, ACTIONS 56);
    (anon_sym_requirement, ACTIONS 56);
    (anon_sym_constraint, ACTIONS 56);
    (anon_sym_enum, ACTIONS 56);
    (anon_sym_type, ACTIONS 56);
    (anon_sym_COLON_COLON, ACTIONS 54);
    (sym_comment, ACTIONS 3)]);
  (10, [
    (aux_sym_qualified_name_repeat1, STATE 10);
    (ts_builtin_sym_end, ACTIONS 58);
    (anon_sym_LBRACE, ACTIONS 58);
    (anon_sym_RBRACE, ACTIONS 58);
    (anon_sym_package, ACTIONS 58);
    (anon_sym_part, ACTIONS 58);
    (anon_sym_SEMI, ACTIONS 58);
    (anon_sym_attribute, ACTIONS 58);
    (anon_sym_import, ACTIONS 58);
    (anon_sym_action, ACTIONS 58);
    (anon_sym_state, ACTIONS 58);
    (anon_sym_interface, ACTIONS 58);
    (anon_sym_port, ACTIONS 58);
    (anon_sym_requirement, ACTIONS 58);
    (anon_sym_constraint, ACTIONS 58);
    (anon_sym_enum, ACTIONS 58);
    (anon_sym_type, ACTIONS 58);
    (anon_sym_COLON_COLON, ACTIONS 60);
    (sym_comment, ACTIONS 3)])
].

Definition ts_small_parse_table : list Z := [
  (* [0] *) 5;
    ACTIONS 3; 1;
      sym_comment;
    ACTIONS 46; 1;
      anon_sym_COLON;
    ACTIONS 65; 1;
      anon_sym_SEMI;
    STATE 23; 1;
      sym_typing;
    ACTIONS 63; 14;
      ts_builtin_sym_end;
      anon_sym_RBRACE;
      anon_sym_package;
      anon_sym_part;
      anon_sym_attribute;
      anon_sym_import;
      anon_sym_action;
      anon_sym_state;
      anon_sym_interface;
      anon_sym_port;
      anon_sym_requirement;
      anon_sym_constraint;
      anon_sym_enum;
      anon_sym_type;
  (* [29] *) 5;
    ACTIONS 3; 1;
      sym_comment;
    ACTIONS 42; 1;
      anon_sym_LBRACE;
    ACTIONS 69; 1;
      anon_sym_SEMI;
    STATE 25; 1;
      sym_block;
    ACTIONS 67; 14;
      ts_builtin_sym_end;
      anon_sym_RBRACE;
      anon_sym_package;
      anon_sym_part;
      anon_sym_attribute;
      anon_sym_import;
      anon_sym_action;
      anon_sym_state;
      anon_sym_interface;
      anon_sym_port;
      anon_sym_requirement;
      anon_sym_constraint;
      anon_sym_enum;
      anon_sym_type;
  (* [58] *) 5;
    ACTIONS 3; 1;
      sym_comment;
    ACTIONS 42; 1;
      anon_sym_LBRACE;
    ACTIONS 73; 1;
      anon_sym_SEMI;
    STATE 26; 1;
      sym_block;
    ACTIONS 71; 14;
      ts_builtin_sym_end;
      anon_sym_RBRACE;
      anon_sym_package;
      anon_sym_part;
      anon_sym_attribute;
      anon_sym_import;
      anon_sym_action;
      anon_sym_state;
      anon_sym_interface;
      anon_sym_port;
      anon_sym_requirement;
      anon_sym_constraint;
      anon_sym_enum;
      anon_sym_type;
  (* [87] *) 5;
    ACTIONS 3; 1;
      sym_comment;
    ACTIONS 42; 1;
      anon_sym_LBRACE;
    ACTIONS 77; 1;
      anon_sym_SEMI;
    STATE 28; 1;
      sym_block;
    ACTIONS 75; 14;
      ts_builtin_sym_end;
      anon_sym_RBRACE;
      anon_sym_package;
      anon_sym_part;
      anon_sym_attribute;
      anon_sym_import;
      anon_sym_action;
      anon_sym_state;
      anon_sym_interface;
      anon_sym_port;
      anon_sym_requirement;
      anon_sym_constraint;
      anon_sym_enum;
      anon_sym_type;
  (* [116] *) 5;
    ACTIONS 3; 1;
      sym_comment;
    ACTIONS 42; 1;
      anon_sym_LBRACE;
    ACTIONS 81; 1;
      anon_sym_SEMI;
    STATE 20; 1;
      sym_block;
    ACTIONS 79; 14;
      ts_builtin_sym_end;
      anon_sym_RBRACE;
      anon_sym_package;
      anon_sym_part;
      anon_sym_attribute;
      anon_sym_import;
      anon_sym_action;
      anon_sym_state;
      anon_sym_interface;
      anon_sym_port;
      anon_sym_requirement;
      anon_sym_constraint;
      anon_sym_enum;
      anon_sym_type;
  (* [145] *) 2;
    ACTIONS 3; 1;
      sym_comment;
    ACTIONS 58; 17;
      ts_builtin_sym_end;
      anon_sym_LBRACE;
      anon_sym_RBRACE;
      anon_sym_package;
      anon_sym_part;
      anon_sym_SEMI;
      anon_sym_attribute;
      anon_sym_import;
      anon_sym_action;
      anon_sym_state;
      anon_sym_interface;
      anon_sym_port;
      anon_sym_requirement;
      anon_sym_constraint;
      anon_sym_enum;
      anon_sym_type;
      anon_sym_COLON_COLON;
  (* [168] *) 4;
    ACTIONS 3; 1;
      sym_comment;
    ACTIONS 42; 1;
      anon_sym_LBRACE;
    STATE 38; 1;
      sym_block;
    ACTIONS 83; 14;
      ts_builtin_sym_end;
      anon_sym_RBRACE;
      anon_sym_package;
      anon_sym_part;
      anon_sym_attribute;
      anon_sym_import;
      anon_sym_action;
      anon_sym_state;
      anon_sym_interface;
      anon_sym_port;
      anon_sym_requirement;
      anon_sym_constraint;
      anon_sym_enum;
      anon_sym_type;
  (* [194] *) 2;
    ACTIONS 3; 1;
      sym_comment;
    ACTIONS 52; 16;
      ts_builtin_sym_end;
      anon_sym_LBRACE;
      anon_sym_RBRACE;
      anon_sym_package;
      anon_sym_part;
      anon_sym_SEMI;
      anon_sym_attribute;
      anon_sym_import;
      anon_sym_action;
      anon_sym_state;
      anon_sym_interface;
      anon_sym_port;
      anon_sym_requirement;
      anon_sym_constraint;
      anon_sym_enum;
      anon_sym_type;
  (* [216] *) 2;
    ACTIONS 3; 1;
      sym_comment;
    ACTIONS 85; 16;
      ts_builtin_sym_end;
      anon_sym_LBRACE;
      anon_sym_RBRACE;
      anon_sym_package;
      anon_sym_part;
      anon_sym_SEMI;
      anon_sym_attribute;
      anon_sym_import;
      anon_sym_action;
      anon_sym_state;
      anon_sym_interface;
      anon_sym_port;
      anon_sym_requirement;
      anon_sym_constraint;
      anon_sym_enum;
      anon_sym_type;
  (* [238] *) 3;
    ACTIONS 3; 1;
      sym_comment;
    ACTIONS 89; 1;
      anon_sym_SEMI;
    ACTIONS 87; 14;
      ts_builtin_sym_end;
      anon_sym_RBRACE;
      anon_sym_package;
      anon_sym_part;
      anon_sym_attribute;
      anon_sym_import;
      anon_sym_action;
      anon_sym_state;
      anon_sym_interface;
      anon_sym_port;
      anon_sym_requirement;
      anon_sym_constraint;
      anon_sym_enum;
      anon_sym_type;
  (* [261] *) 3;
    ACTIONS 3; 1;
      sym_comment;
    ACTIONS 73; 1;
      anon_sym_SEMI;
    ACTIONS 71; 14;
      ts_builtin_sym_end;
      anon_sym_RBRACE;
      anon_sym_package;
      anon_sym_part;
      anon_sym_attribute;
      anon_sym_import;
      anon_sym_action;
      anon_sym_state;
      anon_sym_interface;
      anon_sym_port;
      anon_sym_requirement;
      anon_sym_constraint;
      anon_sym_enum;
      anon_sym_type;
  (* [284] *) 3;
    ACTIONS 3; 1;
      sym_comment;
    ACTIONS 77; 1;
      anon_sym_SEMI;
    ACTIONS 75; 14;
      ts_builtin_sym_end;
      anon_sym_RBRACE;
      anon_sym_package;
      anon_sym_part;
      anon_sym_attribute;
      anon_sym_import;
      anon_sym_action;
      anon_sym_state;
      anon_sym_interface;
      anon_sym_port;
      anon_sym_requirement;
      anon_sym_constraint;
      anon_sym_enum;
      anon_sym_type;
  (* [307] *) 3;
    ACTIONS 3; 1;
      sym_comment;
    ACTIONS 93; 1;
      anon_sym_SEMI;
    ACTIONS 91; 14;
      ts_builtin_sym_end;
      anon_sym_RBRACE;
      anon_sym_package;
      anon_sym_part;
      anon_sym_attribute;
      anon_sym_import;
      anon_sym_action;
      anon_sym_state;
      anon_sym_interface;
      anon_sym_port;
      anon_sym_requirement;
      anon_sym_constraint;
      anon_sym_enum;
      anon_sym_type;
  (* [330] *) 2;
    ACTIONS 3; 1;
      sym_comment;
    ACTIONS 95; 15;
      ts_builtin_sym_end;
      anon_sym_RBRACE;
      anon_sym_package;
      anon_sym_part;
      anon_sym_SEMI;
      anon_sym_attribute;
      anon_sym_import;
      anon_sym_action;
      anon_sym_state;
      anon_sym_interface;
      anon_sym_port;
      anon_sym_requirement;
      anon_sym_constraint;
      anon_sym_enum;
      anon_sym_type;
  (* [351] *) 3;
    ACTIONS 3; 1;
      sym_comment;
    ACTIONS 99; 1;
      anon_sym_SEMI;
    ACTIONS 97; 14;
      ts_builtin_sym_end;
      anon_sym_RBRACE;
      anon_sym_package;
      anon_sym_part;
      anon_sym_attribute;
      anon_sym_import;
      anon_sym_action;
      anon_sym_state;
      anon_sym_interface;
      anon_sym_port;
      anon_sym_requirement;
      anon_sym_constraint;
      anon_sym_enum;
      anon_sym_type;
  (* [374] *) 3;
    ACTIONS 3; 1;
      sym_comment;
    ACTIONS 103; 1;
      anon_sym_SEMI;
    ACTIONS 101; 14;
      ts_builtin_sym_end;
      anon_sym_RBRACE;
      anon_sym_package;
      anon_sym_part;
      anon_sym_attribute;
      anon_sym_import;
      anon_sym_action;
      anon_sym_state;
      anon_sym_interface;
      anon_sym_port;
      anon_sym_requirement;
      anon_sym_constraint;
      anon_sym_enum;
      anon_sym_type;
  (* [397] *) 2;
    ACTIONS 3; 1;
      sym_comment;
    ACTIONS 105; 15;
      ts_builtin_sym_end;
      anon_sym_RBRACE;
      anon_sym_package;
      anon_sym_part;
      anon_sym_SEMI;
      anon_sym_attribute;
      anon_sym_import;
      anon_sym_action;
      anon_sym_state;
      anon_sym_interface;
      anon_sym_port;
      anon_sym_requirement;
      anon_sym_constraint;
      anon_sym_enum;
      anon_sym_type;
  (* [418] *) 3;
    ACTIONS 3; 1;
      sym_comment;
    ACTIONS 109; 1;
      anon_sym_SEMI;
    ACTIONS 107; 14;
      ts_builtin_sym_end;
      anon_sym_RBRACE;
      anon_sym_package;
      anon_sym_part;
      anon_sym_attribute;
      anon_sym_import;
      anon_sym_action;
      anon_sym_state;
      anon_sym_interface;
      anon_sym_port;
      anon_sym_requirement;
      anon_sym_constraint;
      anon_sym_enum;
      anon_sym_type;
  (* [441] *) 2;
    ACTIONS 3; 1;
      sym_comment;
    ACTIONS 91; 14;
      ts_builtin_sym_end;
      anon_sym_RBRACE;
      anon_sym_package;
      anon_sym_part;
      anon_sym_attribute;
      anon_sym_import;
      anon_sym_action;
      anon_sym_state;
      anon_sym_interface;
      anon_sym_port;
      anon_sym_requirement;
      anon_sym_constraint;
      anon_sym_enum;
      anon_sym_type;
  (* [461] *) 2;
    ACTIONS 3; 1;
      sym_comment;
    ACTIONS 111; 14;
      ts_builtin_sym_end;
      anon_sym_RBRACE;
      anon_sym_package;
      anon_sym_part;
      anon_sym_attribute;
      anon_sym_import;
      anon_sym_action;
      anon_sym_state;
      anon_sym_interface;
      anon_sym_port;
      anon_sym_requirement;
      anon_sym_constraint;
      anon_sym_enum;
      anon_sym_type;
  (* [481] *) 2;
    ACTIONS 3; 1;
      sym_comment;
    ACTIONS 75; 14;
      ts_builtin_sym_end;
      anon_sym_RBRACE;
      anon_sym_package;
      anon_sym_part;
      anon_sym_attribute;
      anon_sym_import;
      anon_sym_action;
      anon_sym_state;
      anon_sym_interface;
      anon_sym_port;
      anon_sym_requirement;
      anon_sym_constraint;
      anon_sym_enum;
      anon_sym_type;
  (* [501] *) 2;
    ACTIONS 3; 1;
      sym_comment;
    ACTIONS 97; 14;
      ts_builtin_sym_end;
      anon_sym_RBRACE;
      anon_sym_package;
      anon_sym_part;
      anon_sym_attribute;
      anon_sym_import;
      anon_sym_action;
      anon_sym_state;
      anon_sym_interface;
      anon_sym_port;
      anon_sym_requirement;
      anon_sym_constraint;
      anon_sym_enum;
      anon_sym_type;
  (* [521] *) 2;
    ACTIONS 3; 1;
      sym_comment;
    ACTIONS 101; 14;
      ts_builtin_sym_end;
      anon_sym_RBRACE;
      anon_sym_package;
      anon_sym_part;
      anon_sym_attribute;
      anon_sym_import;
      anon_sym_action;
      anon_sym_state;
      anon_sym_interface;
      anon_sym_port;
      anon_sym_requirement;
      anon_sym_constraint;
      anon_sym_enum;
      anon_sym_type;
  (* [541] *) 2;
    ACTIONS 3; 1;
      sym_comment;
    ACTIONS 87; 14;
      ts_builtin_sym_end;
      anon_sym_RBRACE;
      anon_sym_package;
      anon_sym_part;
      anon_sym_attribute;
      anon_sym_import;
      anon_sym_action;
      anon_sym_state;
      anon_sym_interface;
      anon_sym_port;
      anon_sym_requirement;
      anon_sym_constraint;
      anon_sym_enum;
      anon_sym_type;
  (* [561] *) 2;
    ACTIONS 3; 1;
      sym_comment;
    ACTIONS 113; 14;
      ts_builtin_sym_end;
      anon_sym_RBRACE;
      anon_sym_package;
      anon_sym_part;
      anon_sym_attribute;
      anon_sym_import;
      anon_sym_action;
      anon_sym_state;
      anon_sym_interface;
      anon_sym_port;
      anon_sym_requirement;
      anon_sym_constraint;
      anon_sym_enum;
      anon_sym_type;
  (* [581] *) 2;
    ACTIONS 3; 1;
      sym_comment;
    ACTIONS 107; 14;
      ts_builtin_sym_end;
      anon_sym_RBRACE;
      anon_sym_package;
      anon_sym_part;
      anon_sym_attribute;
      anon_sym_import;
      anon_sym_action;
      anon_sym_state;
      anon_sym_interface;
      anon_sym_port;
      anon_sym_requirement;
      anon_sym_constraint;
      anon_sym_enum;
      anon_sym_type;
  (* [601] *) 2;
    ACTIONS 3; 1;
      sym_comment;
    ACTIONS 115; 14;
      ts_builtin_sym_end;
      anon_sym_RBRACE;
      anon_sym_package;
      anon_sym_part;
      anon_sym_attribute;
      anon_sym_import;
      anon_sym_action;
      anon_sym_state;
      anon_sym_interface;
      anon_sym_port;
      anon_sym_requirement;
      anon_sym_constraint;
      anon_sym_enum;
      anon_sym_type;
  (* [621] *) 2;
    ACTIONS 3; 1;
      sym_comment;
    ACTIONS 117; 14;
      ts_builtin_sym_end;
      anon_sym_RBRACE;
      anon_sym_package;
      anon_sym_part;
      anon_sym_attribute;
      anon_sym_import;
      anon_sym_action;
      anon_sym_state;
      anon_sym_interface;
      anon_sym_port;
      anon_sym_requirement;
      anon_sym_constraint;
      anon_sym_enum;
      anon_sym_type;
  (* [641] *) 2;
    ACTIONS 3; 1;
      sym_comment;
    ACTIONS 119; 14;
      ts_builtin_sym_end;
      anon_sym_RBRACE;
      anon_sym_package;
      anon_sym_part;
      anon_sym_attribute;
      anon_sym_import;
      anon_sym_action;
      anon_sym_state;
      anon_sym_interface;
      anon_sym_port;
      anon_sym_requirement;
      anon_sym_constraint;
      anon_sym_enum;
      anon_sym_type;
  (* [661] *) 2;
    ACTIONS 3; 1;
      sym_comment;
    ACTIONS 121; 14;
      ts_builtin_sym_end;
      anon_sym_RBRACE;
      anon_sym_package;
      anon_sym_part;
      anon_sym_attribute;
      anon_sym_import;
      anon_sym_action;
      anon_sym_state;
      anon_sym_interface;
      anon_sym_port;
      anon_sym_requirement;
      anon_sym_constraint;
      anon_sym_enum;
      anon_sym_type;
  (* [681] *) 2;
    ACTIONS 3; 1;
      sym_comment;
    ACTIONS 123; 14;
      ts_builtin_sym_end;
      anon_sym_RBRACE;
      anon_sym_package;
      anon_sym_part;
      anon_sym_attribute;
      anon_sym_import;
      anon_sym_action;
      anon_sym_state;
      anon_sym_interface;
      anon_sym_port;
      anon_sym_requirement;
      anon_sym_constraint;
      anon_sym_enum;
      anon_sym_type;
  (* [701] *) 2;
    ACTIONS 3; 1;
      sym_comment;
    ACTIONS 71; 14;
      ts_builtin_sym_end;
      anon_sym_RBRACE;
      anon_sym_package;
      anon_sym_part;
      anon_sym_attribute;
      anon_sym_import;
      anon_sym_action;
      anon_sym_state;
      anon_sym_interface;
      anon_sym_port;
      anon_sym_requirement;
      anon_sym_constraint;
      anon_sym_enum;
      anon_sym_type;
  (* [721] *) 4;
    ACTIONS 3; 1;
      sym_comment;
    ACTIONS 125; 1;
      sym_identifier;
    STATE 18; 1;
      sym_qualified_name;
    STATE 19; 1;
      sym_type_ref;
  (* [734] *) 3;
    ACTIONS 3; 1;
      sym_comment;
    ACTIONS 127; 1;
      sym_identifier;
    ACTIONS 129; 1;
      anon_sym_def;
  (* [744] *) 3;
    ACTIONS 3; 1;
      sym_comment;
    ACTIONS 131; 1;
      sym_identifier;
    ACTIONS 133; 1;
      anon_sym_def;
  (* [754] *) 2;
    ACTIONS 3; 1;
      sym_comment;
    ACTIONS 135; 1;
      ts_builtin_sym_end;
  (* [761] *) 2;
    ACTIONS 3; 1;
      sym_comment;
    ACTIONS 137; 1;
      sym_identifier;
  (* [768] *) 2;
    ACTIONS 139; 1;
      aux_sym_import_decl_token1;
    ACTIONS 141; 1;
      sym_comment;
  (* [775] *) 2;
    ACTIONS 3; 1;
      sym_comment;
    ACTIONS 143; 1;
      sym_identifier;
  (* [782] *) 2;
    ACTIONS 3; 1;
      sym_comment;
    ACTIONS 145; 1;
      anon_sym_SEMI;
  (* [789] *) 2;
    ACTIONS 3; 1;
      sym_comment;
    ACTIONS 147; 1;
      sym_identifier;
  (* [796] *) 2;
    ACTIONS 3; 1;
      sym_comment;
    ACTIONS 149; 1;
      sym_identifier;
  (* [803] *) 2;
    ACTIONS 3; 1;
      sym_comment;
    ACTIONS 151; 1;
      sym_identifier
].

Definition SMALL_STATE (id : Z) : Z := id - LARGE_STATE_COUNT.

Definition ts_small_parse_table_map : list (Z * nat) := [
  (SMALL_STATE 11, 0%nat); (SMALL_STATE 12, 29%nat); (SMALL_STATE 13, 58%nat); (SMALL_STATE 14, 87%nat);
  (SMALL_STATE 15, 116%nat); (SMALL_STATE 16, 145%nat); (SMALL_STATE 17, 168%nat); (SMALL_STATE 18, 194%nat);
  (SMALL_STATE 19, 216%nat); (SMALL_STATE 20, 238%nat); (SMALL_STATE 21, 261%nat); (SMALL_STATE 22, 284%nat);
  (SMALL_STATE 23, 307%nat); (SMALL_STATE 24, 330%nat); (SMALL_STATE 25, 351%nat); (SMALL_STATE 26, 374%nat);
  (SMALL_STATE 27, 397%nat); (SMALL_STATE 28, 418%nat); (SMALL_STATE 29, 441%nat); (SMALL_STATE 30, 461%nat);
  (SMALL_STATE 31, 481%nat); (SMALL_STATE 32, 501%nat); (SMALL_STATE 33, 521%nat); (SMALL_STATE 34, 541%nat);
  (SMALL_STATE 35, 561%nat); (SMALL_STATE 36, 581%nat); (SMALL_STATE 37, 601%nat); (SMALL_STATE 38, 621%nat);
  (SMALL_STATE 39, 641%nat); (SMALL_STATE 40, 661%nat); (SMALL_STATE 41, 681%nat); (SMALL_STATE 42, 701%nat);
  (SMALL_STATE 43, 721%nat); (SMALL_STATE 44, 734%nat); (SMALL_STATE 45, 744%nat); (SMALL_STATE 46, 754%nat);
  (SMALL_STATE 47, 761%nat); (SMALL_STATE 48, 768%nat); (SMALL_STATE 49, 775%nat); (SMALL_STATE 50, 782%nat);
  (SMALL_STATE 51, 789%nat); (SMALL_STATE 52, 796%nat); (SMALL_STATE 53, 803%nat)
].

Definition ts_parse_actions : list TSParseActionEntry := [
  mkEntry 0 false [];
  mkEntry 1 false [RECOVER];
  mkEntry 3 true [SHIFT_EXTRA];
  mkEntry 5 true [REDUCE sym_source_file 0 0 0];
  mkEntry 7 true [SHIFT 51];
  mkEntry 9 true [SHIFT 45];
  mkEntry 11 true [SHIFT 52];
  mkEntry 13 true [SHIFT 48];
  mkEntry 15 true [SHIFT 44];
  mkEntry 17 true [REDUCE aux_sym_source_file_repeat1 2 0 0];
  mkEntry 19 true [REDUCE aux_sym_source_file_repeat1 2 0 0; SHIFT_REPEAT 51];
  mkEntry 22 true [REDUCE aux_sym_source_file_repeat1 2 0 0; SHIFT_REPEAT 45];
  mkEntry 25 true [REDUCE aux_sym_source_file_repeat1 2 0 0; SHIFT_REPEAT 52];
  mkEntry 28 true [REDUCE aux_sym_source_file_repeat1 2 0 0; SHIFT_REPEAT 48];
  mkEntry 31 true [REDUCE aux_sym_source_file_repeat1 2 0 0; SHIFT_REPEAT 44];
  mkEntry 34 true [REDUCE sym_source_file 1 0 0];
  mkEntry 36 true [SHIFT 24];
  mkEntry 38 true [SHIFT 27];
  mkEntry 40 true [REDUCE sym_part_def 3 0 2];
  mkEntry 42 true [SHIFT 4];
  mkEntry 44 true [SHIFT 31];
  mkEntry 46 true [SHIFT 43];
  mkEntry 48 true [REDUCE sym_part_def 2 0 1];
  mkEntry 50 true [SHIFT 42];
  mkEntry 52 true [REDUCE sym_type_ref 1 0 0];
  mkEntry 54 true [SHIFT 47];
  mkEntry 56 true [REDUCE sym_qualified_name 2 0 0];
  mkEntry 58 true [REDUCE aux_sym_qualified_name_repeat1 2 0 0];
  mkEntry 60 true [REDUCE aux_sym_qualified_name_repeat1 2 0 0; SHIFT_REPEAT 47];
  mkEntry 63 true [REDUCE sym_attribute_decl 2 0 1];
  mkEntry 65 true [SHIFT 29];
  mkEntry 67 true [REDUCE sym_definition 2 0 1];
  mkEntry 69 true [SHIFT 32];
  mkEntry 71 true [REDUCE sym_part_def 3 0 1];
  mkEntry 73 true [SHIFT 33];
  mkEntry 75 true [REDUCE sym_part_def 4 0 2];
  mkEntry 77 true [SHIFT 36];
  mkEntry 79 true [REDUCE sym_definition 3 0 2];
  mkEntry 81 true [SHIFT 34];
  mkEntry 83 true [REDUCE sym_package_decl 2 0 1];
  mkEntry 85 true [REDUCE sym_typing 2 0 3];
  mkEntry 87 true [REDUCE sym_definition 4 0 2];
  mkEntry 89 true [SHIFT 40];
  mkEntry 91 true [REDUCE sym_attribute_decl 3 0 1];
  mkEntry 93 true [SHIFT 35];
  mkEntry 95 true [REDUCE sym_block 2 0 0];
  mkEntry 97 true [REDUCE sym_definition 3 0 1];
  mkEntry 99 true [SHIFT 37];
  mkEntry 101 true [REDUCE sym_part_def 4 0 1];
  mkEntry 103 true [SHIFT 39];
  mkEntry 105 true [REDUCE sym_block 3 0 0];
  mkEntry 107 true [REDUCE sym_part_def 5 0 2];
  mkEntry 109 true [SHIFT 41];
  mkEntry 111 true [REDUCE sym_import_decl 3 0 0];
  mkEntry 113 true [REDUCE sym_attribute_decl 4 0 1];
  mkEntry 115 true [REDUCE sym_definition 4 0 1];
  mkEntry 117 true [REDUCE sym_package_decl 3 0 1];
  mkEntry 119 true [REDUCE sym_part_def 5 0 1];
  mkEntry 121 true [REDUCE sym_definition 5 0 2];
  mkEntry 123 true [REDUCE sym_part_def 6 0 2];
  mkEntry 125 true [SHIFT 8];
  mkEntry 127 false [SHIFT 12];
  mkEntry 129 false [SHIFT 53];
  mkEntry 131 false [SHIFT 7];
  mkEntry 133 false [SHIFT 49];
  mkEntry 135 true [ACCEPT_INPUT];
  mkEntry 137 true [SHIFT 16];
  mkEntry 139 false [SHIFT 50];
  mkEntry 141 false [SHIFT_EXTRA];
  mkEntry 143 true [SHIFT 6];
  mkEntry 145 true [SHIFT 30];
  mkEntry 147 true [SHIFT 17];
  mkEntry 149 true [SHIFT 11];
  mkEntry 151 true [SHIFT 15]
].

(** The [TSLanguage] object of [tree_sitter_sysml]. *)
Definition tree_sitter_sysml : TSLanguage := {|
  symbol_count := SYMBOL_COUNT;
  token_count := TOKEN_COUNT;
  state_count := STATE_COUNT;
  large_state_count := LARGE_STATE_COUNT;
  parse_table := ts_parse_table;
  small_parse_table := ts_small_parse_table;
  small_parse_table_map := ts_small_parse_table_map;
  parse_actions := ts_parse_actions;
  symbol_names := ts_symbol_names;
  field_names := ts_field_names;
  field_map_slices := ts_field_map_slices;
  field_map_entries := ts_field_map_entries;
  symbol_metadata := ts_symbol_metadata;
  lex_modes := ts_lex_modes;
  lex_fn := ts_lex;
  keyword_lex_fn := ts_lex_keywords;
  keyword_capture_token := sym_identifier
|}.

End Zed.
(** ** sysml-ts/tree-sitter/src/parser.c *)

Module SysmlTs.

Definition LANGUAGE_VERSION : Z := 14.
Definition STATE_COUNT : Z := 65.
Definition LARGE_STATE_COUNT : Z := 2.
Definition SYMBOL_COUNT : Z := 222.
Definition ALIAS_COUNT : Z := 0.
Definition TOKEN_COUNT : Z := 206.
Definition EXTERNAL_TOKEN_COUNT : Z := 0.
Definition FIELD_COUNT : Z := 3.
Definition MAX_ALIAS_SEQUENCE_LENGTH : Z := 6.
Definition PRODUCTION_ID_COUNT : Z := 5.

(** [enum ts_symbol_identifiers] *)
Definition sym_identifier : TSSymbol := 1.
Definition anon_sym_LBRACE : TSSymbol := 2.
Definition anon_sym_RBRACE : TSSymbol := 3.
Definition anon_sym_package : TSSymbol := 4.
Definition anon_sym_import : TSSymbol := 5.
Definition anon_sym_SEMI : TSSymbol := 6.
Definition sym_import_path : TSSymbol := 7.
Definition anon_sym_part : TSSymbol := 8.
Definition anon_sym_def : TSSymbol := 9.
Definition anon_sym_attribute : TSSymbol := 10.
Definition anon_sym_action : TSSymbol := 11.
Definition anon_sym_state : TSSymbol := 12.
Definition anon_sym_interface : TSSymbol := 13.
Definition anon_sym_port : TSSymbol := 14.
Definition anon_sym_requirement : TSSymbol := 15.
Definition anon_sym_constraint : TSSymbol := 16.
Definition anon_sym_enum : TSSymbol := 17.
Definition anon_sym_type : TSSymbol := 18.
Definition anon_sym_COLON : TSSymbol := 19.
Definition anon_sym_COLON_COLON : TSSymbol := 20.
Definition sym_string : TSSymbol := 21.
Definition sym_number : TSSymbol := 22.
Definition anon_sym_true : TSSymbol := 23.
Definition anon_sym_false : TSSymbol := 24.
Definition anon_sym_null : TSSymbol := 25.
Definition anon_sym_about : TSSymbol := 26.
Definition anon_sym_abstract : TSSymbol := 27.
Definition anon_sym_accept : TSSymbol := 28.
Definition anon_sym_actor : TSSymbol := 29.
Definition anon_sym_after : TSSymbol := 30.
Definition anon_sym_alias : TSSymbol := 31.
Definition anon_sym_all : TSSymbol := 32.
Definition anon_sym_allocate : TSSymbol := 33.
Definition anon_sym_allocation : TSSymbol := 34.
Definition anon_sym_analysis : TSSymbol := 35.
Definition anon_sym_and : TSSymbol := 36.
Definition anon_sym_as : TSSymbol := 37.
Definition anon_sym_assert : TSSymbol := 38.
Definition anon_sym_assign : TSSymbol := 39.
Definition anon_sym_assoc : TSSymbol := 40.
Definition anon_sym_assume : TSSymbol := 41.
Definition anon_sym_at : TSSymbol := 42.
Definition anon_sym_behavior : TSSymbol := 43.
Definition anon_sym_bind : TSSymbol := 44.
Definition anon_sym_binding : TSSymbol := 45.
Definition anon_sym_bool : TSSymbol := 46.
Definition anon_sym_by : TSSymbol := 47.
Definition anon_sym_calc : TSSymbol := 48.
Definition anon_sym_case : TSSymbol := 49.
Definition anon_sym_chains : TSSymbol := 50.
Definition anon_sym_class : TSSymbol := 51.
Definition anon_sym_classifier : TSSymbol := 52.
Definition anon_sym_comment : TSSymbol := 53.
Definition anon_sym_composite : TSSymbol := 54.
Definition anon_sym_concern : TSSymbol := 55.
Definition anon_sym_conjugate : TSSymbol := 56.
Definition anon_sym_conjugates : TSSymbol := 57.
Definition anon_sym_conjugation : TSSymbol := 58.
Definition anon_sym_connect : TSSymbol := 59.
Definition anon_sym_connection : TSSymbol := 60.
Definition anon_sym_connector : TSSymbol := 61.
Definition anon_sym_const : TSSymbol := 62.
Definition anon_sym_constant : TSSymbol := 63.
Definition anon_sym_crosses : TSSymbol := 64.
Definition anon_sym_datatype : TSSymbol := 65.
Definition anon_sym_decide : TSSymbol := 66.
Definition anon_sym_default : TSSymbol := 67.
Definition anon_sym_defined : TSSymbol := 68.
Definition anon_sym_dependency : TSSymbol := 69.
Definition anon_sym_derived : TSSymbol := 70.
Definition anon_sym_differences : TSSymbol := 71.
Definition anon_sym_disjoining : TSSymbol := 72.
Definition anon_sym_disjoint : TSSymbol := 73.
Definition anon_sym_do : TSSymbol := 74.
Definition anon_sym_doc : TSSymbol := 75.
Definition anon_sym_else : TSSymbol := 76.
Definition anon_sym_end : TSSymbol := 77.
Definition anon_sym_entry : TSSymbol := 78.
Definition anon_sym_event : TSSymbol := 79.
Definition anon_sym_exhibit : TSSymbol := 80.
Definition anon_sym_exit : TSSymbol := 81.
Definition anon_sym_expose : TSSymbol := 82.
Definition anon_sym_expr : TSSymbol := 83.
Definition anon_sym_feature : TSSymbol := 84.
Definition anon_sym_featured : TSSymbol := 85.
Definition anon_sym_featuring : TSSymbol := 86.
Definition anon_sym_filter : TSSymbol := 87.
Definition anon_sym_first : TSSymbol := 88.
Definition anon_sym_flow : TSSymbol := 89.
Definition anon_sym_for : TSSymbol := 90.
Definition anon_sym_fork : TSSymbol := 91.
Definition anon_sym_frame : TSSymbol := 92.
Definition anon_sym_from : TSSymbol := 93.
Definition anon_sym_function : TSSymbol := 94.
Definition anon_sym_hastype : TSSymbol := 95.
Definition anon_sym_if : TSSymbol := 96.
Definition anon_sym_implies : TSSymbol := 97.
Definition anon_sym_in : TSSymbol := 98.
Definition anon_sym_include : TSSymbol := 99.
Definition anon_sym_individual : TSSymbol := 100.
Definition anon_sym_inout : TSSymbol := 101.
Definition anon_sym_interaction : TSSymbol := 102.
Definition anon_sym_intersects : TSSymbol := 103.
Definition anon_sym_inv : TSSymbol := 104.
Definition anon_sym_inverse : TSSymbol := 105.
Definition anon_sym_inverting : TSSymbol := 106.
Definition anon_sym_istype : TSSymbol := 107.
Definition anon_sym_item : TSSymbol := 108.
Definition anon_sym_join : TSSymbol := 109.
Definition anon_sym_language : TSSymbol := 110.
Definition anon_sym_library : TSSymbol := 111.
Definition anon_sym_locale : TSSymbol := 112.
Definition anon_sym_loop : TSSymbol := 113.
Definition anon_sym_member : TSSymbol := 114.
Definition anon_sym_merge : TSSymbol := 115.
Definition anon_sym_message : TSSymbol := 116.
Definition anon_sym_meta : TSSymbol := 117.
Definition anon_sym_metaclass : TSSymbol := 118.
Definition anon_sym_metadata : TSSymbol := 119.
Definition anon_sym_multiplicity : TSSymbol := 120.
Definition anon_sym_namespace : TSSymbol := 121.
Definition anon_sym_new : TSSymbol := 122.
Definition anon_sym_nonunique : TSSymbol := 123.
Definition anon_sym_not : TSSymbol := 124.
Definition anon_sym_objective : TSSymbol := 125.
Definition anon_sym_occurrence : TSSymbol := 126.
Definition anon_sym_of : TSSymbol := 127.
Definition anon_sym_or : TSSymbol := 128.
Definition anon_sym_ordered : TSSymbol := 129.
Definition anon_sym_out : TSSymbol := 130.
Definition anon_sym_parallel : TSSymbol := 131.
Definition anon_sym_perform : TSSymbol := 132.
Definition anon_sym_portion : TSSymbol := 133.
Definition anon_sym_predicate : TSSymbol := 134.
Definition anon_sym_private : TSSymbol := 135.
Definition anon_sym_protected : TSSymbol := 136.
Definition anon_sym_public : TSSymbol := 137.
Definition anon_sym_readonly : TSSymbol := 138.
Definition anon_sym_redefines : TSSymbol := 139.
Definition anon_sym_redefinition : TSSymbol := 140.
Definition anon_sym_ref : TSSymbol := 141.
Definition anon_sym_references : TSSymbol := 142.
Definition anon_sym_render : TSSymbol := 143.
Definition anon_sym_rendering : TSSymbol := 144.
Definition anon_sym_rep : TSSymbol := 145.
Definition anon_sym_require : TSSymbol := 146.
Definition anon_sym_return : TSSymbol := 147.
Definition anon_sym_satisfy : TSSymbol := 148.
Definition anon_sym_send : TSSymbol := 149.
Definition anon_sym_snapshot : TSSymbol := 150.
Definition anon_sym_specialization : TSSymbol := 151.
Definition anon_sym_specializes : TSSymbol := 152.
Definition anon_sym_stakeholder : TSSymbol := 153.
Definition anon_sym_standard : TSSymbol := 154.
Definition anon_sym_step : TSSymbol := 155.
Definition anon_sym_struct : TSSymbol := 156.
Definition anon_sym_subclassifier : TSSymbol := 157.
Definition anon_sym_subject : TSSymbol := 158.
Definition anon_sym_subset : TSSymbol := 159.
Definition anon_sym_subsets : TSSymbol := 160.
Definition anon_sym_subtype : TSSymbol := 161.
Definition anon_sym_succession : TSSymbol := 162.
Definition anon_sym_terminate : TSSymbol := 163.
Definition anon_sym_then : TSSymbol := 164.
Definition anon_sym_timeslice : TSSymbol := 165.
Definition anon_sym_to : TSSymbol := 166.
Definition anon_sym_transition : TSSymbol := 167.
Definition anon_sym_typed : TSSymbol := 168.
Definition anon_sym_typing : TSSymbol := 169.
Definition anon_sym_unions : TSSymbol := 170.
Definition anon_sym_until : TSSymbol := 171.
Definition anon_sym_use : TSSymbol := 172.
Definition anon_sym_var : TSSymbol := 173.
Definition anon_sym_variant : TSSymbol := 174.
Definition anon_sym_variation : TSSymbol := 175.
Definition anon_sym_verification : TSSymbol := 176.
Definition anon_sym_verify : TSSymbol := 177.
Definition anon_sym_via : TSSymbol := 178.
Definition anon_sym_view : TSSymbol := 179.
Definition anon_sym_viewpoint : TSSymbol := 180.
Definition anon_sym_when : TSSymbol := 181.
Definition anon_sym_while : TSSymbol := 182.
Definition anon_sym_xor : TSSymbol := 183.
Definition anon_sym_EQ_EQ_EQ : TSSymbol := 184.
Definition anon_sym_BANG_EQ_EQ : TSSymbol := 185.
Definition anon_sym_QMARK_QMARK : TSSymbol := 186.
Definition anon_sym_EQ_EQ : TSSymbol := 187.
Definition anon_sym_BANG_EQ : TSSymbol := 188.
Definition anon_sym_AT_AT : TSSymbol := 189.
Definition anon_sym_LT_EQ : TSSymbol := 190.
Definition anon_sym_GT_EQ : TSSymbol := 191.
Definition anon_sym_STAR_STAR : TSSymbol := 192.
Definition anon_sym_PIPE : TSSymbol := 193.
Definition anon_sym_AMP : TSSymbol := 194.
Definition anon_sym_AT : TSSymbol := 195.
Definition anon_sym_LT : TSSymbol := 196.
Definition anon_sym_GT : TSSymbol := 197.
Definition anon_sym_PLUS : TSSymbol := 198.
Definition anon_sym_DASH : TSSymbol := 199.
Definition anon_sym_STAR : TSSymbol := 200.
Definition anon_sym_SLASH : TSSymbol := 201.
Definition anon_sym_PERCENT : TSSymbol := 202.
Definition anon_sym_CARET : TSSymbol := 203.
Definition anon_sym_TILDE : TSSymbol := 204.
Definition sym_comment : TSSymbol := 205.
Definition sym_source_file : TSSymbol := 206.
Definition sym__statement : TSSymbol := 207.
Definition sym_block : TSSymbol := 208.
Definition sym_package_decl : TSSymbol := 209.
Definition sym_import_decl : TSSymbol := 210.
Definition sym_part_def : TSSymbol := 211.
Definition sym_part_usage : TSSymbol := 212.
Definition sym_attribute_def : TSSymbol := 213.
Definition sym_attribute_usage : TSSymbol := 214.
Definition sym_definition : TSSymbol := 215.
Definition sym_usage : TSSymbol := 216.
Definition sym_typing : TSSymbol := 217.
Definition sym_type_ref : TSSymbol := 218.
Definition sym_qualified_name : TSSymbol := 219.
Definition aux_sym_source_file_repeat1 : TSSymbol := 220.
Definition aux_sym_qualified_name_repeat1 : TSSymbol := 221.

Definition ts_symbol_names : list (TSSymbol * string) := [
  (ts_builtin_sym_end, "end"%string);
  (sym_identifier, "identifier"%string);
  (anon_sym_LBRACE, "{"%string);
  (anon_sym_RBRACE, "}"%string);
  (anon_sym_package, "package"%string);
  (anon_sym_import, "import"%string);
  (anon_sym_SEMI, ";"%string);
  (sym_import_path, "import_path"%string);
  (anon_sym_part, "part"%string);
  (anon_sym_def, "def"%string);
  (anon_sym_attribute, "attribute"%string);
  (anon_sym_action, "action"%string);
  (anon_sym_state, "state"%string);
  (anon_sym_interface, "interface"%string);
  (anon_sym_port, "port"%string);
  (anon_sym_requirement, "requirement"%string);
  (anon_sym_constraint, "constraint"%string);
  (anon_sym_enum, "enum"%string);
  (anon_sym_type, "type"%string);
  (anon_sym_COLON, ":"%string);
  (anon_sym_COLON_COLON, "::"%string);
  (sym_string, "string"%string);
  (sym_number, "number"%string);
  (anon_sym_true, "true"%string);
  (anon_sym_false, "false"%string);
  (anon_sym_null, "null"%string);
  (anon_sym_about, "about"%string);
  (anon_sym_abstract, "abstract"%string);
  (anon_sym_accept, "accept"%string);
  (anon_sym_actor, "actor"%string);
  (anon_sym_after, "after"%string);
  (anon_sym_alias, "alias"%string);
  (anon_sym_all, "all"%string);
  (anon_sym_allocate, "allocate"%string);
  (anon_sym_allocation, "allocation"%string);
  (anon_sym_analysis, "analysis"%string);
  (anon_sym_and, "and"%string);
  (anon_sym_as, "as"%string);
  (anon_sym_assert, "assert"%string);
  (anon_sym_assign, "assign"%string);
  (anon_sym_assoc, "assoc"%string);
  (anon_sym_assume, "assume"%string);
  (anon_sym_at, "at"%string);
  (anon_sym_behavior, "behavior"%string);
  (anon_sym_bind, "bind"%string);
  (anon_sym_binding, "binding"%string);
  (anon_sym_bool, "bool"%string);
  (anon_sym_by, "by"%string);
  (anon_sym_calc, "calc"%string);
  (anon_sym_case, "case"%string);
  (anon_sym_chains, "chains"%string);
  (anon_sym_class, "class"%string);
  (anon_sym_classifier, "classifier"%string);
  (anon_sym_comment, "comment"%string);
  (anon_sym_composite, "composite"%string);
  (anon_sym_concern, "concern"%string);
  (anon_sym_conjugate, "conjugate"%string);
  (anon_sym_conjugates, "conjugates"%string);
  (anon_sym_conjugation, "conjugation"%string);
  (anon_sym_connect, "connect"%string);
  (anon_sym_connection, "connection"%string);
  (anon_sym_connector, "connector"%string);
  (anon_sym_const, "const"%string);
  (anon_sym_constant, "constant"%string);
  (anon_sym_crosses, "crosses"%string);
  (anon_sym_datatype, "datatype"%string);
  (anon_sym_decide, "decide"%string);
  (anon_sym_default, "default"%string);
  (anon_sym_defined, "defined"%string);
  (anon_sym_dependency, "dependency"%string);
  (anon_sym_derived, "derived"%string);
  (anon_sym_differences, "differences"%string);
  (anon_sym_disjoining, "disjoining"%string);
  (anon_sym_disjoint, "disjoint"%string);
  (anon_sym_do, "do"%string);
  (anon_sym_doc, "doc"%string);
  (anon_sym_else, "else"%string);
  (anon_sym_end, "end"%string);
  (anon_sym_entry, "entry"%string);
  (anon_sym_event, "event"%string);
  (anon_sym_exhibit, "exhibit"%string);
  (anon_sym_exit, "exit"%string);
  (anon_sym_expose, "expose"%string);
  (anon_sym_expr, "expr"%string);
  (anon_sym_feature, "feature"%string);
  (anon_sym_featured, "featured"%string);
  (anon_sym_featuring, "featuring"%string);
  (anon_sym_filter, "filter"%string);
  (anon_sym_first, "first"%string);
  (anon_sym_flow, "flow"%string);
  (anon_sym_for, "for"%string);
  (anon_sym_fork, "fork"%string);
  (anon_sym_frame, "frame"%string);
  (anon_sym_from, "from"%string);
  (anon_sym_function, "function"%string);
  (anon_sym_hastype, "hastype"%string);
  (anon_sym_if, "if"%string);
  (anon_sym_implies, "implies"%string);
  (anon_sym_in, "in"%string);
  (anon_sym_include, "include"%string);
  (anon_sym_individual, "individual"%string);
  (anon_sym_inout, "inout"%string);
  (anon_sym_interaction, "interaction"%string);
  (anon_sym_intersects, "intersects"%string);
  (anon_sym_inv, "inv"%string);
  (anon_sym_inverse, "inverse"%string);
  (anon_sym_inverting, "inverting"%string);
  (anon_sym_istype, "istype"%string);
  (anon_sym_item, "item"%string);
  (anon_sym_join, "join"%string);
  (anon_sym_language, "language"%string);
  (anon_sym_library, "library"%string);
  (anon_sym_locale, "locale"%string);
  (anon_sym_loop, "loop"%string);
  (anon_sym_member, "member"%string);
  (anon_sym_merge, "merge"%string);
  (anon_sym_message, "message"%string);
  (anon_sym_meta, "meta"%string);
  (anon_sym_metaclass, "metaclass"%string);
  (anon_sym_metadata, "metadata"%string);
  (anon_sym_multiplicity, "multiplicity"%string);
  (anon_sym_namespace, "namespace"%string);
  (anon_sym_new, "new"%string);
  (anon_sym_nonunique, "nonunique"%string);
  (anon_sym_not, "not"%string);
  (anon_sym_objective, "objective"%string);
  (anon_sym_occurrence, "occurrence"%string);
  (anon_sym_of, "of"%string);
  (anon_sym_or, "or"%string);
  (anon_sym_ordered, "ordered"%string);
  (anon_sym_out, "out"%string);
  (anon_sym_parallel, "parallel"%string);
  (anon_sym_perform, "perform"%string);
  (anon_sym_portion, "portion"%string);
  (anon_sym_predicate, "predicate"%string);
  (anon_sym_private, "private"%string);
  (anon_sym_protected, "protected"%string);
  (anon_sym_public, "public"%string);
  (anon_sym_readonly, "readonly"%string);
  (anon_sym_redefines, "redefines"%string);
  (anon_sym_redefinition, "redefinition"%string);
  (anon_sym_ref, "ref"%string);
  (anon_sym_references, "references"%string);
  (anon_sym_render, "render"%string);
  (anon_sym_rendering, "rendering"%string);
  (anon_sym_rep, "rep"%string);
  (anon_sym_require, "require"%string);
  (anon_sym_return, "return"%string);
  (anon_sym_satisfy, "satisfy"%string);
  (anon_sym_send, "send"%string);
  (anon_sym_snapshot, "snapshot"%string);
  (anon_sym_specialization, "specialization"%string);
  (anon_sym_specializes, "specializes"%string);
  (anon_sym_stakeholder, "stakeholder"%string);
  (anon_sym_standard, "standard"%string);
  (anon_sym_step, "step"%string);
  (anon_sym_struct, "struct"%string);
  (anon_sym_subclassifier, "subclassifier"%string);
  (anon_sym_subject, "subject"%string);
  (anon_sym_subset, "subset"%string);
  (anon_sym_subsets, "subsets"%string);
  (anon_sym_subtype, "subtype"%string);
  (anon_sym_succession, "succession"%string);
  (anon_sym_terminate, "terminate"%string);
  (anon_sym_then, "then"%string);
  (anon_sym_timeslice, "timeslice"%string);
  (anon_sym_to, "to"%string);
  (anon_sym_transition, "transition"%string);
  (anon_sym_typed, "typed"%string);
  (anon_sym_typing, "typing"%string);
  (anon_sym_unions, "unions"%string);
  (anon_sym_until, "until"%string);
  (anon_sym_use, "use"%string);
  (anon_sym_var, "var"%string);
  (anon_sym_variant, "variant"%string);
  (anon_sym_variation, "variation"%string);
  (anon_sym_verification, "verification"%string);
  (anon_sym_verify, "verify"%string);
  (anon_sym_via, "via"%string);
  (anon_sym_view, "view"%string);
  (anon_sym_viewpoint, "viewpoint"%string);
  (anon_sym_when, "when"%string);
  (anon_sym_while, "while"%string);
  (anon_sym_xor, "xor"%string);
  (anon_sym_EQ_EQ_EQ, "==="%string);
  (anon_sym_BANG_EQ_EQ, "!=="%string);
  (anon_sym_QMARK_QMARK, "??"%string);
  (anon_sym_EQ_EQ, "=="%string);
  (anon_sym_BANG_EQ, "!="%string);
  (anon_sym_AT_AT, "@@"%string);
  (anon_sym_LT_EQ, "<="%string);
  (anon_sym_GT_EQ, ">="%string);
  (anon_sym_STAR_STAR, "**"%string);
  (anon_sym_PIPE, "|"%string);
  (anon_sym_AMP, "&"%string);
  (anon_sym_AT, "@"%string);
  (anon_sym_LT, "<"%string);
  (anon_sym_GT, ">"%string);
  (anon_sym_PLUS, "+"%string);
  (anon_sym_DASH, "-"%string);
  (anon_sym_STAR, "*"%string);
  (anon_sym_SLASH, "/"%string);
  (anon_sym_PERCENT, "%"%string);
  (anon_sym_CARET, "^"%string);
  (anon_sym_TILDE, "~"%string);
  (sym_comment, "comment"%string);
  (sym_source_file, "source_file"%string);
  (sym__statement, "_statement"%string);
  (sym_block, "block"%string);
  (sym_package_decl, "package_decl"%string);
  (sym_import_decl, "import_decl"%string);
  (sym_part_def, "part_def"%string);
  (sym_part_usage, "part_usage"%string);
  (sym_attribute_def, "attribute_def"%string);
  (sym_attribute_usage, "attribute_usage"%string);
  (sym_definition, "definition"%string);
  (sym_usage, "usage"%string);
  (sym_typing, "typing"%string);
  (sym_type_ref, "type_ref"%string);
  (sym_qualified_name, "qualified_name"%string);
  (aux_sym_source_file_repeat1, "source_file_repeat1"%string);
  (aux_sym_qualified_name_repeat1, "qualified_name_repeat1"%string)
].

Definition ts_symbol_metadata : list (TSSymbol * TSSymbolMetadata) := [
  (ts_builtin_sym_end, mkMeta false true);
  (sym_identifier, mkMeta true true);
  (anon_sym_LBRACE, mkMeta true false);
  (anon_sym_RBRACE, mkMeta true false);
  (anon_sym_package, mkMeta true false);
  (anon_sym_import, mkMeta true false);
  (anon_sym_SEMI, mkMeta true false);
  (sym_import_path, mkMeta true true);
  (anon_sym_part, mkMeta true false);
  (anon_sym_def, mkMeta true false);
  (anon_sym_attribute, mkMeta true false);
  (anon_sym_action, mkMeta true false);
  (anon_sym_state, mkMeta true false);
  (anon_sym_interface, mkMeta true false);
  (anon_sym_port, mkMeta true false);
  (anon_sym_requirement, mkMeta true false);
  (anon_sym_constraint, mkMeta true false);
  (anon_sym_enum, mkMeta true false);
  (anon_sym_type, mkMeta true false);
  (anon_sym_COLON, mkMeta true false);
  (anon_sym_COLON_COLON, mkMeta true false);
  (sym_string, mkMeta true true);
  (sym_number, mkMeta true true);
  (anon_sym_true, mkMeta true false);
  (anon_sym_false, mkMeta true false);
  (anon_sym_null, mkMeta true false);
  (anon_sym_about, mkMeta true false);
  (anon_sym_abstract, mkMeta true false);
  (anon_sym_accept, mkMeta true false);
  (anon_sym_actor, mkMeta true false);
  (anon_sym_after, mkMeta true false);
  (anon_sym_alias, mkMeta true false);
  (anon_sym_all, mkMeta true false);
  (anon_sym_allocate, mkMeta true false);
  (anon_sym_allocation, mkMeta true false);
  (anon_sym_analysis, mkMeta true false);
  (anon_sym_and, mkMeta true false);
  (anon_sym_as, mkMeta true false);
  (anon_sym_assert, mkMeta true false);
  (anon_sym_assign, mkMeta true false);
  (anon_sym_assoc, mkMeta true false);
  (anon_sym_assume, mkMeta true false);
  (anon_sym_at, mkMeta true false);
  (anon_sym_behavior, mkMeta true false);
  (anon_sym_bind, mkMeta true false);
  (anon_sym_binding, mkMeta true false);
  (anon_sym_bool, mkMeta true false);
  (anon_sym_by, mkMeta true false);
  (anon_sym_calc, mkMeta true false);
  (anon_sym_case, mkMeta true false);
  (anon_sym_chains, mkMeta true false);
  (anon_sym_class, mkMeta true false);
  (anon_sym_classifier, mkMeta true false);
  (anon_sym_comment, mkMeta true false);
  (anon_sym_composite, mkMeta true false);
  (anon_sym_concern, mkMeta true false);
  (anon_sym_conjugate, mkMeta true false);
  (anon_sym_conjugates, mkMeta true false);
  (anon_sym_conjugation, mkMeta true false);
  (anon_sym_connect, mkMeta true false);
  (anon_sym_connection, mkMeta true false);
  (anon_sym_connector, mkMeta true false);
  (anon_sym_const, mkMeta true false);
  (anon_sym_constant, mkMeta true false);
  (anon_sym_crosses, mkMeta true false);
  (anon_sym_datatype, mkMeta true false);
  (anon_sym_decide, mkMeta true false);
  (anon_sym_default, mkMeta true false);
  (anon_sym_defined, mkMeta true false);
  (anon_sym_dependency, mkMeta true false);
  (anon_sym_derived, mkMeta true false);
  (anon_sym_differences, mkMeta true false);
  (anon_sym_disjoining, mkMeta true false);
  (anon_sym_disjoint, mkMeta true false);
  (anon_sym_do, mkMeta true false);
  (anon_sym_doc, mkMeta true false);
  (anon_sym_else, mkMeta true false);
  (anon_sym_end, mkMeta true false);
  (anon_sym_entry, mkMeta true false);
  (anon_sym_event, mkMeta true false);
  (anon_sym_exhibit, mkMeta true false);
  (anon_sym_exit, mkMeta true false);
  (anon_sym_expose, mkMeta true false);
  (anon_sym_expr, mkMeta true false);
  (anon_sym_feature, mkMeta true false);
  (anon_sym_featured, mkMeta true false);
  (anon_sym_featuring, mkMeta true false);
  (anon_sym_filter, mkMeta true false);
  (anon_sym_first, mkMeta true false);
  (anon_sym_flow, mkMeta true false);
  (anon_sym_for, mkMeta true false);
  (anon_sym_fork, mkMeta true false);
  (anon_sym_frame, mkMeta true false);
  (anon_sym_from, mkMeta true false);
  (anon_sym_function, mkMeta true false);
  (anon_sym_hastype, mkMeta true false);
  (anon_sym_if, mkMeta true false);
  (anon_sym_implies, mkMeta true false);
  (anon_sym_in, mkMeta true false);
  (anon_sym_include, mkMeta true false);
  (anon_sym_individual, mkMeta true false);
  (anon_sym_inout, mkMeta true false);
  (anon_sym_interaction, mkMeta true false);
  (anon_sym_intersects, mkMeta true false);
  (anon_sym_inv, mkMeta true false);
  (anon_sym_inverse, mkMeta true false);
  (anon_sym_inverting, mkMeta true false);
  (anon_sym_istype, mkMeta true false);
  (anon_sym_item, mkMeta true false);
  (anon_sym_join, mkMeta true false);
  (anon_sym_language, mkMeta true false);
  (anon_sym_library, mkMeta true false);
  (anon_sym_locale, mkMeta true false);
  (anon_sym_loop, mkMeta true false);
  (anon_sym_member, mkMeta true false);
  (anon_sym_merge, mkMeta true false);
  (anon_sym_message, mkMeta true false);
  (anon_sym_meta, mkMeta true false);
  (anon_sym_metaclass, mkMeta true false);
  (anon_sym_metadata, mkMeta true false);
  (anon_sym_multiplicity, mkMeta true false);
  (anon_sym_namespace, mkMeta true false);
  (anon_sym_new, mkMeta true false);
  (anon_sym_nonunique, mkMeta true false);
  (anon_sym_not, mkMeta true false);
  (anon_sym_objective, mkMeta true false);
  (anon_sym_occurrence, mkMeta true false);
  (anon_sym_of, mkMeta true false);
  (anon_sym_or, mkMeta true false);
  (anon_sym_ordered, mkMeta true false);
  (anon_sym_out, mkMeta true false);
  (anon_sym_parallel, mkMeta true false);
  (anon_sym_perform, mkMeta true false);
  (anon_sym_portion, mkMeta true false);
  (anon_sym_predicate, mkMeta true false);
  (anon_sym_private, mkMeta true false);
  (anon_sym_protected, mkMeta true false);
  (anon_sym_public, mkMeta true false);
  (anon_sym_readonly, mkMeta true false);
  (anon_sym_redefines, mkMeta true false);
  (anon_sym_redefinition, mkMeta true false);
  (anon_sym_ref, mkMeta true false);
  (anon_sym_references, mkMeta true false);
  (anon_sym_render, mkMeta true false);
  (anon_sym_rendering, mkMeta true false);
  (anon_sym_rep, mkMeta true false);
  (anon_sym_require, mkMeta true false);
  (anon_sym_return, mkMeta true false);
  (anon_sym_satisfy, mkMeta true false);
  (anon_sym_send, mkMeta true false);
  (anon_sym_snapshot, mkMeta true false);
  (anon_sym_specialization, mkMeta true false);
  (anon_sym_specializes, mkMeta true false);
  (anon_sym_stakeholder, mkMeta true false);
  (anon_sym_standard, mkMeta true false);
  (anon_sym_step, mkMeta true false);
  (anon_sym_struct, mkMeta true false);
  (anon_sym_subclassifier, mkMeta true false);
  (anon_sym_subject, mkMeta true false);
  (anon_sym_subset, mkMeta true false);
  (anon_sym_subsets, mkMeta true false);
  (anon_sym_subtype, mkMeta true false);
  (anon_sym_succession, mkMeta true false);
  (anon_sym_terminate, mkMeta true false);
  (anon_sym_then, mkMeta true false);
  (anon_sym_timeslice, mkMeta true false);
  (anon_sym_to, mkMeta true false);
  (anon_sym_transition, mkMeta true false);
  (anon_sym_typed, mkMeta true false);
  (anon_sym_typing, mkMeta true false);
  (anon_sym_unions, mkMeta true false);
  (anon_sym_until, mkMeta true false);
  (anon_sym_use, mkMeta true false);
  (anon_sym_var, mkMeta true false);
  (anon_sym_variant, mkMeta true false);
  (anon_sym_variation, mkMeta true false);
  (anon_sym_verification, mkMeta true false);
  (anon_sym_verify, mkMeta true false);
  (anon_sym_via, mkMeta true false);
  (anon_sym_view, mkMeta true false);
  (anon_sym_viewpoint, mkMeta true false);
  (anon_sym_when, mkMeta true false);
  (anon_sym_while, mkMeta true false);
  (anon_sym_xor, mkMeta true false);
  (anon_sym_EQ_EQ_EQ, mkMeta true false);
  (anon_sym_BANG_EQ_EQ, mkMeta true false);
  (anon_sym_QMARK_QMARK, mkMeta true false);
  (anon_sym_EQ_EQ, mkMeta true false);
  (anon_sym_BANG_EQ, mkMeta true false);
  (anon_sym_AT_AT, mkMeta true false);
  (anon_sym_LT_EQ, mkMeta true false);
  (anon_sym_GT_EQ, mkMeta true false);
  (anon_sym_STAR_STAR, mkMeta true false);
  (anon_sym_PIPE, mkMeta true false);
  (anon_sym_AMP, mkMeta true false);
  (anon_sym_AT, mkMeta true false);
  (anon_sym_LT, mkMeta true false);
  (anon_sym_GT, mkMeta true false);
  (anon_sym_PLUS, mkMeta true false);
  (anon_sym_DASH, mkMeta true false);
  (anon_sym_STAR, mkMeta true false);
  (anon_sym_SLASH, mkMeta true false);
  (anon_sym_PERCENT, mkMeta true false);
  (anon_sym_CARET, mkMeta true false);
  (anon_sym_TILDE, mkMeta true false);
  (sym_comment, mkMeta true true);
  (sym_source_file, mkMeta true true);
  (sym__statement, mkMeta false true);
  (sym_block, mkMeta true true);
  (sym_package_decl, mkMeta true true);
  (sym_import_decl, mkMeta true true);
  (sym_part_def, mkMeta true true);
  (sym_part_usage, mkMeta true true);
  (sym_attribute_def, mkMeta true true);
  (sym_attribute_usage, mkMeta true true);
  (sym_definition, mkMeta true true);
  (sym_usage, mkMeta true true);
  (sym_typing, mkMeta true true);
  (sym_type_ref, mkMeta true true);
  (sym_qualified_name, mkMeta true true);
  (aux_sym_source_file_repeat1, mkMeta false false);
  (aux_sym_qualified_name_repeat1, mkMeta false false)
].

(** [enum ts_field_identifiers] *)
Definition field_name : TSFieldId := 1.
Definition field_path : TSFieldId := 2.
Definition field_type : TSFieldId := 3.

Definition ts_field_names : list (TSFieldId * string) := [
  (field_name, "name"%string);
  (field_path, "path"%string);
  (field_type, "type"%string)
].

Definition ts_field_map_slices : list (Z * TSFieldMapSlice) := [
  (1, mkSlice 0 1);
  (2, mkSlice 1 1);
  (3, mkSlice 2 1);
  (4, mkSlice 3 1)
].

Definition ts_field_map_entries : list TSFieldMapEntry := [
  mkFieldEntry field_name 1;
  mkFieldEntry field_path 1;
  mkFieldEntry field_name 2;
  mkFieldEntry field_type 1
].

Definition ts_lex : LexFn := fun state eof lookahead =>
  match state with
  | 0 => Some (None,
      if eof then ADVANCE 14 else
      ADVANCE_MAP [(ch "!", 7); (34, 1); (ch "%", 49); (ch "&", 41); (ch "*", 47); (ch "+", 45); (ch "-", 46); (ch "/", 48); (ch ":", 25); (ch ";", 17); (ch "<", 43); (ch "=", 8); (ch ">", 44); (ch "?", 9); (ch "@", 42); (ch "^", 50); (ch "{", 15); (ch "|", 40); (ch "}", 16); (ch "~", 51)] lookahead (
      if ((9 <=? lookahead) && (lookahead <=? 13)) || (lookahead =? ch " ") then SKIP 0 else
      if (ch "0" <=? lookahead) && (lookahead <=? ch "9") then ADVANCE 29 else
      if ((ch "A" <=? lookahead) && (lookahead <=? ch "Z")) || (lookahead =? ch "_") || ((ch "a" <=? lookahead) && (lookahead <=? ch "z")) then ADVANCE 27 else
      END_STATE))
  | 1 => Some (None,
      if lookahead =? 34 then ADVANCE 28 else
      if lookahead =? 92 then ADVANCE 11 else
      if negb (lookahead =? 0) then ADVANCE 1 else
      END_STATE)
  | 2 => Some (None,
      if lookahead =? ch "*" then ADVANCE 4 else
      if lookahead =? ch "/" then ADVANCE 53 else
      END_STATE)
  | 3 => Some (None,
      if lookahead =? ch "*" then ADVANCE 3 else
      if lookahead =? ch "/" then ADVANCE 52 else
      if negb (lookahead =? 0) then ADVANCE 4 else
      END_STATE)
  | 4 => Some (None,
      if lookahead =? ch "*" then ADVANCE 3 else
      if negb (lookahead =? 0) then ADVANCE 4 else
      END_STATE)
  | 5 => Some (None,
      if lookahead =? ch "/" then ADVANCE 19 else
      if ((9 <=? lookahead) && (lookahead <=? 13)) || (lookahead =? ch " ") then ADVANCE 22 else
      if negb (lookahead =? 0) && negb (lookahead =? ch ";") then ADVANCE 23 else
      END_STATE)
  | 6 => Some (None,
      if lookahead =? ch ":" then ADVANCE 26 else
      END_STATE)
  | 7 => Some (None,
      if lookahead =? ch "=" then ADVANCE 35 else
      END_STATE)
  | 8 => Some (None,
      if lookahead =? ch "=" then ADVANCE 34 else
      END_STATE)
  | 9 => Some (None,
      if lookahead =? ch "?" then ADVANCE 33 else
      END_STATE)
  | 10 => Some (None,
      if (ch "0" <=? lookahead) && (lookahead <=? ch "9") then ADVANCE 30 else
      END_STATE)
  | 11 => Some (None,
      if negb (lookahead =? 0) && negb (lookahead =? 10) then ADVANCE 1 else
      END_STATE)
  | 12 => Some (None,
      if eof then ADVANCE 14 else
      if lookahead =? ch "/" then ADVANCE 2 else
      if lookahead =? ch ":" then ADVANCE 24 else
      if lookahead =? ch ";" then ADVANCE 17 else
      if lookahead =? ch "{" then ADVANCE 15 else
      if lookahead =? ch "}" then ADVANCE 16 else
      if ((9 <=? lookahead) && (lookahead <=? 13)) || (lookahead =? ch " ") then SKIP 12 else
      if ((ch "A" <=? lookahead) && (lookahead <=? ch "Z")) || (lookahead =? ch "_") || ((ch "a" <=? lookahead) && (lookahead <=? ch "z")) then ADVANCE 27 else
      END_STATE)
  | 13 => Some (None,
      if eof then ADVANCE 14 else
      if lookahead =? ch "/" then ADVANCE 2 else
      if lookahead =? ch ":" then ADVANCE 6 else
      if lookahead =? ch ";" then ADVANCE 17 else
      if lookahead =? ch "{" then ADVANCE 15 else
      if lookahead =? ch "}" then ADVANCE 16 else
      if ((9 <=? lookahead) && (lookahead <=? 13)) || (lookahead =? ch " ") then SKIP 13 else
      if ((ch "A" <=? lookahead) && (lookahead <=? ch "Z")) || (lookahead =? ch "_") || ((ch "a" <=? lookahead) && (lookahead <=? ch "z")) then ADVANCE 27 else
      END_STATE)
  | 14 => Some (Some ts_builtin_sym_end, END_STATE)
  | 15 => Some (Some anon_sym_LBRACE, END_STATE)
  | 16 => Some (Some anon_sym_RBRACE, END_STATE)
  | 17 => Some (Some anon_sym_SEMI, END_STATE)
  | 18 => Some (Some sym_import_path,
      if lookahead =? 10 then ADVANCE 23 else
      if lookahead =? ch ";" then ADVANCE 53 else
      if negb (lookahead =? 0) then ADVANCE 18 else
      END_STATE)
  | 19 => Some (Some sym_import_path,
      if lookahead =? ch "*" then ADVANCE 21 else
      if lookahead =? ch "/" then ADVANCE 18 else
      if negb (lookahead =? 0) && negb (lookahead =? ch ";") then ADVANCE 23 else
      END_STATE)
  | 20 => Some (Some sym_import_path,
      if lookahead =? ch "*" then ADVANCE 20 else
      if lookahead =? ch "/" then ADVANCE 23 else
      if lookahead =? ch ";" then ADVANCE 4 else
      if negb (lookahead =? 0) then ADVANCE 21 else
      END_STATE)
  | 21 => Some (Some sym_import_path,
      if lookahead =? ch "*" then ADVANCE 20 else
      if lookahead =? ch ";" then ADVANCE 4 else
      if negb (lookahead =? 0) then ADVANCE 21 else
      END_STATE)
  | 22 => Some (Some sym_import_path,
      if lookahead =? ch "/" then ADVANCE 19 else
      if ((9 <=? lookahead) && (lookahead <=? 13)) || (lookahead =? ch " ") then ADVANCE 22 else
      if negb (lookahead =? 0) && negb (lookahead =? ch ";") then ADVANCE 23 else
      END_STATE)
  | 23 => Some (Some sym_import_path,
      if negb (lookahead =? 0) && negb (lookahead =? ch ";") then ADVANCE 23 else
      END_STATE)
  | 24 => Some (Some anon_sym_COLON, END_STATE)
  | 25 => Some (Some anon_sym_COLON,
      if lookahead =? ch ":" then ADVANCE 26 else
      END_STATE)
  | 26 => Some (Some anon_sym_COLON_COLON, END_STATE)
  | 27 => Some (Some sym_identifier,
      if ((ch "0" <=? lookahead) && (lookahead <=? ch "9")) || ((ch "A" <=? lookahead) && (lookahead <=? ch "Z")) || (lookahead =? ch "_") || ((ch "a" <=? lookahead) && (lookahead <=? ch "z")) then ADVANCE 27 else
      END_STATE)
  | 28 => Some (Some sym_string, END_STATE)
  | 29 => Some (Some sym_number,
      if lookahead =? ch "." then ADVANCE 10 else
      if (ch "0" <=? lookahead) && (lookahead <=? ch "9") then ADVANCE 29 else
      END_STATE)
  | 30 => Some (Some sym_number,
      if (ch "0" <=? lookahead) && (lookahead <=? ch "9") then ADVANCE 30 else
      END_STATE)
  | 31 => Some (Some anon_sym_EQ_EQ_EQ, END_STATE)
  | 32 => Some (Some anon_sym_BANG_EQ_EQ, END_STATE)
  | 33 => Some (Some anon_sym_QMARK_QMARK, END_STATE)
  | 34 => Some (Some anon_sym_EQ_EQ,
      if lookahead =? ch "=" then ADVANCE 31 else
      END_STATE)
  | 35 => Some (Some anon_sym_BANG_EQ,
      if lookahead =? ch "=" then ADVANCE 32 else
      END_STATE)
  | 36 => Some (Some anon_sym_AT_AT, END_STATE)
  | 37 => Some (Some anon_sym_LT_EQ, END_STATE)
  | 38 => Some (Some anon_sym_GT_EQ, END_STATE)
  | 39 => Some (Some anon_sym_STAR_STAR, END_STATE)
  | 40 => Some (Some anon_sym_PIPE, END_STATE)
  | 41 => Some (Some anon_sym_AMP, END_STATE)
  | 42 => Some (Some anon_sym_AT,
      if lookahead =? ch "@" then ADVANCE 36 else
      END_STATE)
  | 43 => Some (Some anon_sym_LT,
      if lookahead =? ch "=" then ADVANCE 37 else
      END_STATE)
  | 44 => Some (Some anon_sym_GT,
      if lookahead =? ch "=" then ADVANCE 38 else
      END_STATE)
  | 45 => Some (Some anon_sym_PLUS, END_STATE)
  | 46 => Some (Some anon_sym_DASH, END_STATE)
  | 47 => Some (Some anon_sym_STAR,
      if lookahead =? ch "*" then ADVANCE 39 else
      END_STATE)
  | 48 => Some (Some anon_sym_SLASH,
      if lookahead =? ch "*" then ADVANCE 4 else
      if lookahead =? ch "/" then ADVANCE 53 else
      END_STATE)
  | 49 => Some (Some anon_sym_PERCENT, END_STATE)
  | 50 => Some (Some anon_sym_CARET, END_STATE)
  | 51 => Some (Some anon_sym_TILDE, END_STATE)
  | 52 => Some (Some sym_comment, END_STATE)
  | 53 => Some (Some sym_comment,
      if negb (lookahead =? 0) && negb (lookahead =? 10) then ADVANCE 53 else
      END_STATE)
  | _ => None
  end.

(** Cases 1 and up of [ts_lex_keywords]: each is an optional
    [ACCEPT_TOKEN] followed by [if (lookahead == c) ADVANCE(s);] lines,
    kept as the list of their [(c, s)] pairs in source order. *)
Definition ts_lex_keywords_cases
  : list (TSStateId * (option TSSymbol * list (Z * TSStateId))) := [
  (1, (None, [(ch "b", 22); (ch "c", 23); (ch "f", 24); (ch "l", 25); (ch "n", 26); (ch "s", 27); (ch "t", 28)]));
  (2, (None, [(ch "e", 29); (ch "i", 30); (ch "o", 31); (ch "y", 32)]));
  (3, (None, [(ch "a", 33); (ch "h", 34); (ch "l", 35); (ch "o", 36); (ch "r", 37)]));
  (4, (None, [(ch "a", 38); (ch "e", 39); (ch "i", 40); (ch "o", 41)]));
  (5, (None, [(ch "l", 42); (ch "n", 43); (ch "v", 44); (ch "x", 45)]));
  (6, (None, [(ch "a", 46); (ch "e", 47); (ch "i", 48); (ch "l", 49); (ch "o", 50); (ch "r", 51); (ch "u", 52)]));
  (7, (None, [(ch "a", 53)]));
  (8, (None, [(ch "f", 54); (ch "m", 55); (ch "n", 56); (ch "s", 57); (ch "t", 58)]));
  (9, (None, [(ch "o", 59)]));
  (10, (None, [(ch "a", 60); (ch "i", 61); (ch "o", 62)]));
  (11, (None, [(ch "e", 63); (ch "u", 64)]));
  (12, (None, [(ch "a", 65); (ch "e", 66); (ch "o", 67); (ch "u", 68)]));
  (13, (None, [(ch "b", 69); (ch "c", 70); (ch "f", 71); (ch "r", 72); (ch "u", 73)]));
  (14, (None, [(ch "a", 74); (ch "e", 75); (ch "o", 76); (ch "r", 77); (ch "u", 78)]));
  (15, (None, [(ch "e", 79)]));
  (16, (None, [(ch "a", 80); (ch "e", 81); (ch "n", 82); (ch "p", 83); (ch "t", 84); (ch "u", 85)]));
  (17, (None, [(ch "e", 86); (ch "h", 87); (ch "i", 88); (ch "o", 89); (ch "r", 90); (ch "y", 91)]));
  (18, (None, [(ch "n", 92); (ch "s", 93)]));
  (19, (None, [(ch "a", 94); (ch "e", 95); (ch "i", 96)]));
  (20, (None, [(ch "h", 97)]));
  (21, (None, [(ch "o", 98)]));
  (22, (None, [(ch "o", 99); (ch "s", 100)]));
  (23, (None, [(ch "c", 101); (ch "t", 102)]));
  (24, (None, [(ch "t", 103)]));
  (25, (None, [(ch "i", 104); (ch "l", 105)]));
  (26, (None, [(ch "a", 106); (ch "d", 107)]));
  (27, (Some anon_sym_as, [(ch "s", 108)]));
  (28, (Some anon_sym_at, [(ch "t", 109)]));
  (29, (None, [(ch "h", 110)]));
  (30, (None, [(ch "n", 111)]));
  (31, (None, [(ch "o", 112)]));
  (32, (Some anon_sym_by, []));
  (33, (None, [(ch "l", 113); (ch "s", 114)]));
  (34, (None, [(ch "a", 115)]));
  (35, (None, [(ch "a", 116)]));
  (36, (None, [(ch "m", 117); (ch "n", 118)]));
  (37, (None, [(ch "o", 119)]));
  (38, (None, [(ch "t", 120)]));
  (39, (None, [(ch "c", 121); (ch "f", 122); (ch "p", 123); (ch "r", 124)]));
  (40, (None, [(ch "f", 125); (ch "s", 126)]));
  (41, (Some anon_sym_do, [(ch "c", 127)]));
  (42, (None, [(ch "s", 128)]));
  (43, (None, [(ch "d", 129); (ch "t", 130); (ch "u", 131)]));
  (44, (None, [(ch "e", 132)]));
  (45, (None, [(ch "h", 133); (ch "i", 134); (ch "p", 135)]));
  (46, (None, [(ch "l", 136)]));
  (47, (None, [(ch "a", 137)]));
  (48, (None, [(ch "l", 138); (ch "r", 139)]));
  (49, (None, [(ch "o", 140)]));
  (50, (None, [(ch "r", 141)]));
  (51, (None, [(ch "a", 142); (ch "o", 143)]));
  (52, (None, [(ch "n", 144)]));
  (53, (None, [(ch "s", 145)]));
  (54, (Some anon_sym_if, []));
  (55, (None, [(ch "p", 146)]));
  (56, (Some anon_sym_in, [(ch "c", 147); (ch "d", 148); (ch "o", 149); (ch "t", 150); (ch "v", 151)]));
  (57, (None, [(ch "t", 152)]));
  (58, (None, [(ch "e", 153)]));
  (59, (None, [(ch "i", 154)]));
  (60, (None, [(ch "n", 155)]));
  (61, (None, [(ch "b", 156)]));
  (62, (None, [(ch "c", 157); (ch "o", 158)]));
  (63, (None, [(ch "m", 159); (ch "r", 160); (ch "s", 161); (ch "t", 162)]));
  (64, (None, [(ch "l", 163)]));
  (65, (None, [(ch "m", 164)]));
  (66, (None, [(ch "w", 165)]));
  (67, (None, [(ch "n", 166); (ch "t", 167)]));
  (68, (None, [(ch "l", 168)]));
  (69, (None, [(ch "j", 169)]));
  (70, (None, [(ch "c", 170)]));
  (71, (Some anon_sym_of, []));
  (72, (Some anon_sym_or, [(ch "d", 171)]));
  (73, (None, [(ch "t", 172)]));
  (74, (None, [(ch "c", 173); (ch "r", 174)]));
  (75, (None, [(ch "r", 175)]));
  (76, (None, [(ch "r", 176)]));
  (77, (None, [(ch "e", 177); (ch "i", 178); (ch "o", 179)]));
  (78, (None, [(ch "b", 180)]));
  (79, (None, [(ch "a", 181); (ch "d", 182); (ch "f", 183); (ch "n", 184); (ch "p", 185); (ch "q", 186); (ch "t", 187)]));
  (80, (None, [(ch "t", 188)]));
  (81, (None, [(ch "n", 189)]));
  (82, (None, [(ch "a", 190)]));
  (83, (None, [(ch "e", 191)]));
  (84, (None, [(ch "a", 192); (ch "e", 193); (ch "r", 194)]));
  (85, (None, [(ch "b", 195); (ch "c", 196)]));
  (86, (None, [(ch "r", 197)]));
  (87, (None, [(ch "e", 198)]));
  (88, (None, [(ch "m", 199)]));
  (89, (Some anon_sym_to, []));
  (90, (None, [(ch "a", 200); (ch "u", 201)]));
  (91, (None, [(ch "p", 202)]));
  (92, (None, [(ch "i", 203); (ch "t", 204)]));
  (93, (None, [(ch "e", 205)]));
  (94, (None, [(ch "r", 206)]));
  (95, (None, [(ch "r", 207)]));
  (96, (None, [(ch "a", 208); (ch "e", 209)]));
  (97, (None, [(ch "e", 210); (ch "i", 211)]));
  (98, (None, [(ch "r", 212)]));
  (99, (None, [(ch "u", 213)]));
  (100, (None, [(ch "t", 214)]));
  (101, (None, [(ch "e", 215)]));
  (102, (None, [(ch "i", 216); (ch "o", 217)]));
  (103, (None, [(ch "e", 218)]));
  (104, (None, [(ch "a", 219)]));
  (105, (Some anon_sym_all, [(ch "o", 220)]));
  (106, (None, [(ch "l", 221)]));
  (107, (Some anon_sym_and, []));
  (108, (None, [(ch "e", 222); (ch "i", 223); (ch "o", 224); (ch "u", 225)]));
  (109, (None, [(ch "r", 226)]));
  (110, (None, [(ch "a", 227)]));
  (111, (None, [(ch "d", 228)]));
  (112, (None, [(ch "l", 229)]));
  (113, (None, [(ch "c", 230)]));
  (114, (None, [(ch "e", 231)]));
  (115, (None, [(ch "i", 232)]));
  (116, (None, [(ch "s", 233)]));
  (117, (None, [(ch "m", 234); (ch "p", 235)]));
  (118, (None, [(ch "c", 236); (ch "j", 237); (ch "n", 238); (ch "s", 239)]));
  (119, (None, [(ch "s", 240)]));
  (120, (None, [(ch "a", 241)]));
  (121, (None, [(ch "i", 242)]));
  (122, (Some anon_sym_def, [(ch "a", 243); (ch "i", 244)]));
  (123, (None, [(ch "e", 245)]));
  (124, (None, [(ch "i", 246)]));
  (125, (None, [(ch "f", 247)]));
  (126, (None, [(ch "j", 248)]));
  (127, (Some anon_sym_doc, []));
  (128, (None, [(ch "e", 249)]));
  (129, (Some anon_sym_end, []));
  (130, (None, [(ch "r", 250)]));
  (131, (None, [(ch "m", 251)]));
  (132, (None, [(ch "n", 252)]));
  (133, (None, [(ch "i", 253)]));
  (134, (None, [(ch "t", 254)]));
  (135, (None, [(ch "o", 255); (ch "r", 256)]));
  (136, (None, [(ch "s", 257)]));
  (137, (None, [(ch "t", 258)]));
  (138, (None, [(ch "t", 259)]));
  (139, (None, [(ch "s", 260)]));
  (140, (None, [(ch "w", 261)]));
  (141, (Some anon_sym_for, [(ch "k", 262)]));
  (142, (None, [(ch "m", 263)]));
  (143, (None, [(ch "m", 264)]));
  (144, (None, [(ch "c", 265)]));
  (145, (None, [(ch "t", 266)]));
  (146, (None, [(ch "l", 267); (ch "o", 268)]));
  (147, (None, [(ch "l", 269)]));
  (148, (None, [(ch "i", 270)]));
  (149, (None, [(ch "u", 271)]));
  (150, (None, [(ch "e", 272)]));
  (151, (Some anon_sym_inv, [(ch "e", 273)]));
  (152, (None, [(ch "y", 274)]));
  (153, (None, [(ch "m", 275)]));
  (154, (None, [(ch "n", 276)]));
  (155, (None, [(ch "g", 277)]));
  (156, (None, [(ch "r", 278)]));
  (157, (None, [(ch "a", 279)]));
  (158, (None, [(ch "p", 280)]));
  (159, (None, [(ch "b", 281)]));
  (160, (None, [(ch "g", 282)]));
  (161, (None, [(ch "s", 283)]));
  (162, (None, [(ch "a", 284)]));
  (163, (None, [(ch "t", 285)]));
  (164, (None, [(ch "e", 286)]));
  (165, (Some anon_sym_new, []));
  (166, (None, [(ch "u", 287)]));
  (167, (Some anon_sym_not, []));
  (168, (None, [(ch "l", 288)]));
  (169, (None, [(ch "e", 289)]));
  (170, (None, [(ch "u", 290)]));
  (171, (None, [(ch "e", 291)]));
  (172, (Some anon_sym_out, []));
  (173, (None, [(ch "k", 292)]));
  (174, (None, [(ch "a", 293); (ch "t", 294)]));
  (175, (None, [(ch "f", 295)]));
  (176, (None, [(ch "t", 296)]));
  (177, (None, [(ch "d", 297)]));
  (178, (None, [(ch "v", 298)]));
  (179, (None, [(ch "t", 299)]));
  (180, (None, [(ch "l", 300)]));
  (181, (None, [(ch "d", 301)]));
  (182, (None, [(ch "e", 302)]));
  (183, (Some anon_sym_ref, [(ch "e", 303)]));
  (184, (None, [(ch "d", 304)]));
  (185, (Some anon_sym_rep, []));
  (186, (None, [(ch "u", 305)]));
  (187, (None, [(ch "u", 306)]));
  (188, (None, [(ch "i", 307)]));
  (189, (None, [(ch "d", 308)]));
  (190, (None, [(ch "p", 309)]));
  (191, (None, [(ch "c", 310)]));
  (192, (None, [(ch "k", 311); (ch "n", 312); (ch "t", 313)]));
  (193, (None, [(ch "p", 314)]));
  (194, (None, [(ch "u", 315)]));
  (195, (None, [(ch "c", 316); (ch "j", 317); (ch "s", 318); (ch "t", 319)]));
  (196, (None, [(ch "c", 320)]));
  (197, (None, [(ch "m", 321)]));
  (198, (None, [(ch "n", 322)]));
  (199, (None, [(ch "e", 323)]));
  (200, (None, [(ch "n", 324)]));
  (201, (None, [(ch "e", 325)]));
  (202, (None, [(ch "e", 326); (ch "i", 327)]));
  (203, (None, [(ch "o", 328)]));
  (204, (None, [(ch "i", 329)]));
  (205, (Some anon_sym_use, []));
  (206, (Some anon_sym_var, [(ch "i", 330)]));
  (207, (None, [(ch "i", 331)]));
  (208, (Some anon_sym_via, []));
  (209, (None, [(ch "w", 332)]));
  (210, (None, [(ch "n", 333)]));
  (211, (None, [(ch "l", 334)]));
  (212, (Some anon_sym_xor, []));
  (213, (None, [(ch "t", 335)]));
  (214, (None, [(ch "r", 336)]));
  (215, (None, [(ch "p", 337)]));
  (216, (None, [(ch "o", 338)]));
  (217, (None, [(ch "r", 339)]));
  (218, (None, [(ch "r", 340)]));
  (219, (None, [(ch "s", 341)]));
  (220, (None, [(ch "c", 342)]));
  (221, (None, [(ch "y", 343)]));
  (222, (None, [(ch "r", 344)]));
  (223, (None, [(ch "g", 345)]));
  (224, (None, [(ch "c", 346)]));
  (225, (None, [(ch "m", 347)]));
  (226, (None, [(ch "i", 348)]));
  (227, (None, [(ch "v", 349)]));
  (228, (Some anon_sym_bind, [(ch "i", 350)]));
  (229, (Some anon_sym_bool, []));
  (230, (Some anon_sym_calc, []));
  (231, (Some anon_sym_case, []));
  (232, (None, [(ch "n", 351)]));
  (233, (None, [(ch "s", 352)]));
  (234, (None, [(ch "e", 353)]));
  (235, (None, [(ch "o", 354)]));
  (236, (None, [(ch "e", 355)]));
  (237, (None, [(ch "u", 356)]));
  (238, (None, [(ch "e", 357)]));
  (239, (None, [(ch "t", 358)]));
  (240, (None, [(ch "s", 359)]));
  (241, (None, [(ch "t", 360)]));
  (242, (None, [(ch "d", 361)]));
  (243, (None, [(ch "u", 362)]));
  (244, (None, [(ch "n", 363)]));
  (245, (None, [(ch "n", 364)]));
  (246, (None, [(ch "v", 365)]));
  (247, (None, [(ch "e", 366)]));
  (248, (None, [(ch "o", 367)]));
  (249, (Some anon_sym_else, []));
  (250, (None, [(ch "y", 368)]));
  (251, (Some anon_sym_enum, []));
  (252, (None, [(ch "t", 369)]));
  (253, (None, [(ch "b", 370)]));
  (254, (Some anon_sym_exit, []));
  (255, (None, [(ch "s", 371)]));
  (256, (Some anon_sym_expr, []));
  (257, (None, [(ch "e", 372)]));
  (258, (None, [(ch "u", 373)]));
  (259, (None, [(ch "e", 374)]));
  (260, (None, [(ch "t", 375)]));
  (261, (Some anon_sym_flow, []));
  (262, (Some anon_sym_fork, []));
  (263, (None, [(ch "e", 376)]));
  (264, (Some anon_sym_from, []));
  (265, (None, [(ch "t", 377)]));
  (266, (None, [(ch "y", 378)]));
  (267, (None, [(ch "i", 379)]));
  (268, (None, [(ch "r", 380)]));
  (269, (None, [(ch "u", 381)]));
  (270, (None, [(ch "v", 382)]));
  (271, (None, [(ch "t", 383)]));
  (272, (None, [(ch "r", 384)]));
  (273, (None, [(ch "r", 385)]));
  (274, (None, [(ch "p", 386)]));
  (275, (Some anon_sym_item, []));
  (276, (Some anon_sym_join, []));
  (277, (None, [(ch "u", 387)]));
  (278, (None, [(ch "a", 388)]));
  (279, (None, [(ch "l", 389)]));
  (280, (Some anon_sym_loop, []));
  (281, (None, [(ch "e", 390)]));
  (282, (None, [(ch "e", 391)]));
  (283, (None, [(ch "a", 392)]));
  (284, (Some anon_sym_meta, [(ch "c", 393); (ch "d", 394)]));
  (285, (None, [(ch "i", 395)]));
  (286, (None, [(ch "s", 396)]));
  (287, (None, [(ch "n", 397)]));
  (288, (Some anon_sym_null, []));
  (289, (None, [(ch "c", 398)]));
  (290, (None, [(ch "r", 399)]));
  (291, (None, [(ch "r", 400)]));
  (292, (None, [(ch "a", 401)]));
  (293, (None, [(ch "l", 402)]));
  (294, (Some anon_sym_part, []));
  (295, (None, [(ch "o", 403)]));
  (296, (Some anon_sym_port, [(ch "i", 404)]));
  (297, (None, [(ch "i", 405)]));
  (298, (None, [(ch "a", 406)]));
  (299, (None, [(ch "e", 407)]));
  (300, (None, [(ch "i", 408)]));
  (301, (None, [(ch "o", 409)]));
  (302, (None, [(ch "f", 410)]));
  (303, (None, [(ch "r", 411)]));
  (304, (None, [(ch "e", 412)]));
  (305, (None, [(ch "i", 413)]));
  (306, (None, [(ch "r", 414)]));
  (307, (None, [(ch "s", 415)]));
  (308, (Some anon_sym_send, []));
  (309, (None, [(ch "s", 416)]));
  (310, (None, [(ch "i", 417)]));
  (311, (None, [(ch "e", 418)]));
  (312, (None, [(ch "d", 419)]));
  (313, (None, [(ch "e", 420)]));
  (314, (Some anon_sym_step, []));
  (315, (None, [(ch "c", 421)]));
  (316, (None, [(ch "l", 422)]));
  (317, (None, [(ch "e", 423)]));
  (318, (None, [(ch "e", 424)]));
  (319, (None, [(ch "y", 425)]));
  (320, (None, [(ch "e", 426)]));
  (321, (None, [(ch "i", 427)]));
  (322, (Some anon_sym_then, []));
  (323, (None, [(ch "s", 428)]));
  (324, (None, [(ch "s", 429)]));
  (325, (Some anon_sym_true, []));
  (326, (Some anon_sym_type, [(ch "d", 430)]));
  (327, (None, [(ch "n", 431)]));
  (328, (None, [(ch "n", 432)]));
  (329, (None, [(ch "l", 433)]));
  (330, (None, [(ch "a", 434)]));
  (331, (None, [(ch "f", 435)]));
  (332, (Some anon_sym_view, [(ch "p", 436)]));
  (333, (Some anon_sym_when, []));
  (334, (None, [(ch "e", 437)]));
  (335, (Some anon_sym_about, []));
  (336, (None, [(ch "a", 438)]));
  (337, (None, [(ch "t", 439)]));
  (338, (None, [(ch "n", 440)]));
  (339, (Some anon_sym_actor, []));
  (340, (Some anon_sym_after, []));
  (341, (Some anon_sym_alias, []));
  (342, (None, [(ch "a", 441)]));
  (343, (None, [(ch "s", 442)]));
  (344, (None, [(ch "t", 443)]));
  (345, (None, [(ch "n", 444)]));
  (346, (Some anon_sym_assoc, []));
  (347, (None, [(ch "e", 445)]));
  (348, (None, [(ch "b", 446)]));
  (349, (None, [(ch "i", 447)]));
  (350, (None, [(ch "n", 448)]));
  (351, (None, [(ch "s", 449)]));
  (352, (Some anon_sym_class, [(ch "i", 450)]));
  (353, (None, [(ch "n", 451)]));
  (354, (None, [(ch "s", 452)]));
  (355, (None, [(ch "r", 453)]));
  (356, (None, [(ch "g", 454)]));
  (357, (None, [(ch "c", 455)]));
  (358, (Some anon_sym_const, [(ch "a", 456); (ch "r", 457)]));
  (359, (None, [(ch "e", 458)]));
  (360, (None, [(ch "y", 459)]));
  (361, (None, [(ch "e", 460)]));
  (362, (None, [(ch "l", 461)]));
  (363, (None, [(ch "e", 462)]));
  (364, (None, [(ch "d", 463)]));
  (365, (None, [(ch "e", 464)]));
  (366, (None, [(ch "r", 465)]));
  (367, (None, [(ch "i", 466)]));
  (368, (Some anon_sym_entry, []));
  (369, (Some anon_sym_event, []));
  (370, (None, [(ch "i", 467)]));
  (371, (None, [(ch "e", 468)]));
  (372, (Some anon_sym_false, []));
  (373, (None, [(ch "r", 469)]));
  (374, (None, [(ch "r", 470)]));
  (375, (Some anon_sym_first, []));
  (376, (Some anon_sym_frame, []));
  (377, (None, [(ch "i", 471)]));
  (378, (None, [(ch "p", 472)]));
  (379, (None, [(ch "e", 473)]));
  (380, (None, [(ch "t", 474)]));
  (381, (None, [(ch "d", 475)]));
  (382, (None, [(ch "i", 476)]));
  (383, (Some anon_sym_inout, []));
  (384, (None, [(ch "a", 477); (ch "f", 478); (ch "s", 479)]));
  (385, (None, [(ch "s", 480); (ch "t", 481)]));
  (386, (None, [(ch "e", 482)]));
  (387, (None, [(ch "a", 483)]));
  (388, (None, [(ch "r", 484)]));
  (389, (None, [(ch "e", 485)]));
  (390, (None, [(ch "r", 486)]));
  (391, (Some anon_sym_merge, []));
  (392, (None, [(ch "g", 487)]));
  (393, (None, [(ch "l", 488)]));
  (394, (None, [(ch "a", 489)]));
  (395, (None, [(ch "p", 490)]));
  (396, (None, [(ch "p", 491)]));
  (397, (None, [(ch "i", 492)]));
  (398, (None, [(ch "t", 493)]));
  (399, (None, [(ch "r", 494)]));
  (400, (None, [(ch "e", 495)]));
  (401, (None, [(ch "g", 496)]));
  (402, (None, [(ch "l", 497)]));
  (403, (None, [(ch "r", 498)]));
  (404, (None, [(ch "o", 499)]));
  (405, (None, [(ch "c", 500)]));
  (406, (None, [(ch "t", 501)]));
  (407, (None, [(ch "c", 502)]));
  (408, (None, [(ch "c", 503)]));
  (409, (None, [(ch "n", 504)]));
  (410, (None, [(ch "i", 505)]));
  (411, (None, [(ch "e", 506)]));
  (412, (None, [(ch "r", 507)]));
  (413, (None, [(ch "r", 508)]));
  (414, (None, [(ch "n", 509)]));
  (415, (None, [(ch "f", 510)]));
  (416, (None, [(ch "h", 511)]));
  (417, (None, [(ch "a", 512)]));
  (418, (None, [(ch "h", 513)]));
  (419, (None, [(ch "a", 514)]));
  (420, (Some anon_sym_state, []));
  (421, (None, [(ch "t", 515)]));
  (422, (None, [(ch "a", 516)]));
  (423, (None, [(ch "c", 517)]));
  (424, (None, [(ch "t", 518)]));
  (425, (None, [(ch "p", 519)]));
  (426, (None, [(ch "s", 520)]));
  (427, (None, [(ch "n", 521)]));
  (428, (None, [(ch "l", 522)]));
  (429, (None, [(ch "i", 523)]));
  (430, (Some anon_sym_typed, []));
  (431, (None, [(ch "g", 524)]));
  (432, (None, [(ch "s", 525)]));
  (433, (Some anon_sym_until, []));
  (434, (None, [(ch "n", 526); (ch "t", 527)]));
  (435, (None, [(ch "i", 528); (ch "y", 529)]));
  (436, (None, [(ch "o", 530)]));
  (437, (Some anon_sym_while, []));
  (438, (None, [(ch "c", 531)]));
  (439, (Some anon_sym_accept, []));
  (440, (Some anon_sym_action, []));
  (441, (None, [(ch "t", 532)]));
  (442, (None, [(ch "i", 533)]));
  (443, (Some anon_sym_assert, []));
  (444, (Some anon_sym_assign, []));
  (445, (Some anon_sym_assume, []));
  (446, (None, [(ch "u", 534)]));
  (447, (None, [(ch "o", 535)]));
  (448, (None, [(ch "g", 536)]));
  (449, (Some anon_sym_chains, []));
  (450, (None, [(ch "f", 537)]));
  (451, (None, [(ch "t", 538)]));
  (452, (None, [(ch "i", 539)]));
  (453, (None, [(ch "n", 540)]));
  (454, (None, [(ch "a", 541)]));
  (455, (None, [(ch "t", 542)]));
  (456, (None, [(ch "n", 543)]));
  (457, (None, [(ch "a", 544)]));
  (458, (None, [(ch "s", 545)]));
  (459, (None, [(ch "p", 546)]));
  (460, (Some anon_sym_decide, []));
  (461, (None, [(ch "t", 547)]));
  (462, (None, [(ch "d", 548)]));
  (463, (None, [(ch "e", 549)]));
  (464, (None, [(ch "d", 550)]));
  (465, (None, [(ch "e", 551)]));
  (466, (None, [(ch "n", 552)]));
  (467, (None, [(ch "t", 553)]));
  (468, (Some anon_sym_expose, []));
  (469, (None, [(ch "e", 554); (ch "i", 555)]));
  (470, (Some anon_sym_filter, []));
  (471, (None, [(ch "o", 556)]));
  (472, (None, [(ch "e", 557)]));
  (473, (None, [(ch "s", 558)]));
  (474, (Some anon_sym_import, []));
  (475, (None, [(ch "e", 559)]));
  (476, (None, [(ch "d", 560)]));
  (477, (None, [(ch "c", 561)]));
  (478, (None, [(ch "a", 562)]));
  (479, (None, [(ch "e", 563)]));
  (480, (None, [(ch "e", 564)]));
  (481, (None, [(ch "i", 565)]));
  (482, (Some anon_sym_istype, []));
  (483, (None, [(ch "g", 566)]));
  (484, (None, [(ch "y", 567)]));
  (485, (Some anon_sym_locale, []));
  (486, (Some anon_sym_member, []));
  (487, (None, [(ch "e", 568)]));
  (488, (None, [(ch "a", 569)]));
  (489, (None, [(ch "t", 570)]));
  (490, (None, [(ch "l", 571)]));
  (491, (None, [(ch "a", 572)]));
  (492, (None, [(ch "q", 573)]));
  (493, (None, [(ch "i", 574)]));
  (494, (None, [(ch "e", 575)]));
  (495, (None, [(ch "d", 576)]));
  (496, (None, [(ch "e", 577)]));
  (497, (None, [(ch "e", 578)]));
  (498, (None, [(ch "m", 579)]));
  (499, (None, [(ch "n", 580)]));
  (500, (None, [(ch "a", 581)]));
  (501, (None, [(ch "e", 582)]));
  (502, (None, [(ch "t", 583)]));
  (503, (Some anon_sym_public, []));
  (504, (None, [(ch "l", 584)]));
  (505, (None, [(ch "n", 585)]));
  (506, (None, [(ch "n", 586)]));
  (507, (Some anon_sym_render, [(ch "i", 587)]));
  (508, (None, [(ch "e", 588)]));
  (509, (Some anon_sym_return, []));
  (510, (None, [(ch "y", 589)]));
  (511, (None, [(ch "o", 590)]));
  (512, (None, [(ch "l", 591)]));
  (513, (None, [(ch "o", 592)]));
  (514, (None, [(ch "r", 593)]));
  (515, (Some anon_sym_struct, []));
  (516, (None, [(ch "s", 594)]));
  (517, (None, [(ch "t", 595)]));
  (518, (Some anon_sym_subset, [(ch "s", 596)]));
  (519, (None, [(ch "e", 597)]));
  (520, (None, [(ch "s", 598)]));
  (521, (None, [(ch "a", 599)]));
  (522, (None, [(ch "i", 600)]));
  (523, (None, [(ch "t", 601)]));
  (524, (Some anon_sym_typing, []));
  (525, (Some anon_sym_unions, []));
  (526, (None, [(ch "t", 602)]));
  (527, (None, [(ch "i", 603)]));
  (528, (None, [(ch "c", 604)]));
  (529, (Some anon_sym_verify, []));
  (530, (None, [(ch "i", 605)]));
  (531, (None, [(ch "t", 606)]));
  (532, (None, [(ch "e", 607); (ch "i", 608)]));
  (533, (None, [(ch "s", 609)]));
  (534, (None, [(ch "t", 610)]));
  (535, (None, [(ch "r", 611)]));
  (536, (Some anon_sym_binding, []));
  (537, (None, [(ch "i", 612)]));
  (538, (Some anon_sym_comment, []));
  (539, (None, [(ch "t", 613)]));
  (540, (Some anon_sym_concern, []));
  (541, (None, [(ch "t", 614)]));
  (542, (Some anon_sym_connect, [(ch "i", 615); (ch "o", 616)]));
  (543, (None, [(ch "t", 617)]));
  (544, (None, [(ch "i", 618)]));
  (545, (Some anon_sym_crosses, []));
  (546, (None, [(ch "e", 619)]));
  (547, (Some anon_sym_default, []));
  (548, (Some anon_sym_defined, []));
  (549, (None, [(ch "n", 620)]));
  (550, (Some anon_sym_derived, []));
  (551, (None, [(ch "n", 621)]));
  (552, (None, [(ch "i", 622); (ch "t", 623)]));
  (553, (Some anon_sym_exhibit, []));
  (554, (Some anon_sym_feature, [(ch "d", 624)]));
  (555, (None, [(ch "n", 625)]));
  (556, (None, [(ch "n", 626)]));
  (557, (Some anon_sym_hastype, []));
  (558, (Some anon_sym_implies, []));
  (559, (Some anon_sym_include, []));
  (560, (None, [(ch "u", 627)]));
  (561, (None, [(ch "t", 628)]));
  (562, (None, [(ch "c", 629)]));
  (563, (None, [(ch "c", 630)]));
  (564, (Some anon_sym_inverse, []));
  (565, (None, [(ch "n", 631)]));
  (566, (None, [(ch "e", 632)]));
  (567, (Some anon_sym_library, []));
  (568, (Some anon_sym_message, []));
  (569, (None, [(ch "s", 633)]));
  (570, (None, [(ch "a", 634)]));
  (571, (None, [(ch "i", 635)]));
  (572, (None, [(ch "c", 636)]));
  (573, (None, [(ch "u", 637)]));
  (574, (None, [(ch "v", 638)]));
  (575, (None, [(ch "n", 639)]));
  (576, (Some anon_sym_ordered, []));
  (577, (Some anon_sym_package, []));
  (578, (None, [(ch "l", 640)]));
  (579, (Some anon_sym_perform, []));
  (580, (Some anon_sym_portion, []));
  (581, (None, [(ch "t", 641)]));
  (582, (Some anon_sym_private, []));
  (583, (None, [(ch "e", 642)]));
  (584, (None, [(ch "y", 643)]));
  (585, (None, [(ch "e", 644); (ch "i", 645)]));
  (586, (None, [(ch "c", 646)]));
  (587, (None, [(ch "n", 647)]));
  (588, (Some anon_sym_require, [(ch "m", 648)]));
  (589, (Some anon_sym_satisfy, []));
  (590, (None, [(ch "t", 649)]));
  (591, (None, [(ch "i", 650)]));
  (592, (None, [(ch "l", 651)]));
  (593, (None, [(ch "d", 652)]));
  (594, (None, [(ch "s", 653)]));
  (595, (Some anon_sym_subject, []));
  (596, (Some anon_sym_subsets, []));
  (597, (Some anon_sym_subtype, []));
  (598, (None, [(ch "i", 654)]));
  (599, (None, [(ch "t", 655)]));
  (600, (None, [(ch "c", 656)]));
  (601, (None, [(ch "i", 657)]));
  (602, (Some anon_sym_variant, []));
  (603, (None, [(ch "o", 658)]));
  (604, (None, [(ch "a", 659)]));
  (605, (None, [(ch "n", 660)]));
  (606, (Some anon_sym_abstract, []));
  (607, (Some anon_sym_allocate, []));
  (608, (None, [(ch "o", 661)]));
  (609, (Some anon_sym_analysis, []));
  (610, (None, [(ch "e", 662)]));
  (611, (Some anon_sym_behavior, []));
  (612, (None, [(ch "e", 663)]));
  (613, (None, [(ch "e", 664)]));
  (614, (None, [(ch "e", 665); (ch "i", 666)]));
  (615, (None, [(ch "o", 667)]));
  (616, (None, [(ch "r", 668)]));
  (617, (Some anon_sym_constant, []));
  (618, (None, [(ch "n", 669)]));
  (619, (Some anon_sym_datatype, []));
  (620, (None, [(ch "c", 670)]));
  (621, (None, [(ch "c", 671)]));
  (622, (None, [(ch "n", 672)]));
  (623, (Some anon_sym_disjoint, []));
  (624, (Some anon_sym_featured, []));
  (625, (None, [(ch "g", 673)]));
  (626, (Some anon_sym_function, []));
  (627, (None, [(ch "a", 674)]));
  (628, (None, [(ch "i", 675)]));
  (629, (None, [(ch "e", 676)]));
  (630, (None, [(ch "t", 677)]));
  (631, (None, [(ch "g", 678)]));
  (632, (Some anon_sym_language, []));
  (633, (None, [(ch "s", 679)]));
  (634, (Some anon_sym_metadata, []));
  (635, (None, [(ch "c", 680)]));
  (636, (None, [(ch "e", 681)]));
  (637, (None, [(ch "e", 682)]));
  (638, (None, [(ch "e", 683)]));
  (639, (None, [(ch "c", 684)]));
  (640, (Some anon_sym_parallel, []));
  (641, (None, [(ch "e", 685)]));
  (642, (None, [(ch "d", 686)]));
  (643, (Some anon_sym_readonly, []));
  (644, (None, [(ch "s", 687)]));
  (645, (None, [(ch "t", 688)]));
  (646, (None, [(ch "e", 689)]));
  (647, (None, [(ch "g", 690)]));
  (648, (None, [(ch "e", 691)]));
  (649, (Some anon_sym_snapshot, []));
  (650, (None, [(ch "z", 692)]));
  (651, (None, [(ch "d", 693)]));
  (652, (Some anon_sym_standard, []));
  (653, (None, [(ch "i", 694)]));
  (654, (None, [(ch "o", 695)]));
  (655, (None, [(ch "e", 696)]));
  (656, (None, [(ch "e", 697)]));
  (657, (None, [(ch "o", 698)]));
  (658, (None, [(ch "n", 699)]));
  (659, (None, [(ch "t", 700)]));
  (660, (None, [(ch "t", 701)]));
  (661, (None, [(ch "n", 702)]));
  (662, (Some anon_sym_attribute, []));
  (663, (None, [(ch "r", 703)]));
  (664, (Some anon_sym_composite, []));
  (665, (Some anon_sym_conjugate, [(ch "s", 704)]));
  (666, (None, [(ch "o", 705)]));
  (667, (None, [(ch "n", 706)]));
  (668, (Some anon_sym_connector, []));
  (669, (None, [(ch "t", 707)]));
  (670, (None, [(ch "y", 708)]));
  (671, (None, [(ch "e", 709)]));
  (672, (None, [(ch "g", 710)]));
  (673, (Some anon_sym_featuring, []));
  (674, (None, [(ch "l", 711)]));
  (675, (None, [(ch "o", 712)]));
  (676, (Some anon_sym_interface, []));
  (677, (None, [(ch "s", 713)]));
  (678, (Some anon_sym_inverting, []));
  (679, (Some anon_sym_metaclass, []));
  (680, (None, [(ch "i", 714)]));
  (681, (Some anon_sym_namespace, []));
  (682, (Some anon_sym_nonunique, []));
  (683, (Some anon_sym_objective, []));
  (684, (None, [(ch "e", 715)]));
  (685, (Some anon_sym_predicate, []));
  (686, (Some anon_sym_protected, []));
  (687, (Some anon_sym_redefines, []));
  (688, (None, [(ch "i", 716)]));
  (689, (None, [(ch "s", 717)]));
  (690, (Some anon_sym_rendering, []));
  (691, (None, [(ch "n", 718)]));
  (692, (None, [(ch "a", 719); (ch "e", 720)]));
  (693, (None, [(ch "e", 721)]));
  (694, (None, [(ch "f", 722)]));
  (695, (None, [(ch "n", 723)]));
  (696, (Some anon_sym_terminate, []));
  (697, (Some anon_sym_timeslice, []));
  (698, (None, [(ch "n", 724)]));
  (699, (Some anon_sym_variation, []));
  (700, (None, [(ch "i", 725)]));
  (701, (Some anon_sym_viewpoint, []));
  (702, (Some anon_sym_allocation, []));
  (703, (Some anon_sym_classifier, []));
  (704, (Some anon_sym_conjugates, []));
  (705, (None, [(ch "n", 726)]));
  (706, (Some anon_sym_connection, []));
  (707, (Some anon_sym_constraint, []));
  (708, (Some anon_sym_dependency, []));
  (709, (None, [(ch "s", 727)]));
  (710, (Some anon_sym_disjoining, []));
  (711, (Some anon_sym_individual, []));
  (712, (None, [(ch "n", 728)]));
  (713, (Some anon_sym_intersects, []));
  (714, (None, [(ch "t", 729)]));
  (715, (Some anon_sym_occurrence, []));
  (716, (None, [(ch "o", 730)]));
  (717, (Some anon_sym_references, []));
  (718, (None, [(ch "t", 731)]));
  (719, (None, [(ch "t", 732)]));
  (720, (None, [(ch "s", 733)]));
  (721, (None, [(ch "r", 734)]));
  (722, (None, [(ch "i", 735)]));
  (723, (Some anon_sym_succession, []));
  (724, (Some anon_sym_transition, []));
  (725, (None, [(ch "o", 736)]));
  (726, (Some anon_sym_conjugation, []));
  (727, (Some anon_sym_differences, []));
  (728, (Some anon_sym_interaction, []));
  (729, (None, [(ch "y", 737)]));
  (730, (None, [(ch "n", 738)]));
  (731, (Some anon_sym_requirement, []));
  (732, (None, [(ch "i", 739)]));
  (733, (Some anon_sym_specializes, []));
  (734, (Some anon_sym_stakeholder, []));
  (735, (None, [(ch "e", 740)]));
  (736, (None, [(ch "n", 741)]));
  (737, (Some anon_sym_multiplicity, []));
  (738, (Some anon_sym_redefinition, []));
  (739, (None, [(ch "o", 742)]));
  (740, (None, [(ch "r", 743)]));
  (741, (Some anon_sym_verification, []));
  (742, (None, [(ch "n", 744)]));
  (743, (Some anon_sym_subclassifier, []));
  (744, (Some anon_sym_specialization, []))
].

(** The [ADVANCE_MAP] of case 0 of [ts_lex_keywords]. *)
Definition ts_lex_keywords_start : list (Z * TSStateId) :=
  [(ch "a", 1); (ch "b", 2); (ch "c", 3); (ch "d", 4); (ch "e", 5); (ch "f", 6); (ch "h", 7); (ch "i", 8); (ch "j", 9); (ch "l", 10); (ch "m", 11); (ch "n", 12); (ch "o", 13); (ch "p", 14); (ch "r", 15); (ch "s", 16); (ch "t", 17); (ch "u", 18); (ch "v", 19); (ch "w", 20); (ch "x", 21)].

Definition ts_lex_keywords : LexFn := fun state eof lookahead =>
  if state =? 0 then Some (None,
      ADVANCE_MAP ts_lex_keywords_start lookahead (
      if ((9 <=? lookahead) && (lookahead <=? 13)) || (lookahead =? ch " ") then SKIP 0 else
      END_STATE))
  else
    match assoc_Z state ts_lex_keywords_cases with
    | Some (accept, map) => Some (accept, ADVANCE_MAP map lookahead END_STATE)
    | None => None
    end.

(** [ts_lex_modes]: parse state, then its [.lex_state]. *)
Definition ts_lex_modes : list (TSStateId * TSStateId) := [
  (0, 0); (1, 12); (2, 12); (3, 12); (4, 12); (5, 12);
  (6, 12); (7, 12); (8, 12); (9, 12); (10, 13); (11, 13);
  (12, 13); (13, 12); (14, 12); (15, 12); (16, 12); (17, 12);
  (18, 12); (19, 13); (20, 12); (21, 12); (22, 12); (23, 12);
  (24, 12); (25, 12); (26, 12); (27, 12); (28, 12); (29, 12);
  (30, 12); (31, 12); (32, 12); (33, 12); (34, 12); (35, 12);
  (36, 12); (37, 12); (38, 12); (39, 12); (40, 12); (41, 12);
  (42, 12); (43, 12); (44, 12); (45, 12); (46, 12); (47, 12);
  (48, 12); (49, 12); (50, 12); (51, 12); (52, 12); (53, 12);
  (54, 12); (55, 12); (56, 12); (57, 5); (58, 12); (59, 12);
  (60, 12); (61, 12); (62, 12); (63, 12); (64, 12)
].

Definition ts_parse_table : list (TSStateId * list (TSSymbol * Z)) := [
  (0, [
    (ts_builtin_sym_end, ACTIONS 1);
    (sym_identifier, ACTIONS 1);
    (anon_sym_LBRACE, ACTIONS 1);
    (anon_sym_RBRACE, ACTIONS 1);
    (anon_sym_package, ACTIONS 1);
    (anon_sym_import, ACTIONS 1);
    (anon_sym_SEMI, ACTIONS 1);
    (anon_sym_part, ACTIONS 1);
    (anon_sym_def, ACTIONS 1);
    (anon_sym_attribute, ACTIONS 1);
    (anon_sym_action, ACTIONS 1);
    (anon_sym_state, ACTIONS 1);
    (anon_sym_interface, ACTIONS 1);
    (anon_sym_port, ACTIONS 1);
    (anon_sym_requirement, ACTIONS 1);
    (anon_sym_constraint, ACTIONS 1);
    (anon_sym_enum, ACTIONS 1);
    (anon_sym_type, ACTIONS 1);
    (anon_sym_COLON, ACTIONS 1);
    (anon_sym_COLON_COLON, ACTIONS 1);
    (sym_string, ACTIONS 1);
    (sym_number, ACTIONS 1);
    (anon_sym_true, ACTIONS 1);
    (anon_sym_false, ACTIONS 1);
    (anon_sym_null, ACTIONS 1);
    (anon_sym_about, ACTIONS 1);
    (anon_sym_abstract, ACTIONS 1);
    (anon_sym_accept, ACTIONS 1);
    (anon_sym_actor, ACTIONS 1);
    (anon_sym_after, ACTIONS 1);
    (anon_sym_alias, ACTIONS 1);
    (anon_sym_all, ACTIONS 1);
    (anon_sym_allocate, ACTIONS 1);
    (anon_sym_allocation, ACTIONS 1);
    (anon_sym_analysis, ACTIONS 1);
    (anon_sym_and, ACTIONS 1);
    (anon_sym_as, ACTIONS 1);
    (anon_sym_assert, ACTIONS 1);
    (anon_sym_assign, ACTIONS 1);
    (anon_sym_assoc, ACTIONS 1);
    (anon_sym_assume, ACTIONS 1);
    (anon_sym_at, ACTIONS 1);
    (anon_sym_behavior, ACTIONS 1);
    (anon_sym_bind, ACTIONS 1);
    (anon_sym_binding, ACTIONS 1);
    (anon_sym_bool, ACTIONS 1);
    (anon_sym_by, ACTIONS 1);
    (anon_sym_calc, ACTIONS 1);
    (anon_sym_case, ACTIONS 1);
    (anon_sym_chains, ACTIONS 1);
    (anon_sym_class, ACTIONS 1);
    (anon_sym_classifier, ACTIONS 1);
    (anon_sym_comment, ACTIONS 1);
    (anon_sym_composite, ACTIONS 1);
    (anon_sym_concern, ACTIONS 1);
    (anon_sym_conjugate, ACTIONS 1);
    (anon_sym_conjugates, ACTIONS 1);
    (anon_sym_conjugation, ACTIONS 1);
    (anon_sym_connect, ACTIONS 1);
    (anon_sym_connection, ACTIONS 1);
    (anon_sym_connector, ACTIONS 1);
    (anon_sym_const, ACTIONS 1);
    (anon_sym_constant, ACTIONS 1);
    (anon_sym_crosses, ACTIONS 1);
    (anon_sym_datatype, ACTIONS 1);
    (anon_sym_decide, ACTIONS 1);
    (anon_sym_default, ACTIONS 1);
    (anon_sym_defined, ACTIONS 1);
    (anon_sym_dependency, ACTIONS 1);
    (anon_sym_derived, ACTIONS 1);
    (anon_sym_differences, ACTIONS 1);
    (anon_sym_disjoining, ACTIONS 1);
    (anon_sym_disjoint, ACTIONS 1);
    (anon_sym_do, ACTIONS 1);
    (anon_sym_doc, ACTIONS 1);
    (anon_sym_else, ACTIONS 1);
    (anon_sym_end, ACTIONS 1);
    (anon_sym_entry, ACTIONS 1);
    (anon_sym_event, ACTIONS 1);
    (anon_sym_exhibit, ACTIONS 1);
    (anon_sym_exit, ACTIONS 1);
    (anon_sym_expose, ACTIONS 1);
    (anon_sym_expr, ACTIONS 1);
    (anon_sym_feature, ACTIONS 1);
    (anon_sym_featured, ACTIONS 1);
    (anon_sym_featuring, ACTIONS 1);
    (anon_sym_filter, ACTIONS 1);
    (anon_sym_first, ACTIONS 1);
    (anon_sym_flow, ACTIONS 1);
    (anon_sym_for, ACTIONS 1);
    (anon_sym_fork, ACTIONS 1);
    (anon_sym_frame, ACTIONS 1);
    (anon_sym_from, ACTIONS 1);
    (anon_sym_function, ACTIONS 1);
    (anon_sym_hastype, ACTIONS 1);
    (anon_sym_if, ACTIONS 1);
    (anon_sym_implies, ACTIONS 1);
    (anon_sym_in, ACTIONS 1);
    (anon_sym_include, ACTIONS 1);
    (anon_sym_individual, ACTIONS 1);
    (anon_sym_inout, ACTIONS 1);
    (anon_sym_interaction, ACTIONS 1);
    (anon_sym_intersects, ACTIONS 1);
    (anon_sym_inv, ACTIONS 1);
    (anon_sym_inverse, ACTIONS 1);
    (anon_sym_inverting, ACTIONS 1);
    (anon_sym_istype, ACTIONS 1);
    (anon_sym_item, ACTIONS 1);
    (anon_sym_join, ACTIONS 1);
    (anon_sym_language, ACTIONS 1);
    (anon_sym_library, ACTIONS 1);
    (anon_sym_locale, ACTIONS 1);
    (anon_sym_loop, ACTIONS 1);
    (anon_sym_member, ACTIONS 1);
    (anon_sym_merge, ACTIONS 1);
    (anon_sym_message, ACTIONS 1);
    (anon_sym_meta, ACTIONS 1);
    (anon_sym_metaclass, ACTIONS 1);
    (anon_sym_metadata, ACTIONS 1);
    (anon_sym_multiplicity, ACTIONS 1);
    (anon_sym_namespace, ACTIONS 1);
    (anon_sym_new, ACTIONS 1);
    (anon_sym_nonunique, ACTIONS 1);
    (anon_sym_not, ACTIONS 1);
    (anon_sym_objective, ACTIONS 1);
    (anon_sym_occurrence, ACTIONS 1);
    (anon_sym_of, ACTIONS 1);
    (anon_sym_or, ACTIONS 1);
    (anon_sym_ordered, ACTIONS 1);
    (anon_sym_out, ACTIONS 1);
    (anon_sym_parallel, ACTIONS 1);
    (anon_sym_perform, ACTIONS 1);
    (anon_sym_portion, ACTIONS 1);
    (anon_sym_predicate, ACTIONS 1);
    (anon_sym_private, ACTIONS 1);
    (anon_sym_protected, ACTIONS 1);
    (anon_sym_public, ACTIONS 1);
    (anon_sym_readonly, ACTIONS 1);
    (anon_sym_redefines, ACTIONS 1);
    (anon_sym_redefinition, ACTIONS 1);
    (anon_sym_ref, ACTIONS 1);
    (anon_sym_references, ACTIONS 1);
    (anon_sym_render, ACTIONS 1);
    (anon_sym_rendering, ACTIONS 1);
    (anon_sym_rep, ACTIONS 1);
    (anon_sym_require, ACTIONS 1);
    (anon_sym_return, ACTIONS 1);
    (anon_sym_satisfy, ACTIONS 1);
    (anon_sym_send, ACTIONS 1);
    (anon_sym_snapshot, ACTIONS 1);
    (anon_sym_specialization, ACTIONS 1);
    (anon_sym_specializes, ACTIONS 1);
    (anon_sym_stakeholder, ACTIONS 1);
    (anon_sym_standard, ACTIONS 1);
    (anon_sym_step, ACTIONS 1);
    (anon_sym_struct, ACTIONS 1);
    (anon_sym_subclassifier, ACTIONS 1);
    (anon_sym_subject, ACTIONS 1);
    (anon_sym_subset, ACTIONS 1);
    (anon_sym_subsets, ACTIONS 1);
    (anon_sym_subtype, ACTIONS 1);
    (anon_sym_succession, ACTIONS 1);
    (anon_sym_terminate, ACTIONS 1);
    (anon_sym_then, ACTIONS 1);
    (anon_sym_timeslice, ACTIONS 1);
    (anon_sym_to, ACTIONS 1);
    (anon_sym_transition, ACTIONS 1);
    (anon_sym_typed, ACTIONS 1);
    (anon_sym_typing, ACTIONS 1);
    (anon_sym_unions, ACTIONS 1);
    (anon_sym_until, ACTIONS 1);
    (anon_sym_use, ACTIONS 1);
    (anon_sym_var, ACTIONS 1);
    (anon_sym_variant, ACTIONS 1);
    (anon_sym_variation, ACTIONS 1);
    (anon_sym_verification, ACTIONS 1);
    (anon_sym_verify, ACTIONS 1);
    (anon_sym_via, ACTIONS 1);
    (anon_sym_view, ACTIONS 1);
    (anon_sym_viewpoint, ACTIONS 1);
    (anon_sym_when, ACTIONS 1);
    (anon_sym_while, ACTIONS 1);
    (anon_sym_xor, ACTIONS 1);
    (anon_sym_EQ_EQ_EQ, ACTIONS 1);
    (anon_sym_BANG_EQ_EQ, ACTIONS 1);
    (anon_sym_QMARK_QMARK, ACTIONS 1);
    (anon_sym_EQ_EQ, ACTIONS 1);
    (anon_sym_BANG_EQ, ACTIONS 1);
    (anon_sym_AT_AT, ACTIONS 1);
    (anon_sym_LT_EQ, ACTIONS 1);
    (anon_sym_GT_EQ, ACTIONS 1);
    (anon_sym_STAR_STAR, ACTIONS 1);
    (anon_sym_PIPE, ACTIONS 1);
    (anon_sym_AMP, ACTIONS 1);
    (anon_sym_AT, ACTIONS 1);
    (anon_sym_LT, ACTIONS 1);
    (anon_sym_GT, ACTIONS 1);
    (anon_sym_PLUS, ACTIONS 1);
    (anon_sym_DASH, ACTIONS 1);
    (anon_sym_STAR, ACTIONS 1);
    (anon_sym_SLASH, ACTIONS 1);
    (anon_sym_PERCENT, ACTIONS 1);
    (anon_sym_CARET, ACTIONS 1);
    (anon_sym_TILDE, ACTIONS 1);
    (sym_comment, ACTIONS 3)]);
  (1, [
    (sym_source_file, STATE 62);
    (sym__statement, STATE 4);
    (sym_package_decl, STATE 4);
    (sym_import_decl, STATE 4);
    (sym_part_def, STATE 4);
    (sym_part_usage, STATE 4);
    (sym_attribute_def, STATE 4);
    (sym_attribute_usage, STATE 4);
    (sym_definition, STATE 4);
    (sym_usage, STATE 4);
    (aux_sym_source_file_repeat1, STATE 4);
    (ts_builtin_sym_end, ACTIONS 5);
    (anon_sym_package, ACTIONS 7);
    (anon_sym_import, ACTIONS 9);
    (anon_sym_part, ACTIONS 11);
    (anon_sym_attribute, ACTIONS 13);
    (anon_sym_action, ACTIONS 15);
    (anon_sym_state, ACTIONS 15);
    (anon_sym_interface, ACTIONS 15);
    (anon_sym_port, ACTIONS 15);
    (anon_sym_requirement, ACTIONS 15);
    (anon_sym_constraint, ACTIONS 15);
    (anon_sym_enum, ACTIONS 15);
    (anon_sym_type, ACTIONS 15);
    (sym_comment, ACTIONS 3)])
].

Definition ts_small_parse_table : list Z := [
  (* [0] *) 8;
    ACTIONS 3; 1;
      sym_comment;
    ACTIONS 19; 1;
      anon_sym_package;
    ACTIONS 22; 1;
      anon_sym_import;
    ACTIONS 25; 1;
      anon_sym_part;
    ACTIONS 28; 1;
      anon_sym_attribute;
    ACTIONS 17; 2;
      ts_builtin_sym_end;
      anon_sym_RBRACE;
    ACTIONS 31; 8;
      anon_sym_action;
      anon_sym_state;
      anon_sym_interface;
      anon_sym_port;
      anon_sym_requirement;
      anon_sym_constraint;
      anon_sym_enum;
      anon_sym_type;
    STATE 2; 10;
      sym__statement;
      sym_package_decl;
      sym_import_decl;
      sym_part_def;
      sym_part_usage;
      sym_attribute_def;
      sym_attribute_usage;
      sym_definition;
      sym_usage;
      aux_sym_source_file_repeat1;
  (* [42] *) 8;
    ACTIONS 3; 1;
      sym_comment;
    ACTIONS 7; 1;
      anon_sym_package;
    ACTIONS 9; 1;
      anon_sym_import;
    ACTIONS 11; 1;
      anon_sym_part;
    ACTIONS 13; 1;
      anon_sym_attribute;
    ACTIONS 34; 1;
      anon_sym_RBRACE;
    ACTIONS 15; 8;
      anon_sym_action;
      anon_sym_state;
      anon_sym_interface;
      anon_sym_port;
      anon_sym_requirement;
      anon_sym_constraint;
      anon_sym_enum;
      anon_sym_type;
    STATE 5; 10;
      sym__statement;
      sym_package_decl;
      sym_import_decl;
      sym_part_def;
      sym_part_usage;
      sym_attribute_def;
      sym_attribute_usage;
      sym_definition;
      sym_usage;
      aux_sym_source_file_repeat1;
  (* [83] *) 8;
    ACTIONS 3; 1;
      sym_comment;
    ACTIONS 7; 1;
      anon_sym_package;
    ACTIONS 9; 1;
      anon_sym_import;
    ACTIONS 11; 1;
      anon_sym_part;
    ACTIONS 13; 1;
      anon_sym_attribute;
    ACTIONS 36; 1;
      ts_builtin_sym_end;
    ACTIONS 15; 8;
      anon_sym_action;
      anon_sym_state;
      anon_sym_interface;
      anon_sym_port;
      anon_sym_requirement;
      anon_sym_constraint;
      anon_sym_enum;
      anon_sym_type;
    STATE 2; 10;
      sym__statement;
      sym_package_decl;
      sym_import_decl;
      sym_part_def;
      sym_part_usage;
      sym_attribute_def;
      sym_attribute_usage;
      sym_definition;
      sym_usage;
      aux_sym_source_file_repeat1;
  (* [124] *) 8;
    ACTIONS 3; 1;
      sym_comment;
    ACTIONS 7; 1;
      anon_sym_package;
    ACTIONS 9; 1;
      anon_sym_import;
    ACTIONS 11; 1;
      anon_sym_part;
    ACTIONS 13; 1;
      anon_sym_attribute;
    ACTIONS 38; 1;
      anon_sym_RBRACE;
    ACTIONS 15; 8;
      anon_sym_action;
      anon_sym_state;
      anon_sym_interface;
      anon_sym_port;
      anon_sym_requirement;
      anon_sym_constraint;
      anon_sym_enum;
      anon_sym_type;
    STATE 2; 10;
      sym__statement;
      sym_package_decl;
      sym_import_decl;
      sym_part_def;
      sym_part_usage;
      sym_attribute_def;
      sym_attribute_usage;
      sym_definition;
      sym_usage;
      aux_sym_source_file_repeat1;
  (* [165] *) 7;
    ACTIONS 3; 1;
      sym_comment;
    ACTIONS 42; 1;
      anon_sym_LBRACE;
    ACTIONS 44; 1;
      anon_sym_SEMI;
    ACTIONS 46; 1;
      anon_sym_COLON;
    STATE 14; 1;
      sym_typing;
    STATE 33; 1;
      sym_block;
    ACTIONS 40; 14;
      ts_builtin_sym_end;
      anon_sym_RBRACE;
      anon_sym_package;
      anon_sym_import;
      anon_sym_part;
      anon_sym_attribute;
      anon_sym_action;
      anon_sym_state;
      anon_sym_interface;
      anon_sym_port;
      anon_sym_requirement;
      anon_sym_constraint;
      anon_sym_enum;
      anon_sym_type;
  (* [200] *) 7;
    ACTIONS 3; 1;
      sym_comment;
    ACTIONS 42; 1;
      anon_sym_LBRACE;
    ACTIONS 46; 1;
      anon_sym_COLON;
    ACTIONS 50; 1;
      anon_sym_SEMI;
    STATE 16; 1;
      sym_typing;
    STATE 26; 1;
      sym_block;
    ACTIONS 48; 14;
      ts_builtin_sym_end;
      anon_sym_RBRACE;
      anon_sym_package;
      anon_sym_import;
      anon_sym_part;
      anon_sym_attribute;
      anon_sym_action;
      anon_sym_state;
      anon_sym_interface;
      anon_sym_port;
      anon_sym_requirement;
      anon_sym_constraint;
      anon_sym_enum;
      anon_sym_type;
  (* [235] *) 7;
    ACTIONS 3; 1;
      sym_comment;
    ACTIONS 42; 1;
      anon_sym_LBRACE;
    ACTIONS 46; 1;
      anon_sym_COLON;
    ACTIONS 54; 1;
      anon_sym_SEMI;
    STATE 17; 1;
      sym_typing;
    STATE 28; 1;
      sym_block;
    ACTIONS 52; 14;
      ts_builtin_sym_end;
      anon_sym_RBRACE;
      anon_sym_package;
      anon_sym_import;
      anon_sym_part;
      anon_sym_attribute;
      anon_sym_action;
      anon_sym_state;
      anon_sym_interface;
      anon_sym_port;
      anon_sym_requirement;
      anon_sym_constraint;
      anon_sym_enum;
      anon_sym_type;
  (* [270] *) 7;
    ACTIONS 3; 1;
      sym_comment;
    ACTIONS 42; 1;
      anon_sym_LBRACE;
    ACTIONS 46; 1;
      anon_sym_COLON;
    ACTIONS 58; 1;
      anon_sym_SEMI;
    STATE 18; 1;
      sym_typing;
    STATE 25; 1;
      sym_block;
    ACTIONS 56; 14;
      ts_builtin_sym_end;
      anon_sym_RBRACE;
      anon_sym_package;
      anon_sym_import;
      anon_sym_part;
      anon_sym_attribute;
      anon_sym_action;
      anon_sym_state;
      anon_sym_interface;
      anon_sym_port;
      anon_sym_requirement;
      anon_sym_constraint;
      anon_sym_enum;
      anon_sym_type;
  (* [305] *) 4;
    ACTIONS 3; 1;
      sym_comment;
    ACTIONS 62; 1;
      anon_sym_COLON_COLON;
    STATE 12; 1;
      aux_sym_qualified_name_repeat1;
    ACTIONS 60; 16;
      ts_builtin_sym_end;
      anon_sym_LBRACE;
      anon_sym_RBRACE;
      anon_sym_package;
      anon_sym_import;
      anon_sym_SEMI;
      anon_sym_part;
      anon_sym_attribute;
      anon_sym_action;
      anon_sym_state;
      anon_sym_interface;
      anon_sym_port;
      anon_sym_requirement;
      anon_sym_constraint;
      anon_sym_enum;
      anon_sym_type;
  (* [333] *) 4;
    ACTIONS 3; 1;
      sym_comment;
    ACTIONS 62; 1;
      anon_sym_COLON_COLON;
    STATE 10; 1;
      aux_sym_qualified_name_repeat1;
    ACTIONS 64; 16;
      ts_builtin_sym_end;
      anon_sym_LBRACE;
      anon_sym_RBRACE;
      anon_sym_package;
      anon_sym_import;
      anon_sym_SEMI;
      anon_sym_part;
      anon_sym_attribute;
      anon_sym_action;
      anon_sym_state;
      anon_sym_interface;
      anon_sym_port;
      anon_sym_requirement;
      anon_sym_constraint;
      anon_sym_enum;
      anon_sym_type;
  (* [361] *) 4;
    ACTIONS 3; 1;
      sym_comment;
    ACTIONS 68; 1;
      anon_sym_COLON_COLON;
    STATE 12; 1;
      aux_sym_qualified_name_repeat1;
    ACTIONS 66; 16;
      ts_builtin_sym_end;
      anon_sym_LBRACE;
      anon_sym_RBRACE;
      anon_sym_package;
      anon_sym_import;
      anon_sym_SEMI;
      anon_sym_part;
      anon_sym_attribute;
      anon_sym_action;
      anon_sym_state;
      anon_sym_interface;
      anon_sym_port;
      anon_sym_requirement;
      anon_sym_constraint;
      anon_sym_enum;
      anon_sym_type;
  (* [389] *) 5;
    ACTIONS 3; 1;
      sym_comment;
    ACTIONS 46; 1;
      anon_sym_COLON;
    ACTIONS 73; 1;
      anon_sym_SEMI;
    STATE 30; 1;
      sym_typing;
    ACTIONS 71; 14;
      ts_builtin_sym_end;
      anon_sym_RBRACE;
      anon_sym_package;
      anon_sym_import;
      anon_sym_part;
      anon_sym_attribute;
      anon_sym_action;
      anon_sym_state;
      anon_sym_interface;
      anon_sym_port;
      anon_sym_requirement;
      anon_sym_constraint;
      anon_sym_enum;
      anon_sym_type;
  (* [418] *) 5;
    ACTIONS 3; 1;
      sym_comment;
    ACTIONS 42; 1;
      anon_sym_LBRACE;
    ACTIONS 77; 1;
      anon_sym_SEMI;
    STATE 34; 1;
      sym_block;
    ACTIONS 75; 14;
      ts_builtin_sym_end;
      anon_sym_RBRACE;
      anon_sym_package;
      anon_sym_import;
      anon_sym_part;
      anon_sym_attribute;
      anon_sym_action;
      anon_sym_state;
      anon_sym_interface;
      anon_sym_port;
      anon_sym_requirement;
      anon_sym_constraint;
      anon_sym_enum;
      anon_sym_type;
  (* [447] *) 5;
    ACTIONS 3; 1;
      sym_comment;
    ACTIONS 46; 1;
      anon_sym_COLON;
    ACTIONS 81; 1;
      anon_sym_SEMI;
    STATE 24; 1;
      sym_typing;
    ACTIONS 79; 14;
      ts_builtin_sym_end;
      anon_sym_RBRACE;
      anon_sym_package;
      anon_sym_import;
      anon_sym_part;
      anon_sym_attribute;
      anon_sym_action;
      anon_sym_state;
      anon_sym_interface;
      anon_sym_port;
      anon_sym_requirement;
      anon_sym_constraint;
      anon_sym_enum;
      anon_sym_type;
  (* [476] *) 5;
    ACTIONS 3; 1;
      sym_comment;
    ACTIONS 42; 1;
      anon_sym_LBRACE;
    ACTIONS 85; 1;
      anon_sym_SEMI;
    STATE 29; 1;
      sym_block;
    ACTIONS 83; 14;
      ts_builtin_sym_end;
      anon_sym_RBRACE;
      anon_sym_package;
      anon_sym_import;
      anon_sym_part;
      anon_sym_attribute;
      anon_sym_action;
      anon_sym_state;
      anon_sym_interface;
      anon_sym_port;
      anon_sym_requirement;
      anon_sym_constraint;
      anon_sym_enum;
      anon_sym_type;
  (* [505] *) 5;
    ACTIONS 3; 1;
      sym_comment;
    ACTIONS 42; 1;
      anon_sym_LBRACE;
    ACTIONS 89; 1;
      anon_sym_SEMI;
    STATE 27; 1;
      sym_block;
    ACTIONS 87; 14;
      ts_builtin_sym_end;
      anon_sym_RBRACE;
      anon_sym_package;
      anon_sym_import;
      anon_sym_part;
      anon_sym_attribute;
      anon_sym_action;
      anon_sym_state;
      anon_sym_interface;
      anon_sym_port;
      anon_sym_requirement;
      anon_sym_constraint;
      anon_sym_enum;
      anon_sym_type;
  (* [534] *) 5;
    ACTIONS 3; 1;
      sym_comment;
    ACTIONS 42; 1;
      anon_sym_LBRACE;
    ACTIONS 93; 1;
      anon_sym_SEMI;
    STATE 31; 1;
      sym_block;
    ACTIONS 91; 14;
      ts_builtin_sym_end;
      anon_sym_RBRACE;
      anon_sym_package;
      anon_sym_import;
      anon_sym_part;
      anon_sym_attribute;
      anon_sym_action;
      anon_sym_state;
      anon_sym_interface;
      anon_sym_port;
      anon_sym_requirement;
      anon_sym_constraint;
      anon_sym_enum;
      anon_sym_type;
  (* [563] *) 2;
    ACTIONS 3; 1;
      sym_comment;
    ACTIONS 66; 17;
      ts_builtin_sym_end;
      anon_sym_LBRACE;
      anon_sym_RBRACE;
      anon_sym_package;
      anon_sym_import;
      anon_sym_SEMI;
      anon_sym_part;
      anon_sym_attribute;
      anon_sym_action;
      anon_sym_state;
      anon_sym_interface;
      anon_sym_port;
      anon_sym_requirement;
      anon_sym_constraint;
      anon_sym_enum;
      anon_sym_type;
      anon_sym_COLON_COLON;
  (* [586] *) 4;
    ACTIONS 3; 1;
      sym_comment;
    ACTIONS 42; 1;
      anon_sym_LBRACE;
    STATE 36; 1;
      sym_block;
    ACTIONS 95; 14;
      ts_builtin_sym_end;
      anon_sym_RBRACE;
      anon_sym_package;
      anon_sym_import;
      anon_sym_part;
      anon_sym_attribute;
      anon_sym_action;
      anon_sym_state;
      anon_sym_interface;
      anon_sym_port;
      anon_sym_requirement;
      anon_sym_constraint;
      anon_sym_enum;
      anon_sym_type;
  (* [612] *) 2;
    ACTIONS 3; 1;
      sym_comment;
    ACTIONS 64; 16;
      ts_builtin_sym_end;
      anon_sym_LBRACE;
      anon_sym_RBRACE;
      anon_sym_package;
      anon_sym_import;
      anon_sym_SEMI;
      anon_sym_part;
      anon_sym_attribute;
      anon_sym_action;
      anon_sym_state;
      anon_sym_interface;
      anon_sym_port;
      anon_sym_requirement;
      anon_sym_constraint;
      anon_sym_enum;
      anon_sym_type;
  (* [634] *) 2;
    ACTIONS 3; 1;
      sym_comment;
    ACTIONS 97; 16;
      ts_builtin_sym_end;
      anon_sym_LBRACE;
      anon_sym_RBRACE;
      anon_sym_package;
      anon_sym_import;
      anon_sym_SEMI;
      anon_sym_part;
      anon_sym_attribute;
      anon_sym_action;
      anon_sym_state;
      anon_sym_interface;
      anon_sym_port;
      anon_sym_requirement;
      anon_sym_constraint;
      anon_sym_enum;
      anon_sym_type;
  (* [656] *) 2;
    ACTIONS 3; 1;
      sym_comment;
    ACTIONS 99; 15;
      ts_builtin_sym_end;
      anon_sym_RBRACE;
      anon_sym_package;
      anon_sym_import;
      anon_sym_SEMI;
      anon_sym_part;
      anon_sym_attribute;
      anon_sym_action;
      anon_sym_state;
      anon_sym_interface;
      anon_sym_port;
      anon_sym_requirement;
      anon_sym_constraint;
      anon_sym_enum;
      anon_sym_type;
  (* [677] *) 3;
    ACTIONS 3; 1;
      sym_comment;
    ACTIONS 103; 1;
      anon_sym_SEMI;
    ACTIONS 101; 14;
      ts_builtin_sym_end;
      anon_sym_RBRACE;
      anon_sym_package;
      anon_sym_import;
      anon_sym_part;
      anon_sym_attribute;
      anon_sym_action;
      anon_sym_state;
      anon_sym_interface;
      anon_sym_port;
      anon_sym_requirement;
      anon_sym_constraint;
      anon_sym_enum;
      anon_sym_type;
  (* [700] *) 3;
    ACTIONS 3; 1;
      sym_comment;
    ACTIONS 93; 1;
      anon_sym_SEMI;
    ACTIONS 91; 14;
      ts_builtin_sym_end;
      anon_sym_RBRACE;
      anon_sym_package;
      anon_sym_import;
      anon_sym_part;
      anon_sym_attribute;
      anon_sym_action;
      anon_sym_state;
      anon_sym_interface;
      anon_sym_port;
      anon_sym_requirement;
      anon_sym_constraint;
      anon_sym_enum;
      anon_sym_type;
  (* [723] *) 3;
    ACTIONS 3; 1;
      sym_comment;
    ACTIONS 85; 1;
      anon_sym_SEMI;
    ACTIONS 83; 14;
      ts_builtin_sym_end;
      anon_sym_RBRACE;
      anon_sym_package;
      anon_sym_import;
      anon_sym_part;
      anon_sym_attribute;
      anon_sym_action;
      anon_sym_state;
      anon_sym_interface;
      anon_sym_port;
      anon_sym_requirement;
      anon_sym_constraint;
      anon_sym_enum;
      anon_sym_type;
  (* [746] *) 3;
    ACTIONS 3; 1;
      sym_comment;
    ACTIONS 107; 1;
      anon_sym_SEMI;
    ACTIONS 105; 14;
      ts_builtin_sym_end;
      anon_sym_RBRACE;
      anon_sym_package;
      anon_sym_import;
      anon_sym_part;
      anon_sym_attribute;
      anon_sym_action;
      anon_sym_state;
      anon_sym_interface;
      anon_sym_port;
      anon_sym_requirement;
      anon_sym_constraint;
      anon_sym_enum;
      anon_sym_type;
  (* [769] *) 3;
    ACTIONS 3; 1;
      sym_comment;
    ACTIONS 89; 1;
      anon_sym_SEMI;
    ACTIONS 87; 14;
      ts_builtin_sym_end;
      anon_sym_RBRACE;
      anon_sym_package;
      anon_sym_import;
      anon_sym_part;
      anon_sym_attribute;
      anon_sym_action;
      anon_sym_state;
      anon_sym_interface;
      anon_sym_port;
      anon_sym_requirement;
      anon_sym_constraint;
      anon_sym_enum;
      anon_sym_type;
  (* [792] *) 3;
    ACTIONS 3; 1;
      sym_comment;
    ACTIONS 111; 1;
      anon_sym_SEMI;
    ACTIONS 109; 14;
      ts_builtin_sym_end;
      anon_sym_RBRACE;
      anon_sym_package;
      anon_sym_import;
      anon_sym_part;
      anon_sym_attribute;
      anon_sym_action;
      anon_sym_state;
      anon_sym_interface;
      anon_sym_port;
      anon_sym_requirement;
      anon_sym_constraint;
      anon_sym_enum;
      anon_sym_type;
  (* [815] *) 3;
    ACTIONS 3; 1;
      sym_comment;
    ACTIONS 115; 1;
      anon_sym_SEMI;
    ACTIONS 113; 14;
      ts_builtin_sym_end;
      anon_sym_RBRACE;
      anon_sym_package;
      anon_sym_import;
      anon_sym_part;
      anon_sym_attribute;
      anon_sym_action;
      anon_sym_state;
      anon_sym_interface;
      anon_sym_port;
      anon_sym_requirement;
      anon_sym_constraint;
      anon_sym_enum;
      anon_sym_type;
  (* [838] *) 3;
    ACTIONS 3; 1;
      sym_comment;
    ACTIONS 119; 1;
      anon_sym_SEMI;
    ACTIONS 117; 14;
      ts_builtin_sym_end;
      anon_sym_RBRACE;
      anon_sym_package;
      anon_sym_import;
      anon_sym_part;
      anon_sym_attribute;
      anon_sym_action;
      anon_sym_state;
      anon_sym_interface;
      anon_sym_port;
      anon_sym_requirement;
      anon_sym_constraint;
      anon_sym_enum;
      anon_sym_type;
  (* [861] *) 2;
    ACTIONS 3; 1;
      sym_comment;
    ACTIONS 121; 15;
      ts_builtin_sym_end;
      anon_sym_RBRACE;
      anon_sym_package;
      anon_sym_import;
      anon_sym_SEMI;
      anon_sym_part;
      anon_sym_attribute;
      anon_sym_action;
      anon_sym_state;
      anon_sym_interface;
      anon_sym_port;
      anon_sym_requirement;
      anon_sym_constraint;
      anon_sym_enum;
      anon_sym_type;
  (* [882] *) 3;
    ACTIONS 3; 1;
      sym_comment;
    ACTIONS 77; 1;
      anon_sym_SEMI;
    ACTIONS 75; 14;
      ts_builtin_sym_end;
      anon_sym_RBRACE;
      anon_sym_package;
      anon_sym_import;
      anon_sym_part;
      anon_sym_attribute;
      anon_sym_action;
      anon_sym_state;
      anon_sym_interface;
      anon_sym_port;
      anon_sym_requirement;
      anon_sym_constraint;
      anon_sym_enum;
      anon_sym_type;
  (* [905] *) 3;
    ACTIONS 3; 1;
      sym_comment;
    ACTIONS 125; 1;
      anon_sym_SEMI;
    ACTIONS 123; 14;
      ts_builtin_sym_end;
      anon_sym_RBRACE;
      anon_sym_package;
      anon_sym_import;
      anon_sym_part;
      anon_sym_attribute;
      anon_sym_action;
      anon_sym_state;
      anon_sym_interface;
      anon_sym_port;
      anon_sym_requirement;
      anon_sym_constraint;
      anon_sym_enum;
      anon_sym_type;
  (* [928] *) 2;
    ACTIONS 3; 1;
      sym_comment;
    ACTIONS 127; 14;
      ts_builtin_sym_end;
      anon_sym_RBRACE;
      anon_sym_package;
      anon_sym_import;
      anon_sym_part;
      anon_sym_attribute;
      anon_sym_action;
      anon_sym_state;
      anon_sym_interface;
      anon_sym_port;
      anon_sym_requirement;
      anon_sym_constraint;
      anon_sym_enum;
      anon_sym_type;
  (* [948] *) 2;
    ACTIONS 3; 1;
      sym_comment;
    ACTIONS 129; 14;
      ts_builtin_sym_end;
      anon_sym_RBRACE;
      anon_sym_package;
      anon_sym_import;
      anon_sym_part;
      anon_sym_attribute;
      anon_sym_action;
      anon_sym_state;
      anon_sym_interface;
      anon_sym_port;
      anon_sym_requirement;
      anon_sym_constraint;
      anon_sym_enum;
      anon_sym_type;
  (* [968] *) 2;
    ACTIONS 3; 1;
      sym_comment;
    ACTIONS 131; 14;
      ts_builtin_sym_end;
      anon_sym_RBRACE;
      anon_sym_package;
      anon_sym_import;
      anon_sym_part;
      anon_sym_attribute;
      anon_sym_action;
      anon_sym_state;
      anon_sym_interface;
      anon_sym_port;
      anon_sym_requirement;
      anon_sym_constraint;
      anon_sym_enum;
      anon_sym_type;
  (* [988] *) 2;
    ACTIONS 3; 1;
      sym_comment;
    ACTIONS 133; 14;
      ts_builtin_sym_end;
      anon_sym_RBRACE;
      anon_sym_package;
      anon_sym_import;
      anon_sym_part;
      anon_sym_attribute;
      anon_sym_action;
      anon_sym_state;
      anon_sym_interface;
      anon_sym_port;
      anon_sym_requirement;
      anon_sym_constraint;
      anon_sym_enum;
      anon_sym_type;
  (* [1008] *) 2;
    ACTIONS 3; 1;
      sym_comment;
    ACTIONS 75; 14;
      ts_builtin_sym_end;
      anon_sym_RBRACE;
      anon_sym_package;
      anon_sym_import;
      anon_sym_part;
      anon_sym_attribute;
      anon_sym_action;
      anon_sym_state;
      anon_sym_interface;
      anon_sym_port;
      anon_sym_requirement;
      anon_sym_constraint;
      anon_sym_enum;
      anon_sym_type;
  (* [1028] *) 2;
    ACTIONS 3; 1;
      sym_comment;
    ACTIONS 101; 14;
      ts_builtin_sym_end;
      anon_sym_RBRACE;
      anon_sym_package;
      anon_sym_import;
      anon_sym_part;
      anon_sym_attribute;
      anon_sym_action;
      anon_sym_state;
      anon_sym_interface;
      anon_sym_port;
      anon_sym_requirement;
      anon_sym_constraint;
      anon_sym_enum;
      anon_sym_type;
  (* [1048] *) 2;
    ACTIONS 3; 1;
      sym_comment;
    ACTIONS 123; 14;
      ts_builtin_sym_end;
      anon_sym_RBRACE;
      anon_sym_package;
      anon_sym_import;
      anon_sym_part;
      anon_sym_attribute;
      anon_sym_action;
      anon_sym_state;
      anon_sym_interface;
      anon_sym_port;
      anon_sym_requirement;
      anon_sym_constraint;
      anon_sym_enum;
      anon_sym_type;
  (* [1068] *) 2;
    ACTIONS 3; 1;
      sym_comment;
    ACTIONS 113; 14;
      ts_builtin_sym_end;
      anon_sym_RBRACE;
      anon_sym_package;
      anon_sym_import;
      anon_sym_part;
      anon_sym_attribute;
      anon_sym_action;
      anon_sym_state;
      anon_sym_interface;
      anon_sym_port;
      anon_sym_requirement;
      anon_sym_constraint;
      anon_sym_enum;
      anon_sym_type;
  (* [1088] *) 2;
    ACTIONS 3; 1;
      sym_comment;
    ACTIONS 91; 14;
      ts_builtin_sym_end;
      anon_sym_RBRACE;
      anon_sym_package;
      anon_sym_import;
      anon_sym_part;
      anon_sym_attribute;
      anon_sym_action;
      anon_sym_state;
      anon_sym_interface;
      anon_sym_port;
      anon_sym_requirement;
      anon_sym_constraint;
      anon_sym_enum;
      anon_sym_type;
  (* [1108] *) 2;
    ACTIONS 3; 1;
      sym_comment;
    ACTIONS 105; 14;
      ts_builtin_sym_end;
      anon_sym_RBRACE;
      anon_sym_package;
      anon_sym_import;
      anon_sym_part;
      anon_sym_attribute;
      anon_sym_action;
      anon_sym_state;
      anon_sym_interface;
      anon_sym_port;
      anon_sym_requirement;
      anon_sym_constraint;
      anon_sym_enum;
      anon_sym_type;
  (* [1128] *) 2;
    ACTIONS 3; 1;
      sym_comment;
    ACTIONS 135; 14;
      ts_builtin_sym_end;
      anon_sym_RBRACE;
      anon_sym_package;
      anon_sym_import;
      anon_sym_part;
      anon_sym_attribute;
      anon_sym_action;
      anon_sym_state;
      anon_sym_interface;
      anon_sym_port;
      anon_sym_requirement;
      anon_sym_constraint;
      anon_sym_enum;
      anon_sym_type;
  (* [1148] *) 2;
    ACTIONS 3; 1;
      sym_comment;
    ACTIONS 137; 14;
      ts_builtin_sym_end;
      anon_sym_RBRACE;
      anon_sym_package;
      anon_sym_import;
      anon_sym_part;
      anon_sym_attribute;
      anon_sym_action;
      anon_sym_state;
      anon_sym_interface;
      anon_sym_port;
      anon_sym_requirement;
      anon_sym_constraint;
      anon_sym_enum;
      anon_sym_type;
  (* [1168] *) 2;
    ACTIONS 3; 1;
      sym_comment;
    ACTIONS 109; 14;
      ts_builtin_sym_end;
      anon_sym_RBRACE;
      anon_sym_package;
      anon_sym_import;
      anon_sym_part;
      anon_sym_attribute;
      anon_sym_action;
      anon_sym_state;
      anon_sym_interface;
      anon_sym_port;
      anon_sym_requirement;
      anon_sym_constraint;
      anon_sym_enum;
      anon_sym_type;
  (* [1188] *) 2;
    ACTIONS 3; 1;
      sym_comment;
    ACTIONS 87; 14;
      ts_builtin_sym_end;
      anon_sym_RBRACE;
      anon_sym_package;
      anon_sym_import;
      anon_sym_part;
      anon_sym_attribute;
      anon_sym_action;
      anon_sym_state;
      anon_sym_interface;
      anon_sym_port;
      anon_sym_requirement;
      anon_sym_constraint;
      anon_sym_enum;
      anon_sym_type;
  (* [1208] *) 2;
    ACTIONS 3; 1;
      sym_comment;
    ACTIONS 139; 14;
      ts_builtin_sym_end;
      anon_sym_RBRACE;
      anon_sym_package;
      anon_sym_import;
      anon_sym_part;
      anon_sym_attribute;
      anon_sym_action;
      anon_sym_state;
      anon_sym_interface;
      anon_sym_port;
      anon_sym_requirement;
      anon_sym_constraint;
      anon_sym_enum;
      anon_sym_type;
  (* [1228] *) 2;
    ACTIONS 3; 1;
      sym_comment;
    ACTIONS 117; 14;
      ts_builtin_sym_end;
      anon_sym_RBRACE;
      anon_sym_package;
      anon_sym_import;
      anon_sym_part;
      anon_sym_attribute;
      anon_sym_action;
      anon_sym_state;
      anon_sym_interface;
      anon_sym_port;
      anon_sym_requirement;
      anon_sym_constraint;
      anon_sym_enum;
      anon_sym_type;
  (* [1248] *) 2;
    ACTIONS 3; 1;
      sym_comment;
    ACTIONS 83; 14;
      ts_builtin_sym_end;
      anon_sym_RBRACE;
      anon_sym_package;
      anon_sym_import;
      anon_sym_part;
      anon_sym_attribute;
      anon_sym_action;
      anon_sym_state;
      anon_sym_interface;
      anon_sym_port;
      anon_sym_requirement;
      anon_sym_constraint;
      anon_sym_enum;
      anon_sym_type;
  (* [1268] *) 2;
    ACTIONS 3; 1;
      sym_comment;
    ACTIONS 141; 14;
      ts_builtin_sym_end;
      anon_sym_RBRACE;
      anon_sym_package;
      anon_sym_import;
      anon_sym_part;
      anon_sym_attribute;
      anon_sym_action;
      anon_sym_state;
      anon_sym_interface;
      anon_sym_port;
      anon_sym_requirement;
      anon_sym_constraint;
      anon_sym_enum;
      anon_sym_type;
  (* [1288] *) 4;
    ACTIONS 3; 1;
      sym_comment;
    ACTIONS 143; 1;
      sym_identifier;
    STATE 21; 1;
      sym_qualified_name;
    STATE 22; 1;
      sym_type_ref;
  (* [1301] *) 3;
    ACTIONS 3; 1;
      sym_comment;
    ACTIONS 145; 1;
      sym_identifier;
    ACTIONS 147; 1;
      anon_sym_def;
  (* [1311] *) 3;
    ACTIONS 3; 1;
      sym_comment;
    ACTIONS 149; 1;
      sym_identifier;
    ACTIONS 151; 1;
      anon_sym_def;
  (* [1321] *) 3;
    ACTIONS 3; 1;
      sym_comment;
    ACTIONS 153; 1;
      sym_identifier;
    ACTIONS 155; 1;
      anon_sym_def;
  (* [1331] *) 2;
    ACTIONS 157; 1;
      sym_import_path;
    ACTIONS 159; 1;
      sym_comment;
  (* [1338] *) 2;
    ACTIONS 3; 1;
      sym_comment;
    ACTIONS 161; 1;
      anon_sym_SEMI;
  (* [1345] *) 2;
    ACTIONS 3; 1;
      sym_comment;
    ACTIONS 163; 1;
      sym_identifier;
  (* [1352] *) 2;
    ACTIONS 3; 1;
      sym_comment;
    ACTIONS 165; 1;
      sym_identifier;
  (* [1359] *) 2;
    ACTIONS 3; 1;
      sym_comment;
    ACTIONS 167; 1;
      sym_identifier;
  (* [1366] *) 2;
    ACTIONS 3; 1;
      sym_comment;
    ACTIONS 169; 1;
      ts_builtin_sym_end;
  (* [1373] *) 2;
    ACTIONS 3; 1;
      sym_comment;
    ACTIONS 171; 1;
      sym_identifier;
  (* [1380] *) 2;
    ACTIONS 3; 1;
      sym_comment;
    ACTIONS 173; 1;
      sym_identifier
].

Definition SMALL_STATE (id : Z) : Z := id - LARGE_STATE_COUNT.

Definition ts_small_parse_table_map : list (Z * nat) := [
  (SMALL_STATE 2, 0%nat); (SMALL_STATE 3, 42%nat); (SMALL_STATE 4, 83%nat); (SMALL_STATE 5, 124%nat);
  (SMALL_STATE 6, 165%nat); (SMALL_STATE 7, 200%nat); (SMALL_STATE 8, 235%nat); (SMALL_STATE 9, 270%nat);
  (SMALL_STATE 10, 305%nat); (SMALL_STATE 11, 333%nat); (SMALL_STATE 12, 361%nat); (SMALL_STATE 13, 389%nat);
  (SMALL_STATE 14, 418%nat); (SMALL_STATE 15, 447%nat); (SMALL_STATE 16, 476%nat); (SMALL_STATE 17, 505%nat);
  (SMALL_STATE 18, 534%nat); (SMALL_STATE 19, 563%nat); (SMALL_STATE 20, 586%nat); (SMALL_STATE 21, 612%nat);
  (SMALL_STATE 22, 634%nat); (SMALL_STATE 23, 656%nat); (SMALL_STATE 24, 677%nat); (SMALL_STATE 25, 700%nat);
  (SMALL_STATE 26, 723%nat); (SMALL_STATE 27, 746%nat); (SMALL_STATE 28, 769%nat); (SMALL_STATE 29, 792%nat);
  (SMALL_STATE 30, 815%nat); (SMALL_STATE 31, 838%nat); (SMALL_STATE 32, 861%nat); (SMALL_STATE 33, 882%nat);
  (SMALL_STATE 34, 905%nat); (SMALL_STATE 35, 928%nat); (SMALL_STATE 36, 948%nat); (SMALL_STATE 37, 968%nat);
  (SMALL_STATE 38, 988%nat); (SMALL_STATE 39, 1008%nat); (SMALL_STATE 40, 1028%nat); (SMALL_STATE 41, 1048%nat);
  (SMALL_STATE 42, 1068%nat); (SMALL_STATE 43, 1088%nat); (SMALL_STATE 44, 1108%nat); (SMALL_STATE 45, 1128%nat);
  (SMALL_STATE 46, 1148%nat); (SMALL_STATE 47, 1168%nat); (SMALL_STATE 48, 1188%nat); (SMALL_STATE 49, 1208%nat);
  (SMALL_STATE 50, 1228%nat); (SMALL_STATE 51, 1248%nat); (SMALL_STATE 52, 1268%nat); (SMALL_STATE 53, 1288%nat);
  (SMALL_STATE 54, 1301%nat); (SMALL_STATE 55, 1311%nat); (SMALL_STATE 56, 1321%nat); (SMALL_STATE 57, 1331%nat);
  (SMALL_STATE 58, 1338%nat); (SMALL_STATE 59, 1345%nat); (SMALL_STATE 60, 1352%nat); (SMALL_STATE 61, 1359%nat);
  (SMALL_STATE 62, 1366%nat); (SMALL_STATE 63, 1373%nat); (SMALL_STATE 64, 1380%nat)
].

Definition ts_parse_actions : list TSParseActionEntry := [
  mkEntry 0 false [];
  mkEntry 1 false [RECOVER];
  mkEntry 3 true [SHIFT_EXTRA];
  mkEntry 5 true [REDUCE sym_source_file 0 0 0];
  mkEntry 7 true [SHIFT 64];
  mkEntry 9 true [SHIFT 57];
  mkEntry 11 true [SHIFT 54];
  mkEntry 13 true [SHIFT 55];
  mkEntry 15 true [SHIFT 56];
  mkEntry 17 true [REDUCE aux_sym_source_file_repeat1 2 0 0];
  mkEntry 19 true [REDUCE aux_sym_source_file_repeat1 2 0 0; SHIFT_REPEAT 64];
  mkEntry 22 true [REDUCE aux_sym_source_file_repeat1 2 0 0; SHIFT_REPEAT 57];
  mkEntry 25 true [REDUCE aux_sym_source_file_repeat1 2 0 0; SHIFT_REPEAT 54];
  mkEntry 28 true [REDUCE aux_sym_source_file_repeat1 2 0 0; SHIFT_REPEAT 55];
  mkEntry 31 true [REDUCE aux_sym_source_file_repeat1 2 0 0; SHIFT_REPEAT 56];
  mkEntry 34 true [SHIFT 32];
  mkEntry 36 true [REDUCE sym_source_file 1 0 0];
  mkEntry 38 true [SHIFT 23];
  mkEntry 40 true [REDUCE sym_part_usage 2 0 1];
  mkEntry 42 true [SHIFT 3];
  mkEntry 44 true [SHIFT 39];
  mkEntry 46 true [SHIFT 53];
  mkEntry 48 true [REDUCE sym_part_def 3 0 3];
  mkEntry 50 true [SHIFT 51];
  mkEntry 52 true [REDUCE sym_usage 2 0 1];
  mkEntry 54 true [SHIFT 48];
  mkEntry 56 true [REDUCE sym_definition 3 0 3];
  mkEntry 58 true [SHIFT 43];
  mkEntry 60 true [REDUCE sym_qualified_name 2 0 0];
  mkEntry 62 true [SHIFT 61];
  mkEntry 64 true [REDUCE sym_type_ref 1 0 0];
  mkEntry 66 true [REDUCE aux_sym_qualified_name_repeat1 2 0 0];
  mkEntry 68 true [REDUCE aux_sym_qualified_name_repeat1 2 0 0; SHIFT_REPEAT 61];
  mkEntry 71 true [REDUCE sym_attribute_usage 2 0 1];
  mkEntry 73 true [SHIFT 42];
  mkEntry 75 true [REDUCE sym_part_usage 3 0 1];
  mkEntry 77 true [SHIFT 41];
  mkEntry 79 true [REDUCE sym_attribute_def 3 0 3];
  mkEntry 81 true [SHIFT 40];
  mkEntry 83 true [REDUCE sym_part_def 4 0 3];
  mkEntry 85 true [SHIFT 47];
  mkEntry 87 true [REDUCE sym_usage 3 0 1];
  mkEntry 89 true [SHIFT 44];
  mkEntry 91 true [REDUCE sym_definition 4 0 3];
  mkEntry 93 true [SHIFT 50];
  mkEntry 95 true [REDUCE sym_package_decl 2 0 1];
  mkEntry 97 true [REDUCE sym_typing 2 0 4];
  mkEntry 99 true [REDUCE sym_block 3 0 0];
  mkEntry 101 true [REDUCE sym_attribute_def 4 0 3];
  mkEntry 103 true [SHIFT 49];
  mkEntry 105 true [REDUCE sym_usage 4 0 1];
  mkEntry 107 true [SHIFT 35];
  mkEntry 109 true [REDUCE sym_part_def 5 0 3];
  mkEntry 111 true [SHIFT 45];
  mkEntry 113 true [REDUCE sym_attribute_usage 3 0 1];
  mkEntry 115 true [SHIFT 38];
  mkEntry 117 true [REDUCE sym_definition 5 0 3];
  mkEntry 119 true [SHIFT 52];
  mkEntry 121 true [REDUCE sym_block 2 0 0];
  mkEntry 123 true [REDUCE sym_part_usage 4 0 1];
  mkEntry 125 true [SHIFT 46];
  mkEntry 127 true [REDUCE sym_usage 5 0 1];
  mkEntry 129 true [REDUCE sym_package_decl 3 0 1];
  mkEntry 131 true [REDUCE sym_import_decl 3 0 2];
  mkEntry 133 true [REDUCE sym_attribute_usage 4 0 1];
  mkEntry 135 true [REDUCE sym_part_def 6 0 3];
  mkEntry 137 true [REDUCE sym_part_usage 5 0 1];
  mkEntry 139 true [REDUCE sym_attribute_def 5 0 3];
  mkEntry 141 true [REDUCE sym_definition 6 0 3];
  mkEntry 143 true [SHIFT 11];
  mkEntry 145 false [SHIFT 6];
  mkEntry 147 false [SHIFT 59];
  mkEntry 149 false [SHIFT 13];
  mkEntry 151 false [SHIFT 60];
  mkEntry 153 false [SHIFT 8];
  mkEntry 155 false [SHIFT 63];
  mkEntry 157 false [SHIFT 58];
  mkEntry 159 false [SHIFT_EXTRA];
  mkEntry 161 true [SHIFT 37];
  mkEntry 163 true [SHIFT 7];
  mkEntry 165 true [SHIFT 15];
  mkEntry 167 true [SHIFT 19];
  mkEntry 169 true [ACCEPT_INPUT];
  mkEntry 171 true [SHIFT 9];
  mkEntry 173 true [SHIFT 20]
].

(** The [TSLanguage] object of [tree_sitter_sysml]. *)
Definition tree_sitter_sysml : TSLanguage := {|
  symbol_count := SYMBOL_COUNT;
  token_count := TOKEN_COUNT;
  state_count := STATE_COUNT;
  large_state_count := LARGE_STATE_COUNT;
  parse_table := ts_parse_table;
  small_parse_table := ts_small_parse_table;
  small_parse_table_map := ts_small_parse_table_map;
  parse_actions := ts_parse_actions;
  symbol_names := ts_symbol_names;
  field_names := ts_field_names;
  field_map_slices := ts_field_map_slices;
  field_map_entries := ts_field_map_entries;
  symbol_metadata := ts_symbol_metadata;
  lex_modes := ts_lex_modes;
  lex_fn := ts_lex;
  keyword_lex_fn := ts_lex_keywords;
  keyword_capture_token := sym_identifier
|}.

End SysmlTs.

(** ** Identifiers and reserved words *)

Definition is_ident_start (c : Z) : bool :=
  ((ch "A" <=? c) && (c <=? ch "Z")) || (c =? ch "_") || ((ch "a" <=? c) && (c <=? ch "z")).

Definition is_ident_char (c : Z) : bool :=
  ((ch "0" <=? c) && (c <=? ch "9")) ||
  ((ch "A" <=? c) && (c <=? ch "Z")) || (c =? ch "_") || ((ch "a" <=? c) && (c <=? ch "z")).

(** A span the main automaton scans as an identifier: a letter or an
    underscore, then letters, digits and underscores. *)
Definition identifier_shaped (w : list Z) : bool :=
  match w with
  | [] => false
  | c :: w' => is_ident_start c && forallb is_ident_char w'
  end.

(** The text after the span does not continue it. *)
Definition ends_identifier (rest : list Z) : bool :=
  match rest with
  | [] => true
  | c :: _ => negb (is_ident_char c)
  end.

(** The reserved words of a grammar, read off its symbol tables: the
    visible anonymous terminals whose name is identifier-shaped, each
    with its symbol. *)
Definition reserved_words (L : TSLanguage) : list (list Z * TSSymbol) :=
  flat_map (fun p : TSSymbol * string =>
              let m := ts_language_symbol_metadata L (fst p) in
              if is_terminal L (fst p) && visible m && negb (named m)
                 && identifier_shaped (codes (snd p))
              then [(codes (snd p), fst p)] else [])
           (symbol_names L).

Fixpoint list_Z_eqb (a b : list Z) : bool :=
  match a, b with
  | [], [] => true
  | x :: a', y :: b' => (x =? y) && list_Z_eqb a' b'
  | _, _ => false
  end.

Definition word_mem (p : list Z * TSSymbol) (l : list (list Z * TSSymbol)) : bool :=
  existsb (fun q => list_Z_eqb (fst p) (fst q) && (snd p =? snd q)) l.

Definition same_words (a b : list (list Z * TSSymbol)) : bool :=
  forallb (fun p => word_mem p b) a && forallb (fun p => word_mem p a) b.

(** The keyword automaton as a graph: the cases of the function, with
    case 0 in front. *)
Definition KeywordTable := list (TSStateId * (option TSSymbol * list (Z * TSStateId))).

Definition kw_next (T : KeywordTable) (s : TSStateId) (c : Z) : option TSStateId :=
  match assoc_Z s T with
  | Some (_, m) => assoc_Z c m
  | None => None
  end.

Definition kw_accepting (T : KeywordTable) (s : TSStateId) : option TSSymbol :=
  match assoc_Z s T with
  | Some (a, _) => a
  | None => None
  end.

Fixpoint kw_walk (T : KeywordTable) (s : TSStateId) (w : list Z) : option TSStateId :=
  match w with
  | [] => Some s
  | c :: w' =>
      match kw_next T s c with
      | Some s' => kw_walk T s' w'
      | None => None
      end
  end.

Definition kw_accepts (T : KeywordTable) (s : TSStateId) (w : list Z) : option TSSymbol :=
  match kw_walk T s w with
  | Some s' => kw_accepting T s'
  | None => None
  end.

(** The words accepted from [s] along paths shorter than [fuel]. *)
Fixpoint kw_words (T : KeywordTable) (fuel : nat) (s : TSStateId)
    : list (list Z * TSSymbol) :=
  match fuel with
  | O => []
  | S fuel' =>
      (match kw_accepting T s with Some k => [([], k)] | None => [] end) ++
      match assoc_Z s T with
      | Some (_, m) =>
          flat_map (fun e : Z * TSStateId =>
                      match assoc_Z (fst e) m with
                      | Some t =>
                          if t =? snd e
                          then map (fun p : list Z * TSSymbol => (fst e :: fst p, snd p))
                                   (kw_words T fuel' t)
                          else []
                      | None => []
                      end) m
      | None => []
      end
  end.

(** No path from [s] is as long as [fuel]. *)
Fixpoint kw_shallow (T : KeywordTable) (fuel : nat) (s : TSStateId) : bool :=
  match fuel with
  | O => false
  | S fuel' =>
      match assoc_Z s T with
      | Some (_, m) => forallb (fun e : Z * TSStateId => kw_shallow T fuel' (snd e)) m
      | None => true
      end
  end.

(** Every transition is on an identifier character and leaves state 0
    for good. *)
Definition kw_table_ok (T : KeywordTable) : bool :=
  forallb (fun r : TSStateId * (option TSSymbol * list (Z * TSStateId)) =>
             forallb (fun e : Z * TSStateId => is_ident_char (fst e) && negb (snd e =? 0))
                     (snd (snd r))) T
  && match assoc_Z 0 T with
     | Some (None, _) => true
     | _ => false
     end.

Definition zed_keywords : KeywordTable :=
  (0, (None, Zed.ts_lex_keywords_start)) :: Zed.ts_lex_keywords_cases.

Definition ts_keywords : KeywordTable :=
  (0, (None, SysmlTs.ts_lex_keywords_start)) :: SysmlTs.ts_lex_keywords_cases.

(** The symbol of the reserved word that [w] is, if it is one. *)
Definition reserved_symbol (L : TSLanguage) (w : list Z) : option TSSymbol :=
  match find (fun p => list_Z_eqb (fst p) w) (reserved_words L) with
  | Some p => Some (snd p)
  | None => None
  end.

(** The symbol section 4.2 asks for an identifier-shaped span. *)
Definition classify (L : TSLanguage) (active : TSSymbol -> bool) (w : list Z) : TSSymbol :=
  match reserved_symbol L w with
  | Some k => if active k then k else keyword_capture_token L
  | None => keyword_capture_token L
  end.

(** ** String literals *)

(** Does [body], the text after an opening quote, hold a quote that no
    backslash escapes? *)
Fixpoint has_closing_quote (body : list Z) : bool :=
  match body with
  | [] => false
  | c :: body' =>
      if c =? 34 then true
      else if c =? 92 then
        match body' with
        | [] => false
        | _ :: body'' => has_closing_quote body''
        end
      else has_closing_quote body'
  end.

Inductive StringItem :=
| Plain (c : Z)
| Escaped (c : Z).

Definition item_text (i : StringItem) : list Z :=
  match i with
  | Plain c => [c]
  | Escaped c => [92; c]
  end.

Definition item_ok (i : StringItem) : Prop :=
  match i with
  | Plain c => c <> 34 /\ c <> 92 /\ c <> 0
  | Escaped c => c <> 0 /\ c <> 10
  end.

(** ** What every scan guarantees *)

(** What the loop needs of an automaton to deliver well-formed tokens:
    only white space is skipped (so never the lookahead 0 of the end of
    input), and only before the token starts; an accepting case is
    entered by consuming a character, except the one that accepts the
    end of input. *)
Record lexer_ok (lex : LexFn) (skipper : TSStateId -> bool) : Prop := {
  ok_skip : forall s eof c acc s',
      lex s eof c = Some (acc, SKIP s') ->
      skipper s = true /\ skipper s' = true /\ is_space c = true;
  ok_advance : forall s eof c acc s',
      lex s eof c = Some (acc, ADVANCE s') -> skipper s' = false;
  ok_skipper : forall s eof c acc act,
      skipper s = true -> lex s eof c = Some (acc, act) -> acc = None;
  ok_eof : forall s acc s',
      lex s true 0 = Some (acc, ADVANCE s') ->
      lex s' true 0 = Some (Some ts_builtin_sym_end, END_STATE);
  ok_target : forall s eof c acc s',
      lex s eof c = Some (acc, ADVANCE s') \/ lex s eof c = Some (acc, SKIP s') ->
      forall eof' c', lex s' eof' c' <> None
}.

(** A state in which a scan may start: it accepts nothing by itself. *)
Definition clean (lex : LexFn) (s : TSStateId) : Prop :=
  forall eof c acc act, lex s eof c = Some (acc, act) -> acc = None.

Definition found_ok (start pos : nat) (found : option (TSSymbol * nat)) : Prop :=
  match found with
  | None => True
  | Some (sym, e) =>
      (start <= e <= pos)%nat /\ (sym <> ts_builtin_sym_end -> (start < e)%nat)
  end.

(** The token lies in [start, limit) and is not empty, the end of input
    apart. *)
Definition lexed_ok (start0 limit : nat) (r : Lexed) : Prop :=
  match r with
  | Token sym start e =>
      (start0 <= start <= e)%nat /\ (e <= limit)%nat /\
      (sym <> ts_builtin_sym_end -> (start < e)%nat)
  | NoToken start => (start0 <= start <= limit)%nat
  end.

Definition lexed_start (r : Lexed) : nat :=
  match r with
  | Token _ start _ => start
  | NoToken start => start
  end.

Definition zed_skipper (s : TSStateId) : bool := (s =? 0) || (s =? 9) || (s =? 10).
Definition ts_skipper (s : TSStateId) : bool := (s =? 0) || (s =? 12) || (s =? 13).

Fixpoint is_prefix (a b : list Z) : bool :=
  match a, b with
  | [], _ => true
  | x :: a', y :: b' => (x =? y) && is_prefix a' b'
  | _ :: _, [] => false
  end.

(** [w] is a strict prefix or a strict extension of some reserved word. *)
Definition near_reserved (L : TSLanguage) (w : list Z) : bool :=
  existsb (fun p => negb (list_Z_eqb (fst p) w)
                    && (is_prefix w (fst p) || is_prefix (fst p) w))
          (reserved_words L).

(** ** Block comments and the import payload *)

(** Does [l] hold a close marker, a star followed by a slash? *)
Fixpoint has_close_marker (l : list Z) : bool :=
  match l with
  | [] => false
  | c :: l' =>
      match l' with
      | y :: _ => (c =? ch "*") && (y =? ch "/")
      | [] => false
      end || has_close_marker l'
  end.

Definition no_nul (l : list Z) : bool := forallb (fun c => negb (c =? 0)) l.

(** The raw payload stops here: at a [;], at a NUL or at the end. *)
Definition payload_stops (rest : list Z) : bool :=
  match rest with
  | [] => true
  | c :: _ => (c =? ch ";") || (c =? 0)
  end.

Definition no_semicolon (l : list Z) : bool := forallb (fun c => negb (c =? ch ";")) l.
Definition has_semicolon (l : list Z) : bool := existsb (fun c => c =? ch ";") l.

(** ** Operators *)








(** ** The tokens the parser receives *)

(** The end of input is accepted only in a state entered at the end of
    input: a state entered by consuming a character does not accept it. *)
Definition end_at_eof (lex : LexFn) : Prop :=
  forall s c acc s',
    lex s false c = Some (acc, ADVANCE s') \/ lex s false c = Some (acc, SKIP s') ->
    forall eof' c' act, lex s' eof' c' <> Some (Some ts_builtin_sym_end, act).

(** Every accepted symbol satisfies [P]. *)
Definition accepts_only (lex : LexFn) (P : TSSymbol -> Prop) : Prop :=
  forall s eof c sym act, lex s eof c = Some (Some sym, act) -> P sym.

Definition found_only (P : TSSymbol -> Prop) (found : option (TSSymbol * nat)) : Prop :=
  match found with
  | Some (sym, _) => P sym
  | None => True
  end.

(** An accepted end of input lies at [pos]. *)
Definition found_end_at (pos : nat) (found : option (TSSymbol * nat)) : Prop :=
  match found with
  | Some (sym, e) => sym = ts_builtin_sym_end -> e = pos
  | None => True
  end.

(** Every target of the keyword table is a row of the table, and every
    accepted symbol is a terminal other than the end of input. *)
Definition kw_table_closed (T : KeywordTable) (token_count : Z) : bool :=
  forallb (fun r : TSStateId * (option TSSymbol * list (Z * TSStateId)) =>
             match fst (snd r) with
             | Some k => (0 <? k) && (k <? token_count)
             | None => true
             end
             && forallb (fun e : Z * TSStateId =>
                           match assoc_Z (snd e) T with
                           | Some _ => true
                           | None => false
                           end) (snd (snd r))) T.

Definition kw_skipper (s : TSStateId) : bool := s =? 0.

(** What the interpreter needs of the two automata of a language. *)
Record lexers_ok (L : TSLanguage) (skipper : TSStateId -> bool) : Prop := {
  main_ok : lexer_ok (lex_fn L) skipper;
  main_end : end_at_eof (lex_fn L);
  main_terminals : accepts_only (lex_fn L) (fun sym => 0 <= sym < token_count L);
  main_clean : forall state, clean (lex_fn L) (ts_language_lex_state L state);
  keyword_ok : lexer_ok (keyword_lex_fn L) kw_skipper;
  keyword_clean : clean (keyword_lex_fn L) 0;
  keyword_terminals : accepts_only (keyword_lex_fn L) (fun sym => 0 < sym < token_count L);
  capture_not_end : keyword_capture_token L <> ts_builtin_sym_end
}.

(** A token as the interpreter receives it, at offsets from the cursor
    into the rest [text] of the input: it lies in the text after white
    space only, its symbol is a terminal, it is not empty unless it is
    the end of input, and the end of input lies at the end of the text. *)
Definition token_ok (L : TSLanguage) (text : list Z) (r : Lexed) : Prop :=
  match r with
  | Token sym start e =>
      (start <= e <= length text)%nat /\
      0 <= sym < token_count L /\
      (sym <> ts_builtin_sym_end -> (start < e)%nat) /\
      (sym = ts_builtin_sym_end -> e = length text) /\
      forallb is_space (firstn start text) = true
  | NoToken start =>
      (start <= length text)%nat /\ forallb is_space (firstn start text) = true
  end.

(** ** Leaves and the input *)

Definition LeafInfo := (TSSymbol * nat * nat * nat)%type.

(** The text of a leaf; the skipped text before it; both together. *)
Definition leaf_span (text : list Z) (l : LeafInfo) : list Z :=
  let '(_, _, start, end_) := l in slice text start end_.

Definition leaf_padding (text : list Z) (l : LeafInfo) : list Z :=
  let '(_, padding, start, _) := l in slice text padding start.

Definition leaf_extent (text : list Z) (l : LeafInfo) : list Z :=
  let '(_, padding, _, end_) := l in slice text padding end_.

(** Section 8, round trip: the spans of the leaves in tree order. *)
Definition leaf_spans (text : list Z) (n : Node) : list Z :=
  flat_map (leaf_span text) (leaves n).

Definition leaf_extents (text : list Z) (n : Node) : list Z :=
  flat_map (leaf_extent text) (leaves n).

(** The leaves tile [from, to): each begins, with the text skipped
    before it, where the one before ended. *)
Fixpoint tiles (ls : list LeafInfo) (from to : nat) : Prop :=
  match ls with
  | [] => from = to
  | (_, padding, start, end_) :: ls' =>
      padding = from /\ (padding <= start <= end_)%nat /\ tiles ls' end_ to
  end.

Definition padded_by_space (text : list Z) (l : LeafInfo) : Prop :=
  forallb is_space (leaf_padding text l) = true.

(** The leaves a session holds, in input order. *)
Definition session_leaves (s : Session) : list LeafInfo :=
  flat_map leaves (leading s ++ stack_nodes (stack s)).

(** The session has consumed the text up to its cursor into leaves. *)
Record session_ok (text : list Z) (s : Session) : Prop := {
  ok_input : input s = skipn (cursor s) text;
  ok_cursor : (cursor s <= length text)%nat;
  ok_tiles : tiles (session_leaves s) 0 (cursor s);
  ok_padding : Forall (padded_by_space text) (session_leaves s)
}.

(** What one step does to the leaves: nothing, or one more leaf for the
    token at the offsets [start], [e] from the cursor. *)
Definition new_leaf (s : Session) (symbol : TSSymbol) (start e : nat) : LeafInfo :=
  (symbol, cursor s, (start + cursor s)%nat, (e + cursor s)%nat).

Definition outcome_ok (s : Session) (start e : nat) (o : Outcome) : Prop :=
  match o with
  | Continue s' =>
      (session_leaves s' = session_leaves s /\ cursor s' = cursor s /\ input s' = input s)
      \/ (exists symbol,
            session_leaves s' = session_leaves s ++ [new_leaf s symbol start e] /\
            cursor s' = (e + cursor s)%nat /\ input s' = skipn e (input s))
  | Done root =>
      e = length (input s) /\
      exists symbol, leaves root = session_leaves s ++ [new_leaf s symbol start e]
  | Fatal => True
  end.

(** The cells of the row of a state, as (symbol, value). *)
Fixpoint small_cells (group_count : nat) (data : list Z) : list (TSSymbol * Z) :=
  match group_count with
  | O => []
  | S g =>
      match data with
      | section_value :: symbol_count :: data' =>
          let n := Z.to_nat symbol_count in
          map (fun symbol => (symbol, section_value)) (firstn n data')
          ++ small_cells g (skipn n data')
      | _ => []
      end
  end.

Definition cells (L : TSLanguage) (state : TSStateId) : list (TSSymbol * Z) :=
  if large_state_count L <=? state then
    match assoc_Z (state - large_state_count L) (small_parse_table_map L) with
    | Some index =>
        match skipn index (small_parse_table L) with
        | group_count :: data => small_cells (Z.to_nat group_count) data
        | [] => []
        end
    | None => []
    end
  else
    match assoc_Z state (parse_table L) with
    | Some row => row
    | None => []
    end.

(** The states that have a row. *)
Definition table_states (L : TSLanguage) : list TSStateId :=
  map fst (parse_table L)
  ++ map (fun p => fst p + large_state_count L) (small_parse_table_map L).

Definition entry_actions (L : TSLanguage) (index : Z) : list TSParseAction :=
  match find (fun e => entry_index e =? index) (parse_actions L) with
  | Some e => actions e
  | None => []
  end.

(** A property of every action cell (state, terminal, actions). *)
Definition all_action_cells (L : TSLanguage)
    (p : TSStateId -> TSSymbol -> list TSParseAction -> bool) : bool :=
  forallb (fun state =>
             forallb (fun c : TSSymbol * Z =>
                        negb (is_terminal L (fst c))
                        || p state (fst c) (entry_actions L (snd c)))
                     (cells L state))
          (table_states L).

(** Input is accepted at its end only. *)
Definition accept_at_end (L : TSLanguage) : bool :=
  all_action_cells L (fun _ symbol acts =>
    match acts with
    | ACCEPT_INPUT :: _ => symbol =? ts_builtin_sym_end
    | _ => true
    end)
  && match entry_actions L 0 with
     | [] => true
     | _ => false
     end.

(** ** The automaton of the parse states *)

Definition mem_Z (x : Z) (l : list Z) : bool := existsb (Z.eqb x) l.

Definition is_leaf (n : Node) : bool :=
  match n with
  | Leaf _ _ _ _ => true
  | Tree _ _ => false
  end.

(** An edge: from a state to the state entered, by a shift ([true]) or
    on a nonterminal ([false]). *)
Definition Edge := (TSStateId * TSStateId * bool)%type.

Definition cell_edges (L : TSLanguage) (state : TSStateId) (c : TSSymbol * Z) : list Edge :=
  if is_terminal L (fst c) then
    match entry_actions L (snd c) with
    | SHIFT next :: _ | SHIFT_REPEAT next :: _ => [(state, next, true)]
    | _ => []
    end
  else [(state, snd c, false)].

Definition all_edges (L : TSLanguage) : list Edge :=
  flat_map (fun state => flat_map (cell_edges L state) (cells L state)) (table_states L).

Definition predecessors (E : list Edge) (s : TSStateId) : list TSStateId :=
  map (fun e : Edge => fst (fst e)) (filter (fun e : Edge => snd (fst e) =? s) E).

(** The states [n] edges back from [s]. *)
Fixpoint back (E : list Edge) (n : nat) (s : TSStateId) : list TSStateId :=
  match n with
  | O => [s]
  | S k => flat_map (back E k) (predecessors E s)
  end.

(** The weight of a state on top of the stack, from a table. *)
Definition weight (W : list (TSStateId * nat)) (s : TSStateId) : nat :=
  match assoc_Z s W with
  | Some w => w
  | None => O
  end.

(** A reduction in state [s]: every stack that can end in [s] is deep
    enough, the state below the popped frames has a state to enter on
    the nonterminal, and that state weighs less than what is popped. *)
Definition reduce_ok_at (L : TSLanguage) (E : list Edge) (W : list (TSStateId * nat))
    (start_state s : TSStateId) (symbol : TSSymbol) (child_count : nat) : bool :=
  negb (is_terminal L symbol)
  && forallb (fun k => negb (mem_Z start_state (back E k s))) (seq 0 child_count)
  && forallb (fun p =>
                let next := ts_language_next_state L p symbol in
                negb (next =? 0)
                && (weight W next + 1 <? weight W s + child_count)%nat)
             (back E child_count s).

Definition action_ok (L : TSLanguage) (E : list Edge) (W : list (TSStateId * nat))
    (start_state state : TSStateId) (symbol : TSSymbol) (acts : list TSParseAction) : bool :=
  match acts with
  | SHIFT _ :: _ | SHIFT_REPEAT _ :: _ | SHIFT_EXTRA :: _ =>
      negb (symbol =? ts_builtin_sym_end)
  | REDUCE symbol' child_count _ _ :: _ =>
      reduce_ok_at L E W start_state state symbol' child_count
  | ACCEPT_INPUT :: _ =>
      negb (state =? start_state)
      && forallb (fun e : Edge =>
                 negb (snd (fst e) =? state)
                 || (negb (snd e) && (fst (fst e) =? start_state))) E
  | RECOVER :: _ | [] => true
  end.

(** What the interpreter needs of the tables to run to the end: the
    checks of every action cell, no action without a cell, no edge into
    the start state, and weights below the bound [B]. *)
Definition tables_ok (L : TSLanguage) (W : list (TSStateId * nat)) (B : nat)
    (start_state : TSStateId) : bool :=
  let E := all_edges L in
  all_action_cells L (action_ok L E W start_state)
  && match entry_actions L 0 with [] => true | _ => false end
  && forallb (fun e : Edge => negb (snd (fst e) =? start_state)) E
  && forallb (fun p : TSStateId * nat => (snd p <=? B)%nat) W
  && (0 <? token_count L).

(** The frames of a stack follow edges of the automaton: a leaf was
    shifted, a tree entered on its nonterminal. *)
Fixpoint linked (E : list Edge) (start_state : TSStateId) (st : list Frame) : Prop :=
  match st with
  | [] => True
  | (s, node, _) :: st' =>
      In (top_state start_state st', s, is_leaf node) E /\ linked E start_state st'
  end.

Definition potential (W : list (TSStateId * nat)) (start_state : TSStateId)
    (st : list Frame) : nat :=
  length st + weight W (top_state start_state st).

(** What is left to do: it decreases with every step. *)
Definition measure (W : list (TSStateId * nat)) (B : nat) (start_state : TSStateId)
    (s : Session) : nat :=
  (B + 2) * length (input s)
  + (if recovering s then B + 1 else 0)
  + potential W start_state (stack s).

(** A step goes on, with less left to do, or ends with a tree. *)
Definition progress (L : TSLanguage) (W : list (TSStateId * nat)) (B : nat)
    (start_state : TSStateId) (s : Session) (o : Outcome) : Prop :=
  match o with
  | Continue s' =>
      linked (all_edges L) start_state (stack s') /\
      (measure W B start_state s' < measure W B start_state s)%nat
  | Done _ => True
  | Fatal => False
  end.

(** Weights that make every reduction lower the potential. *)
Definition zed_weights : list (TSStateId * nat) :=
  [(1, 2%nat); (2, 1%nat); (3, 1%nat); (7, 1%nat); (8, 1%nat); (9, 1%nat); (10, 1%nat); (11, 1%nat); (12, 1%nat);
   (16, 1%nat); (17, 1%nat); (18, 1%nat)].

Definition ts_weights : list (TSStateId * nat) :=
  [(1, 2%nat); (2, 1%nat); (4, 1%nat); (6, 1%nat); (8, 1%nat); (10, 1%nat); (11, 1%nat); (12, 1%nat); (13, 1%nat);
   (19, 1%nat); (20, 1%nat); (21, 1%nat)].

(** ** Errors (section 7) *)

Inductive ErrorKind :=
| LexicalError
| SyntacticError
| ExhaustionError.

Definition no_action (acts : list TSParseAction) : bool :=
  match acts with
  | [] | RECOVER :: _ => true
  | _ => false
  end.

(** The error a step meets, if any: (a) the scan fails before the end
    of the input; (b) a token arrives for which the state has no action;
    (c) the end of input arrives for which the state has no action. *)
Definition step_error (L : TSLanguage) (start_state : TSStateId) (s : Session)
    : option ErrorKind :=
  let state := if recovering s then 0 else top_state start_state (stack s) in
  match ts_parser_lex L state (input s) 0 with
  | Some (Token symbol _ _) =>
      if negb (recovering s) && no_action (ts_language_actions L state symbol)
      then Some (if symbol =? ts_builtin_sym_end then ExhaustionError else SyntacticError)
      else None
  | Some (NoToken start) =>
      match skipn start (input s) with
      | [] =>
          if negb (recovering s)
             && no_action (ts_language_actions L state ts_builtin_sym_end)
          then Some ExhaustionError
          else None
      | _ :: _ => Some LexicalError
      end
  | None => None
  end.

(** The errors met along a run. *)
Fixpoint run_errors (L : TSLanguage) (start_state : TSStateId) (fuel : nat)
    (s : Session) : list ErrorKind :=
  match fuel with
  | O => []
  | S fuel' =>
      match step_error L start_state s with
      | Some k => [k]
      | None => []
      end ++
      match ts_parser_step L start_state s with
      | Continue s' => run_errors L start_state fuel' s'
      | _ => []
      end
  end.

Definition parse_errors (L : TSLanguage) (start_state : TSStateId) (fuel : nat)
    (text : list Z) : list ErrorKind :=
  run_errors L start_state fuel (mkSession [] [] false 0 text).

Definition session_has_error (s : Session) : bool :=
  existsb ts_node_has_error (leading s ++ stack_nodes (stack s)).

(** The outcome holds an error marker. *)
Definition marked (o : Outcome) : Prop :=
  match o with
  | Continue s' => session_has_error s' = true
  | Done root => ts_node_has_error root = true
  | Fatal => True
  end.

(** Section 7, for one input: the parse returns a tree within
    [4 * length text + 3] steps; the span of the root is the whole
    input; every kind of error met on the way leaves an error marker in
    the tree. *)
Definition returns_tree (L : TSLanguage) (start_state : TSStateId) (text : list Z) : Prop :=
  exists root,
    ts_parser_parse L start_state (4 * length text + 3) text = Some root /\
    ts_tree_root_span root = (0%nat, length text) /\
    forall kind,
      In kind (parse_errors L start_state (4 * length text + 3) text) ->
      ts_node_has_error root = true.

(** ** Numbers *)

Definition is_digit (c : Z) : bool := (ch "0" <=? c) && (c <=? ch "9").

(** The text begins with a character that satisfies [p]. *)
Definition starts_with (p : Z -> bool) (text : list Z) : bool :=
  match text with
  | c :: _ => p c
  | [] => false
  end.

Definition is_point (c : Z) : bool := c =? ch ".".

(** ** Comment lines and colons *)

(** No character of [body] ends a line or is NUL. *)
Definition line_body (body : list Z) : bool :=
  forallb (fun c => negb (c =? 0) && negb (c =? 10)) body.

(** The text is empty or begins with a line break or NUL. *)
Definition line_ends (rest : list Z) : bool :=
  match rest with
  | [] => true
  | c :: _ => (c =? 0) || (c =? 10)
  end.

Definition is_colon (c : Z) : bool := c =? ch ":".

(** The main automaton of each grammar with the start states that skip
    white space. *)
Definition zed_scanning_states : list TSStateId := [0; 9; 10].
Definition ts_scanning_states : list TSStateId := [0; 12; 13].

(** ** More of the two automata *)

(** The symbol is the symbol of a reserved word. *)
Definition is_reserved (L : TSLanguage) (symbol : TSSymbol) : bool :=
  existsb (fun p : list Z * TSSymbol => snd p =? symbol) (reserved_words L).

(** The two grammars, each with the states of its main automaton that
    skip white space. *)
Definition grammars : list (TSLanguage * (TSStateId -> bool)) :=
  [(Zed.tree_sitter_sysml, zed_skipper); (SysmlTs.tree_sitter_sysml, ts_skipper)].

(** ** The rows of the parse table *)

Fixpoint nodup_Z (l : list Z) : bool :=
  match l with
  | [] => true
  | x :: l' => negb (mem_Z x l') && nodup_Z l'
  end.

(** The states [0 .. n - 1]. *)
Definition states_upto (n : Z) : list TSStateId :=
  map Z.of_nat (seq 0 (Z.to_nat n)).

(** A row has no symbol twice, no empty cell, and symbols of the
    language only. *)
Definition row_ok (L : TSLanguage) (row : list (TSSymbol * Z)) : bool :=
  nodup_Z (map fst row)
  && forallb (fun c : TSSymbol * Z =>
                negb (snd c =? 0) && (0 <=? fst c) && (fst c <? symbol_count L)) row.

Definition rows_ok (L : TSLanguage) : bool :=
  forallb (fun state => row_ok L (cells L state)) (table_states L).

(** The size of a sparse row in [ts_small_parse_table]: the groups that
    follow the group count. *)
Fixpoint small_row_size (group_count : nat) (data : list Z) : nat :=
  match group_count with
  | O => 0
  | S g =>
      match data with
      | _ :: symbol_count :: data' =>
          let n := Z.to_nat symbol_count in
          2 + n + small_row_size g (skipn n data')
      | _ => 0
      end
  end.

(** The groups of a sparse row lie in [data]: none is cut short. *)
Fixpoint small_row_fits (group_count : nat) (data : list Z) : bool :=
  match group_count with
  | O => true
  | S g =>
      match data with
      | _ :: symbol_count :: data' =>
          let n := Z.to_nat symbol_count in
          (0 <=? symbol_count) && (n <=? length data')%nat
          && small_row_fits g (skipn n data')
      | _ => false
      end
  end.

(** ** The actions *)

(** An action within the bounds of the language: a state to shift to,
    a nonterminal to reduce to with at most [max_children] children and
    a known production. *)
Definition action_in_bounds (L : TSLanguage) (max_children : nat) (production_count : Z)
    (a : TSParseAction) : bool :=
  match a with
  | SHIFT s | SHIFT_REPEAT s => (0 <? s) && (s <? state_count L)
  | REDUCE symbol child_count _ production_id =>
      (token_count L <=? symbol) && (symbol <? symbol_count L)
      && (child_count <=? max_children)%nat
      && (0 <=? production_id) && (production_id <? production_count)
  | SHIFT_EXTRA | RECOVER | ACCEPT_INPUT => true
  end.

(** A cell within the bounds: an entry of [ts_parse_actions] with
    actions in bounds for a terminal, a state for a nonterminal. *)
Definition cell_in_bounds (L : TSLanguage) (max_children : nat) (production_count : Z)
    (c : TSSymbol * Z) : bool :=
  if is_terminal L (fst c) then
    match find (fun e => entry_index e =? snd c) (parse_actions L) with
    | Some e =>
        negb (match actions e with [] => true | _ => false end)
        && forallb (action_in_bounds L max_children production_count) (actions e)
    | None => false
    end
  else (0 <? snd c) && (snd c <? state_count L).

Definition cells_in_bounds (L : TSLanguage) (max_children : nat) (production_count : Z)
    : bool :=
  forallb (fun state =>
             forallb (cell_in_bounds L max_children production_count) (cells L state))
          (table_states L).

(** ** The entries of [ts_parse_actions] *)

(** An auxiliary symbol: a nonterminal that is neither visible nor
    named ([ts_symbol_metadata]), as the generator adds for a
    repetition. *)
Definition is_auxiliary (L : TSLanguage) (symbol : TSSymbol) : bool :=
  let m := ts_language_symbol_metadata L symbol in
  negb (is_terminal L symbol) && negb (visible m) && negb (named m).

(** An entry without a conflict: at most one action, or the reduction
    of two children to an auxiliary repetition kept together with the
    [SHIFT_REPEAT], to a state of the table, that would extend the
    repetition. *)
Definition entry_ok (L : TSLanguage) (acts : list TSParseAction) : bool :=
  match acts with
  | [] | [_] => true
  | [REDUCE symbol child_count _ _; SHIFT_REPEAT next] =>
      is_auxiliary L symbol && (child_count =? 2)%nat
      && (0 <? next) && (next <? state_count L)
  | _ => false
  end.

(** The end of the sparse row that begins at [index]. *)
Definition small_row_end (table : list Z) (index : nat) : nat :=
  match skipn index table with
  | group_count :: data => index + 1 + small_row_size (Z.to_nat group_count) data
  | [] => index
  end.

(** ** Particular actions *)

Definition is_shift_extra (a : TSParseAction) : bool :=
  match a with SHIFT_EXTRA => true | _ => false end.

Definition is_recover (a : TSParseAction) : bool :=
  match a with RECOVER => true | _ => false end.

Definition is_accept (a : TSParseAction) : bool :=
  match a with ACCEPT_INPUT => true | _ => false end.

Definition is_shift (a : TSParseAction) : bool :=
  match a with SHIFT _ | SHIFT_REPEAT _ | SHIFT_EXTRA => true | _ => false end.

Definition shifts_to (state : TSStateId) (a : TSParseAction) : bool :=
  match a with SHIFT s | SHIFT_REPEAT s => s =? state | _ => false end.

Definition only_action (p : TSParseAction -> bool) (acts : list TSParseAction) : bool :=
  match acts with
  | [a] => p a
  | _ => false
  end.

(** A property of every cell of a terminal: (state, terminal, actions). *)
Definition terminal_cells (L : TSLanguage)
    (p : TSStateId -> TSSymbol -> list TSParseAction -> bool) : bool :=
  all_action_cells L p
  && match entry_actions L 0 with [] => true | _ => false end.

(** A property of every cell of a nonterminal: (state, nonterminal,
    state entered). *)
Definition nonterminal_cells (L : TSLanguage)
    (p : TSStateId -> TSSymbol -> TSStateId -> bool) : bool :=
  forallb (fun state =>
             forallb (fun c : TSSymbol * Z =>
                        is_terminal L (fst c) || p state (fst c) (snd c))
                     (cells L state))
          (table_states L).

(** Comments are extras: the one action of every state on the comment
    is [SHIFT_EXTRA], and no other terminal has that action. *)
Definition comments_are_extras (L : TSLanguage) (comment : TSSymbol) : bool :=
  forallb (fun state => only_action is_shift_extra (ts_language_actions L state comment))
          (table_states L)
  && terminal_cells L (fun _ symbol acts =>
       negb (existsb is_shift_extra acts) || (symbol =? comment)).

(** State 0 is the state of recovery: [RECOVER] is its one action on
    every terminal but the comment and [payload], it enters no state on
    a nonterminal, and no other state has the action. *)
Definition recovery_is_state_0 (L : TSLanguage) (comment payload : TSSymbol) : bool :=
  forallb (fun symbol =>
             (symbol =? comment) || (symbol =? payload)
             || only_action is_recover (ts_language_actions L 0 symbol))
          (states_upto (token_count L))
  && terminal_cells L (fun state _ acts =>
       negb (existsb is_recover acts) || (state =? 0))
  && nonterminal_cells L (fun state _ _ => negb (state =? 0)).

(** Input is accepted in one cell; the state of that cell is entered
    from [start_state] on [start_symbol] only; the end of input is
    never shifted. *)
Definition accept_is_final (L : TSLanguage) (start_state accept_state : TSStateId)
    (start_symbol : TSSymbol) : bool :=
  terminal_cells L (fun state symbol acts =>
    (negb (existsb is_accept acts)
     || ((state =? accept_state) && (symbol =? ts_builtin_sym_end)))
    && negb (existsb (shifts_to accept_state) acts)
    && (negb (symbol =? ts_builtin_sym_end) || negb (existsb is_shift acts)))
  && nonterminal_cells L (fun state symbol next =>
       negb (next =? accept_state)
       || ((state =? start_state) && (symbol =? start_symbol)))
  && only_action is_accept (ts_language_actions L accept_state ts_builtin_sym_end)
  && (ts_language_next_state L start_state start_symbol =? accept_state).

(** The [SHIFT_REPEAT] of a cell extends the repetition that the cell
    reduces: in every state that lies [child_count] edges back, the
    state entered on the repetition has an action that shifts the same
    terminal to the same state. *)
Definition repeat_extends (L : TSLanguage) (state : TSStateId) (symbol : TSSymbol)
    (acts : list TSParseAction) : bool :=
  match acts with
  | [REDUCE repetition child_count _ _; SHIFT_REPEAT next] =>
      forallb (fun p =>
                 existsb (shifts_to next)
                         (ts_language_actions L (ts_language_next_state L p repetition)
                                              symbol))
              (back (all_edges L) child_count state)
  | _ => true
  end.

Definition repeats_extend (L : TSLanguage) : bool := terminal_cells L (repeat_extends L).

(** ** Literal terminals *)

(** A literal: a visible terminal without a name of its own
    ([ts_symbol_metadata]); [ts_symbol_names] gives its text. *)
Definition is_literal (L : TSLanguage) (symbol : TSSymbol) : bool :=
  let m := ts_language_symbol_metadata L symbol in
  is_terminal L symbol && visible m && negb (named m).

(** The text [name] alone is scanned in parse state [state] as one
    token [symbol]. *)
Definition scans_as (L : TSLanguage) (state : TSStateId) (name : string)
    (symbol : TSSymbol) : bool :=
  match ts_parser_lex L state (codes name) 0 with
  | Some (Token sym O end_) => (sym =? symbol) && (end_ =? length (codes name))%nat
  | _ => false
  end.

(** Every literal scans as itself in every state that has an action
    on it. *)
Definition literals_scan (L : TSLanguage) : bool :=
  forallb (fun state =>
             forallb (fun p : TSSymbol * string =>
                        negb (is_literal L (fst p)
                              && ts_language_has_actions L state (fst p))
                        || scans_as L state (snd p) (fst p))
                     (symbol_names L))
          (table_states L).

(** ** The lexical mode of the payload *)


(** ** Terminals of no rule *)

(** No state but state 0 has a cell for a terminal from [first] up to
    [last], [last] excluded. *)
Definition without_a_rule (L : TSLanguage) (first last : TSSymbol) : bool :=
  terminal_cells L (fun state symbol _ =>
    (state =? 0) || (symbol <? first) || (last <=? symbol)).

(** ** Fields *)

(** The field map of a production: its slice of [ts_field_map_entries]. *)
Definition production_fields (L : TSLanguage) (production_id : Z) : list TSFieldMapEntry :=
  match assoc_Z production_id (field_map_slices L) with
  | Some s => firstn (slice_length s) (skipn (slice_index s) (field_map_entries L))
  | None => []
  end.

Definition has_name (L : TSLanguage) (field : TSFieldId) : bool :=
  match assoc_Z field (field_names L) with
  | Some _ => true
  | None => false
  end.

(** The fields of a reduction are those of children it has, and have
    names. *)
Definition fields_of_action_ok (L : TSLanguage) (a : TSParseAction) : bool :=
  match a with
  | REDUCE _ child_count _ production_id =>
      forallb (fun e => (child_index e <? child_count)%nat
                        && negb (field_id e =? 0) && has_name L (field_id e))
              (production_fields L production_id)
  | _ => true
  end.

Definition fields_ok (L : TSLanguage) : bool :=
  forallb (fun e => forallb (fields_of_action_ok L) (actions e)) (parse_actions L).

(** ** The sparse rows *)

(** The row of each small state is whole and ends where the row of the
    next small state begins, the last one at the end of the table; the
    first one begins the table. *)
Definition rows_end_to_end (L : TSLanguage) : bool :=
  forallb (fun p : Z * nat =>
             match skipn (snd p) (small_parse_table L) with
             | group_count :: data =>
                 (0 <=? group_count) && small_row_fits (Z.to_nat group_count) data
             | [] => false
             end
             && (small_row_end (small_parse_table L) (snd p)
                 =? match assoc_Z (fst p + 1) (small_parse_table_map L) with
                    | Some next => next
                    | None => length (small_parse_table L)
                    end)%nat)
          (small_parse_table_map L)
  && match assoc_Z 0 (small_parse_table_map L) with
     | Some O => true
     | _ => false
     end.

(** ** Operators outside the general start state *)



(** ** The payload of an import *)

Definition is_semicolon (c : Z) : bool := c =? ch ";".

(** The payload [body] begins, after white space only, with a comment
    that is still open where [body] ends: two slashes with no line
    break after them, or a slash and a star with no close marker after
    them. *)
Fixpoint comment_open (body : list Z) : bool :=
  match body with
  | [] => false
  | c :: body' =>
      if c =? ch "/" then
        match body' with
        | d :: rest =>
            if d =? ch "/" then negb (existsb (Z.eqb 10) rest)
            else if d =? ch "*" then negb (has_close_marker rest)
            else false
        | [] => false
        end
      else if is_space c then comment_open body'
      else false
  end.

(** The parse state in which a session scans its next token. *)
Definition scanning_state (start_state : TSStateId) (s : Session) : TSStateId :=
  if recovering s then 0 else top_state start_state (stack s).

(** Case analysis on the state of a [switch]: every numeral with a case
    of its own, and the states of the [default] branch. *)
Ltac switch_on s :=
  destruct s as [|s|s]; cbv beta iota;
  repeat (match goal with
          | |- context [match ?x with xI _ => _ | xO _ => _ | xH => _ end] =>
              is_var x; destruct x; cbv beta iota
          end).

(** Character literals as numbers. *)
Ltac norm_ch :=
  repeat match goal with
         | |- context [ch ?a] =>
             let v := eval vm_compute in (ch a) in change (ch a) with v
         | H : context [ch ?a] |- _ =>
             let v := eval vm_compute in (ch a) in change (ch a) with v in H
         end.

(** A character test and the arithmetic it stands for. *)
Ltac test_to_prop :=
  rewrite ?orb_true_iff, ?andb_true_iff, ?negb_true_iff, ?orb_false_iff,
    ?andb_false_iff, ?negb_false_iff, ?Z.eqb_eq, ?Z.leb_le, ?Z.eqb_neq, ?Z.leb_gt.

Ltac test_to_prop_in H :=
  rewrite ?orb_true_iff, ?andb_true_iff, ?negb_true_iff, ?orb_false_iff,
    ?andb_false_iff, ?negb_false_iff, ?Z.eqb_eq, ?Z.leb_le, ?Z.eqb_neq, ?Z.leb_gt in H.

Ltac bool_lia := norm_ch; test_to_prop; lia.

(** Decide each test of a case from what is known of the character. *)
Ltac decide_tests :=
  norm_ch;
  repeat match goal with
         | |- context [if ?b then _ else _] =>
             let E := fresh "E" in
             first [ assert (E : b = true) by bool_lia
                   | assert (E : b = false) by bool_lia ];
             rewrite E; clear E
         end.

(** A case of the source, read off by computation. *)
Ltac by_source := intros; reflexivity.

Ltac split_ifs H :=
  repeat (match type of H with
          | context [if ?b then _ else _] => destruct b eqn:?
          end).

Section LexerFacts.
Variable lex : LexFn.
Variable skipper : TSStateId -> bool.
Hypothesis OK : lexer_ok lex skipper.

Lemma finish_lex_ok start pos found :
  (start <= pos)%nat -> found_ok start pos found ->
  lexed_ok start pos (finish_lex start found) /\
  lexed_start (finish_lex start found) = start.
Proof.
  intros Hs Hf. destruct found as [[sym e]|]; cbn in *; intuition lia.
Qed.

Lemma accept_token_ok s eof c acc act start pos found :
  lex s eof c = Some (acc, act) ->
  (start <= pos)%nat ->
  ((start = pos)%nat -> clean lex s) ->
  found_ok start pos found ->
  found_ok start pos (accept_token acc pos found).
Proof.
  intros Hl Hs Hc Hf. destruct acc as [sym|]; cbn; [|exact Hf].
  split; [lia|]. intros _.
  destruct (Nat.eq_dec start pos) as [E|]; [|lia].
  specialize (Hc E _ _ _ _ Hl). discriminate.
Qed.

Lemma lex_at_eof_ok fuel s pos start found :
  (start <= pos)%nat ->
  ((start = pos)%nat -> clean lex s) ->
  found_ok start pos found ->
  exists r, lex_at_eof lex (S (S fuel)) s pos start found = Some r /\
            lexed_ok start pos r /\ lexed_start r = start.
Proof.
  intros Hs Hc Hf. change (lex_at_eof lex (S (S fuel)) s pos start found) with
    (match lex s true 0 with
     | None => Some (NoToken start)
     | Some (accept, action) =>
         let found := accept_token accept pos found in
         match action with
         | END_STATE => Some (finish_lex start found)
         | ADVANCE s => lex_at_eof lex (S fuel) s pos start found
         | SKIP s => lex_at_eof lex (S fuel) s pos pos found
         end
     end).
  destruct (lex s true 0) as [[acc act]|] eqn:Hl.
  - pose proof (accept_token_ok _ _ _ _ _ _ _ _ Hl Hs Hc Hf) as Hf'.
    destruct act as [s'|s'|].
    + cbn [lex_at_eof]. rewrite (ok_eof _ _ OK _ _ _ Hl).
      eexists; split; [reflexivity|]. cbn. split; [|reflexivity].
      split; [lia|]. split; [lia|]. intros H; now elim H.
    + destruct (ok_skip _ _ OK _ _ _ _ _ Hl) as (_ & _ & H). discriminate H.
    + eexists; split; [reflexivity|]. now apply finish_lex_ok.
  - eexists; split; [reflexivity|]. cbn. split; [lia|reflexivity].
Qed.

Lemma lex_loop_ok text : forall s pos start found,
  (start <= pos)%nat ->
  ((start = pos)%nat -> clean lex s) ->
  (skipper s = true -> start = pos /\ found = None) ->
  found_ok start pos found ->
  exists r, lex_loop lex text s pos start found = Some r /\
            lexed_ok start (pos + length text) r /\
            (skipper s = false -> lexed_start r = start) /\
            Forall (fun c => is_space c = true)
                   (firstn (lexed_start r - pos) text).
Proof.
  induction text as [|c text IH]; intros s pos start found Hs Hc Hk Hf.
  - cbn [lex_loop]. destruct (lex_at_eof_ok 6 s pos start found Hs Hc Hf)
      as (r & Hr & Hok & Hst).
    exists r. split; [exact Hr|]. cbn [length]. rewrite Nat.add_0_r.
    split; [exact Hok|]. split; [auto|]. rewrite firstn_nil. constructor.
  - cbn [lex_loop]. destruct (lex s false c) as [[acc act]|] eqn:Hl.
    + pose proof (accept_token_ok _ _ _ _ _ _ _ _ Hl Hs Hc Hf) as Hf'.
      destruct act as [s'|s'|].
      * pose proof (ok_advance _ _ OK _ _ _ _ _ Hl) as Hns.
        destruct (IH s' (S pos) start (accept_token acc pos found))
          as (r & Hr & Hok & Hst & Hsp).
        -- lia.
        -- intros E; lia.
        -- intros K. rewrite Hns in K. discriminate.
        -- destruct (accept_token acc pos found) as [[sy e]|]; cbn in *; intuition lia.
        -- exists r. split; [exact Hr|]. cbn [length].
           replace (pos + S (length text))%nat with (S pos + length text)%nat by lia.
           split; [exact Hok|]. split; [auto|].
           rewrite (Hst Hns).
           replace (start - pos)%nat with 0%nat by lia. constructor.
      * destruct (ok_skip _ _ OK _ _ _ _ _ Hl) as (K & K' & Hsp).
        destruct (Hk K) as [-> ->].
        assert (acc = None) by (eapply (ok_skipper _ _ OK s); eauto). subst acc.
        destruct (IH s' (S pos) (S pos) None) as (r & Hr & Hok & Hst & Hws).
        -- lia.
        -- intros _ eof1 c1 acc1 act1 Hl1. eapply (ok_skipper _ _ OK s'); eauto.
        -- auto.
        -- exact I.
        -- exists r. split; [exact Hr|]. cbn [length].
           replace (pos + S (length text))%nat with (S pos + length text)%nat by lia.
           split; [|split].
           ++ destruct r; cbn in *; intuition lia.
           ++ intros K2. rewrite K in K2. discriminate.
           ++ assert (Hge : (S pos <= lexed_start r)%nat).
              { destruct r; cbn in *; lia. }
              replace (lexed_start r - pos)%nat with (S (lexed_start r - S pos)) by lia.
              cbn [firstn]. constructor; assumption.
      * destruct (finish_lex_ok start pos _ Hs Hf') as [Hok Hst].
        eexists; split; [reflexivity|]. split; [|split].
        -- destruct (finish_lex start (accept_token acc pos found)); cbn in *; intuition lia.
        -- auto.
        -- rewrite Hst. replace (start - pos)%nat with 0%nat by lia. constructor.
    + eexists; split; [reflexivity|]. cbn. split; [lia|]. split; [auto|].
      replace (start - pos)%nat with 0%nat by lia. constructor.
Qed.




(** A scan from a clean state returns, and its token is well-formed:
    it starts after skipped white space only and lies in the text. *)
Lemma run_lexer_ok s text pos :
  clean lex s ->
  exists r, run_lexer lex s text pos = Some r /\
            lexed_ok pos (pos + length text) r /\
            Forall (fun c => is_space c = true)
                   (firstn (lexed_start r - pos) text).
Proof.
  intros Hc. unfold run_lexer.
  destruct (lex_loop_ok text s pos pos None) as (r & Hr & Hok & _ & Hws); auto.
  - exact I.
  - exists r; auto.
Qed.
End LexerFacts.

(** Every case of a lexer function, and every path through its tests. *)
Ltac lexer_paths lex s :=
  unfold lex; switch_on s; try discriminate;
  cbn [ADVANCE_MAP];
  let H := fresh "H" in
  intros H; split_ifs H; try discriminate H;
  inversion H; subst; clear H.

Lemma zed_lexer_ok : lexer_ok Zed.ts_lex zed_skipper.
Proof.
  split.
  - intros s eof c acc s'. lexer_paths Zed.ts_lex s; repeat split; try reflexivity; assumption.
  - intros s eof c acc s'. lexer_paths Zed.ts_lex s; reflexivity.
  - intros s eof c acc act K H. unfold zed_skipper in K.
    destruct (Z.eqb_spec s 0) as [->|]; [cbn in H; now inversion H|].
    destruct (Z.eqb_spec s 9) as [->|]; [cbn in H; now inversion H|].
    destruct (Z.eqb_spec s 10) as [->|]; [cbn in H; now inversion H|].
    discriminate.
  - intros s acc s'. lexer_paths Zed.ts_lex s; reflexivity.
  - intros s eof c acc s' [H|H]; revert H; lexer_paths Zed.ts_lex s;
      intros eof' c'; cbv beta iota delta [Zed.ts_lex]; discriminate.
Qed.

Lemma ts_lexer_ok : lexer_ok SysmlTs.ts_lex ts_skipper.
Proof.
  split.
  - intros s eof c acc s'. lexer_paths SysmlTs.ts_lex s; repeat split; try reflexivity; assumption.
  - intros s eof c acc s'. lexer_paths SysmlTs.ts_lex s; reflexivity.
  - intros s eof c acc act K H. unfold ts_skipper in K.
    destruct (Z.eqb_spec s 0) as [->|]; [cbn in H; now inversion H|].
    destruct (Z.eqb_spec s 12) as [->|]; [cbn in H; now inversion H|].
    destruct (Z.eqb_spec s 13) as [->|]; [cbn in H; now inversion H|].
    discriminate.
  - intros s acc s'. lexer_paths SysmlTs.ts_lex s; reflexivity.
  - intros s eof c acc s' [H|H]; revert H; lexer_paths SysmlTs.ts_lex s;
      intros eof' c'; cbv beta iota delta [SysmlTs.ts_lex]; discriminate.
Qed.

(** One step of the loop on a known state and character. *)
Ltac lex_step :=
  cbn [lex_loop app];
  match goal with
  | |- context [match ?lex ?s false ?c with _ => _ end] =>
      let v := eval vm_compute in (lex s false c) in
      change (lex s false c) with v; cbv beta iota; cbn [accept_token]
  end.

(** *** Skipped white space *)

Section Skipping.
Variable lex : LexFn.
Variable s0 : TSStateId.
Hypothesis lex_space : forall c, is_space c = true -> lex s0 false c = Some (None, SKIP s0).

Lemma skip_spaces ws : forall text pos,
  forallb is_space ws = true ->
  lex_loop lex (ws ++ text) s0 pos pos None
  = lex_loop lex text s0 (pos + length ws) (pos + length ws) None.
Proof.
  induction ws as [|c ws IH]; intros text pos H.
  - cbn. now rewrite Nat.add_0_r.
  - cbn in H. apply andb_true_iff in H as [Hc H].
    cbn [app lex_loop length]. rewrite (lex_space c Hc). cbn [accept_token].
    rewrite IH by assumption. now rewrite <- Nat.add_succ_comm.
Qed.
End Skipping.

Lemma zed_skip_space s c :
  In s [0; 9; 10] -> is_space c = true -> Zed.ts_lex s false c = Some (None, SKIP s).
Proof.
  intros Hs H. unfold is_space in H. norm_ch. test_to_prop_in H.
  destruct Hs as [<-|[<-|[<-|[]]]]; cbn [Zed.ts_lex]; cbv beta iota;
    decide_tests; reflexivity.
Qed.

Lemma ts_skip_space s c :
  In s [0; 12; 13] -> is_space c = true -> SysmlTs.ts_lex s false c = Some (None, SKIP s).
Proof.
  intros Hs H. unfold is_space in H. norm_ch. test_to_prop_in H.
  destruct Hs as [<-|[<-|[<-|[]]]]; cbn [SysmlTs.ts_lex ADVANCE_MAP]; cbv beta iota;
    decide_tests; reflexivity.
Qed.

Lemma assoc_Z_In {A} k (l : list (Z * A)) v : assoc_Z k l = Some v -> In (k, v) l.
Proof.
  induction l as [|[k' v'] l IH]; cbn; [discriminate|].
  destruct (Z.eqb_spec k k') as [->|]; intros H.
  - inversion H; subst. now left.
  - right. auto.
Qed.

Lemma assoc_Z_cons {A} k k' (v : A) l :
  assoc_Z k ((k', v) :: l) = if k =? k' then Some v else assoc_Z k l.
Proof. reflexivity. Qed.

Lemma ADVANCE_MAP_assoc m c rest :
  ADVANCE_MAP m c rest = match assoc_Z c m with Some s => ADVANCE s | None => rest end.
Proof.
  induction m as [|[k s] m IH]; cbn; [reflexivity|].
  destruct (c =? k); auto.
Qed.

Lemma list_Z_eqb_eq a b : list_Z_eqb a b = true <-> a = b.
Proof.
  revert b. induction a as [|x a IH]; destruct b as [|y b]; cbn; split; try easy.
  - intros H. apply andb_true_iff in H as [H1 H2]. apply Z.eqb_eq in H1.
    apply IH in H2. now subst.
  - intros H. inversion H; subst. rewrite Z.eqb_refl. cbn. now apply IH.
Qed.

Lemma word_mem_In p l : word_mem p l = true <-> In p l.
Proof.
  unfold word_mem. rewrite existsb_exists. split.
  - intros ([w k] & Hin & H). apply andb_true_iff in H as [H1 H2].
    apply list_Z_eqb_eq in H1. apply Z.eqb_eq in H2. destruct p; cbn in *. now subst.
  - intros H. exists p. split; [exact H|]. apply andb_true_iff. split.
    + now apply list_Z_eqb_eq.
    + apply Z.eqb_refl.
Qed.

Section KeywordAutomaton.
Variable kw : LexFn.
Variable T : KeywordTable.

Hypothesis kw_shape : forall s eof c,
  kw s eof c =
  if s =? 0 then
    Some (None, ADVANCE_MAP (match assoc_Z 0 T with Some (_, m) => m | None => [] end) c
                  (if is_space c then SKIP 0 else END_STATE))
  else
    match assoc_Z s T with
    | Some (a, m) => Some (a, ADVANCE_MAP m c END_STATE)
    | None => None
    end.
Hypothesis T_ok : kw_table_ok T = true.

Lemma kw_edge s a m c t :
  assoc_Z s T = Some (a, m) -> assoc_Z c m = Some t ->
  is_ident_char c = true /\ t <> 0.
Proof.
  intros Hs Hc. pose proof T_ok as H. unfold kw_table_ok in H.
  apply andb_true_iff in H as [H _].
  rewrite forallb_forall in H. specialize (H _ (assoc_Z_In _ _ _ Hs)). cbn in H.
  rewrite forallb_forall in H. specialize (H _ (assoc_Z_In _ _ _ Hc)). cbn in H.
  apply andb_true_iff in H as [H1 H2]. split; [exact H1|].
  apply negb_true_iff in H2. now apply Z.eqb_neq.
Qed.

Lemma kw_no_edge s a m c :
  assoc_Z s T = Some (a, m) -> is_ident_char c = false -> assoc_Z c m = None.
Proof.
  intros Hs Hc. destruct (assoc_Z c m) as [t|] eqn:E; [|reflexivity].
  destruct (kw_edge _ _ _ _ _ Hs E) as [H _]. congruence.
Qed.

Lemma kw_accepting_0 : kw_accepting T 0 = None.
Proof.
  pose proof T_ok as H. unfold kw_table_ok in H. apply andb_true_iff in H as [_ H].
  clear kw_shape. unfold kw_accepting. destruct (assoc_Z 0 T) as [[[a|] m]|]; try discriminate; reflexivity.
Qed.

Definition found_before (pos : nat) (found : option (TSSymbol * nat)) : Prop :=
  match found with
  | Some (_, e) => (e < pos)%nat
  | None => True
  end.

(** Outcome of the keyword scan of a span that ends at [E]: the
    keyword that the walk accepts, with its end at [E], or a scan that
    does not end there. *)
Definition kw_outcome (start E : nat) (k : option TSSymbol) (r : option Lexed) : Prop :=
  match k with
  | Some k => r = Some (Token k start E)
  | None =>
      match r with
      | Some (Token _ _ e) => (e < E)%nat
      | Some (NoToken _) => True
      | None => False
      end
  end.

Lemma finish_before start pos E found :
  found_before pos found -> (pos <= E)%nat ->
  kw_outcome start E None (Some (finish_lex start found)).
Proof.
  destruct found as [[k e]|]; cbn; intros; auto. lia.
Qed.

Lemma kw_stop s c :
  s <> 0 -> is_ident_char c = false ->
  kw s false c = match assoc_Z s T with
                 | Some (a, m) => Some (a, END_STATE)
                 | None => None
                 end
  /\ kw s true c = kw s false c.
Proof.
  intros Hs Hc. rewrite !kw_shape. apply Z.eqb_neq in Hs. rewrite Hs.
  split; [|reflexivity].
  destruct (assoc_Z s T) as [[a m]|] eqn:E; [|reflexivity].
  rewrite ADVANCE_MAP_assoc, (kw_no_edge _ _ _ _ E Hc). reflexivity.
Qed.

Lemma kw_scan w : forall s pos start found rest,
  s <> 0 ->
  forallb is_ident_char w = true ->
  ends_identifier rest = true ->
  found_before pos found ->
  kw_outcome start (pos + length w) (kw_accepts T s w)
    (lex_loop kw (w ++ rest) s pos start found).
Proof.
  induction w as [|c w IH]; intros s pos start found rest Hs Hw Hrest Hf.
  - cbn [app length]. rewrite Nat.add_0_r. unfold kw_accepts, kw_walk, kw_accepting.
    destruct rest as [|c rest].
    + cbn [lex_loop eof_rounds lex_at_eof].
      destruct (kw_stop s 0 Hs eq_refl) as [H1 H2]. rewrite H2, H1.
      destruct (assoc_Z s T) as [[[k|] m]|]; cbn; auto.
      destruct found as [[k e]|]; cbn; auto.
    + cbn [lex_loop]. cbn in Hrest. apply negb_true_iff in Hrest.
      destruct (kw_stop s c Hs Hrest) as [H1 _]. rewrite H1.
      destruct (assoc_Z s T) as [[[k|] m]|]; cbn; auto.
      destruct found as [[k e]|]; cbn; auto.
  - cbn [app length lex_loop]. cbn in Hw. apply andb_true_iff in Hw as [Hc Hw].
    rewrite kw_shape. pose proof Hs as Hs'. apply Z.eqb_neq in Hs'. rewrite Hs'.
    unfold kw_accepts. cbn [kw_walk]. unfold kw_next.
    destruct (assoc_Z s T) as [[a m]|] eqn:E; [|cbn; exact I].
    rewrite ADVANCE_MAP_assoc.
    destruct (assoc_Z c m) as [t|] eqn:Et.
    + destruct (kw_edge _ _ _ _ _ E Et) as [_ Ht].
      replace (pos + S (length w))%nat with (S pos + length w)%nat by lia.
      apply IH; auto.
      destruct a as [k|]; cbn; [lia|].
      destruct found as [[k e]|]; cbn in *; auto.
    + apply finish_before with (pos := S pos); [|lia].
      destruct a as [k|]; cbn; [lia|].
      destruct found as [[k e]|]; cbn in *; auto.
Qed.

(** The keyword scan of an identifier-shaped span. *)
Lemma kw_scan_span w rest pos :
  identifier_shaped w = true ->
  ends_identifier rest = true ->
  kw_outcome pos (pos + length w) (kw_accepts T 0 w)
    (run_lexer kw 0 (w ++ rest) pos).
Proof.
  intros Hw Hrest. destruct w as [|c w]; [discriminate|].
  cbn in Hw. apply andb_true_iff in Hw as [Hc Hw].
  unfold run_lexer. cbn [app lex_loop length]. rewrite kw_shape. cbn [Z.eqb].
  unfold kw_accepts. cbn [kw_walk]. unfold kw_next.
  assert (Hsp : is_space c = false).
  { unfold is_ident_start in Hc. unfold is_space.
    change (ch "A") with 65 in *. change (ch "Z") with 90 in *.
    change (ch "_") with 95 in *. change (ch "a") with 97 in *.
    change (ch "z") with 122 in *. change (ch " ") with 32.
    destruct (Z.leb_spec 9 c), (Z.leb_spec c 13), (Z.eqb_spec c 32),
      (Z.leb_spec 65 c), (Z.leb_spec c 90), (Z.eqb_spec c 95),
      (Z.leb_spec 97 c), (Z.leb_spec c 122); cbn in *; try reflexivity;
      try discriminate; lia. }
  rewrite Hsp. pose proof kw_accepting_0 as H0. unfold kw_accepting in H0.
  remember (assoc_Z 0 T) as row eqn:E in |- *. symmetry in E.
  rewrite E in H0. destruct row as [[a m]|].
  - rewrite ADVANCE_MAP_assoc. destruct (assoc_Z c m) as [t|] eqn:Et.
    + destruct (kw_edge _ _ _ _ _ E Et) as [_ Ht].
      replace (pos + S (length w))%nat with (S pos + length w)%nat by lia.
      subst a. apply kw_scan; auto. exact I.
    + cbn. exact I.
  - cbn. exact I.
Qed.

(** *** The words of the automaton *)

Lemma kw_words_spec fuel : forall s w k,
  kw_shallow T fuel s = true ->
  (kw_accepts T s w = Some k <-> In (w, k) (kw_words T fuel s)).
Proof.
  induction fuel as [|fuel IH]; intros s w k Hsh; [discriminate|].
  cbn [kw_words kw_shallow] in *. rewrite in_app_iff.
  unfold kw_accepts. destruct w as [|c w]; cbn [kw_walk].
  - split.
    + intros H. left. rewrite H. now left.
    + intros [H|H].
      * destruct (kw_accepting T s); [|contradiction].
        destruct H as [H|[]]. now inversion H.
      * exfalso. destruct (assoc_Z s T) as [[a m]|]; [|contradiction].
        apply in_flat_map in H as (e & _ & H).
        destruct (assoc_Z (fst e) m) as [t|]; [|contradiction].
        destruct (t =? snd e); [|contradiction].
        apply in_map_iff in H as (p & Hp & _). discriminate.
  - unfold kw_next. destruct (assoc_Z s T) as [[a m]|] eqn:E.
    + rewrite forallb_forall in Hsh. split.
      * intros H. right. destruct (assoc_Z c m) as [t|] eqn:Et; [|discriminate].
        apply in_flat_map. exists (c, t). split; [now apply assoc_Z_In|].
        cbn [fst snd]. rewrite Et, Z.eqb_refl.
        apply in_map_iff. exists (w, k). split; [reflexivity|].
        apply IH; [|exact H]. exact (Hsh _ (assoc_Z_In _ _ _ Et)).
      * intros [H|H].
        -- destruct (kw_accepting T s); [|contradiction].
           destruct H as [H|[]]. discriminate.
        -- apply in_flat_map in H as ([c' t] & Hin & H). cbn [fst snd] in H.
           destruct (assoc_Z c' m) as [t'|] eqn:Et; [|contradiction].
           destruct (Z.eqb_spec t' t) as [->|]; [|contradiction].
           apply in_map_iff in H as ([w' k'] & Hp & Hw). cbn in Hp.
           inversion Hp; subst. rewrite Et.
           apply (IH t w k); [|exact Hw]. exact (Hsh _ Hin).
    + split; [discriminate|]. intros [H|[]].
      destruct (kw_accepting T s); [|contradiction].
      destruct H as [H|[]]. discriminate.
Qed.
End KeywordAutomaton.

(** *** From the walk to the reserved words, and to the captured token *)

Section Classification.
Variable L : TSLanguage.
Variable T : KeywordTable.
Variable depth : nat.

Hypothesis kw_shape : forall s eof c,
  keyword_lex_fn L s eof c =
  if s =? 0 then
    Some (None, ADVANCE_MAP (match assoc_Z 0 T with Some (_, m) => m | None => [] end) c
                  (if is_space c then SKIP 0 else END_STATE))
  else
    match assoc_Z s T with
    | Some (a, m) => Some (a, ADVANCE_MAP m c END_STATE)
    | None => None
    end.
Hypothesis T_ok : kw_table_ok T = true.
Hypothesis T_shallow : kw_shallow T depth 0 = true.
Hypothesis T_words : same_words (kw_words T depth 0) (reserved_words L) = true.

Lemma kw_accepts_reserved w : kw_accepts T 0 w = reserved_symbol L w.
Proof.
  assert (Hiff : forall k, kw_accepts T 0 w = Some k <-> In (w, k) (reserved_words L)).
  { intros k. rewrite (kw_words_spec T depth 0 w k T_shallow).
    pose proof T_words as Hw. unfold same_words in Hw.
    apply andb_true_iff in Hw as [H1 H2].
    rewrite forallb_forall in H1, H2. split; intros H.
    - apply word_mem_In. now apply H1.
    - apply word_mem_In. now apply H2. }
  unfold reserved_symbol.
  destruct (find _ (reserved_words L)) as [[w' k]|] eqn:E.
  - apply find_some in E as [Hin Heq]. cbn in Heq. apply list_Z_eqb_eq in Heq.
    subst w'. now apply Hiff.
  - destruct (kw_accepts T 0 w) as [k|] eqn:Ek; [|reflexivity].
    exfalso. assert (Hin : In (w, k) (reserved_words L)) by now apply Hiff.
    pose proof (find_none _ _ E _ Hin) as Hn. cbn in Hn.
    assert (list_Z_eqb w w = true) by now apply list_Z_eqb_eq. congruence.
Qed.

Lemma capture_classifies active w rest pos :
  identifier_shaped w = true ->
  ends_identifier rest = true ->
  capture_keyword L active (w ++ rest) pos
    (Token (keyword_capture_token L) pos (pos + length w))
  = Some (Token (classify L active w) pos (pos + length w)).
Proof.
  intros Hw Hrest. unfold capture_keyword, classify.
  rewrite Z.eqb_refl, Nat.sub_diag. cbn [skipn].
  pose proof (kw_scan_span (keyword_lex_fn L) T kw_shape T_ok w rest pos Hw Hrest) as H.
  rewrite kw_accepts_reserved in H.
  destruct (reserved_symbol L w) as [k|]; cbn in H.
  - rewrite H, Nat.eqb_refl. cbn [andb]. now destruct (active k).
  - destruct (run_lexer (keyword_lex_fn L) 0 (w ++ rest) pos) as [[k s e|s]|];
      [|reflexivity|contradiction].
    assert (E : (e =? pos + length w)%nat = false) by (apply Nat.eqb_neq; lia).
    now rewrite E.
Qed.
End Classification.

Section IdentifierStates.
Variable lex : LexFn.
Variable s_id : TSStateId.
Variable sym_id : TSSymbol.

Hypothesis lex_id : forall eof c,
  lex s_id eof c = Some (Some sym_id, if is_ident_char c then ADVANCE s_id else END_STATE).

Lemma identifier_loop w : forall rest pos start found,
  forallb is_ident_char w = true ->
  ends_identifier rest = true ->
  lex_loop lex (w ++ rest) s_id pos start found
  = Some (Token sym_id start (pos + length w)).
Proof.
  induction w as [|c w IH]; intros rest pos start found Hw Hrest.
  - cbn [app length]. rewrite Nat.add_0_r. destruct rest as [|c rest].
    + cbn. rewrite lex_id. reflexivity.
    + cbn in Hrest. apply negb_true_iff in Hrest.
      cbn [lex_loop]. rewrite lex_id, Hrest. reflexivity.
  - cbn in Hw. apply andb_true_iff in Hw as [Hc Hw].
    cbn [app length lex_loop]. rewrite lex_id, Hc, IH by assumption.
    do 2 f_equal. lia.
Qed.

Lemma identifier_token s0 w rest pos :
  (forall c, is_ident_start c = true -> lex s0 false c = Some (None, ADVANCE s_id)) ->
  identifier_shaped w = true ->
  ends_identifier rest = true ->
  run_lexer lex s0 (w ++ rest) pos = Some (Token sym_id pos (pos + length w)).
Proof.
  intros Hs Hw Hrest. destruct w as [|c w]; [discriminate|].
  cbn in Hw. apply andb_true_iff in Hw as [Hc Hw].
  unfold run_lexer. cbn [app length lex_loop]. rewrite (Hs c Hc).
  rewrite identifier_loop by assumption. do 2 f_equal. lia.
Qed.
End IdentifierStates.

Lemma zed_ident_start s c :
  In s [0; 9; 10] -> is_ident_start c = true ->
  Zed.ts_lex s false c = Some (None, ADVANCE 24).
Proof.
  intros Hs H. unfold is_ident_start in H. norm_ch. test_to_prop_in H.
  destruct Hs as [<-|[<-|[<-|[]]]]; cbn [Zed.ts_lex]; cbv beta iota;
    decide_tests; reflexivity.
Qed.

Lemma ts_ident_start s c :
  In s [0; 12; 13] -> is_ident_start c = true ->
  SysmlTs.ts_lex s false c = Some (None, ADVANCE 27).
Proof.
  intros Hs H. unfold is_ident_start in H. norm_ch. test_to_prop_in H.
  destruct Hs as [<-|[<-|[<-|[]]]]; cbn [SysmlTs.ts_lex ADVANCE_MAP]; cbv beta iota;
    decide_tests; reflexivity.
Qed.

Lemma zed_kw_shape s eof c :
  Zed.ts_lex_keywords s eof c =
  if s =? 0 then
    Some (None, ADVANCE_MAP (match assoc_Z 0 zed_keywords with Some (_, m) => m | None => [] end) c
                  (if is_space c then SKIP 0 else END_STATE))
  else
    match assoc_Z s zed_keywords with
    | Some (a, m) => Some (a, ADVANCE_MAP m c END_STATE)
    | None => None
    end.
Proof.
  unfold Zed.ts_lex_keywords, zed_keywords. rewrite !assoc_Z_cons.
  destruct (s =? 0); reflexivity.
Qed.

Lemma zed_keywords_ok : kw_table_ok zed_keywords = true.
Proof. vm_compute. reflexivity. Qed.

Lemma zed_keywords_shallow : kw_shallow zed_keywords 16 0 = true.
Proof. vm_compute. reflexivity. Qed.

Lemma zed_keywords_words :
  same_words (kw_words zed_keywords 16 0) (reserved_words Zed.tree_sitter_sysml) = true.
Proof. vm_compute. reflexivity. Qed.

Lemma ts_kw_shape s eof c :
  SysmlTs.ts_lex_keywords s eof c =
  if s =? 0 then
    Some (None, ADVANCE_MAP (match assoc_Z 0 ts_keywords with Some (_, m) => m | None => [] end) c
                  (if is_space c then SKIP 0 else END_STATE))
  else
    match assoc_Z s ts_keywords with
    | Some (a, m) => Some (a, ADVANCE_MAP m c END_STATE)
    | None => None
    end.
Proof.
  unfold SysmlTs.ts_lex_keywords, ts_keywords. rewrite !assoc_Z_cons.
  destruct (s =? 0); reflexivity.
Qed.

Lemma ts_keywords_ok : kw_table_ok ts_keywords = true.
Proof. vm_compute. reflexivity. Qed.

Lemma ts_keywords_shallow : kw_shallow ts_keywords 16 0 = true.
Proof. vm_compute. reflexivity. Qed.

Lemma ts_keywords_words :
  same_words (kw_words ts_keywords 16 0) (reserved_words SysmlTs.tree_sitter_sysml) = true.
Proof. vm_compute. reflexivity. Qed.

Lemma zed_classification active s w rest pos :
  In s [0; 9; 10] ->
  identifier_shaped w = true ->
  ends_identifier rest = true ->
  lex_with_keywords Zed.tree_sitter_sysml active s (w ++ rest) pos
  = Some (Token (classify Zed.tree_sitter_sysml active w) pos (pos + length w)).
Proof.
  intros Hs Hw Hrest. unfold lex_with_keywords.
  change (lex_fn Zed.tree_sitter_sysml) with Zed.ts_lex.
  rewrite (identifier_token Zed.ts_lex 24 Zed.sym_identifier (fun _ _ => eq_refl) s w rest pos); [| | exact Hw | exact Hrest].
  - exact (capture_classifies Zed.tree_sitter_sysml zed_keywords 16 zed_kw_shape zed_keywords_ok
             zed_keywords_shallow zed_keywords_words active w rest pos Hw Hrest).
  - intros c Hc. now apply zed_ident_start.
Qed.

Lemma ts_classification active s w rest pos :
  In s [0; 12; 13] ->
  identifier_shaped w = true ->
  ends_identifier rest = true ->
  lex_with_keywords SysmlTs.tree_sitter_sysml active s (w ++ rest) pos
  = Some (Token (classify SysmlTs.tree_sitter_sysml active w) pos (pos + length w)).
Proof.
  intros Hs Hw Hrest. unfold lex_with_keywords.
  change (lex_fn SysmlTs.tree_sitter_sysml) with SysmlTs.ts_lex.
  rewrite (identifier_token SysmlTs.ts_lex 27 SysmlTs.sym_identifier (fun _ _ => eq_refl) s w rest pos); [| | exact Hw | exact Hrest].
  - exact (capture_classifies SysmlTs.tree_sitter_sysml ts_keywords 16 ts_kw_shape ts_keywords_ok
             ts_keywords_shallow ts_keywords_words active w rest pos Hw Hrest).
  - intros c Hc. now apply ts_ident_start.
Qed.

(** C4, as stated, fails: in the sysml-ts grammar the span [port] is a
    strict prefix of the reserved word [portion]; in parse state 1,
    whose lexical mode is start state 12 and which has an action on
    [port], the parser still receives it as the keyword [port], not as
    an identifier. *)
Lemma keyword_strict_prefix_counterexample :
  identifier_shaped (codes "port") = true /\
  is_prefix (codes "port") (codes "portion") = true /\
  reserved_symbol SysmlTs.tree_sitter_sysml (codes "portion")
  = Some SysmlTs.anon_sym_portion /\
  near_reserved SysmlTs.tree_sitter_sysml (codes "port") = true /\
  ts_language_lex_state SysmlTs.tree_sitter_sysml 1 = 12 /\
  ts_language_has_actions SysmlTs.tree_sitter_sysml 1 SysmlTs.anon_sym_port = true /\
  ts_parser_lex SysmlTs.tree_sitter_sysml 1 (codes "port x") 0
  = Some (Token SysmlTs.anon_sym_port 0 4) /\
  SysmlTs.anon_sym_port <> SysmlTs.sym_identifier.
Proof. repeat split; try (vm_compute; reflexivity). discriminate. Qed.

(** C4 (amended): an identifier-shaped span scanned in a start state
    that scans identifiers is classified by [classify]: it is the
    reserved-word symbol when disambiguation is active for it and the
    whole span is exactly that reserved word, and the generic identifier
    in every other case: the span is no reserved word (be it a strict
    prefix or an extension of one), or disambiguation is inactive.  Both
    grammars. *)
Theorem keyword_classification :
  (forall active s w rest pos,
     In s [0; 9; 10] -> identifier_shaped w = true -> ends_identifier rest = true ->
     lex_with_keywords Zed.tree_sitter_sysml active s (w ++ rest) pos
     = Some (Token (classify Zed.tree_sitter_sysml active w) pos (pos + length w)))
  /\
  (forall active s w rest pos,
     In s [0; 12; 13] -> identifier_shaped w = true -> ends_identifier rest = true ->
     lex_with_keywords SysmlTs.tree_sitter_sysml active s (w ++ rest) pos
     = Some (Token (classify SysmlTs.tree_sitter_sysml active w) pos (pos + length w))).
Proof.
  split; intros.
  - now apply zed_classification.
  - now apply ts_classification.
Qed.

Lemma keyword_classification_witness :
  In 12 [0; 12; 13] /\
  identifier_shaped (codes "port") = true /\
  ends_identifier (codes " x") = true /\
  lex_with_keywords SysmlTs.tree_sitter_sysml
    (ts_language_has_actions SysmlTs.tree_sitter_sysml 1) 12 (codes "port" ++ codes " x") 0
  = Some (Token (classify SysmlTs.tree_sitter_sysml
                   (ts_language_has_actions SysmlTs.tree_sitter_sysml 1) (codes "port"))
            0 (0 + length (codes "port"))).
Proof.
  split; [right; left; reflexivity|].
  split; [reflexivity|].
  split; [reflexivity|].
  apply (proj2 keyword_classification); [right; left; reflexivity | reflexivity | reflexivity].
Defined.

Section StringStates.
Variable lex : LexFn.
Variables s_str s_esc s_acc : TSStateId.
Variable sym : TSSymbol.

Hypothesis lex_str : forall c, lex s_str false c = Some (None,
    if c =? 34 then ADVANCE s_acc else
    if c =? 92 then ADVANCE s_esc else
    if negb (c =? 0) then ADVANCE s_str else
    END_STATE).
Hypothesis lex_esc : forall c, lex s_esc false c = Some (None,
    if negb (c =? 0) && negb (c =? 10) then ADVANCE s_str else
    END_STATE).
Hypothesis lex_acc : forall eof c, lex s_acc eof c = Some (Some sym, END_STATE).
Hypothesis lex_str_eof : lex s_str true 0 = Some (None, END_STATE).
Hypothesis lex_esc_eof : lex s_esc true 0 = Some (None, END_STATE).

Lemma string_unterminated_both body :
  (forall pos start, has_closing_quote body = false ->
     lex_loop lex body s_str pos start None = Some (NoToken start)) /\
  (forall pos start, has_closing_quote (tl body) = false ->
     lex_loop lex body s_esc pos start None = Some (NoToken start)).
Proof.
  induction body as [|c body [IHstr IHesc]]; split; intros pos start H.
  - cbn. now rewrite lex_str_eof.
  - cbn. now rewrite lex_esc_eof.
  - cbn [lex_loop]. rewrite lex_str. cbn [has_closing_quote] in H.
    destruct (c =? 34); [discriminate|].
    destruct (c =? 92).
    + cbn [accept_token]. apply IHesc. now destruct body.
    + destruct (c =? 0); cbn; auto.
  - cbn [lex_loop]. rewrite lex_esc. cbn [tl] in H.
    destruct (negb (c =? 0) && negb (c =? 10)); cbn; auto.
Qed.

Lemma string_unterminated body pos start :
  has_closing_quote body = false ->
  lex_loop lex body s_str pos start None = Some (NoToken start).
Proof. apply string_unterminated_both. Qed.

Lemma string_terminated items rest pos start :
  Forall item_ok items ->
  lex_loop lex (flat_map item_text items ++ 34 :: rest) s_str pos start None
  = Some (Token sym start (S (pos + length (flat_map item_text items)))).
Proof.
  intros H. revert pos. induction H as [|i items Hi _ IH]; intros pos.
  - cbn [flat_map app lex_loop]. rewrite lex_str. cbn.
    destruct rest; cbn; rewrite ?lex_acc; cbn; f_equal; f_equal; lia.
  - destruct i as [c|c]; cbn [flat_map item_text app lex_loop] in *.
    + destruct Hi as (H1 & H2 & H3). rewrite lex_str.
      apply Z.eqb_neq in H1, H2, H3. rewrite H1, H2, H3. cbn [negb accept_token].
      rewrite IH. cbn [length]. f_equal. f_equal. lia.
    + destruct Hi as (H1 & H2).
      rewrite lex_str. cbn. rewrite lex_esc.
      apply Z.eqb_neq in H1, H2. rewrite H1, H2. cbn [negb andb accept_token].
      rewrite IH. cbn [length]. f_equal. f_equal. lia.
Qed.
End StringStates.

Lemma zed_string_unterminated ws body :
  forallb is_space ws = true ->
  has_closing_quote body = false ->
  run_lexer Zed.ts_lex 0 (ws ++ 34 :: body) 0 = Some (NoToken (length ws)).
Proof.
  intros Hws H. unfold run_lexer.
  rewrite (skip_spaces Zed.ts_lex 0) by (auto; intros; apply zed_skip_space; cbn; auto).
  lex_step.
  apply (string_unterminated Zed.ts_lex 1 8 25); [by_source .. | exact H].
Qed.

Lemma ts_string_unterminated ws body :
  forallb is_space ws = true ->
  has_closing_quote body = false ->
  run_lexer SysmlTs.ts_lex 0 (ws ++ 34 :: body) 0 = Some (NoToken (length ws)).
Proof.
  intros Hws H. unfold run_lexer.
  rewrite (skip_spaces SysmlTs.ts_lex 0) by (auto; intros; apply ts_skip_space; cbn; auto).
  lex_step.
  apply (string_unterminated SysmlTs.ts_lex 1 11 28); [by_source .. | exact H].
Qed.

Lemma zed_string_terminated items rest :
  Forall item_ok items ->
  run_lexer Zed.ts_lex 0 (34 :: flat_map item_text items ++ 34 :: rest) 0
  = Some (Token Zed.sym_string 0 (2 + length (flat_map item_text items))).
Proof.
  intros H. unfold run_lexer. lex_step.
  rewrite (string_terminated Zed.ts_lex 1 8 25 Zed.sym_string); [reflexivity | by_source .. | exact H].
Qed.

Lemma ts_string_terminated items rest :
  Forall item_ok items ->
  run_lexer SysmlTs.ts_lex 0 (34 :: flat_map item_text items ++ 34 :: rest) 0
  = Some (Token SysmlTs.sym_string 0 (2 + length (flat_map item_text items))).
Proof.
  intros H. unfold run_lexer. lex_step.
  rewrite (string_terminated SysmlTs.ts_lex 1 11 28 SysmlTs.sym_string); [reflexivity | by_source .. | exact H].
Qed.

(** C6, as stated, fails for the character after the backslash being a
    line break: the escape case has no transition on it, the scan stops
    there and, nothing having been accepted, yields no string token. *)
Lemma string_escape_newline_counterexample :
  run_lexer Zed.ts_lex 0 [34; 92; 10; 34] 0 = Some (NoToken 0) /\
  run_lexer SysmlTs.ts_lex 0 [34; 92; 10; 34] 0 = Some (NoToken 0).
Proof. split; vm_compute; reflexivity. Qed.

(** C6 (amended): a string body made of plain characters (no quote, no
    backslash, no NUL) and of escapes, a backslash followed by any
    character other than a line break and NUL (a quote included), is
    scanned as one string token that ends with the first quote that no
    backslash escapes.  Both grammars. *)
Theorem string_escapes :
  forall items rest,
    Forall item_ok items ->
    run_lexer Zed.ts_lex 0 (34 :: flat_map item_text items ++ 34 :: rest) 0
    = Some (Token Zed.sym_string 0 (2 + length (flat_map item_text items)))
    /\
    run_lexer SysmlTs.ts_lex 0 (34 :: flat_map item_text items ++ 34 :: rest) 0
    = Some (Token SysmlTs.sym_string 0 (2 + length (flat_map item_text items))).
Proof.
  intros items rest H. split.
  - now apply zed_string_terminated.
  - now apply ts_string_terminated.
Qed.

Lemma string_escapes_witness :
  Forall item_ok [Plain (ch "a"); Escaped 34; Escaped 92; Plain (ch "b")] /\
  run_lexer Zed.ts_lex 0 (34 :: codes "a" ++ [92; 34; 92; 92] ++ codes "b" ++ 34 :: codes " x") 0
  = Some (Token Zed.sym_string 0 8).
Proof.
  assert (H : Forall item_ok [Plain (ch "a"); Escaped 34; Escaped 92; Plain (ch "b")]).
  { repeat (apply Forall_cons; [unfold item_ok; norm_ch; lia|]). apply Forall_nil. }
  split; [exact H|].
  exact (proj1 (string_escapes [Plain (ch "a"); Escaped 34; Escaped 92; Plain (ch "b")]
                  (codes " x") H)).
Defined.

(** The start states that scan no strings stop at the quote. *)
Lemma zed_quote_unscanned s ws rest :
  In s [9; 10] ->
  forallb is_space ws = true ->
  run_lexer Zed.ts_lex s (ws ++ 34 :: rest) 0 = Some (NoToken (length ws)).
Proof.
  intros Hs Hws. unfold run_lexer.
  rewrite (skip_spaces Zed.ts_lex s)
    by (auto; intros; apply zed_skip_space; cbn [In] in *; intuition).
  destruct Hs as [<-|[<-|[]]]; lex_step; reflexivity.
Qed.

Lemma ts_quote_unscanned s ws rest :
  In s [12; 13] ->
  forallb is_space ws = true ->
  run_lexer SysmlTs.ts_lex s (ws ++ 34 :: rest) 0 = Some (NoToken (length ws)).
Proof.
  intros Hs Hws. unfold run_lexer.
  rewrite (skip_spaces SysmlTs.ts_lex s)
    by (auto; intros; apply ts_skip_space; cbn [In] in *; intuition).
  destruct Hs as [<-|[<-|[]]]; lex_step; reflexivity.
Qed.

(** A scan that fails before the end of the input is a lexical error
    of the step. *)
Lemma failed_scan_is_lexical_error L start_state (s : Session) n c rest :
  run_lexer (lex_fn L) (ts_language_lex_state L (scanning_state start_state s)) (input s) 0
  = Some (NoToken n) ->
  skipn n (input s) = c :: rest ->
  step_error L start_state s = Some LexicalError.
Proof.
  intros H Hrest. unfold scanning_state in H.
  unfold step_error. cbv zeta. unfold ts_parser_lex, lex_with_keywords.
  revert H. destruct (recovering s); cbv iota; intros H;
    rewrite H; cbn [capture_keyword]; now rewrite Hrest.
Qed.

Lemma skipn_length_app {A} (a b : list A) : skipn (length a) (a ++ b) = b.
Proof. induction a as [|x a IH]; [reflexivity|exact IH]. Qed.

(** C10: when the text after an opening quote holds no quote that is not
    escaped, the scan of the string accepts no token and fails, also
    after skipped white space; and the parser, in whatever state it
    scans outside the payload of an import, meets the failure as a
    lexical error.  (The start states other than 0 scan no strings and
    fail at the quote.)  Both grammars. *)
Theorem unterminated_string_fails :
  forall ws body,
    forallb is_space ws = true ->
    has_closing_quote body = false ->
    run_lexer Zed.ts_lex 0 (ws ++ 34 :: body) 0 = Some (NoToken (length ws)) /\
    run_lexer SysmlTs.ts_lex 0 (ws ++ 34 :: body) 0 = Some (NoToken (length ws)) /\
    forall L states,
      In (L, states) [(Zed.tree_sitter_sysml, zed_scanning_states);
                      (SysmlTs.tree_sitter_sysml, ts_scanning_states)] ->
      forall s : Session,
        input s = ws ++ 34 :: body ->
        In (ts_language_lex_state L (scanning_state 1 s)) states ->
        step_error L 1 s = Some LexicalError.
Proof.
  intros ws body Hws H. split; [now apply zed_string_unterminated|].
  split; [now apply ts_string_unterminated|].
  intros L states HL s Hin Hst.
  apply (failed_scan_is_lexical_error L 1 s (length ws) 34 body);
    [|rewrite Hin; apply skipn_length_app].
  rewrite Hin.
  destruct HL as [HL|[HL|[]]]; inversion HL; subst; clear HL;
    cbn [lex_fn Zed.tree_sitter_sysml SysmlTs.tree_sitter_sysml];
    destruct Hst as [<-|Hst].
  - now apply zed_string_unterminated.
  - apply zed_quote_unscanned; [exact Hst|exact Hws].
  - now apply ts_string_unterminated.
  - apply ts_quote_unscanned; [exact Hst|exact Hws].
Qed.

Lemma unterminated_string_fails_witness :
  forallb is_space (codes " ") = true /\
  has_closing_quote (codes "abc\" ++ [34] ++ codes "d") = false /\
  run_lexer Zed.ts_lex 0 (codes " " ++ 34 :: codes "abc\" ++ [34] ++ codes "d") 0
  = Some (NoToken 1) /\
  step_error SysmlTs.tree_sitter_sysml 1
    (mkSession [] [] false 0 (codes " " ++ 34 :: codes "abc\" ++ [34] ++ codes "d"))
  = Some LexicalError.
Proof.
  split; [reflexivity|]. split; [reflexivity|].
  pose proof (unterminated_string_fails (codes " ") (codes "abc\" ++ [34] ++ codes "d")
                eq_refl eq_refl) as (H1 & _ & H3).
  split; [exact H1|].
  apply (H3 SysmlTs.tree_sitter_sysml ts_scanning_states (or_intror (or_introl eq_refl))).
  - reflexivity.
  - vm_compute. right. left. reflexivity.
Defined.

(** ** Block comments *)

Section BlockComment.
Variable lex : LexFn.
Variables s_in s_star s_acc : TSStateId.
Variable sym : TSSymbol.

Hypothesis lex_in : forall c, lex s_in false c = Some (None,
    if c =? ch "*" then ADVANCE s_star else
    if negb (c =? 0) then ADVANCE s_in else
    END_STATE).
Hypothesis lex_star : forall c, lex s_star false c = Some (None,
    if c =? ch "*" then ADVANCE s_star else
    if c =? ch "/" then ADVANCE s_acc else
    if negb (c =? 0) then ADVANCE s_in else
    END_STATE).
Hypothesis lex_acc : forall eof c, lex s_acc eof c = Some (Some sym, END_STATE).

Definition not_slash (l : list Z) : Prop :=
  match l with
  | [] => True
  | c :: _ => c <> ch "/"
  end.

Lemma accepted_here text pos start found :
  lex_loop lex text s_acc pos start found = Some (Token sym start pos).
Proof. destruct text; cbn; rewrite lex_acc; reflexivity. Qed.

Lemma block_comment_closes body : forall rest pos start found,
  has_close_marker body = false ->
  no_nul body = true ->
  lex_loop lex (body ++ ch "*" :: ch "/" :: rest) s_in pos start found
  = Some (Token sym start (pos + length body + 2)) /\
  (not_slash body ->
   lex_loop lex (body ++ ch "*" :: ch "/" :: rest) s_star pos start found
   = Some (Token sym start (pos + length body + 2))).
Proof.
  induction body as [|c body IH]; intros rest pos start found Hm Hn.
  - cbn [app length lex_loop]. rewrite lex_in, lex_star. norm_ch. cbn [Z.eqb Pos.eqb].
    cbn [accept_token lex_loop]. rewrite !lex_star. norm_ch.
    cbn [Z.eqb Pos.eqb accept_token]. rewrite !accepted_here.
    split; [|intros _]; do 2 f_equal; lia.
  - cbn [has_close_marker] in Hm. apply orb_false_iff in Hm as [Hm1 Hm2].
    cbn [no_nul forallb] in Hn. apply andb_true_iff in Hn as [Hc Hn].
    destruct (IH rest (S pos) start found Hm2 Hn) as [IHin IHstar].
    assert (Hstar : c = ch "*" -> not_slash body).
    { intros ->. destruct body as [|y body]; cbn; [exact I|].
      norm_ch. cbn in Hm1. intros ->. discriminate. }
    cbn [app length lex_loop]. rewrite lex_in, lex_star, Hc. cbn [accept_token].
    replace (pos + S (length body) + 2)%nat with (S pos + length body + 2)%nat by lia.
    split.
    + destruct (Z.eqb_spec c (ch "*")) as [E|E]; auto.
    + intros Hs. cbn in Hs. apply Z.eqb_neq in Hs. rewrite Hs.
      destruct (Z.eqb_spec c (ch "*")) as [E|E]; auto.
Qed.

Hypothesis lex_in_eof : lex s_in true 0 = Some (None, END_STATE).
Hypothesis lex_star_eof : lex s_star true 0 = Some (None, END_STATE).

(** Inside a block comment the scan ends in a comment token, or falls
    back to what was accepted before the comment began. *)
Definition comment_or_fallback (pos limit start : nat)
    (found : option (TSSymbol * nat)) (r : option Lexed) : Prop :=
  r = Some (finish_lex start found) \/
  exists e, (pos < e <= limit)%nat /\ r = Some (Token sym start e).

Lemma block_comment_or_fallback text : forall pos start found,
  comment_or_fallback pos (pos + length text) start found
    (lex_loop lex text s_in pos start found) /\
  comment_or_fallback pos (pos + length text) start found
    (lex_loop lex text s_star pos start found).
Proof.
  induction text as [|c text IH]; intros pos start found.
  - cbn. rewrite lex_in_eof, lex_star_eof. split; left; reflexivity.
  - destruct (IH (S pos) start found) as [IHin IHstar].
    assert (Hup : forall r,
               comment_or_fallback (S pos) (S pos + length text) start found r ->
               comment_or_fallback pos (pos + length (c :: text)) start found r).
    { intros r [H|(e & He & H)]; [left; exact H|right].
      exists e. cbn [length]. split; [lia|exact H]. }
    cbn [lex_loop]. rewrite lex_in, lex_star. cbn [accept_token]. split.
    + destruct (c =? ch "*"); [now apply Hup|].
      destruct (negb (c =? 0)); [now apply Hup|]. left; reflexivity.
    + destruct (c =? ch "*"); [now apply Hup|].
      destruct (c =? ch "/").
      * right. exists (S pos). cbn [length]. split; [lia|]. apply accepted_here.
      * destruct (negb (c =? 0)); [now apply Hup|]. left; reflexivity.
Qed.
End BlockComment.

(** ** The import payload *)

Ltac go :=
  match goal with
  | Hgo : forall s' f, In s' _ -> _ |- _ =>
      apply Hgo; [cbn [In]; auto 10 | first [assumption | reflexivity]]
  end.

Section ImportPayload.
Variable lex : LexFn.
Variables s_start s_slash s_line s_block_star s_block s_space s_raw : TSStateId.
Variables s_comment_line s_in s_star s_acc : TSStateId.
Variables tok com : TSSymbol.

Hypothesis lex_start : forall c, lex s_start false c = Some (None,
    if c =? ch "/" then ADVANCE s_slash else
    if ((9 <=? c) && (c <=? 13)) || (c =? ch " ") then ADVANCE s_space else
    if negb (c =? 0) && negb (c =? ch ";") then ADVANCE s_raw else
    END_STATE).
Hypothesis lex_start_eof : lex s_start true 0 = Some (None, END_STATE).
Hypothesis lex_line : forall c, lex s_line false c = Some (Some tok,
    if c =? 10 then ADVANCE s_raw else
    if c =? ch ";" then ADVANCE s_comment_line else
    if negb (c =? 0) then ADVANCE s_line else
    END_STATE).
Hypothesis lex_slash : forall c, lex s_slash false c = Some (Some tok,
    if c =? ch "*" then ADVANCE s_block else
    if c =? ch "/" then ADVANCE s_line else
    if negb (c =? 0) && negb (c =? ch ";") then ADVANCE s_raw else
    END_STATE).
Hypothesis lex_block_star : forall c, lex s_block_star false c = Some (Some tok,
    if c =? ch "*" then ADVANCE s_block_star else
    if c =? ch "/" then ADVANCE s_raw else
    if c =? ch ";" then ADVANCE s_in else
    if negb (c =? 0) then ADVANCE s_block else
    END_STATE).
Hypothesis lex_block : forall c, lex s_block false c = Some (Some tok,
    if c =? ch "*" then ADVANCE s_block_star else
    if c =? ch ";" then ADVANCE s_in else
    if negb (c =? 0) then ADVANCE s_block else
    END_STATE).
Hypothesis lex_space : forall c, lex s_space false c = Some (Some tok,
    if c =? ch "/" then ADVANCE s_slash else
    if ((9 <=? c) && (c <=? 13)) || (c =? ch " ") then ADVANCE s_space else
    if negb (c =? 0) && negb (c =? ch ";") then ADVANCE s_raw else
    END_STATE).
Hypothesis lex_raw : forall c, lex s_raw false c = Some (Some tok,
    if negb (c =? 0) && negb (c =? ch ";") then ADVANCE s_raw else
    END_STATE).
Hypothesis lex_payload_eof : forall s,
    In s [s_slash; s_line; s_block_star; s_block; s_space; s_raw] ->
    lex s true 0 = Some (Some tok, END_STATE).
Hypothesis lex_comment_line : forall c, lex s_comment_line false c = Some (Some com,
    if negb (c =? 0) && negb (c =? 10) then ADVANCE s_comment_line else
    END_STATE).
Hypothesis lex_comment_line_eof : lex s_comment_line true 0 = Some (Some com, END_STATE).
Hypothesis lex_in : forall c, lex s_in false c = Some (None,
    if c =? ch "*" then ADVANCE s_star else
    if negb (c =? 0) then ADVANCE s_in else
    END_STATE).
Hypothesis lex_star : forall c, lex s_star false c = Some (None,
    if c =? ch "*" then ADVANCE s_star else
    if c =? ch "/" then ADVANCE s_acc else
    if negb (c =? 0) then ADVANCE s_in else
    END_STATE).
Hypothesis lex_acc : forall eof c, lex s_acc eof c = Some (Some com, END_STATE).
Hypothesis lex_in_eof : lex s_in true 0 = Some (None, END_STATE).
Hypothesis lex_star_eof : lex s_star true 0 = Some (None, END_STATE).

(** What a scan of the payload, at [pos] with [text] ahead, may
    return: the raw token, free of [;] and ending where the payload
    stops, or a comment token that holds a [;]. *)
Definition payload_result (text : list Z) (pos start : nat) (r : option Lexed) : Prop :=
  (exists e, r = Some (Token tok start e) /\ (pos <= e <= pos + length text)%nat /\
             no_semicolon (firstn (e - pos) text) = true /\
             payload_stops (skipn (e - pos) text) = true)
  \/
  (exists e, r = Some (Token com start e) /\ (pos < e <= pos + length text)%nat /\
             has_semicolon (firstn (e - pos) text) = true).

Lemma line_comment text : forall pos start found,
  exists e, lex_loop lex text s_comment_line pos start found = Some (Token com start e) /\
            (pos <= e <= pos + length text)%nat.
Proof.
  induction text as [|c text IH]; intros pos start found.
  - cbn. rewrite lex_comment_line_eof. exists pos. cbn. split; [reflexivity|lia].
  - cbn [lex_loop]. rewrite lex_comment_line. cbn [accept_token].
    destruct (negb (c =? 0) && negb (c =? 10)).
    + destruct (IH (S pos) start (Some (com, pos))) as (e & He & Hb).
      exists e. split; [exact He|]. cbn [length]. lia.
    + exists pos. cbn. split; [reflexivity|]. lia.
Qed.

Lemma payload_cons c text pos start r :
  (c =? ch ";") = false ->
  payload_result text (S pos) start r ->
  payload_result (c :: text) pos start r.
Proof.
  intros Hc [(e & Hr & Hb & Hn & Hs)|(e & Hr & Hb & Hh)]; [left|right]; exists e.
  - split; [exact Hr|]. cbn [length]. split; [lia|].
    replace (e - pos)%nat with (S (e - S pos)) by lia.
    cbn [firstn skipn]. split; [|exact Hs].
    unfold no_semicolon in *. cbn [forallb]. now rewrite Hc, Hn.
  - split; [exact Hr|]. cbn [length]. split; [lia|].
    replace (e - pos)%nat with (S (e - S pos)) by lia.
    cbn [firstn]. unfold has_semicolon in *. cbn [existsb]. now rewrite Hh, orb_true_r.
Qed.

Lemma payload_stop c text pos start :
  (c =? ch ";") || (c =? 0) = true ->
  payload_result (c :: text) pos start (Some (Token tok start pos)).
Proof.
  intros Hc. left. exists pos. split; [reflexivity|]. cbn [length].
  split; [lia|]. rewrite Nat.sub_diag. cbn. auto.
Qed.

Lemma payload_comment c text pos start e :
  (c =? ch ";") = true ->
  (S pos <= e <= S pos + length text)%nat ->
  payload_result (c :: text) pos start (Some (Token com start e)).
Proof.
  intros Hc Hb. right. exists e. split; [reflexivity|]. cbn [length].
  split; [lia|]. replace (e - pos)%nat with (S (e - S pos)) by lia.
  cbn [firstn]. unfold has_semicolon. cbn [existsb]. now rewrite Hc.
Qed.

Lemma payload_into_block c text pos start :
  (c =? ch ";") = true ->
  payload_result (c :: text) pos start
    (lex_loop lex text s_in (S pos) start (Some (tok, pos))).
Proof.
  intros Hc.
  destruct (proj1 (block_comment_or_fallback lex s_in s_star s_acc com
                     lex_in lex_star lex_acc lex_in_eof lex_star_eof
                     text (S pos) start (Some (tok, pos))))
    as [H|(e & He & H)]; rewrite H.
  - cbn. apply payload_stop. now rewrite Hc.
  - apply payload_comment; [exact Hc|lia].
Qed.

Lemma payload_scan text : forall s pos start found,
  In s [s_slash; s_line; s_block_star; s_block; s_space; s_raw] ->
  payload_result text pos start (lex_loop lex text s pos start found).
Proof.
  induction text as [|c text IH]; intros s pos start found Hs.
  - cbn. rewrite (lex_payload_eof s Hs). cbn. left. exists pos.
    split; [reflexivity|]. cbn. split; [lia|]. rewrite Nat.sub_diag. auto.
  - assert (Hgo : forall s' f, In s' [s_slash; s_line; s_block_star; s_block; s_space; s_raw] ->
              (c =? ch ";") = false ->
              payload_result (c :: text) pos start (lex_loop lex text s' (S pos) start f)).
    { intros s' f Hs' Hc. apply payload_cons; [exact Hc|]. now apply IH. }
    assert (Hsl : (ch "/" =? ch ";") = false) by reflexivity.
    assert (Hst : (ch "*" =? ch ";") = false) by reflexivity.
    assert (Hnl : (10 =? ch ";") = false) by reflexivity.
    cbn [lex_loop].
    destruct Hs as [<-|[<-|[<-|[<-|[<-|[<-|[]]]]]]].
    + (* after a slash *)
      rewrite lex_slash. cbn [accept_token].
      destruct (Z.eqb_spec c (ch "*")) as [->|]; [go|].
      destruct (Z.eqb_spec c (ch "/")) as [->|]; [go|].
      destruct (c =? 0) eqn:E0; destruct (c =? ch ";") eqn:Es; cbn [negb andb];
        try (apply payload_stop; rewrite ?E0, ?Es; reflexivity).
      go.
    + (* line comment opened at the start of the payload *)
      rewrite lex_line. cbn [accept_token].
      destruct (Z.eqb_spec c 10) as [->|]; [go|].
      destruct (c =? ch ";") eqn:Es.
      * destruct (line_comment text (S pos) start (Some (tok, pos))) as (e & He & Hb).
        rewrite He. apply payload_comment; [exact Es|lia].
      * destruct (c =? 0) eqn:E0; cbn [negb].
        -- apply payload_stop. now rewrite E0, orb_true_r.
        -- go.
    + (* block comment opened at the start, after a star *)
      rewrite lex_block_star. cbn [accept_token].
      destruct (Z.eqb_spec c (ch "*")) as [->|]; [go|].
      destruct (Z.eqb_spec c (ch "/")) as [->|]; [go|].
      destruct (c =? ch ";") eqn:Es; [now apply payload_into_block|].
      destruct (c =? 0) eqn:E0; cbn [negb].
      * apply payload_stop. now rewrite E0, orb_true_r.
      * go.
    + (* block comment opened at the start *)
      rewrite lex_block. cbn [accept_token].
      destruct (Z.eqb_spec c (ch "*")) as [->|]; [go|].
      destruct (c =? ch ";") eqn:Es; [now apply payload_into_block|].
      destruct (c =? 0) eqn:E0; cbn [negb].
      * apply payload_stop. now rewrite E0, orb_true_r.
      * go.
    + (* white space *)
      rewrite lex_space. cbn [accept_token].
      destruct (Z.eqb_spec c (ch "/")) as [->|]; [go|].
      destruct (((9 <=? c) && (c <=? 13)) || (c =? ch " ")) eqn:Ew.
      * apply Hgo; [cbn [In]; auto 10|].
        destruct (Z.eqb_spec c (ch ";")) as [->|]; [|reflexivity].
        vm_compute in Ew. discriminate.
      * destruct (c =? 0) eqn:E0; destruct (c =? ch ";") eqn:Es; cbn [negb andb];
          try (apply payload_stop; rewrite ?E0, ?Es; reflexivity).
        go.
    + (* raw text *)
      rewrite lex_raw. cbn [accept_token].
      destruct (c =? 0) eqn:E0; destruct (c =? ch ";") eqn:Es; cbn [negb andb];
        try (apply payload_stop; rewrite ?E0, ?Es; reflexivity).
      go.
Qed.

(** A scan in the payload mode returns no token, or the raw token or
    a comment, as [payload_result] has them. *)
Lemma payload_token text sym start e :
  run_lexer lex s_start text 0 = Some (Token sym start e) ->
  payload_result text 0 0 (Some (Token sym start e)).
Proof.
  unfold run_lexer. destruct text as [|c text].
  - cbn. rewrite lex_start_eof. discriminate.
  - cbn [lex_loop]. rewrite lex_start. cbn [accept_token].
    assert (Hgo : forall s', In s' [s_slash; s_line; s_block_star; s_block; s_space; s_raw] ->
              (c =? ch ";") = false ->
              lex_loop lex text s' 1 0 None = Some (Token sym start e) ->
              payload_result (c :: text) 0 0 (Some (Token sym start e))).
    { intros s' Hs' Hc <-. apply payload_cons; [exact Hc|]. now apply payload_scan. }
    destruct (Z.eqb_spec c (ch "/")) as [->|]; [apply Hgo; [cbn [In]; auto|reflexivity]|].
    destruct (((9 <=? c) && (c <=? 13)) || (c =? ch " ")) eqn:Ew.
    + apply Hgo; [cbn [In]; auto 10|].
      destruct (Z.eqb_spec c (ch ";")) as [->|]; [|reflexivity].
      vm_compute in Ew. discriminate.
    + destruct (c =? 0) eqn:E0; destruct (c =? ch ";") eqn:Es; cbn [negb andb];
        try discriminate.
      apply Hgo; [cbn [In]; auto 10|first [exact Es | reflexivity]].
Qed.
(** *** The raw token of a payload *)

(** Where the payload stops, a state of the payload returns the raw
    token; at a [;] the states inside a comment that opened the
    payload do not. *)
Lemma payload_end s rest pos start found :
  payload_stops rest = true ->
  In s [s_slash; s_space; s_raw] \/
  (In s [s_line; s_block_star; s_block] /\ starts_with is_semicolon rest = false) ->
  lex_loop lex rest s pos start found = Some (Token tok start pos).
Proof.
  intros Hstop Hs. destruct rest as [|c rest].
  - cbn. rewrite lex_payload_eof; [reflexivity|].
    destruct Hs as [Hs|[Hs _]]; cbn [In] in *; intuition.
  - cbn [payload_stops] in Hstop. cbn [lex_loop].
    destruct Hs as [[<-|[<-|[<-|[]]]]|[[<-|[<-|[<-|[]]]] Hsemi]];
      try (cbn [starts_with] in Hsemi; unfold is_semicolon in Hsemi;
           rewrite Hsemi in Hstop; cbn [orb] in Hstop;
           apply Z.eqb_eq in Hstop; subst c).
    + rewrite lex_slash. apply orb_true_iff in Hstop as [H|H]; apply Z.eqb_eq in H; subst c;
        reflexivity.
    + rewrite lex_space. apply orb_true_iff in Hstop as [H|H]; apply Z.eqb_eq in H; subst c;
        reflexivity.
    + rewrite lex_raw. apply orb_true_iff in Hstop as [H|H]; apply Z.eqb_eq in H; subst c;
        reflexivity.
    + rewrite lex_line. reflexivity.
    + rewrite lex_block_star. reflexivity.
    + rewrite lex_block. reflexivity.
Qed.

Lemma payload_char c body :
  no_semicolon (c :: body) = true -> no_nul (c :: body) = true ->
  (c =? ch ";") = false /\ (c =? 0) = false /\
  no_semicolon body = true /\ no_nul body = true.
Proof.
  unfold no_semicolon, no_nul. cbn [forallb]. intros H1 H2.
  apply andb_true_iff in H1 as [H1 H1']. apply andb_true_iff in H2 as [H2 H2'].
  apply negb_true_iff in H1, H2. auto.
Qed.

Lemma payload_raw body : forall rest pos start found,
  no_semicolon body = true -> no_nul body = true -> payload_stops rest = true ->
  lex_loop lex (body ++ rest) s_raw pos start found
  = Some (Token tok start (pos + length body)).
Proof.
  induction body as [|c body IH]; intros rest pos start found Hs Hn Hstop.
  - cbn [app length]. rewrite Nat.add_0_r. apply payload_end; [exact Hstop|].
    left. cbn [In]. auto.
  - destruct (payload_char _ _ Hs Hn) as (Hc & H0 & Hs' & Hn').
    cbn [app lex_loop]. rewrite lex_raw, Hc, H0. cbn [negb andb accept_token].
    rewrite IH by assumption. cbn [length]. do 2 f_equal. lia.
Qed.

Lemma payload_line body : forall rest pos start found,
  no_semicolon body = true -> no_nul body = true -> payload_stops rest = true ->
  existsb (Z.eqb 10) body = true \/ starts_with is_semicolon rest = false ->
  lex_loop lex (body ++ rest) s_line pos start found
  = Some (Token tok start (pos + length body)).
Proof.
  induction body as [|c body IH]; intros rest pos start found Hs Hn Hstop Hb.
  - destruct Hb as [Hb|Hb]; [discriminate Hb|].
    cbn [app length]. rewrite Nat.add_0_r. apply payload_end; [exact Hstop|].
    right. cbn [In]. auto.
  - destruct (payload_char _ _ Hs Hn) as (Hc & H0 & Hs' & Hn').
    cbn [app lex_loop]. rewrite lex_line, Hc, H0. cbn [negb accept_token].
    replace (pos + length (c :: body))%nat with (S pos + length body)%nat
      by (cbn [length]; lia).
    destruct (Z.eqb_spec c 10) as [->|Hne].
    + now apply payload_raw.
    + apply IH; try assumption. cbn [existsb] in Hb.
      assert (E : (10 =? c) = false) by (apply Z.eqb_neq; congruence).
      now rewrite E in Hb.
Qed.

Lemma close_marker_cons c body :
  (c =? ch "*") = false -> has_close_marker (c :: body) = has_close_marker body.
Proof. intros H. cbn [has_close_marker]. rewrite H. now destruct body. Qed.

Lemma payload_block body : forall rest pos start found,
  no_semicolon body = true -> no_nul body = true -> payload_stops rest = true ->
  (has_close_marker body = true \/ starts_with is_semicolon rest = false ->
   lex_loop lex (body ++ rest) s_block pos start found
   = Some (Token tok start (pos + length body))) /\
  (has_close_marker (ch "*" :: body) = true \/ starts_with is_semicolon rest = false ->
   lex_loop lex (body ++ rest) s_block_star pos start found
   = Some (Token tok start (pos + length body))).
Proof.
  induction body as [|c body IH]; intros rest pos start found Hs Hn Hstop.
  - cbn [app length]. rewrite Nat.add_0_r.
    split; (intros [Hb|Hb]; [discriminate Hb|]); (apply payload_end; [exact Hstop|]);
      right; cbn [In]; auto.
  - destruct (payload_char _ _ Hs Hn) as (Hc & H0 & Hs' & Hn').
    replace (pos + length (c :: body))%nat with (S pos + length body)%nat
      by (cbn [length]; lia).
    cbn [app lex_loop]. split; intros Hb.
    + rewrite lex_block, Hc, H0. cbn [negb accept_token].
      destruct (c =? ch "*") eqn:Estar.
      * apply Z.eqb_eq in Estar. subst c.
        now apply (proj2 (IH rest (S pos) start (Some (tok, pos)) Hs' Hn' Hstop)).
      * apply (proj1 (IH rest (S pos) start (Some (tok, pos)) Hs' Hn' Hstop)).
        now rewrite (close_marker_cons c body Estar) in Hb.
    + rewrite lex_block_star, Hc, H0. cbn [negb accept_token].
      destruct (c =? ch "*") eqn:Estar.
      * apply Z.eqb_eq in Estar. subst c.
        apply (proj2 (IH rest (S pos) start (Some (tok, pos)) Hs' Hn' Hstop)).
        destruct Hb as [Hb|Hb]; [left|now right].
        cbn [has_close_marker] in Hb. exact Hb.
      * destruct (c =? ch "/") eqn:Eslash.
        -- now apply payload_raw.
        -- apply (proj1 (IH rest (S pos) start (Some (tok, pos)) Hs' Hn' Hstop)).
           destruct Hb as [Hb|Hb]; [left|now right].
           cbn [has_close_marker] in Hb. rewrite Eslash in Hb.
           rewrite andb_false_r in Hb. cbn [orb] in Hb.
           change (has_close_marker (c :: body) = true) in Hb.
           now rewrite (close_marker_cons c body Estar) in Hb.
Qed.

Lemma payload_slash body rest pos start found :
  no_semicolon body = true -> no_nul body = true -> payload_stops rest = true ->
  comment_open (ch "/" :: body) = false \/ starts_with is_semicolon rest = false ->
  lex_loop lex (body ++ rest) s_slash pos start found
  = Some (Token tok start (pos + length body)).
Proof.
  intros Hs Hn Hstop Hb. destruct body as [|d body].
  - cbn [app length]. rewrite Nat.add_0_r. apply payload_end; [exact Hstop|].
    left. cbn [In]. auto.
  - destruct (payload_char _ _ Hs Hn) as (Hc & H0 & Hs' & Hn').
    replace (pos + length (d :: body))%nat with (S pos + length body)%nat
      by (cbn [length]; lia).
    cbn [app lex_loop]. rewrite lex_slash, Hc, H0. cbn [negb andb accept_token].
    cbn [comment_open] in Hb. rewrite Z.eqb_refl in Hb.
    destruct (d =? ch "*") eqn:Estar.
    + apply Z.eqb_eq in Estar. subst d.
      apply (proj1 (payload_block body rest (S pos) start (Some (tok, pos)) Hs' Hn' Hstop)).
      destruct Hb as [Hb|Hb]; [left|now right].
      change (ch "*" =? ch "/") with false in Hb. cbv iota in Hb.
      now apply negb_false_iff.
    + destruct (d =? ch "/") eqn:Eslash.
      * apply payload_line; try assumption.
        destruct Hb as [Hb|Hb]; [left|now right]. now apply negb_false_iff.
      * now apply payload_raw.
Qed.

Lemma payload_space body : forall rest pos start found,
  no_semicolon body = true -> no_nul body = true -> payload_stops rest = true ->
  comment_open body = false \/ starts_with is_semicolon rest = false ->
  lex_loop lex (body ++ rest) s_space pos start found
  = Some (Token tok start (pos + length body)).
Proof.
  induction body as [|c body IH]; intros rest pos start found Hs Hn Hstop Hb.
  - cbn [app length]. rewrite Nat.add_0_r. apply payload_end; [exact Hstop|].
    left. cbn [In]. auto.
  - destruct (payload_char _ _ Hs Hn) as (Hc & H0 & Hs' & Hn').
    replace (pos + length (c :: body))%nat with (S pos + length body)%nat
      by (cbn [length]; lia).
    cbn [app lex_loop]. rewrite lex_space, Hc, H0. cbn [negb andb accept_token].
    destruct (c =? ch "/") eqn:Eslash.
    + apply Z.eqb_eq in Eslash. subst c. now apply payload_slash.
    + cbn [comment_open] in Hb. rewrite Eslash in Hb. unfold is_space in Hb.
      destruct (((9 <=? c) && (c <=? 13)) || (c =? ch " ")).
      * now apply IH.
      * now apply payload_raw.
Qed.

(** A payload that is not empty, up to where it stops, is the raw
    token, unless a comment that opened it is still open at a [;]. *)
Lemma payload_scanned body rest :
  body <> [] ->
  no_semicolon body = true -> no_nul body = true -> payload_stops rest = true ->
  comment_open body = false \/ starts_with is_semicolon rest = false ->
  run_lexer lex s_start (body ++ rest) 0 = Some (Token tok 0 (length body)).
Proof.
  intros Hne Hs Hn Hstop Hb. destruct body as [|c body]; [now elim Hne|].
  destruct (payload_char _ _ Hs Hn) as (Hc & H0 & Hs' & Hn').
  unfold run_lexer. cbn [app lex_loop]. rewrite lex_start, Hc, H0.
  cbn [negb andb accept_token length].
  destruct (c =? ch "/") eqn:Eslash.
  - apply Z.eqb_eq in Eslash. subst c. now apply payload_slash.
  - cbn [comment_open] in Hb. rewrite Eslash in Hb. unfold is_space in Hb.
    destruct (((9 <=? c) && (c <=? 13)) || (c =? ch " ")).
    + now apply payload_space.
    + now apply payload_raw.
Qed.

(** An empty payload is no token. *)
Lemma payload_empty text :
  payload_stops text = true -> run_lexer lex s_start text 0 = Some (NoToken 0).
Proof.
  intros H. unfold run_lexer. destruct text as [|c text].
  - cbn. now rewrite lex_start_eof.
  - cbn [payload_stops] in H. cbn [lex_loop]. rewrite lex_start.
    apply orb_true_iff in H as [H|H]; apply Z.eqb_eq in H; subst c; reflexivity.
Qed.

(** A payload that is not empty is always a token. *)
Lemma payload_some text :
  payload_stops text = false ->
  exists sym e, run_lexer lex s_start text 0 = Some (Token sym 0 e).
Proof.
  intros H. destruct text as [|c text]; [discriminate H|].
  cbn [payload_stops] in H. apply orb_false_iff in H as [Hc H0].
  unfold run_lexer. cbn [lex_loop]. rewrite lex_start, Hc, H0.
  cbn [negb andb accept_token].
  assert (Hgo : forall s', In s' [s_slash; s_line; s_block_star; s_block; s_space; s_raw] ->
            exists sym e, lex_loop lex text s' 1 0 None = Some (Token sym 0 e)).
  { intros s' Hs'.
    destruct (payload_scan text s' 1 0 None Hs') as [(e & Hr & _)|(e & Hr & _)];
      rewrite Hr; eauto. }
  destruct (c =? ch "/"); [apply Hgo; cbn [In]; auto|].
  destruct (((9 <=? c) && (c <=? 13)) || (c =? ch " ")); apply Hgo; cbn [In]; auto 10.
Qed.
End ImportPayload.

(** ** The two grammars *)

Lemma zed_block_comment s body rest :
  In s [0; 9; 10] ->
  has_close_marker body = false ->
  no_nul body = true ->
  run_lexer Zed.ts_lex s (ch "/" :: ch "*" :: body ++ ch "*" :: ch "/" :: rest) 0
  = Some (Token Zed.sym_comment 0 (4 + length body)).
Proof.
  intros Hs Hm Hn. unfold run_lexer.
  destruct Hs as [<-|[<-|[<-|[]]]]; do 2 lex_step;
    rewrite (proj1 (block_comment_closes Zed.ts_lex 4 3 28 Zed.sym_comment
                      ltac:(by_source) ltac:(by_source) ltac:(by_source)
                      body rest 2 0 None Hm Hn));
    do 2 f_equal; lia.
Qed.

Lemma ts_block_comment s body rest :
  In s [0; 12; 13] ->
  has_close_marker body = false ->
  no_nul body = true ->
  run_lexer SysmlTs.ts_lex s (ch "/" :: ch "*" :: body ++ ch "*" :: ch "/" :: rest) 0
  = Some (Token SysmlTs.sym_comment 0 (4 + length body)).
Proof.
  intros Hs Hm Hn. unfold run_lexer.
  destruct Hs as [<-|[<-|[<-|[]]]]; do 2 lex_step;
    rewrite (proj1 (block_comment_closes SysmlTs.ts_lex 4 3 52 SysmlTs.sym_comment
                      ltac:(by_source) ltac:(by_source) ltac:(by_source)
                      body rest 2 0 _ Hm Hn));
    do 2 f_equal; lia.
Qed.

(** C5, as stated, fails: with an open marker inside an open block
    comment, the comment token ends at the first close marker (offset 12
    of 17), not at the close marker that would match the outer open
    marker.  The automaton keeps no nesting depth. *)
Lemma nested_comment_counterexample :
  run_lexer Zed.ts_lex 0 (codes "/* a /* b */ c */") 0
  = Some (Token Zed.sym_comment 0 12) /\
  run_lexer SysmlTs.ts_lex 0 (codes "/* a /* b */ c */") 0
  = Some (Token SysmlTs.sym_comment 0 12) /\
  length (codes "/* a /* b */ c */") = 17%nat.
Proof. repeat split; vm_compute; reflexivity. Qed.

(** C5 (amended): a block comment token ends with the first close
    marker after its open marker, whatever open markers the body holds:
    for a body free of close markers (and of NUL), the token spans the
    open marker, the body and the close marker, in every start state
    that scans comments.  Both grammars. *)
Theorem block_comment_first_close :
  forall body rest,
    has_close_marker body = false ->
    no_nul body = true ->
    (forall s, In s [0; 9; 10] ->
       run_lexer Zed.ts_lex s (ch "/" :: ch "*" :: body ++ ch "*" :: ch "/" :: rest) 0
       = Some (Token Zed.sym_comment 0 (4 + length body)))
    /\
    (forall s, In s [0; 12; 13] ->
       run_lexer SysmlTs.ts_lex s (ch "/" :: ch "*" :: body ++ ch "*" :: ch "/" :: rest) 0
       = Some (Token SysmlTs.sym_comment 0 (4 + length body))).
Proof.
  intros body rest Hm Hn. split; intros s Hs.
  - now apply zed_block_comment.
  - now apply ts_block_comment.
Qed.

Lemma block_comment_first_close_witness :
  has_close_marker (codes " a /* b ") = false /\
  no_nul (codes " a /* b ") = true /\
  run_lexer SysmlTs.ts_lex 0
    (ch "/" :: ch "*" :: codes " a /* b " ++ ch "*" :: ch "/" :: codes " c */") 0
  = Some (Token SysmlTs.sym_comment 0 12).
Proof.
  split; [reflexivity|]. split; [reflexivity|].
  exact (proj2 (block_comment_first_close (codes " a /* b ") (codes " c */") eq_refl eq_refl)
           0 (or_introl eq_refl)).
Defined.

Lemma zed_payload_token text sym start e :
  run_lexer Zed.ts_lex 5 text 0 = Some (Token sym start e) ->
  payload_result Zed.aux_sym_import_decl_token1 Zed.sym_comment text 0 0
    (Some (Token sym start e)).
Proof.
  apply (payload_token Zed.ts_lex 5 16 15 17 18 19 20 29 4 3 28); try by_source.
  intros s Hs. repeat (destruct Hs as [<-|Hs]; [reflexivity|]). destruct Hs.
Qed.

Lemma ts_payload_token text sym start e :
  run_lexer SysmlTs.ts_lex 5 text 0 = Some (Token sym start e) ->
  payload_result SysmlTs.sym_import_path SysmlTs.sym_comment text 0 0
    (Some (Token sym start e)).
Proof.
  apply (payload_token SysmlTs.ts_lex 5 19 18 20 21 22 23 53 4 3 52); try by_source.
  intros s Hs. repeat (destruct Hs as [<-|Hs]; [reflexivity|]). destruct Hs.
Qed.

Lemma payload_result_inv tok com text sym e :
  payload_result tok com text 0 0 (Some (Token sym 0 e)) ->
  (e <= length text)%nat /\
  ((sym = tok /\ no_semicolon (firstn e text) = true /\ payload_stops (skipn e text) = true)
   \/ (sym = com /\ has_semicolon (firstn e text) = true)).
Proof.
  intros [(e' & Hr & Hb & Hn & Hs)|(e' & Hr & Hb & Hh)]; inversion Hr; subst e' sym;
    rewrite ?Nat.sub_0_r in *; (split; [lia|]); [left|right]; auto.
Qed.

Lemma payload_result_start tok com text sym start e :
  payload_result tok com text 0 0 (Some (Token sym start e)) -> start = 0%nat.
Proof.
  intros [(e' & Hr & _)|(e' & Hr & _)]; now inversion Hr.
Qed.

(** C7, as stated, fails: a comment embedded in the payload is not
    recognised as a comment token, its text is part of the raw span
    (here the whole of offsets 0 to 12, and 0 to 11). *)
Lemma import_payload_comment_counterexample :
  run_lexer Zed.ts_lex 5 (codes " a /* c */ b;") 0
  = Some (Token Zed.aux_sym_import_decl_token1 0 12) /\
  run_lexer SysmlTs.ts_lex 5 (codes " a /* c */ b;") 0
  = Some (Token SysmlTs.sym_import_path 0 12) /\
  run_lexer SysmlTs.ts_lex 5 (codes " a // c" ++ [10] ++ codes " b;") 0
  = Some (Token SysmlTs.sym_import_path 0 10).
Proof. repeat split; vm_compute; reflexivity. Qed.

Lemma payload_states_eof (lex : LexFn) (tok : TSSymbol) (states : list TSStateId) :
  forallb (fun s => match lex s true 0 with
                    | Some (Some sym, END_STATE) => sym =? tok
                    | _ => false
                    end) states = true ->
  forall s, In s states -> lex s true 0 = Some (Some tok, END_STATE).
Proof.
  intros H s Hs. rewrite forallb_forall in H. specialize (H s Hs).
  destruct (lex s true 0) as [[[sym|] [| |]]|]; try discriminate H.
  apply Z.eqb_eq in H. now subst.
Qed.

Lemma zed_payload_scanned body rest :
  body <> [] -> no_semicolon body = true -> no_nul body = true ->
  payload_stops rest = true ->
  comment_open body = false \/ starts_with is_semicolon rest = false ->
  run_lexer Zed.ts_lex 5 (body ++ rest) 0
  = Some (Token Zed.aux_sym_import_decl_token1 0 (length body)).
Proof.
  apply (payload_scanned Zed.ts_lex 5 16 15 17 18 19 20 29 4); try by_source.
  apply payload_states_eof. vm_compute. reflexivity.
Qed.

Lemma ts_payload_scanned body rest :
  body <> [] -> no_semicolon body = true -> no_nul body = true ->
  payload_stops rest = true ->
  comment_open body = false \/ starts_with is_semicolon rest = false ->
  run_lexer SysmlTs.ts_lex 5 (body ++ rest) 0
  = Some (Token SysmlTs.sym_import_path 0 (length body)).
Proof.
  apply (payload_scanned SysmlTs.ts_lex 5 19 18 20 21 22 23 53 4); try by_source.
  apply payload_states_eof. vm_compute. reflexivity.
Qed.

Lemma zed_payload_empty text :
  payload_stops text = true -> run_lexer Zed.ts_lex 5 text 0 = Some (NoToken 0).
Proof. apply (payload_empty Zed.ts_lex 5 16 19 20); try by_source. Qed.

Lemma ts_payload_empty text :
  payload_stops text = true -> run_lexer SysmlTs.ts_lex 5 text 0 = Some (NoToken 0).
Proof. apply (payload_empty SysmlTs.ts_lex 5 19 22 23); try by_source. Qed.

Lemma zed_payload_some text :
  payload_stops text = false ->
  exists sym e, run_lexer Zed.ts_lex 5 text 0 = Some (Token sym 0 e).
Proof.
  apply (payload_some Zed.ts_lex 5 16 15 17 18 19 20 29 4 3 28
           Zed.aux_sym_import_decl_token1 Zed.sym_comment); try by_source.
  apply payload_states_eof. vm_compute. reflexivity.
Qed.

Lemma ts_payload_some text :
  payload_stops text = false ->
  exists sym e, run_lexer SysmlTs.ts_lex 5 text 0 = Some (Token sym 0 e).
Proof.
  apply (payload_some SysmlTs.ts_lex 5 19 18 20 21 22 23 53 4 3 52
           SysmlTs.sym_import_path SysmlTs.sym_comment); try by_source.
  apply payload_states_eof. vm_compute. reflexivity.
Qed.

(** C7 (amended): in the import-payload mode, mode 5, a payload that is
    not empty is always scanned to a token that begins at the cursor.
    The token is the catch-remainder token over the whole payload, up
    to the first [;] or NUL or the end of the input: it holds no [;],
    and comment text inside the payload is part of its span.  The one
    exception is a comment that opens the payload, after white space
    only, and is still open where the [;] stands: the scan then runs on
    into the comment, and a comment token, if one is returned, holds a
    [;].  An empty payload is no token.  Both grammars. *)
Theorem import_payload_token :
  forall lex tok com,
    In (lex, tok, com)
       [(Zed.ts_lex, Zed.aux_sym_import_decl_token1, Zed.sym_comment);
        (SysmlTs.ts_lex, SysmlTs.sym_import_path, SysmlTs.sym_comment)] ->
    (forall body rest,
       body <> [] -> no_semicolon body = true -> no_nul body = true ->
       payload_stops rest = true ->
       comment_open body = false \/ starts_with is_semicolon rest = false ->
       run_lexer lex 5 (body ++ rest) 0 = Some (Token tok 0 (length body))) /\
    (forall text,
       payload_stops text = true -> run_lexer lex 5 text 0 = Some (NoToken 0)) /\
    (forall text,
       payload_stops text = false ->
       exists sym e, run_lexer lex 5 text 0 = Some (Token sym 0 e)) /\
    (forall text sym start e,
       run_lexer lex 5 text 0 = Some (Token sym start e) ->
       start = 0%nat /\ (e <= length text)%nat /\
       ((sym = tok /\
         no_semicolon (firstn e text) = true /\ payload_stops (skipn e text) = true)
        \/ (sym = com /\ has_semicolon (firstn e text) = true))).
Proof.
  intros lex tok com [H|[H|[]]]; inversion H; subst; clear H;
    (split; [|split; [|split]]).
  - intros. now apply zed_payload_scanned.
  - intros. now apply zed_payload_empty.
  - intros. now apply zed_payload_some.
  - intros text sym start e H. apply zed_payload_token in H.
    pose proof (payload_result_start _ _ _ _ _ _ H). subst start.
    split; [reflexivity|]. now apply payload_result_inv.
  - intros. now apply ts_payload_scanned.
  - intros. now apply ts_payload_empty.
  - intros. now apply ts_payload_some.
  - intros text sym start e H. apply ts_payload_token in H.
    pose proof (payload_result_start _ _ _ _ _ _ H). subst start.
    split; [reflexivity|]. now apply payload_result_inv.
Qed.

Lemma import_payload_token_witness :
  codes " a::b /* c */" <> [] /\
  no_semicolon (codes " a::b /* c */") = true /\
  no_nul (codes " a::b /* c */") = true /\
  payload_stops (codes "; x") = true /\
  comment_open (codes " a::b /* c */") = false /\
  run_lexer SysmlTs.ts_lex 5 (codes " a::b /* c */" ++ codes "; x") 0
  = Some (Token SysmlTs.sym_import_path 0 (length (codes " a::b /* c */"))).
Proof.
  assert (H0 : codes " a::b /* c */" <> []) by discriminate.
  split; [exact H0|]. split; [reflexivity|]. split; [reflexivity|].
  split; [reflexivity|]. split; [reflexivity|].
  exact (proj1 (import_payload_token SysmlTs.ts_lex SysmlTs.sym_import_path
                  SysmlTs.sym_comment (or_intror (or_introl eq_refl)))
           (codes " a::b /* c */") (codes "; x") H0 eq_refl eq_refl eq_refl
           (or_introl eq_refl)).
Defined.

(** ** Operators and maximal munch *)

(** A scan that stays in states from which no symbol of a class can be
    accepted returns no token of the class. *)
Section ClosedStates.
Variable lex : LexFn.
Variable inside : TSStateId -> bool.
Variable special : TSSymbol -> bool.

Hypothesis closed : forall s eof c acc act,
  inside s = true -> lex s eof c = Some (acc, act) ->
  (forall sym, acc = Some sym -> special sym = false) /\
  (forall s', act = ADVANCE s' \/ act = SKIP s' -> inside s' = true).





End ClosedStates.

























(** ** The tokens the parser receives *)

Section AcceptedSymbols.
Variable lex : LexFn.
Variable P : TSSymbol -> Prop.
Hypothesis lex_only : accepts_only lex P.

Lemma accept_token_only s eof c acc act pos found :
  lex s eof c = Some (acc, act) -> found_only P found ->
  found_only P (accept_token acc pos found).
Proof.
  intros Hl Hf. destruct acc as [sym|]; cbn; [|exact Hf].
  exact (lex_only _ _ _ _ _ Hl).
Qed.

Lemma finish_lex_only start found sym st e :
  found_only P found -> finish_lex start found = Token sym st e -> P sym.
Proof.
  destruct found as [[sy e']|]; cbn; intros Hf H; inversion H; subst; exact Hf.
Qed.

Lemma lex_at_eof_only fuel : forall s pos start found sym st e,
  found_only P found ->
  lex_at_eof lex fuel s pos start found = Some (Token sym st e) -> P sym.
Proof.
  induction fuel as [|fuel IH]; intros s pos start found sym st e Hf H;
    cbn [lex_at_eof] in H;
    destruct (lex s true 0) as [[acc act]|] eqn:Hl; try discriminate H;
    pose proof (accept_token_only _ _ _ _ _ pos _ Hl Hf) as Hf';
    destruct act as [s'|s'|]; try discriminate H;
    try (inversion H as [H']; exact (finish_lex_only _ _ _ _ _ Hf' H'));
    exact (IH _ _ _ _ _ _ _ Hf' H).
Qed.

Lemma lex_loop_only text : forall s pos start found sym st e,
  found_only P found ->
  lex_loop lex text s pos start found = Some (Token sym st e) -> P sym.
Proof.
  induction text as [|c text IH]; intros s pos start found sym st e Hf H;
    cbn [lex_loop] in H.
  - exact (lex_at_eof_only _ _ _ _ _ _ _ _ Hf H).
  - destruct (lex s false c) as [[acc act]|] eqn:Hl; [|discriminate H].
    pose proof (accept_token_only _ _ _ _ _ pos _ Hl Hf) as Hf'.
    destruct act as [s'|s'|].
    + exact (IH _ _ _ _ _ _ _ Hf' H).
    + exact (IH _ _ _ _ _ _ _ Hf' H).
    + inversion H as [H']. exact (finish_lex_only _ _ _ _ _ Hf' H').
Qed.

Lemma run_lexer_only s text pos sym st e :
  run_lexer lex s text pos = Some (Token sym st e) -> P sym.
Proof. apply lex_loop_only. exact I. Qed.
End AcceptedSymbols.

Section EndOfInput.
Variable lex : LexFn.
Hypothesis lex_end : end_at_eof lex.

Lemma accept_token_end_at acc pos found :
  found_end_at pos found -> found_end_at pos (accept_token acc pos found).
Proof. destruct acc as [sym|]; cbn; auto. Qed.

Lemma finish_lex_end_at pos start found st e :
  found_end_at pos found ->
  finish_lex start found = Token ts_builtin_sym_end st e -> e = pos.
Proof.
  destruct found as [[sy e']|]; cbn; intros Hf H; inversion H; subst; auto.
Qed.

Lemma lex_at_eof_end fuel : forall s pos start found st e,
  found_end_at pos found ->
  lex_at_eof lex fuel s pos start found = Some (Token ts_builtin_sym_end st e) ->
  e = pos.
Proof.
  induction fuel as [|fuel IH]; intros s pos start found st e Hf H;
    cbn [lex_at_eof] in H;
    destruct (lex s true 0) as [[acc act]|]; try discriminate H;
    pose proof (accept_token_end_at acc pos found Hf) as Hf';
    destruct act as [s'|s'|]; try discriminate H;
    try (inversion H as [H']; exact (finish_lex_end_at _ _ _ _ _ Hf' H')).
  - apply (IH s' pos start (accept_token acc pos found) st e); [exact Hf'|exact H].
  - apply (IH s' pos pos (accept_token acc pos found) st e); [exact Hf'|exact H].
Qed.

(** In a state that does not accept the end of input, with no end of
    input accepted so far, an end of input is returned only at the end
    of the text. *)
Lemma lex_loop_end text : forall s pos start found st e,
  (forall eof c act, lex s eof c <> Some (Some ts_builtin_sym_end, act)) ->
  found_only (fun sym => sym <> ts_builtin_sym_end) found ->
  lex_loop lex text s pos start found = Some (Token ts_builtin_sym_end st e) ->
  e = (pos + length text)%nat.
Proof.
  induction text as [|c text IH]; intros s pos start found st e Hs Hf H;
    cbn [lex_loop] in H.
  - rewrite Nat.add_0_r.
    apply (lex_at_eof_end eof_rounds s pos start found st e); [|exact H].
    destruct found as [[sy e']|]; cbn in *; [|exact I]. intros E. now elim Hf.
  - destruct (lex s false c) as [[acc act]|] eqn:Hl; [|discriminate H].
    assert (Hf' : found_only (fun sym => sym <> ts_builtin_sym_end)
                    (accept_token acc pos found)).
    { destruct acc as [sy|]; cbn; [|exact Hf]. intros ->. exact (Hs _ _ _ Hl). }
    cbn [length]. replace (pos + S (length text))%nat with (S pos + length text)%nat by lia.
    destruct act as [s'|s'|].
    + apply (IH s' (S pos) start (accept_token acc pos found) st e); [|exact Hf'|exact H].
      apply (lex_end s c acc s'). now left.
    + apply (IH s' (S pos) (S pos) (accept_token acc pos found) st e); [|exact Hf'|exact H].
      apply (lex_end s c acc s'). now right.
    + inversion H as [H']. destruct (accept_token acc pos found) as [[sy e']|];
        cbn in *; inversion H'; subst. now elim Hf'.
Qed.

Lemma run_lexer_end s text pos st e :
  clean lex s ->
  run_lexer lex s text pos = Some (Token ts_builtin_sym_end st e) ->
  e = (pos + length text)%nat.
Proof.
  intros Hc. apply lex_loop_end; [|exact I].
  intros eof c act H. specialize (Hc _ _ _ _ H). discriminate Hc.
Qed.
End EndOfInput.

(** *** The keyword automaton as a lexer *)

Section KeywordLexer.
Variable kw : LexFn.
Variable T : KeywordTable.
Variable token_count : Z.

Hypothesis kw_shape : forall s eof c,
  kw s eof c =
  if s =? 0 then
    Some (None, ADVANCE_MAP (match assoc_Z 0 T with Some (_, m) => m | None => [] end) c
                  (if is_space c then SKIP 0 else END_STATE))
  else
    match assoc_Z s T with
    | Some (a, m) => Some (a, ADVANCE_MAP m c END_STATE)
    | None => None
    end.
Hypothesis T_ok : kw_table_ok T = true.
Hypothesis T_closed : kw_table_closed T token_count = true.

Lemma kw_row s a m :
  assoc_Z s T = Some (a, m) ->
  match a with Some k => 0 < k < token_count | None => True end /\
  forall c t, assoc_Z c m = Some t -> assoc_Z t T <> None.
Proof.
  intros Hs. pose proof T_closed as H. unfold kw_table_closed in H.
  rewrite forallb_forall in H. specialize (H _ (assoc_Z_In _ _ _ Hs)). cbn in H.
  apply andb_true_iff in H as [H1 H2]. split.
  - destruct a as [k|]; [|exact I]. apply andb_true_iff in H1 as [Ha Hb].
    apply Z.ltb_lt in Ha. apply Z.ltb_lt in Hb. lia.
  - intros c t Hc. rewrite forallb_forall in H2.
    specialize (H2 _ (assoc_Z_In _ _ _ Hc)). cbn in H2.
    destruct (assoc_Z t T); [discriminate|discriminate H2].
Qed.

(** An [ADVANCE] of the automaton follows an edge of the table. *)
Lemma kw_advance s eof c acc s' :
  kw s eof c = Some (acc, ADVANCE s') ->
  exists a m, assoc_Z s T = Some (a, m) /\ assoc_Z c m = Some s'.
Proof.
  rewrite kw_shape. destruct (s =? 0) eqn:E0.
  - apply Z.eqb_eq in E0. subst s. rewrite ADVANCE_MAP_assoc.
    pose proof T_ok as H0. unfold kw_table_ok in H0. apply andb_true_iff in H0 as [_ H0].
    clear kw_shape.
    destruct (assoc_Z 0 T) as [[a m]|]; [|discriminate H0].
    destruct (assoc_Z c m) as [t|] eqn:Ec.
    + intros H. inversion H; subst. eauto.
    + destruct (is_space c); discriminate.
  - destruct (assoc_Z s T) as [[a m]|]; [|discriminate].
    rewrite ADVANCE_MAP_assoc. destruct (assoc_Z c m) as [t|] eqn:Ec; [|discriminate].
    intros H. inversion H; subst. eauto.
Qed.

Lemma kw_skip s eof c acc s' :
  kw s eof c = Some (acc, SKIP s') -> s = 0 /\ s' = 0 /\ is_space c = true.
Proof.
  rewrite kw_shape. destruct (Z.eqb_spec s 0) as [->|].
  - rewrite ADVANCE_MAP_assoc.
    destruct (match assoc_Z 0 T with Some (_, m) => m | None => [] end) as [|x l] eqn:Em.
    + cbn. destruct (is_space c); [|discriminate]. intros H; inversion H; auto.
    + destruct (assoc_Z c (x :: l)); [discriminate|].
      destruct (is_space c); [|discriminate]. intros H; inversion H; auto.
  - destruct (assoc_Z s T) as [[a m]|]; [|discriminate].
    rewrite ADVANCE_MAP_assoc. destruct (assoc_Z c m); discriminate.
Qed.

Lemma kw_defined s : s = 0 \/ assoc_Z s T <> None -> forall eof c, kw s eof c <> None.
Proof.
  intros H eof c. rewrite kw_shape. destruct (Z.eqb_spec s 0) as [->|n]; [discriminate|].
  destruct H as [H|H]; [contradiction|].
  destruct (assoc_Z s T) as [[a m]|]; [discriminate|now elim H].
Qed.

Lemma kw_lexer_ok : lexer_ok kw kw_skipper.
Proof.
  split.
  - intros s eof c acc s' H. destruct (kw_skip _ _ _ _ _ H) as (-> & -> & Hc).
    repeat split; auto.
  - intros s eof c acc s' H. destruct (kw_advance _ _ _ _ _ H) as (a & m & Hs & Hc).
    destruct (kw_edge T T_ok _ _ _ _ _ Hs Hc) as [_ Hne].
    unfold kw_skipper. now apply Z.eqb_neq.
  - intros s eof c acc act K H. unfold kw_skipper in K. apply Z.eqb_eq in K. subst s.
    rewrite kw_shape in H. cbn [Z.eqb] in H. now inversion H.
  - intros s acc s' H. destruct (kw_advance _ _ _ _ _ H) as (a & m & Hs & Hc).
    destruct (kw_edge T T_ok _ _ _ _ _ Hs Hc) as [Hid _]. discriminate Hid.
  - intros s eof c acc s' [H|H].
    + destruct (kw_advance _ _ _ _ _ H) as (a & m & Hs & Hc).
      apply kw_defined. right. exact (proj2 (kw_row _ _ _ Hs) _ _ Hc).
    + destruct (kw_skip _ _ _ _ _ H) as (_ & -> & _). apply kw_defined. now left.
Qed.

Lemma kw_clean : clean kw 0.
Proof.
  intros eof c acc act H. rewrite kw_shape in H. cbn [Z.eqb] in H. now inversion H.
Qed.

Lemma kw_terminals : accepts_only kw (fun sym => 0 < sym < token_count).
Proof.
  intros s eof c sym act H. rewrite kw_shape in H.
  destruct (s =? 0); [discriminate H|].
  destruct (assoc_Z s T) as [[a m]|] eqn:Es; [|discriminate H].
  inversion H; subst. exact (proj1 (kw_row _ _ _ Es)).
Qed.
End KeywordLexer.

(** *** The scan of the interpreter *)

Section ParserLex.
Variable L : TSLanguage.
Variable skipper : TSStateId -> bool.
Hypothesis OK : lexers_ok L skipper.

Lemma capture_keyword_ok active text r :
  token_ok L text r ->
  exists r', capture_keyword L active text 0 r = Some r' /\ token_ok L text r'.
Proof.
  intros Hr. destruct r as [sym start e|start]; cbn [capture_keyword]; [|eauto].
  destruct (Z.eqb_spec sym (keyword_capture_token L)) as [E|_]; [|eauto].
  destruct (run_lexer_ok _ _ (keyword_ok _ _ OK) 0 (skipn (start - 0) text) start
              (keyword_clean _ _ OK)) as (k & Hk & _).
  rewrite Hk. destruct k as [keyword kst kend|kst]; [|eauto].
  destruct ((kend =? e)%nat && active keyword); [|eauto].
  eexists; split; [reflexivity|].
  pose proof (run_lexer_only _ _ (keyword_terminals _ _ OK) _ _ _ _ _ _ Hk) as Hkw.
  cbn in Hkw. cbn in Hr. destruct Hr as (H1 & H2 & H3 & H4 & H5).
  assert (Hlt : (start < e)%nat).
  { apply H3. rewrite E. exact (capture_not_end _ _ OK). }
  cbn. unfold ts_builtin_sym_end. repeat split; try lia. exact H5.
Qed.

(** The scan of the interpreter returns, and with a well-formed token. *)
Lemma ts_parser_lex_ok state text :
  exists r, ts_parser_lex L state text 0 = Some r /\ token_ok L text r.
Proof.
  unfold ts_parser_lex, lex_with_keywords.
  destruct (run_lexer_ok _ _ (main_ok _ _ OK) (ts_language_lex_state L state) text 0
              (main_clean _ _ OK state)) as (r & Hr & Hok & Hws).
  rewrite Hr. apply capture_keyword_ok.
  rewrite Nat.sub_0_r in Hws. cbn [Nat.add] in Hok.
  assert (Hsp : forallb is_space (firstn (lexed_start r) text) = true).
  { apply forallb_forall. rewrite Forall_forall in Hws. exact Hws. }
  destruct r as [sym start e|start]; cbn in *.
  - destruct Hok as (H1 & H2 & H3).
    pose proof (run_lexer_only _ _ (main_terminals _ _ OK) _ _ _ _ _ _ Hr) as Ht.
    cbn in Ht.
    split; [lia|]. split; [exact Ht|]. split; [exact H3|]. split; [|exact Hsp].
    intros ->. exact (run_lexer_end _ (main_end _ _ OK) _ _ _ _ _ (main_clean _ _ OK state) Hr).
  - split; [lia|exact Hsp].
Qed.
End ParserLex.

(** *** The two grammars *)

Lemma lex_state_in (L : TSLanguage) state :
  ts_language_lex_state L state = 0 \/
  In (ts_language_lex_state L state) (map snd (lex_modes L)).
Proof.
  unfold ts_language_lex_state.
  destruct (assoc_Z state (lex_modes L)) as [v|] eqn:E; [right|now left].
  apply assoc_Z_In in E. apply in_map_iff. exists (state, v). auto.
Qed.

(** A state of a lexer function accepts nothing: read off its case. *)
Ltac clean_state lex :=
  let H := fresh "H" in
  intros ? ? ? ? H; cbv beta iota delta [lex] in H;
  apply (f_equal (fun o : option LexCase =>
                    match o with Some (a, _) => a | None => None end)) in H;
  symmetry; exact H.

Ltac end_only_at_eof lex :=
  let G := fresh "G" in
  intros s c acc s' H;
  assert (G : forall eof, eof = false ->
            lex s eof c = Some (acc, ADVANCE s') \/ lex s eof c = Some (acc, SKIP s') ->
            forall eof' c' act, lex s' eof' c' <> Some (Some ts_builtin_sym_end, act));
  [ clear H; intros eof He [H|H]; revert H; lexer_paths lex s; try discriminate He;
    intros eof' c' act; cbv beta iota delta [lex]; intros H'; inversion H'
  | exact (G false eq_refl H) ].

Ltac terminals_only lex :=
  intros s eof c sym act; lexer_paths lex s;
  (vm_compute; split; [intros K; discriminate K | reflexivity]).

Lemma zed_keywords_closed : kw_table_closed zed_keywords Zed.TOKEN_COUNT = true.
Proof. vm_compute. reflexivity. Qed.

Lemma ts_keywords_closed : kw_table_closed ts_keywords SysmlTs.TOKEN_COUNT = true.
Proof. vm_compute. reflexivity. Qed.

Lemma zed_lexers_ok : lexers_ok Zed.tree_sitter_sysml zed_skipper.
Proof.
  split.
  - exact zed_lexer_ok.
  - end_only_at_eof Zed.ts_lex.
  - change (accepts_only Zed.ts_lex (fun sym => 0 <= sym < Zed.TOKEN_COUNT)).
    terminals_only Zed.ts_lex.
  - intros state. cbn [lex_fn Zed.tree_sitter_sysml].
    assert (H : existsb (Z.eqb (ts_language_lex_state Zed.tree_sitter_sysml state))
                  [0; 5; 9; 10] = true).
    { destruct (lex_state_in Zed.tree_sitter_sysml state) as [->|H]; [reflexivity|].
      revert H. generalize (ts_language_lex_state Zed.tree_sitter_sysml state).
      apply forallb_forall. vm_compute. reflexivity. }
    revert H. generalize (ts_language_lex_state Zed.tree_sitter_sysml state).
    intros s H. cbn [existsb] in H.
    repeat (apply orb_true_iff in H as [H|H];
            [apply Z.eqb_eq in H; subst s; clean_state Zed.ts_lex|]).
    discriminate H.
  - exact (kw_lexer_ok _ _ _ zed_kw_shape zed_keywords_ok zed_keywords_closed).
  - exact (kw_clean _ _ zed_kw_shape).
  - exact (kw_terminals _ _ _ zed_kw_shape zed_keywords_closed).
  - discriminate.
Qed.

Lemma ts_lexers_ok : lexers_ok SysmlTs.tree_sitter_sysml ts_skipper.
Proof.
  split.
  - exact ts_lexer_ok.
  - end_only_at_eof SysmlTs.ts_lex.
  - change (accepts_only SysmlTs.ts_lex (fun sym => 0 <= sym < SysmlTs.TOKEN_COUNT)).
    terminals_only SysmlTs.ts_lex.
  - intros state. cbn [lex_fn SysmlTs.tree_sitter_sysml].
    assert (H : existsb (Z.eqb (ts_language_lex_state SysmlTs.tree_sitter_sysml state))
                  [0; 5; 12; 13] = true).
    { destruct (lex_state_in SysmlTs.tree_sitter_sysml state) as [->|H]; [reflexivity|].
      revert H. generalize (ts_language_lex_state SysmlTs.tree_sitter_sysml state).
      apply forallb_forall. vm_compute. reflexivity. }
    revert H. generalize (ts_language_lex_state SysmlTs.tree_sitter_sysml state).
    intros s H. cbn [existsb] in H.
    repeat (apply orb_true_iff in H as [H|H];
            [apply Z.eqb_eq in H; subst s; clean_state SysmlTs.ts_lex|]).
    discriminate H.
  - exact (kw_lexer_ok _ _ _ ts_kw_shape ts_keywords_ok ts_keywords_closed).
  - exact (kw_clean _ _ ts_kw_shape).
  - exact (kw_terminals _ _ _ ts_kw_shape ts_keywords_closed).
  - discriminate.
Qed.

(** ** Reading the parse tables *)

Section Tables.
Variable L : TSLanguage.

Lemma small_groups_cells g : forall data symbol,
  small_groups g data symbol <> 0 ->
  In (symbol, small_groups g data symbol) (small_cells g data).
Proof.
  induction g as [|g IH]; intros data symbol H; cbn [small_groups small_cells] in *.
  - now elim H.
  - destruct data as [|v [|n data]]; try now elim H.
    apply in_or_app.
    destruct (existsb (Z.eqb symbol) (firstn (Z.to_nat n) data)) eqn:E.
    + left. apply existsb_exists in E as (x & Hx & Ex). apply Z.eqb_eq in Ex. subst x.
      apply in_map_iff. eauto.
    + right. now apply IH.
Qed.

Lemma lookup_cells state symbol :
  ts_language_lookup L state symbol <> 0 ->
  In (symbol, ts_language_lookup L state symbol) (cells L state).
Proof.
  unfold ts_language_lookup, cells.
  destruct (large_state_count L <=? state).
  - destruct (assoc_Z (state - large_state_count L) (small_parse_table_map L));
      [|intros H; now elim H].
    destruct (skipn n (small_parse_table L)) as [|g data]; [intros H; now elim H|].
    apply small_groups_cells.
  - destruct (assoc_Z state (parse_table L)) as [row|]; [|intros H; now elim H].
    destruct (assoc_Z symbol row) as [cell|] eqn:E; [|intros H; now elim H].
    intros _. now apply assoc_Z_In.
Qed.

Lemma lookup_state state symbol :
  ts_language_lookup L state symbol <> 0 -> In state (table_states L).
Proof.
  unfold ts_language_lookup, table_states. intros H. apply in_or_app.
  destruct (large_state_count L <=? state).
  - right.
    destruct (assoc_Z (state - large_state_count L) (small_parse_table_map L))
      as [index|] eqn:E; [|now elim H].
    apply assoc_Z_In in E. apply in_map_iff.
    exists (state - large_state_count L, index). split; [cbn; lia|exact E].
  - left. destruct (assoc_Z state (parse_table L)) as [row|] eqn:E; [|now elim H].
    apply assoc_Z_In in E. apply in_map_iff. exists (state, row). auto.
Qed.

(** A property checked on every action cell holds of the actions of
    every state and terminal that have a cell. *)
Lemma action_cells p state symbol :
  all_action_cells L p = true ->
  is_terminal L symbol = true ->
  ts_language_lookup L state symbol <> 0 ->
  p state symbol (ts_language_actions L state symbol) = true.
Proof.
  intros Hall Ht Hne. unfold all_action_cells in Hall.
  rewrite forallb_forall in Hall. specialize (Hall _ (lookup_state _ _ Hne)).
  rewrite forallb_forall in Hall. specialize (Hall _ (lookup_cells _ _ Hne)).
  cbn [fst snd] in Hall. rewrite Ht in Hall. exact Hall.
Qed.

Lemma no_cell_actions state symbol :
  ts_language_lookup L state symbol = 0 ->
  ts_language_actions L state symbol = entry_actions L 0.
Proof. intros H. unfold ts_language_actions, entry_actions. now rewrite H. Qed.

Lemma accept_at_end_ok state symbol rest :
  accept_at_end L = true ->
  is_terminal L symbol = true ->
  ts_language_actions L state symbol = ACCEPT_INPUT :: rest ->
  symbol = ts_builtin_sym_end.
Proof.
  intros H Ht Ha. apply andb_true_iff in H as [H1 H0].
  destruct (Z.eq_dec (ts_language_lookup L state symbol) 0) as [E|E].
  - rewrite (no_cell_actions _ _ E) in Ha. rewrite Ha in H0. discriminate H0.
  - pose proof (action_cells _ _ _ H1 Ht E) as Hp. cbv beta in Hp. rewrite Ha in Hp.
    now apply Z.eqb_eq.
Qed.
End Tables.

(** ** The leaves of a parse tile the input *)

Lemma firstn_add {A} n m (l : list A) :
  firstn (n + m) l = firstn n l ++ firstn m (skipn n l).
Proof.
  revert l. induction n as [|n IH]; intros l; [reflexivity|].
  destruct l as [|x l]; cbn; [now rewrite firstn_nil|]. now rewrite IH.
Qed.

Lemma slice_app text a b c :
  (a <= b <= c)%nat -> slice text a b ++ slice text b c = slice text a c.
Proof.
  intros H. unfold slice.
  replace (c - a)%nat with ((b - a) + (c - b))%nat by lia.
  rewrite firstn_add, skipn_skipn.
  replace (b - a + a)%nat with b by lia. reflexivity.
Qed.

Lemma slice_all text : slice text 0 (length text) = text.
Proof. unfold slice. cbn [skipn]. rewrite Nat.sub_0_r. apply firstn_all. Qed.

Lemma tiles_app ls1 : forall ls2 from to,
  tiles (ls1 ++ ls2) from to <-> exists mid, tiles ls1 from mid /\ tiles ls2 mid to.
Proof.
  induction ls1 as [|[[[sy p] st] e] ls1 IH]; intros ls2 from to; cbn [app tiles].
  - split.
    + intros H. exists from. auto.
    + intros (mid & -> & H). exact H.
  - rewrite IH. split.
    + intros (H1 & H2 & mid & H3 & H4). exists mid. auto.
    + intros (mid & (H1 & H2 & H3) & H4). eauto.
Qed.

Lemma tiles_le ls : forall from to, tiles ls from to -> (from <= to)%nat.
Proof.
  induction ls as [|[[[sy p] st] e] ls IH]; intros from to; cbn [tiles].
  - intros ->. lia.
  - intros (-> & H & H'). apply IH in H'. lia.
Qed.

(** Tiling leaves, each with the text skipped before it, spell the text
    they tile. *)
Lemma tiles_extents text ls : forall from to,
  tiles ls from to -> flat_map (leaf_extent text) ls = slice text from to.
Proof.
  induction ls as [|[[[sy p] st] e] ls IH]; intros from to; cbn [tiles flat_map].
  - intros ->. unfold slice. now rewrite Nat.sub_diag.
  - intros (-> & H & H'). rewrite (IH _ _ H'). cbn [leaf_extent].
    apply slice_app. apply tiles_le in H'. lia.
Qed.

Lemma stack_nodes_app a b : stack_nodes (a ++ b) = stack_nodes b ++ stack_nodes a.
Proof. unfold stack_nodes. now rewrite rev_app_distr, flat_map_app. Qed.

Lemma stack_nodes_cons f st : stack_nodes (f :: st) = stack_nodes st ++ frame_nodes f.
Proof.
  change (f :: st) with ([f] ++ st). rewrite stack_nodes_app.
  unfold stack_nodes at 2. cbn. now rewrite app_nil_r.
Qed.

Lemma leaves_unfielded ns :
  flat_map (fun c : TSFieldId * Node => leaves (snd c)) (unfielded ns) = flat_map leaves ns.
Proof.
  unfold unfielded. induction ns as [|n ns IH]; [reflexivity|].
  cbn [map flat_map snd]. now rewrite IH.
Qed.

Lemma attach_leaves n leading0 st leading' st' :
  attach n leading0 st = (leading', st') ->
  flat_map leaves (leading' ++ stack_nodes st')
  = flat_map leaves (leading0 ++ stack_nodes st) ++ leaves n.
Proof.
  unfold attach. destruct st as [|[[s top] extras] st]; intros H; inversion H; subst.
  - cbn [stack_nodes rev flat_map]. rewrite !app_nil_r, flat_map_app. cbn.
    now rewrite app_nil_r.
  - rewrite !stack_nodes_cons. cbn [frame_nodes].
    rewrite !flat_map_app. cbn [flat_map]. rewrite !flat_map_app. cbn [flat_map].
    rewrite app_nil_r, <- !app_assoc. reflexivity.
Qed.

Section Tiling.
Variable L : TSLanguage.
Variable start_state : TSStateId.
Variable skipper : TSStateId -> bool.
Hypothesis lexers : lexers_ok L skipper.
Hypothesis accepts : accept_at_end L = true.

(** Splicing the children of hidden nodes keeps the leaves. *)
Lemma leaves_splice cs :
  flat_map (fun c : TSFieldId * Node => leaves (snd c)) (flat_map (splice L) cs)
  = flat_map (fun c : TSFieldId * Node => leaves (snd c)) cs.
Proof.
  induction cs as [|[f n] cs IH]; [reflexivity|].
  cbn [flat_map]. rewrite flat_map_app, IH. f_equal.
  unfold splice. cbn [snd]. destruct n as [sy p st e|sy children].
  - cbn. reflexivity.
  - destruct (is_hidden L sy); cbn; [reflexivity|now rewrite app_nil_r].
Qed.

Lemma reduction_children_leaves production_id popped : forall index cs trailing,
  reduction_children L production_id index popped = (cs, trailing) ->
  flat_map (fun c : TSFieldId * Node => leaves (snd c)) cs ++ flat_map leaves trailing
  = flat_map leaves (flat_map frame_nodes popped).
Proof.
  induction popped as [|[[s n] extras] popped IH]; intros index cs trailing H.
  - cbn in H. inversion H; subst. reflexivity.
  - cbn [reduction_children] in H. destruct popped as [|f popped].
    + inversion H; subst. cbn. now rewrite !app_nil_r.
    + destruct (reduction_children L production_id (S index) (f :: popped))
        as [cs' trailing'] eqn:E.
      inversion H; subst. specialize (IH _ _ _ E).
      cbn [flat_map frame_nodes] in *. cbn [snd app flat_map].
      rewrite !flat_map_app, leaves_unfielded, <- !app_assoc.
      rewrite IH, !flat_map_app. reflexivity.
Qed.

Lemma resynchronize_split st symbol : forall popped kept,
  resynchronize L start_state st symbol = Some (popped, kept) -> st = popped ++ kept.
Proof.
  induction st as [|f st IH]; intros popped kept H; cbn [resynchronize] in H.
  - destruct (ts_language_has_actions L (top_state start_state []) symbol);
      inversion H; reflexivity.
  - destruct (ts_language_has_actions L (top_state start_state (f :: st)) symbol).
    + inversion H; reflexivity.
    + destruct (resynchronize L start_state st symbol) as [[p k]|]; [|discriminate H].
      inversion H; subst. cbn. f_equal. now apply IH.
Qed.

Lemma consume_ok s symbol start e recovering' leading' stack' :
  flat_map leaves (leading' ++ stack_nodes stack')
  = session_leaves s ++ [new_leaf s symbol start e] ->
  outcome_ok s start e (consume s e recovering' leading' stack').
Proof. intros H. cbn. right. exists symbol. auto. Qed.

Lemma attach_leaf_ok s symbol start e recovering' :
  outcome_ok s start e (attach_leaf s (token_leaf s symbol start e) e recovering').
Proof.
  unfold attach_leaf.
  destruct (attach (token_leaf s symbol start e) (leading s) (stack s))
    as [leading' stack'] eqn:E.
  apply consume_ok with symbol. now rewrite (attach_leaves _ _ _ _ _ E).
Qed.

Lemma shift_ok s symbol start e next :
  outcome_ok s start e
    (consume s e false (leading s) ((next, token_leaf s symbol start e, []) :: stack s)).
Proof.
  apply consume_ok with symbol. rewrite stack_nodes_cons. cbn [frame_nodes].
  unfold session_leaves. rewrite app_assoc, flat_map_app. reflexivity.
Qed.

Lemma error_root_ok s symbol start e :
  e = length (input s) ->
  outcome_ok s start e (error_root s (token_leaf s symbol start e)).
Proof.
  intros He. cbn [outcome_ok error_root]. split; [exact He|]. exists symbol.
  cbn [leaves]. rewrite leaves_unfielded. unfold session_leaves.
  rewrite app_assoc, flat_map_app. reflexivity.
Qed.

(** A reduction regroups the nodes of the stack and keeps the leaves. *)
Lemma reduce_ok s symbol child_count production_id start e :
  outcome_ok s start e (ts_parser_reduce L start_state s symbol child_count production_id).
Proof.
  unfold ts_parser_reduce.
  destruct (length (stack s) <? child_count)%nat; [exact I|].
  destruct (ts_language_next_state L
              (top_state start_state (skipn child_count (stack s))) symbol =? 0);
    [exact I|].
  destruct (reduction_children L production_id 0 (rev (firstn child_count (stack s))))
    as [cs trailing] eqn:E.
  cbn [outcome_ok]. left. split; [|split; reflexivity].
  unfold session_leaves. cbn [leading stack].
  rewrite stack_nodes_cons. cbn [frame_nodes].
  assert (Hst : stack_nodes (stack s)
                = stack_nodes (skipn child_count (stack s))
                  ++ flat_map frame_nodes (rev (firstn child_count (stack s)))).
  { rewrite <- (firstn_skipn child_count (stack s)) at 1.
    now rewrite stack_nodes_app. }
  rewrite Hst, !flat_map_app.
  rewrite <- (reduction_children_leaves _ _ _ _ _ E).
  cbn [flat_map leaves]. now rewrite leaves_splice.
Qed.

Lemma accept_ok s symbol start e :
  e = length (input s) ->
  outcome_ok s start e (ts_parser_accept s (token_leaf s symbol start e)).
Proof.
  intros He. unfold ts_parser_accept.
  destruct (stack s) as [|[[st [sy p a b|sy children]] extras] [|f rest]] eqn:Es;
    try exact I.
  cbn [outcome_ok]. split; [exact He|]. exists symbol.
  unfold session_leaves. rewrite Es. cbn [leaves stack_nodes rev app flat_map frame_nodes].
  rewrite !flat_map_app, !leaves_unfielded, !flat_map_app, app_nil_r.
  cbn [flat_map leaves]. rewrite <- !app_assoc. reflexivity.
Qed.

Lemma syntax_error_ok s symbol start e :
  (symbol = ts_builtin_sym_end -> e = length (input s)) ->
  outcome_ok s start e (syntax_error s symbol start e).
Proof.
  intros He. unfold syntax_error. destruct (Z.eqb_spec symbol ts_builtin_sym_end).
  - apply error_root_ok. auto.
  - apply attach_leaf_ok.
Qed.

Lemma advance_ok s symbol start e :
  (symbol = ts_builtin_sym_end -> e = length (input s)) ->
  is_terminal L symbol = true ->
  outcome_ok s start e (ts_parser_advance L start_state s symbol start e).
Proof.
  intros He Ht. unfold ts_parser_advance.
  destruct (ts_language_actions L (top_state start_state (stack s)) symbol)
    as [|[next|next| |sy n d pid| |] rest] eqn:Ea.
  - now apply syntax_error_ok.
  - apply shift_ok.
  - apply shift_ok.
  - apply attach_leaf_ok.
  - apply reduce_ok.
  - now apply syntax_error_ok.
  - apply accept_ok. apply He. exact (accept_at_end_ok _ _ _ _ accepts Ht Ea).
Qed.

Lemma recover_ok s symbol start e :
  (symbol = ts_builtin_sym_end -> e = length (input s)) ->
  outcome_ok s start e (ts_parser_recover L start_state s symbol start e).
Proof.
  intros He. unfold ts_parser_recover.
  assert (Hrest : outcome_ok s start e
    (if symbol =? ts_builtin_sym_end
     then error_root s (token_leaf s symbol start e)
     else
       match resynchronize L start_state (stack s) symbol with
       | Some ([], _) =>
           Continue (mkSession (leading s) (stack s) false (cursor s) (input s))
       | Some (popped, kept) =>
           let (leading', stack') :=
             attach (Tree ts_builtin_sym_error (unfielded (stack_nodes popped)))
                    (leading s) kept in
           Continue (mkSession leading' stack' false (cursor s) (input s))
       | None =>
           attach_leaf s (token_leaf s ts_builtin_sym_error start e) e true
       end)).
  { destruct (Z.eqb_spec symbol ts_builtin_sym_end); [apply error_root_ok; auto|].
    destruct (resynchronize L start_state (stack s) symbol) as [[popped kept]|] eqn:Er;
      [|apply attach_leaf_ok].
    destruct popped as [|f popped].
    - cbn. left. auto.
    - destruct (attach (Tree ts_builtin_sym_error (unfielded (stack_nodes (f :: popped))))
                  (leading s) kept) as [leading' stack'] eqn:E.
      cbn [outcome_ok]. left. split; [|split; reflexivity].
      unfold session_leaves. cbn [leading stack].
      rewrite (attach_leaves _ _ _ _ _ E).
      rewrite (resynchronize_split _ _ _ _ Er), stack_nodes_app.
      cbn [leaves]. rewrite leaves_unfielded, !flat_map_app, app_assoc. reflexivity. }
  destruct (ts_language_actions L 0 symbol) as [|[next|next| |sy n d pid| |] rest];
    try exact Hrest.
  apply attach_leaf_ok.
Qed.

Lemma step_with s r :
  ts_parser_lex L (if recovering s then 0 else top_state start_state (stack s))
    (input s) 0 = Some r ->
  token_ok L (input s) r ->
  exists start e,
    (start <= e <= length (input s))%nat /\
    forallb is_space (firstn start (input s)) = true /\
    outcome_ok s start e (ts_parser_step L start_state s).
Proof.
  intros Hr Hok. unfold ts_parser_step. cbv zeta.
  assert (Hend : forall symbol start e,
            (symbol = ts_builtin_sym_end -> e = length (input s)) ->
            is_terminal L symbol = true \/ symbol = ts_builtin_sym_end ->
            outcome_ok s start e
              (if recovering s then ts_parser_recover L start_state s symbol start e
               else ts_parser_advance L start_state s symbol start e)).
  { intros symbol start e He Ht. destruct (recovering s); [now apply recover_ok|].
    destruct Ht as [Ht|Ht]; [now apply advance_ok|].
    unfold ts_parser_advance.
    destruct (ts_language_actions L (top_state start_state (stack s)) symbol)
      as [|[next|next| |sy n d pid| |] rest] eqn:Ea.
    - now apply syntax_error_ok.
    - apply shift_ok.
    - apply shift_ok.
    - apply attach_leaf_ok.
    - apply reduce_ok.
    - now apply syntax_error_ok.
    - apply accept_ok. auto. }
  destruct (recovering s) eqn:Erec; cbv iota in Hr; cbv iota; rewrite Hr;
    (destruct r as [symbol start e|start]; cbn [token_ok] in Hok;
     [ destruct Hok as (H1 & H2 & H3 & H4 & H5); exists start, e;
       split; [exact H1|]; split; [exact H5|];
       apply (Hend symbol start e H4); left; unfold is_terminal; apply Z.ltb_lt; lia
     | destruct Hok as [H1 H5];
       destruct (skipn start (input s)) as [|c rest] eqn:Es;
       [ assert (Hlen : start = length (input s))
           by (apply (f_equal (@length Z)) in Es; rewrite length_skipn in Es;
               cbn in Es; lia);
         exists start, start; split; [lia|]; split; [exact H5|];
         apply (Hend ts_builtin_sym_end start start); auto
       | assert (Hlen : (S start <= length (input s))%nat)
           by (apply (f_equal (@length Z)) in Es; rewrite length_skipn in Es;
               cbn in Es; lia);
         exists start, (S start); split; [lia|]; split; [exact H5|];
         apply attach_leaf_ok ] ]).
Qed.

(** One step adds at most one leaf, for a token of the rest of the
    input that follows white space. *)
Lemma step_ok s :
  exists start e,
    (start <= e <= length (input s))%nat /\
    forallb is_space (firstn start (input s)) = true /\
    outcome_ok s start e (ts_parser_step L start_state s).
Proof.
  destruct (ts_parser_lex_ok L skipper lexers
              (if recovering s then 0 else top_state start_state (stack s)) (input s))
    as (r & Hr & Hok).
  exact (step_with s r Hr Hok).
Qed.
End Tiling.

Section RoundTrip.
Variable L : TSLanguage.
Variable start_state : TSStateId.
Variable skipper : TSStateId -> bool.
Hypothesis lexers : lexers_ok L skipper.
Hypothesis accepts : accept_at_end L = true.
Variable text : list Z.

Lemma new_leaf_tiles s symbol start e :
  session_ok text s ->
  (start <= e <= length (input s))%nat ->
  forallb is_space (firstn start (input s)) = true ->
  tiles (session_leaves s ++ [new_leaf s symbol start e]) 0 (e + cursor s) /\
  Forall (padded_by_space text) (session_leaves s ++ [new_leaf s symbol start e]).
Proof.
  intros [Hin Hcur Ht Hp] He Hsp. split.
  - apply tiles_app. exists (cursor s). split; [exact Ht|].
    cbn. repeat split; lia.
  - apply Forall_app. split; [exact Hp|]. constructor; [|constructor].
    unfold padded_by_space, new_leaf, leaf_padding, slice.
    replace (start + cursor s - cursor s)%nat with start by lia.
    now rewrite <- Hin.
Qed.

Lemma outcome_session s start e o :
  session_ok text s ->
  (start <= e <= length (input s))%nat ->
  forallb is_space (firstn start (input s)) = true ->
  outcome_ok s start e o ->
  match o with
  | Continue s' => session_ok text s'
  | Done root =>
      tiles (leaves root) 0 (length text) /\ Forall (padded_by_space text) (leaves root)
  | Fatal => True
  end.
Proof.
  intros Hs He Hsp Ho.
  assert (Hlen : length (input s) = (length text - cursor s)%nat).
  { rewrite (ok_input _ _ Hs). apply length_skipn. }
  pose proof (ok_cursor _ _ Hs) as Hcur.
  destruct o as [s'|root|]; cbn [outcome_ok] in Ho; [| |exact I].
  - destruct Ho as [(Hl & Hc & Hi)|(symbol & Hl & Hc & Hi)].
    + destruct Hs as [Hin Hcu Ht Hp]. split.
      * now rewrite Hi, Hc.
      * now rewrite Hc.
      * now rewrite Hl, Hc.
      * now rewrite Hl.
    + destruct (new_leaf_tiles s symbol start e Hs He Hsp) as [Ht Hp]. split.
      * rewrite Hi, Hc, (ok_input _ _ Hs). apply skipn_skipn.
      * rewrite Hc. lia.
      * now rewrite Hl, Hc.
      * now rewrite Hl.
  - destruct Ho as (Hend & symbol & Hl).
    destruct (new_leaf_tiles s symbol start e Hs He Hsp) as [Ht Hp].
    rewrite Hl. split; [|exact Hp].
    replace (length text) with (e + cursor s)%nat by lia. exact Ht.
Qed.

Lemma run_tiles fuel : forall s root,
  session_ok text s ->
  ts_parser_run L start_state fuel s = Some root ->
  tiles (leaves root) 0 (length text) /\ Forall (padded_by_space text) (leaves root).
Proof.
  induction fuel as [|fuel IH]; intros s root Hs H; cbn [ts_parser_run] in H;
    [discriminate H|].
  destruct (step_ok L start_state skipper lexers accepts s) as (start & e & He & Hsp & Ho).
  pose proof (outcome_session s start e _ Hs He Hsp Ho) as Hnext.
  destruct (ts_parser_step L start_state s) as [s'|root'|]; [| |discriminate H].
  - exact (IH s' root Hnext H).
  - inversion H; subst. exact Hnext.
Qed.

(** The leaves of the tree of a parse tile the whole input, and what
    is skipped before a leaf is white space. *)
Lemma parse_tiles fuel root :
  ts_parser_parse L start_state fuel text = Some root ->
  tiles (leaves root) 0 (length text) /\ Forall (padded_by_space text) (leaves root).
Proof.
  apply run_tiles. split; cbn; auto. lia.
Qed.

Lemma parse_extents fuel root :
  ts_parser_parse L start_state fuel text = Some root ->
  leaf_extents text root = text.
Proof.
  intros H. destruct (parse_tiles fuel root H) as [Ht _].
  unfold leaf_extents. rewrite (tiles_extents text _ _ _ Ht). apply slice_all.
Qed.
End RoundTrip.

Lemma zed_accept_at_end : accept_at_end Zed.tree_sitter_sysml = true.
Proof. vm_compute. reflexivity. Qed.

Lemma ts_accept_at_end : accept_at_end SysmlTs.tree_sitter_sysml = true.
Proof. vm_compute. reflexivity. Qed.

(** ** Round trip (section 8) *)

(** The round trip of section 8 does not hold of the spans alone: white space is skipped by the lexer and is in
    no leaf, so the spans of the leaves of [part x;] spell [partx;].
    Both grammars. *)
Lemma leaf_spans_counterexample :
  (exists root,
     ts_parser_parse Zed.tree_sitter_sysml 1 16 (codes "part x;") = Some root /\
     leaf_spans (codes "part x;") root = codes "partx;" /\
     leaf_spans (codes "part x;") root <> codes "part x;") /\
  (exists root,
     ts_parser_parse SysmlTs.tree_sitter_sysml 1 16 (codes "part x;") = Some root /\
     leaf_spans (codes "part x;") root = codes "partx;" /\
     leaf_spans (codes "part x;") root <> codes "part x;").
Proof.
  split; eexists; (split; [vm_compute; reflexivity|]);
    (split; [vm_compute; reflexivity|vm_compute; discriminate]).
Qed.

(** The round trip that holds: for every input, start state and grammar, the leaves
    of the tree a parse returns tile the input: each leaf begins, with
    the text skipped before it, where the leaf before ended, the first
    at 0 and the last ending at the end of the input; what is skipped
    before a leaf is white space only; so the skipped white space and
    the span of every leaf, in tree order, spell the input. *)
Theorem leaf_extents_round_trip :
  forall L, L = Zed.tree_sitter_sysml \/ L = SysmlTs.tree_sitter_sysml ->
  forall start_state fuel text root,
    ts_parser_parse L start_state fuel text = Some root ->
    leaf_extents text root = text /\
    tiles (leaves root) 0 (length text) /\
    Forall (padded_by_space text) (leaves root).
Proof.
  intros L [->| ->] start_state fuel text root H.
  - split.
    + exact (parse_extents _ _ _ zed_lexers_ok zed_accept_at_end _ _ _ H).
    + exact (parse_tiles _ _ _ zed_lexers_ok zed_accept_at_end _ _ _ H).
  - split.
    + exact (parse_extents _ _ _ ts_lexers_ok ts_accept_at_end _ _ _ H).
    + exact (parse_tiles _ _ _ ts_lexers_ok ts_accept_at_end _ _ _ H).
Qed.

Lemma leaf_extents_round_trip_witness :
  leaf_extents (codes "part x; // y")
    (Tree 24
       [(0, Tree 28 [(0, Leaf 5 0 0 4); (1, Leaf 1 4 5 6); (0, Leaf 7 6 6 7)]);
        (0, Leaf 23 7 8 12); (0, Leaf 0 12 12 12)])
  = codes "part x; // y".
Proof.
  apply (leaf_extents_round_trip Zed.tree_sitter_sysml (or_introl eq_refl)
           1 16 (codes "part x; // y")).
  vm_compute. reflexivity.
Defined.

(** ** The example of section 8 *)

(** In the example too, the spans of the leaves of
    the tree of [package p { part x; }] spell [packagep{partx;}]. *)
Lemma package_example_spans_counterexample :
  exists root,
    ts_parser_parse SysmlTs.tree_sitter_sysml 1 32 (codes "package p { part x; }")
    = Some root /\
    leaf_spans (codes "package p { part x; }") root = codes "packagep{partx;}" /\
    leaf_spans (codes "package p { part x; }") root <> codes "package p { part x; }".
Proof.
  eexists. split; [vm_compute; reflexivity|].
  split; [vm_compute; reflexivity|vm_compute; discriminate].
Qed.

(** The parse of [package p { part x; }] from the start
    state returns a root without error whose only child is a package
    declaration; its field "name" is the identifier [p]; its children
    hold one block, whose only named child is a part usage, the field
    "name" of which is the identifier [x]; and the leaves of the root,
    each with the white space skipped before it, spell the input. *)
Theorem package_example :
  let L := SysmlTs.tree_sitter_sysml in
  let text := codes "package p { part x; }" in
  exists root pkg name block part part_name,
    ts_parser_parse L 1 32 text = Some root /\
    node_symbol root = SysmlTs.sym_source_file /\
    ts_node_has_error root = false /\
    ts_node_children L root = [pkg] /\
    node_symbol pkg = SysmlTs.sym_package_decl /\
    ts_node_child_by_field_name L pkg "name" = Some name /\
    node_symbol name = SysmlTs.sym_identifier /\
    ts_node_text text name = codes "p" /\
    ts_node_named_children L pkg = [name; block] /\
    node_symbol block = SysmlTs.sym_block /\
    ts_node_named_children L block = [part] /\
    node_symbol part = SysmlTs.sym_part_usage /\
    ts_node_child_by_field_name L part "name" = Some part_name /\
    node_symbol part_name = SysmlTs.sym_identifier /\
    ts_node_text text part_name = codes "x" /\
    leaf_extents text root = text.
Proof.
  cbv zeta.
  exists (Tree 206
            [(0, Tree 209
                   [(0, Leaf 4 0 0 7); (1, Leaf 1 7 8 9);
                    (0, Tree 208
                          [(0, Leaf 2 9 10 11);
                           (0, Tree 212
                                 [(0, Leaf 8 11 12 16); (1, Leaf 1 16 17 18);
                                  (0, Leaf 6 18 18 19)]);
                           (0, Leaf 3 19 20 21)])]);
             (0, Leaf 0 21 21 21)]).
  exists (Tree 209
            [(0, Leaf 4 0 0 7); (1, Leaf 1 7 8 9);
             (0, Tree 208
                   [(0, Leaf 2 9 10 11);
                    (0, Tree 212
                          [(0, Leaf 8 11 12 16); (1, Leaf 1 16 17 18);
                           (0, Leaf 6 18 18 19)]);
                    (0, Leaf 3 19 20 21)])]).
  exists (Leaf 1 7 8 9).
  exists (Tree 208
            [(0, Leaf 2 9 10 11);
             (0, Tree 212
                   [(0, Leaf 8 11 12 16); (1, Leaf 1 16 17 18); (0, Leaf 6 18 18 19)]);
             (0, Leaf 3 19 20 21)]).
  exists (Tree 212 [(0, Leaf 8 11 12 16); (1, Leaf 1 16 17 18); (0, Leaf 6 18 18 19)]).
  exists (Leaf 1 16 17 18).
  repeat split; vm_compute; reflexivity.
Qed.

(** ** Every parse returns a tree *)

Lemma predecessors_in (E : list Edge) p s k : In (p, s, k) E -> In p (predecessors E s).
Proof.
  intros H. unfold predecessors. apply in_map_iff. exists (p, s, k). split; [reflexivity|].
  apply filter_In. split; [exact H|]. cbn. apply Z.eqb_refl.
Qed.

Lemma predecessors_edge (E : list Edge) p s :
  In p (predecessors E s) -> exists k, In (p, s, k) E.
Proof.
  unfold predecessors. intros H. apply in_map_iff in H as ([[p' s'] k] & Hp & H).
  apply filter_In in H as [H Hs]. cbn in *. apply Z.eqb_eq in Hs. subst. eauto.
Qed.

Section Linked.
Variable E : list Edge.
Variable start_state : TSStateId.

Lemma linked_skipn k : forall st,
  linked E start_state st -> linked E start_state (skipn k st).
Proof.
  induction k as [|k IH]; intros st H; [exact H|].
  destruct st as [|[[s n] x] st]; [exact H|]. cbn [skipn]. apply IH. exact (proj2 H).
Qed.

Lemma linked_app a : forall b,
  linked E start_state (a ++ b) -> linked E start_state b.
Proof.
  induction a as [|[[s n] x] a IH]; intros b H; [exact H|]. apply IH. exact (proj2 H).
Qed.

(** The state [k] frames down a stack lies [k] edges back. *)
Lemma back_path st : forall k,
  linked E start_state st -> (k <= length st)%nat ->
  In (top_state start_state (skipn k st)) (back E k (top_state start_state st)).
Proof.
  induction st as [|[[s n] x] st IH]; intros k H Hk.
  - cbn in Hk. assert (k = O) by lia. subst k. cbn. now left.
  - destruct k as [|k]; [cbn; now left|].
    cbn [skipn back top_state]. apply in_flat_map.
    exists (top_state start_state st). split.
    + exact (predecessors_in _ _ _ _ (proj1 H)).
    + apply IH; [exact (proj2 H)|cbn in Hk; lia].
Qed.

Lemma attach_linked n leading0 st leading' st' :
  attach n leading0 st = (leading', st') ->
  linked E start_state st ->
  linked E start_state st' /\
  top_state start_state st' = top_state start_state st /\ length st' = length st.
Proof.
  unfold attach. destruct st as [|[[s top] extras] st]; intros H Hl;
    inversion H; subst; auto.
Qed.
End Linked.

Section Progress.
Variable L : TSLanguage.
Variable start_state : TSStateId.
Variable skipper : TSStateId -> bool.
Variable W : list (TSStateId * nat).
Variable B : nat.
Hypothesis lexers : lexers_ok L skipper.
Hypothesis tables : tables_ok L W B start_state = true.

Local Abbreviation E := (all_edges L).

(** *** What the checks of the tables say *)

Lemma tables_facts :
  all_action_cells L (action_ok L E W start_state) = true /\
  entry_actions L 0 = [] /\
  (forall p k, ~ In (p, start_state, k) E) /\
  (forall s, (weight W s <= B)%nat) /\
  0 < token_count L.
Proof.
  pose proof tables as H. unfold tables_ok in H. cbv zeta in H.
  apply andb_true_iff in H as [H H5]. apply andb_true_iff in H as [H H4].
  apply andb_true_iff in H as [H H3]. apply andb_true_iff in H as [H1 H2].
  split; [exact H1|]. split; [|split; [|split]].
  - destruct (entry_actions L 0); [reflexivity|discriminate H2].
  - intros p k Hin. rewrite forallb_forall in H3. specialize (H3 _ Hin). cbn in H3.
    rewrite Z.eqb_refl in H3. discriminate H3.
  - intros s. unfold weight. destruct (assoc_Z s W) as [w|] eqn:Es; [|lia].
    rewrite forallb_forall in H4. specialize (H4 _ (assoc_Z_In _ _ _ Es)). cbn in H4.
    now apply Nat.leb_le.
  - now apply Z.ltb_lt.
Qed.

Lemma end_is_terminal : is_terminal L ts_builtin_sym_end = true.
Proof. unfold is_terminal. apply Z.ltb_lt. exact (proj2 (proj2 (proj2 (proj2 tables_facts)))). Qed.

Lemma no_cell_no_action state symbol :
  ts_language_lookup L state symbol = 0 -> ts_language_actions L state symbol = [].
Proof.
  intros H. rewrite (no_cell_actions _ _ _ H). exact (proj1 (proj2 tables_facts)).
Qed.

(** The check of its cell holds of the actions of a state on a terminal. *)
Lemma action_fact state symbol :
  is_terminal L symbol = true ->
  action_ok L E W start_state state symbol (ts_language_actions L state symbol) = true.
Proof.
  intros Ht. destruct (Z.eq_dec (ts_language_lookup L state symbol) 0) as [H0|H0].
  - rewrite (no_cell_no_action _ _ H0). reflexivity.
  - exact (action_cells L _ state symbol (proj1 tables_facts) Ht H0).
Qed.

Lemma cell_edge state symbol e :
  ts_language_lookup L state symbol <> 0 ->
  In e (cell_edges L state (symbol, ts_language_lookup L state symbol)) ->
  In e E.
Proof.
  intros H0 He. unfold all_edges. apply in_flat_map. exists state.
  split; [exact (lookup_state L _ _ H0)|].
  apply in_flat_map. exists (symbol, ts_language_lookup L state symbol).
  split; [exact (lookup_cells L _ _ H0)|exact He].
Qed.

Lemma shift_edge state symbol next rest :
  is_terminal L symbol = true ->
  ts_language_actions L state symbol = SHIFT next :: rest \/
  ts_language_actions L state symbol = SHIFT_REPEAT next :: rest ->
  In (state, next, true) E.
Proof.
  intros Ht Ha.
  assert (H0 : ts_language_lookup L state symbol <> 0).
  { intros H0. rewrite (no_cell_no_action _ _ H0) in Ha. destruct Ha; discriminate. }
  apply (cell_edge state symbol _ H0). unfold cell_edges. cbn [fst snd]. rewrite Ht.
  change (entry_actions L (ts_language_lookup L state symbol))
    with (ts_language_actions L state symbol).
  destruct Ha as [-> | ->]; now left.
Qed.

Lemma goto_edge state symbol :
  is_terminal L symbol = false ->
  ts_language_next_state L state symbol <> 0 ->
  In (state, ts_language_next_state L state symbol, false) E.
Proof.
  intros Ht H0. unfold ts_language_next_state in *.
  apply (cell_edge state symbol _ H0). unfold cell_edges. cbn [fst snd]. rewrite Ht.
  now left.
Qed.

(** *** Reductions and acceptance *)

Lemma mem_Z_In x l : In x l -> mem_Z x l = true.
Proof.
  intros H. unfold mem_Z. apply existsb_exists. exists x. split; [exact H|apply Z.eqb_refl].
Qed.

Lemma reduce_progress s symbol child_count production_id :
  linked E start_state (stack s) ->
  recovering s = false ->
  reduce_ok_at L E W start_state (top_state start_state (stack s)) symbol child_count
  = true ->
  progress L W B start_state s
    (ts_parser_reduce L start_state s symbol child_count production_id).
Proof.
  intros Hl Hrec H. unfold reduce_ok_at in H.
  apply andb_true_iff in H as [H Hgo]. apply andb_true_iff in H as [Hnt Hdeep].
  apply negb_true_iff in Hnt. rewrite forallb_forall in Hdeep, Hgo.
  assert (Hlen : (child_count <= length (stack s))%nat).
  { destruct (Nat.le_gt_cases child_count (length (stack s))) as [Hle|Hgt]; [exact Hle|].
    assert (Hin : In (length (stack s)) (seq 0 child_count)) by (apply in_seq; lia).
    specialize (Hdeep _ Hin). apply negb_true_iff in Hdeep.
    pose proof (back_path E start_state (stack s) (length (stack s)) Hl (le_n _)) as Hb.
    rewrite skipn_all in Hb. cbn [top_state] in Hb.
    rewrite (mem_Z_In _ _ Hb) in Hdeep. discriminate Hdeep. }
  pose proof (back_path E start_state (stack s) child_count Hl Hlen) as Hb.
  specialize (Hgo _ Hb). cbv zeta in Hgo. apply andb_true_iff in Hgo as [Hne Hw].
  apply negb_true_iff in Hne. apply Nat.ltb_lt in Hw.
  unfold ts_parser_reduce.
  replace (length (stack s) <? child_count)%nat with false
    by (symmetry; apply Nat.ltb_ge; exact Hlen).
  rewrite Hne.
  destruct (reduction_children L production_id 0 (rev (firstn child_count (stack s))))
    as [cs trailing].
  cbn [progress stack]. split.
  - cbn [linked is_leaf]. split; [|now apply linked_skipn].
    apply goto_edge; [exact Hnt|]. now apply Z.eqb_neq.
  - unfold measure, potential. cbn [input recovering stack length top_state].
    rewrite Hrec, length_skipn. lia.
Qed.

Lemma accept_progress s state symbol rest eof_leaf :
  linked E start_state (stack s) ->
  state = top_state start_state (stack s) ->
  action_ok L E W start_state state symbol (ACCEPT_INPUT :: rest) = true ->
  progress L W B start_state s (ts_parser_accept s eof_leaf).
Proof.
  intros Hl -> H. cbn [action_ok] in H. apply andb_true_iff in H as [Hne He].
  apply negb_true_iff in Hne. apply Z.eqb_neq in Hne. rewrite forallb_forall in He.
  unfold ts_parser_accept.
  destruct (stack s) as [|[[a node] extras] below]; [now elim Hne|].
  cbn [linked top_state] in *. destruct Hl as [Hin Hl].
  specialize (He _ Hin). cbn [fst snd] in He. rewrite Z.eqb_refl in He. cbn [negb orb] in He.
  apply andb_true_iff in He as [Hleaf Hstart].
  apply negb_true_iff in Hleaf. apply Z.eqb_eq in Hstart.
  destruct node as [sy p a0 b|sy children]; [discriminate Hleaf|].
  destruct below as [|[[s' n'] x'] below]; [exact I|].
  cbn [top_state] in Hstart. subst s'. cbn [linked] in Hl.
  elim (proj1 (proj2 (proj2 tables_facts)) _ _ (proj1 Hl)).
Qed.

(** *** Consuming a token *)

Lemma consume_progress s e (recovering' : bool) leading' stack' :
  linked E start_state stack' ->
  (1 <= e <= length (input s))%nat ->
  (potential W start_state stack' + (if recovering' then B + 1 else 0)
   <= potential W start_state (stack s) + B + 1)%nat ->
  progress L W B start_state s (consume s e recovering' leading' stack').
Proof.
  intros Hl He Hp. cbn [consume progress stack]. split; [exact Hl|].
  unfold measure. cbn [input recovering stack]. rewrite length_skipn.
  assert (Hmul : ((B + 2) * (@length Z (input s) - e) + (B + 2)
                  <= (B + 2) * @length Z (input s))%nat) by nia.
  destruct (recovering s); lia.
Qed.

Lemma attach_leaf_progress s n e recovering' :
  linked E start_state (stack s) ->
  (1 <= e <= length (input s))%nat ->
  progress L W B start_state s (attach_leaf s n e recovering').
Proof.
  intros Hl He. unfold attach_leaf.
  destruct (attach n (leading s) (stack s)) as [leading' stack'] eqn:Ea.
  destruct (attach_linked E start_state _ _ _ _ _ Ea Hl) as (Hl' & Ht & Hn).
  apply consume_progress; [exact Hl'|exact He|].
  unfold potential. rewrite Ht, Hn. destruct recovering'; lia.
Qed.

Lemma shift_progress s symbol start e next rest :
  linked E start_state (stack s) ->
  (1 <= e <= length (input s))%nat ->
  is_terminal L symbol = true ->
  ts_language_actions L (top_state start_state (stack s)) symbol = SHIFT next :: rest \/
  ts_language_actions L (top_state start_state (stack s)) symbol
  = SHIFT_REPEAT next :: rest ->
  progress L W B start_state s
    (consume s e false (leading s) ((next, token_leaf s symbol start e, []) :: stack s)).
Proof.
  intros Hl He Ht Ha. apply consume_progress; [|exact He|].
  - cbn [linked token_leaf is_leaf]. split; [|exact Hl].
    exact (shift_edge _ _ _ _ Ht Ha).
  - unfold potential. cbn [length top_state].
    pose proof (proj1 (proj2 (proj2 (proj2 tables_facts))) next). lia.
Qed.

Lemma syntax_error_progress s symbol start e :
  linked E start_state (stack s) ->
  (symbol <> ts_builtin_sym_end -> (1 <= e <= length (input s))%nat) ->
  progress L W B start_state s (syntax_error s symbol start e).
Proof.
  intros Hl He. unfold syntax_error. destruct (Z.eqb_spec symbol ts_builtin_sym_end).
  - exact I.
  - apply attach_leaf_progress; auto.
Qed.

(** *** One step *)

Lemma advance_progress s symbol start e :
  linked E start_state (stack s) ->
  recovering s = false ->
  is_terminal L symbol = true ->
  (symbol <> ts_builtin_sym_end -> (1 <= e <= length (input s))%nat) ->
  progress L W B start_state s (ts_parser_advance L start_state s symbol start e).
Proof.
  intros Hl Hrec Ht He.
  pose proof (action_fact (top_state start_state (stack s)) symbol Ht) as Hok.
  unfold ts_parser_advance.
  destruct (ts_language_actions L (top_state start_state (stack s)) symbol)
    as [|[next|next| |sy n d pid| |] rest] eqn:Ea; cbn [action_ok] in Hok.
  - now apply syntax_error_progress.
  - apply negb_true_iff, Z.eqb_neq in Hok.
    apply (shift_progress s symbol start e next rest); auto.
  - apply negb_true_iff, Z.eqb_neq in Hok.
    apply (shift_progress s symbol start e next rest); auto.
  - apply negb_true_iff, Z.eqb_neq in Hok. apply attach_leaf_progress; auto.
  - now apply reduce_progress.
  - now apply syntax_error_progress.
  - apply (accept_progress s (top_state start_state (stack s)) symbol rest);
      [exact Hl|reflexivity|exact Hok].
Qed.

Lemma recover_progress s symbol start e :
  linked E start_state (stack s) ->
  recovering s = true ->
  is_terminal L symbol = true ->
  (symbol <> ts_builtin_sym_end -> (1 <= e <= length (input s))%nat) ->
  progress L W B start_state s (ts_parser_recover L start_state s symbol start e).
Proof.
  intros Hl Hrec Ht He.
  pose proof (action_fact 0 symbol Ht) as Hok.
  unfold ts_parser_recover.
  assert (Hrest : progress L W B start_state s
    (if symbol =? ts_builtin_sym_end
     then error_root s (token_leaf s symbol start e)
     else
       match resynchronize L start_state (stack s) symbol with
       | Some ([], _) =>
           Continue (mkSession (leading s) (stack s) false (cursor s) (input s))
       | Some (popped, kept) =>
           let (leading', stack') :=
             attach (Tree ts_builtin_sym_error (unfielded (stack_nodes popped)))
                    (leading s) kept in
           Continue (mkSession leading' stack' false (cursor s) (input s))
       | None =>
           attach_leaf s (token_leaf s ts_builtin_sym_error start e) e true
       end)).
  { destruct (Z.eqb_spec symbol ts_builtin_sym_end) as [|Hne]; [exact I|].
    destruct (resynchronize L start_state (stack s) symbol) as [[popped kept]|] eqn:Er;
      [|apply attach_leaf_progress; auto].
    destruct popped as [|f popped].
    - cbn [progress stack]. split; [exact Hl|].
      unfold measure. cbn [input recovering stack]. rewrite Hrec. lia.
    - destruct (attach (Tree ts_builtin_sym_error (unfielded (stack_nodes (f :: popped))))
                  (leading s) kept) as [leading' stack'] eqn:Ea.
      pose proof (resynchronize_split L start_state _ _ _ _ Er) as Hsplit.
      assert (Hk : linked E start_state kept).
      { apply (linked_app E start_state (f :: popped)). now rewrite <- Hsplit. }
      destruct (attach_linked E start_state _ _ _ _ _ Ea Hk) as (Hl' & Htop & Hn).
      cbn [progress stack]. split; [exact Hl'|].
      unfold measure, potential. cbn [input recovering stack]. rewrite Hrec, Htop, Hn.
      rewrite Hsplit, length_app. cbn [length].
      pose proof (proj1 (proj2 (proj2 (proj2 tables_facts)))
                    (top_state start_state kept)). lia. }
  destruct (ts_language_actions L 0 symbol) as [|[next|next| |sy n d pid| |] rest];
    try exact Hrest.
  cbn [action_ok] in Hok. apply negb_true_iff, Z.eqb_neq in Hok.
  apply attach_leaf_progress; auto.
Qed.

(** A step from a linked stack does not fail, and where the parse goes
    on, the stack is linked and the measure has decreased. *)
Lemma step_progress s :
  linked E start_state (stack s) ->
  progress L W B start_state s (ts_parser_step L start_state s).
Proof.
  intros Hl.
  destruct (ts_parser_lex_ok L skipper lexers
              (if recovering s then 0 else top_state start_state (stack s)) (input s))
    as (r & Hr & Hok).
  unfold ts_parser_step. cbv zeta.
  assert (Hon : forall symbol start e,
            is_terminal L symbol = true ->
            (symbol <> ts_builtin_sym_end -> (1 <= e <= length (input s))%nat) ->
            progress L W B start_state s
              (if recovering s then ts_parser_recover L start_state s symbol start e
               else ts_parser_advance L start_state s symbol start e)).
  { intros symbol start e Ht He. destruct (recovering s) eqn:Erec.
    - now apply recover_progress.
    - now apply advance_progress. }
  destruct (recovering s) eqn:Erec; cbv iota in Hr; cbv iota; rewrite Hr;
    (destruct r as [symbol start e|start]; cbn [token_ok] in Hok;
     [ destruct Hok as (H1 & H2 & H3 & H4 & H5);
       apply (Hon symbol start e);
       [ unfold is_terminal; apply Z.ltb_lt; lia
       | intros Hne; specialize (H3 Hne); lia ]
     | destruct Hok as [H1 H5];
       destruct (skipn start (input s)) as [|c rest] eqn:Es;
       [ apply (Hon ts_builtin_sym_end start start);
         [ exact end_is_terminal | intros Hne; now elim Hne ]
       | apply attach_leaf_progress; [exact Hl|];
         apply (f_equal (@length Z)) in Es; rewrite length_skipn in Es;
         cbn in Es; lia ] ]).
Qed.

(** *** The loop *)

Lemma run_total fuel : forall s,
  linked E start_state (stack s) ->
  (measure W B start_state s < fuel)%nat ->
  exists root, ts_parser_run L start_state fuel s = Some root.
Proof.
  induction fuel as [|fuel IH]; intros s Hl Hm; [lia|].
  cbn [ts_parser_run]. pose proof (step_progress s Hl) as Hp.
  destruct (ts_parser_step L start_state s) as [s'|root|]; cbn [progress] in Hp.
  - apply IH; [exact (proj1 Hp)|lia].
  - eauto.
  - contradiction.
Qed.

(** Every parse returns a tree, within a number of steps linear in
    the length of the input. *)
Lemma parse_total text :
  exists root,
    ts_parser_parse L start_state ((B + 2) * length text + B + 1) text = Some root.
Proof.
  apply run_total; [exact I|].
  unfold measure, potential. cbn [input recovering stack length top_state].
  pose proof (proj1 (proj2 (proj2 (proj2 tables_facts))) start_state). lia.
Qed.
End Progress.

Lemma zed_tables_ok : tables_ok Zed.tree_sitter_sysml zed_weights 2 1 = true.
Proof. vm_compute. reflexivity. Qed.

Lemma ts_tables_ok : tables_ok SysmlTs.tree_sitter_sysml ts_weights 2 1 = true.
Proof. vm_compute. reflexivity. Qed.

(** ** Errors leave their mark in the tree *)

Lemma has_error_tree symbol children :
  ts_node_has_error (Tree symbol children)
  = (symbol =? ts_builtin_sym_error)
    || existsb (fun c : TSFieldId * Node => ts_node_has_error (snd c)) children.
Proof. reflexivity. Qed.

Lemma has_error_unfielded ns :
  existsb (fun c : TSFieldId * Node => ts_node_has_error (snd c)) (unfielded ns)
  = existsb ts_node_has_error ns.
Proof.
  unfold unfielded. induction ns as [|n ns IH]; [reflexivity|].
  cbn [map existsb snd]. now rewrite IH.
Qed.

Lemma has_error_attach n leading0 st leading' st' :
  attach n leading0 st = (leading', st') ->
  existsb ts_node_has_error (leading' ++ stack_nodes st')
  = existsb ts_node_has_error (leading0 ++ stack_nodes st) || ts_node_has_error n.
Proof.
  unfold attach. destruct st as [|[[s top] extras] st]; intros H; inversion H; subst.
  - cbn [stack_nodes rev flat_map]. rewrite !app_nil_r, existsb_app. cbn.
    now rewrite orb_false_r.
  - rewrite !stack_nodes_cons. cbn [frame_nodes].
    rewrite !existsb_app. cbn [existsb]. rewrite !existsb_app. cbn [existsb].
    rewrite orb_false_r, !orb_assoc. reflexivity.
Qed.

Section Errors.
Variable L : TSLanguage.
Variable start_state : TSStateId.
Hypothesis error_visible : is_hidden L ts_builtin_sym_error = false.

Lemma has_error_splice cs :
  existsb (fun c : TSFieldId * Node => ts_node_has_error (snd c)) (flat_map (splice L) cs)
  = existsb (fun c : TSFieldId * Node => ts_node_has_error (snd c)) cs.
Proof.
  induction cs as [|[f n] cs IH]; [reflexivity|].
  cbn [flat_map existsb]. rewrite existsb_app, IH. f_equal.
  unfold splice. cbn [snd]. destruct n as [sy p st e|sy children].
  - cbn [existsb snd]. apply orb_false_r.
  - destruct (is_hidden L sy) eqn:Eh.
    + rewrite has_error_tree.
      destruct (Z.eqb_spec sy ts_builtin_sym_error) as [->|_]; [congruence|reflexivity].
    + cbn [existsb snd]. apply orb_false_r.
Qed.

Lemma has_error_reduction production_id popped : forall index cs trailing,
  reduction_children L production_id index popped = (cs, trailing) ->
  existsb (fun c : TSFieldId * Node => ts_node_has_error (snd c)) cs
  || existsb ts_node_has_error trailing
  = existsb ts_node_has_error (flat_map frame_nodes popped).
Proof.
  induction popped as [|[[s n] extras] popped IH]; intros index cs trailing H.
  - cbn in H. inversion H; subst. reflexivity.
  - cbn [reduction_children] in H. destruct popped as [|f popped].
    + inversion H; subst. cbn [flat_map frame_nodes existsb snd app].
      now rewrite app_nil_r, orb_false_r.
    + destruct (reduction_children L production_id (S index) (f :: popped))
        as [cs' trailing'] eqn:E.
      inversion H; subst. specialize (IH _ _ _ E).
      cbn [flat_map frame_nodes] in *. cbn [snd app existsb].
      rewrite !existsb_app, has_error_unfielded, <- !orb_assoc.
      rewrite IH, !existsb_app. reflexivity.
Qed.

Lemma consume_marked s e recovering' leading' stack' :
  existsb ts_node_has_error (leading' ++ stack_nodes stack') = true ->
  marked (consume s e recovering' leading' stack').
Proof. intros H. exact H. Qed.

Lemma attach_leaf_marked s n e recovering' :
  session_has_error s = true \/ ts_node_has_error n = true ->
  marked (attach_leaf s n e recovering').
Proof.
  intros H. unfold attach_leaf.
  destruct (attach n (leading s) (stack s)) as [leading' stack'] eqn:E.
  apply consume_marked. rewrite (has_error_attach _ _ _ _ _ E).
  apply orb_true_iff. exact H.
Qed.

Lemma error_root_marked s eof_leaf : marked (error_root s eof_leaf).
Proof. reflexivity. Qed.

Lemma syntax_error_marked s symbol start e : marked (syntax_error s symbol start e).
Proof.
  unfold syntax_error. destruct (symbol =? ts_builtin_sym_end).
  - apply error_root_marked.
  - apply attach_leaf_marked. right. reflexivity.
Qed.

Lemma reduce_keeps s symbol child_count production_id :
  session_has_error s = true ->
  marked (ts_parser_reduce L start_state s symbol child_count production_id).
Proof.
  intros Hs. unfold ts_parser_reduce.
  destruct (length (stack s) <? child_count)%nat; [exact I|].
  destruct (ts_language_next_state L
              (top_state start_state (skipn child_count (stack s))) symbol =? 0);
    [exact I|].
  destruct (reduction_children L production_id 0 (rev (firstn child_count (stack s))))
    as [cs trailing] eqn:E.
  cbn [marked]. unfold session_has_error in *. cbn [leading stack].
  rewrite stack_nodes_cons. cbn [frame_nodes].
  assert (Hst : stack_nodes (stack s)
                = stack_nodes (skipn child_count (stack s))
                  ++ flat_map frame_nodes (rev (firstn child_count (stack s)))).
  { rewrite <- (firstn_skipn child_count (stack s)) at 1.
    now rewrite stack_nodes_app. }
  rewrite Hst, !existsb_app in Hs. rewrite <- (has_error_reduction _ _ _ _ _ E) in Hs.
  rewrite !existsb_app. cbn [existsb]. rewrite has_error_tree, has_error_splice.
  apply orb_true_iff in Hs as [Hs|Hs]; [now rewrite Hs|].
  apply orb_true_iff in Hs as [Hs|Hs].
  - rewrite Hs. cbn. rewrite !orb_true_r. reflexivity.
  - apply orb_true_iff in Hs as [Hs|Hs]; rewrite Hs; rewrite ?orb_true_r; reflexivity.
Qed.

Lemma accept_keeps s eof_leaf :
  session_has_error s = true -> marked (ts_parser_accept s eof_leaf).
Proof.
  intros Hs. unfold ts_parser_accept. unfold session_has_error in Hs.
  destruct (stack s) as [|[[st [sy p a b|sy children]] extras] [|f rest]];
    try exact I.
  cbn [marked]. rewrite has_error_tree.
  cbn [stack_nodes rev app flat_map frame_nodes] in Hs.
  rewrite app_nil_r, existsb_app in Hs. cbn [existsb] in Hs.
  rewrite has_error_tree in Hs.
  rewrite !existsb_app, !has_error_unfielded, existsb_app.
  apply orb_true_iff in Hs as [Hs|Hs]; [rewrite Hs; now rewrite orb_true_r|].
  apply orb_true_iff in Hs as [Hs|Hs].
  - apply orb_true_iff in Hs as [Hs|Hs]; rewrite Hs; rewrite ?orb_true_r; reflexivity.
  - rewrite Hs. rewrite ?orb_true_r. reflexivity.
Qed.

Lemma shift_keeps s e next leaf :
  session_has_error s = true ->
  marked (consume s e false (leading s) ((next, leaf, []) :: stack s)).
Proof.
  intros Hs. apply consume_marked. rewrite stack_nodes_cons. cbn [frame_nodes].
  unfold session_has_error in Hs. rewrite app_assoc, existsb_app, Hs. reflexivity.
Qed.

(** A step in the normal mode keeps the markers of the session, and
    marks the tree when the state has no action for the token. *)
Lemma advance_marked s symbol start e :
  session_has_error s = true
  \/ no_action (ts_language_actions L (top_state start_state (stack s)) symbol) = true ->
  marked (ts_parser_advance L start_state s symbol start e).
Proof.
  intros H. unfold ts_parser_advance.
  destruct (ts_language_actions L (top_state start_state (stack s)) symbol)
    as [|[next|next| |sy n d pid| |] rest];
    try apply syntax_error_marked;
    (destruct H as [H|H]; [|discriminate H]).
  - now apply shift_keeps.
  - now apply shift_keeps.
  - apply attach_leaf_marked. now left.
  - now apply reduce_keeps.
  - now apply accept_keeps.
Qed.

Lemma recover_keeps s symbol start e :
  session_has_error s = true ->
  marked (ts_parser_recover L start_state s symbol start e).
Proof.
  intros Hs. unfold ts_parser_recover.
  assert (Hrest : marked
    (if symbol =? ts_builtin_sym_end
     then error_root s (token_leaf s symbol start e)
     else
       match resynchronize L start_state (stack s) symbol with
       | Some ([], _) =>
           Continue (mkSession (leading s) (stack s) false (cursor s) (input s))
       | Some (popped, kept) =>
           let (leading', stack') :=
             attach (Tree ts_builtin_sym_error (unfielded (stack_nodes popped)))
                    (leading s) kept in
           Continue (mkSession leading' stack' false (cursor s) (input s))
       | None =>
           attach_leaf s (token_leaf s ts_builtin_sym_error start e) e true
       end)).
  { destruct (symbol =? ts_builtin_sym_end); [apply error_root_marked|].
    destruct (resynchronize L start_state (stack s) symbol) as [[popped kept]|];
      [|apply attach_leaf_marked; now left].
    destruct popped as [|f popped]; [exact Hs|].
    destruct (attach (Tree ts_builtin_sym_error (unfielded (stack_nodes (f :: popped))))
                (leading s) kept) as [leading' stack'] eqn:E.
    cbn [marked]. unfold session_has_error. cbn [leading stack].
    rewrite (has_error_attach _ _ _ _ _ E). apply orb_true_r. }
  destruct (ts_language_actions L 0 symbol) as [|[next|next| |sy n d pid| |] rest];
    try exact Hrest.
  apply attach_leaf_marked. now left.
Qed.

Lemma step_keeps s :
  session_has_error s = true -> marked (ts_parser_step L start_state s).
Proof.
  intros Hs. unfold ts_parser_step. cbv zeta.
  destruct (recovering s); cbv iota;
    match goal with
    | |- context [ts_parser_lex ?l ?a ?b ?c] =>
        destruct (ts_parser_lex l a b c) as [[symbol start e|start]|]
    end; try exact I;
    try (destruct (skipn start (input s)); [|apply attach_leaf_marked; now left]);
    first [now apply recover_keeps | apply advance_marked; now left].
Qed.

(** Section 7: each kind of error a step meets marks the outcome. *)
Lemma step_error_marked s kind :
  step_error L start_state s = Some kind -> marked (ts_parser_step L start_state s).
Proof.
  unfold step_error, ts_parser_step. cbv zeta.
  destruct (recovering s); cbv iota; cbn [negb andb];
    match goal with
    | |- context [ts_parser_lex ?l ?a ?b ?c] =>
        destruct (ts_parser_lex l a b c) as [[symbol start e|start]|]
    end; try discriminate;
    try (destruct (skipn start (input s));
         [|intros _; apply attach_leaf_marked; right; reflexivity]);
    try discriminate;
    match goal with
    | |- context [no_action ?acts] => destruct (no_action acts) eqn:Ea
    end; try discriminate;
    intros _; apply advance_marked; now right.
Qed.

Lemma run_marked fuel : forall s root,
  ts_parser_run L start_state fuel s = Some root ->
  session_has_error s = true \/ run_errors L start_state fuel s <> [] ->
  ts_node_has_error root = true.
Proof.
  induction fuel as [|fuel IH]; intros s root H Hs; [discriminate H|].
  cbn [ts_parser_run run_errors] in *.
  assert (Hm : marked (ts_parser_step L start_state s)
               \/ exists s', ts_parser_step L start_state s = Continue s'
                             /\ run_errors L start_state fuel s' <> []).
  { destruct Hs as [Hs|Hs]; [left; now apply step_keeps|].
    destruct (step_error L start_state s) as [k|] eqn:Ek;
      [left; exact (step_error_marked s k Ek)|].
    cbn [app] in Hs. right.
    destruct (ts_parser_step L start_state s) as [s'|r|]; try now elim Hs.
    eauto. }
  destruct Hm as [Hm|(s' & Es & Hm)].
  - destruct (ts_parser_step L start_state s) as [s'|r|]; [| |discriminate H].
    + apply (IH s' root H). now left.
    + inversion H; subst. exact Hm.
  - rewrite Es in H. apply (IH s' root H). now right.
Qed.

Lemma parse_marked fuel text root kind :
  ts_parser_parse L start_state fuel text = Some root ->
  In kind (parse_errors L start_state fuel text) ->
  ts_node_has_error root = true.
Proof.
  intros H Hk. apply (run_marked fuel _ root H). right.
  unfold parse_errors in Hk. intros E. rewrite E in Hk. exact Hk.
Qed.
End Errors.

(** ** Error tolerance (section 7) *)

Lemma tiles_last ls : forall from to,
  tiles ls from to ->
  match rev ls with
  | (_, _, _, end_) :: _ => end_
  | [] => from
  end = to.
Proof.
  induction ls as [|[[[sy p] st] e] ls IH]; intros from to; cbn [tiles rev].
  - auto.
  - intros (_ & _ & H). specialize (IH _ _ H).
    destruct (rev ls) as [|[[[sy' p'] st'] e'] r]; exact IH.
Qed.

(** The span of the root of a tree whose leaves tile the input. *)
Lemma tiles_root_span root n :
  tiles (leaves root) 0 n -> ts_tree_root_span root = (0%nat, n).
Proof.
  intros H. unfold ts_tree_root_span. f_equal.
  - unfold ts_node_extent_start.
    destruct (leaves root) as [|[[[sy p] st] e] ls]; [reflexivity|]. exact (proj1 H).
  - exact (tiles_last _ _ _ H).
Qed.

Section Tolerance.
Variable L : TSLanguage.
Variable start_state : TSStateId.
Variable skipper : TSStateId -> bool.
Variable W : list (TSStateId * nat).
Hypothesis lexers : lexers_ok L skipper.
Hypothesis tables : tables_ok L W 2 start_state = true.
Hypothesis accepts : accept_at_end L = true.
Hypothesis error_visible : is_hidden L ts_builtin_sym_error = false.

Lemma returns_tree_ok text : returns_tree L start_state text.
Proof.
  destruct (parse_total L start_state skipper W 2 lexers tables text) as (root & H).
  replace ((2 + 2) * length text + 2 + 1)%nat with (4 * length text + 3)%nat in H by lia.
  exists root. split; [exact H|]. split.
  - apply tiles_root_span.
    exact (proj1 (parse_tiles L start_state skipper lexers accepts text _ root H)).
  - intros kind Hk. exact (parse_marked L start_state error_visible _ _ _ _ H Hk).
Qed.
End Tolerance.

(** For every input, the parse from the start state returns a tree
    (within a number of steps linear in the length of the input), the
    span of its root is the whole input, and every error met on the way,
    lexical, syntactic or of exhaustion, leaves an error marker in the
    tree; each kind of error occurs; the parse of [package ;] returns a
    tree with an error marker whose root spans the 9 characters.  Both
    grammars. *)
Theorem parse_returns_tree :
  (forall text, returns_tree Zed.tree_sitter_sysml 1 text) /\
  (forall text, returns_tree SysmlTs.tree_sitter_sysml 1 text) /\
  (forall L, In L [Zed.tree_sitter_sysml; SysmlTs.tree_sitter_sysml] ->
     parse_errors L 1 100 (codes "part a; # part b;") = [LexicalError] /\
     parse_errors L 1 100 (codes "package ;") = [SyntacticError] /\
     parse_errors L 1 100 (codes "package p {") = [ExhaustionError] /\
     exists root,
       ts_parser_parse L 1 39 (codes "package ;") = Some root /\
       ts_node_has_error root = true /\
       ts_tree_root_span root = (0%nat, length (codes "package ;"))).
Proof.
  split; [|split].
  - intros text.
    exact (returns_tree_ok _ _ _ _ zed_lexers_ok zed_tables_ok zed_accept_at_end
             eq_refl text).
  - intros text.
    exact (returns_tree_ok _ _ _ _ ts_lexers_ok ts_tables_ok ts_accept_at_end
             eq_refl text).
  - intros L [<-|[<-|[]]];
      (split; [vm_compute; reflexivity|]); (split; [vm_compute; reflexivity|]);
      (split; [vm_compute; reflexivity|]);
      eexists; (split; [vm_compute; reflexivity|]); split; vm_compute; reflexivity.
Qed.

Lemma parse_returns_tree_witness :
  parse_errors Zed.tree_sitter_sysml 1 100 (codes "package ;") = [SyntacticError].
Proof.
  exact (proj1 (proj2 (proj2 (proj2 parse_returns_tree) Zed.tree_sitter_sysml
                         (or_introl eq_refl)))).
Defined.

(** ** Number literals *)

Lemma digit_not_point c : is_digit c = true -> (c =? ch ".") = false.
Proof. unfold is_digit. intros H. norm_ch. test_to_prop_in H. bool_lia. Qed.

Section NumberStates.
Variable lex : LexFn.
Variables s_int s_dot s_frac : TSStateId.
Variable sym : TSSymbol.

Hypothesis lex_int : forall eof c,
  lex s_int eof c = Some (Some sym,
    if c =? ch "." then ADVANCE s_dot else
    if (ch "0" <=? c) && (c <=? ch "9") then ADVANCE s_int else
    END_STATE).
Hypothesis lex_dot : forall eof c,
  lex s_dot eof c = Some (None,
    if (ch "0" <=? c) && (c <=? ch "9") then ADVANCE s_frac else
    END_STATE).
Hypothesis lex_frac : forall eof c,
  lex s_frac eof c = Some (Some sym,
    if (ch "0" <=? c) && (c <=? ch "9") then ADVANCE s_frac else
    END_STATE).

Lemma fraction_loop ds : forall rest pos start found,
  forallb is_digit ds = true ->
  starts_with is_digit rest = false ->
  lex_loop lex (ds ++ rest) s_frac pos start found
  = Some (Token sym start (pos + length ds)).
Proof.
  induction ds as [|c ds IH]; intros rest pos start found Hd Hrest.
  - cbn [app length]. rewrite Nat.add_0_r. destruct rest as [|c rest].
    + cbn. rewrite lex_frac. reflexivity.
    + cbn in Hrest. unfold is_digit in Hrest.
      cbn [lex_loop]. rewrite lex_frac, Hrest. reflexivity.
  - cbn in Hd. apply andb_true_iff in Hd as [Hc Hd]. unfold is_digit in Hc.
    cbn [app length lex_loop]. rewrite lex_frac, Hc, IH by assumption.
    do 2 f_equal. lia.
Qed.

(** After the point: a digit continues the number, anything else
    leaves the number as it was before the point. *)
Lemma point_alone rest pos start e :
  starts_with is_digit rest = false ->
  lex_loop lex rest s_dot pos start (Some (sym, e)) = Some (Token sym start e).
Proof.
  intros Hrest. destruct rest as [|c rest].
  - cbn. rewrite lex_dot. reflexivity.
  - cbn in Hrest. unfold is_digit in Hrest.
    cbn [lex_loop]. rewrite lex_dot, Hrest. reflexivity.
Qed.

Lemma integer_loop ds : forall rest pos start found,
  forallb is_digit ds = true ->
  starts_with is_digit rest = false ->
  lex_loop lex (ds ++ rest) s_int pos start found
  = match rest with
    | c :: rest' =>
        if c =? ch "."
        then lex_loop lex rest' s_dot (S (pos + length ds)) start
               (Some (sym, (pos + length ds)%nat))
        else Some (Token sym start (pos + length ds))
    | [] => Some (Token sym start (pos + length ds))
    end.
Proof.
  induction ds as [|c ds IH]; intros rest pos start found Hd Hrest.
  - cbn [app length]. rewrite Nat.add_0_r. destruct rest as [|c rest].
    + cbn. rewrite lex_int. reflexivity.
    + cbn in Hrest. unfold is_digit in Hrest.
      cbn [lex_loop]. rewrite lex_int. cbn [accept_token].
      destruct (c =? ch "."); [reflexivity|]. rewrite Hrest. reflexivity.
  - cbn in Hd. apply andb_true_iff in Hd as [Hc Hd].
    cbn [app length lex_loop]. rewrite lex_int, (digit_not_point c Hc).
    unfold is_digit in Hc. rewrite Hc, IH by assumption.
    replace (S pos + length ds)%nat with (pos + S (length ds))%nat by lia.
    reflexivity.
Qed.

Variable s0 : TSStateId.
Hypothesis lex_start : forall c,
  is_digit c = true -> lex s0 false c = Some (None, ADVANCE s_int).

Lemma number_tokens int frac rest :
  int <> [] ->
  forallb is_digit int = true ->
  forallb is_digit frac = true ->
  starts_with is_digit rest = false ->
  (starts_with is_point rest = false ->
   run_lexer lex s0 (int ++ rest) 0 = Some (Token sym 0 (length int))) /\
  (frac <> [] ->
   run_lexer lex s0 (int ++ ch "." :: frac ++ rest) 0
   = Some (Token sym 0 (length int + 1 + length frac))) /\
  run_lexer lex s0 (int ++ ch "." :: rest) 0 = Some (Token sym 0 (length int)).
Proof.
  intros Hne Hint Hfrac Hrest. destruct int as [|d int]; [now elim Hne|].
  cbn in Hint. apply andb_true_iff in Hint as [Hd Hint].
  unfold run_lexer. cbn [app lex_loop length]. rewrite (lex_start d Hd).
  cbn [accept_token]. split; [|split].
  - intros Hp. rewrite integer_loop by assumption.
    destruct rest as [|c rest]; [reflexivity|]. cbn in Hp. unfold is_point in Hp.
    now rewrite Hp.
  - intros Hf. destruct frac as [|f frac]; [now elim Hf|].
    cbn in Hfrac. apply andb_true_iff in Hfrac as [Hf1 Hfrac].
    rewrite integer_loop; [|assumption|cbn; apply digit_not_point in Hf1;
                                        unfold is_digit; norm_ch; reflexivity].
    rewrite Z.eqb_refl. cbn [app lex_loop]. rewrite lex_dot.
    unfold is_digit in Hf1. rewrite Hf1. cbn [accept_token].
    rewrite fraction_loop by assumption. do 2 f_equal. cbn [length]. lia.
  - rewrite integer_loop; [|assumption|cbn; unfold is_digit; norm_ch; reflexivity].
    rewrite Z.eqb_refl. rewrite point_alone by assumption. reflexivity.
Qed.
End NumberStates.

Lemma zed_number_start c :
  is_digit c = true -> Zed.ts_lex 0 false c = Some (None, ADVANCE 26).
Proof.
  intros H. unfold is_digit in H. norm_ch. test_to_prop_in H.
  cbn [Zed.ts_lex]; cbv beta iota; decide_tests; reflexivity.
Qed.

Lemma ts_number_start c :
  is_digit c = true -> SysmlTs.ts_lex 0 false c = Some (None, ADVANCE 29).
Proof.
  intros H. unfold is_digit in H. norm_ch. test_to_prop_in H.
  cbn [SysmlTs.ts_lex ADVANCE_MAP]; cbv beta iota; decide_tests; reflexivity.
Qed.

(** Numbers ([ts_lex], the digit states): from start state 0, a run of
    digits is a number token; a point followed by digits extends it; a
    point that no digit follows is left outside the token.  Both
    grammars. *)
Theorem number_literals :
  forall lex sym,
    In (lex, sym) [(Zed.ts_lex, Zed.sym_number); (SysmlTs.ts_lex, SysmlTs.sym_number)] ->
    forall int frac rest,
      int <> [] ->
      forallb is_digit int = true ->
      forallb is_digit frac = true ->
      starts_with is_digit rest = false ->
      (starts_with is_point rest = false ->
       run_lexer lex 0 (int ++ rest) 0 = Some (Token sym 0 (length int))) /\
      (frac <> [] ->
       run_lexer lex 0 (int ++ ch "." :: frac ++ rest) 0
       = Some (Token sym 0 (length int + 1 + length frac))) /\
      run_lexer lex 0 (int ++ ch "." :: rest) 0 = Some (Token sym 0 (length int)).
Proof.
  intros lex sym [H|[H|[]]]; inversion H; subst; intros int frac rest.
  - apply (number_tokens Zed.ts_lex 26 7 27 Zed.sym_number);
      first [by_source | exact zed_number_start].
  - apply (number_tokens SysmlTs.ts_lex 29 10 30 SysmlTs.sym_number);
      first [by_source | exact ts_number_start].
Qed.

Lemma number_literals_witness :
  run_lexer Zed.ts_lex 0 (codes "12.x") 0 = Some (Token Zed.sym_number 0 2) /\
  run_lexer SysmlTs.ts_lex 0 (codes "12.50;") 0 = Some (Token SysmlTs.sym_number 0 5).
Proof.
  split.
  - exact (proj2 (proj2 (number_literals Zed.ts_lex Zed.sym_number (or_introl eq_refl)
                           (codes "12") [] (codes "x")
                           ltac:(discriminate) eq_refl eq_refl eq_refl))).
  - exact (proj1 (proj2 (number_literals SysmlTs.ts_lex SysmlTs.sym_number
                           (or_intror (or_introl eq_refl))
                           (codes "12") (codes "50") (codes ";")
                           ltac:(discriminate) eq_refl eq_refl eq_refl))
             ltac:(discriminate)).
Defined.

(** ** Comment lines *)

Section CommentLine.
Variable lex : LexFn.
Variable s_line : TSStateId.
Variable com : TSSymbol.

Hypothesis lex_line : forall eof c,
  lex s_line eof c = Some (Some com,
    if negb (c =? 0) && negb (c =? 10) then ADVANCE s_line else END_STATE).

Lemma comment_line_loop body : forall rest pos start found,
  line_body body = true ->
  line_ends rest = true ->
  lex_loop lex (body ++ rest) s_line pos start found
  = Some (Token com start (pos + length body)).
Proof.
  induction body as [|c body IH]; intros rest pos start found Hb Hrest.
  - cbn [app length]. rewrite Nat.add_0_r. destruct rest as [|c rest].
    + cbn. rewrite lex_line. reflexivity.
    + cbn in Hrest. cbn [lex_loop]. rewrite lex_line.
      assert (E : negb (c =? 0) && negb (c =? 10) = false).
      { apply orb_true_iff in Hrest as [H|H]; rewrite H; cbn;
          [reflexivity|apply andb_false_r]. }
      rewrite E. reflexivity.
  - unfold line_body in Hb. cbn in Hb. apply andb_true_iff in Hb as [Hc Hb].
    cbn [app length lex_loop]. rewrite lex_line, Hc, IH by assumption.
    do 2 f_equal. lia.
Qed.
End CommentLine.

(** Comment lines ([ts_lex]): in every start state that skips white
    space, two slashes open a comment token that runs to the end of the
    line: it ends before the line break (or NUL, or the end of the
    input), which stays outside the token.  Both grammars. *)
Theorem comment_lines :
  forall lex com states,
    In (lex, com, states)
       [(Zed.ts_lex, Zed.sym_comment, zed_scanning_states);
        (SysmlTs.ts_lex, SysmlTs.sym_comment, ts_scanning_states)] ->
    forall s body rest,
      In s states ->
      line_body body = true ->
      line_ends rest = true ->
      run_lexer lex s (ch "/" :: ch "/" :: body ++ rest) 0
      = Some (Token com 0 (2 + length body)).
Proof.
  intros lex com states [H|[H|[]]]; inversion H; subst; intros s body rest Hs Hb Hr;
    unfold run_lexer.
  - destruct Hs as [<-|[<-|[<-|[]]]]; do 2 lex_step;
      apply (comment_line_loop Zed.ts_lex 29 Zed.sym_comment ltac:(by_source)); assumption.
  - destruct Hs as [<-|[<-|[<-|[]]]]; do 2 lex_step;
      apply (comment_line_loop SysmlTs.ts_lex 53 SysmlTs.sym_comment ltac:(by_source));
      assumption.
Qed.

Lemma comment_lines_witness :
  run_lexer SysmlTs.ts_lex 12 (codes "// a b") 0 = Some (Token SysmlTs.sym_comment 0 6).
Proof.
  exact (comment_lines SysmlTs.ts_lex SysmlTs.sym_comment ts_scanning_states
           (or_intror (or_introl eq_refl)) 12 (codes " a b") []
           (or_intror (or_introl eq_refl)) eq_refl eq_refl).
Defined.

(** ** Colons *)

(** The colon depends on the start state ([ts_lex], the states entered
    on [:]).  In start state 0 a colon is a token of its own unless a
    second colon follows, and two colons are one token.  In the second
    scanning state (9, or 12 in sysml-ts) a colon is always a token of
    its own, also before a second colon.  In the third (10, or 13) two
    colons are one token and a single colon is no token at all. *)
Theorem colons :
  forall lex colon colon_colon s1 s2,
    In (lex, colon, colon_colon, s1, s2)
       [(Zed.ts_lex, Zed.anon_sym_COLON, Zed.anon_sym_COLON_COLON, 9, 10);
        (SysmlTs.ts_lex, SysmlTs.anon_sym_COLON, SysmlTs.anon_sym_COLON_COLON, 12, 13)] ->
    forall rest,
      (starts_with is_colon rest = false ->
       run_lexer lex 0 (ch ":" :: rest) 0 = Some (Token colon 0 1)) /\
      run_lexer lex 0 (ch ":" :: ch ":" :: rest) 0 = Some (Token colon_colon 0 2) /\
      run_lexer lex s1 (ch ":" :: rest) 0 = Some (Token colon 0 1) /\
      run_lexer lex s2 (ch ":" :: ch ":" :: rest) 0 = Some (Token colon_colon 0 2) /\
      (starts_with is_colon rest = false ->
       run_lexer lex s2 (ch ":" :: rest) 0 = Some (NoToken 0)).
Proof.
  intros lex colon colon_colon s1 s2 [H|[H|[]]]; inversion H; subst; intros rest;
    unfold run_lexer;
    (split; [intros Hr; lex_step; destruct rest as [|c rest];
             [reflexivity|cbn in Hr; unfold is_colon in Hr; cbn [lex_loop];
              cbv beta iota delta [Zed.ts_lex SysmlTs.ts_lex]; rewrite Hr; reflexivity]|]);
    (split; [do 2 lex_step; destruct rest; reflexivity|]);
    (split; [lex_step; destruct rest; reflexivity|]);
    (split; [do 2 lex_step; destruct rest; reflexivity|]);
    intros Hr; lex_step; destruct rest as [|c rest];
    [reflexivity|cbn in Hr; unfold is_colon in Hr; cbn [lex_loop];
     cbv beta iota delta [Zed.ts_lex SysmlTs.ts_lex]; rewrite Hr; reflexivity
    |reflexivity|cbn in Hr; unfold is_colon in Hr; cbn [lex_loop];
     cbv beta iota delta [Zed.ts_lex SysmlTs.ts_lex]; rewrite Hr; reflexivity].
Qed.

Lemma colons_witness :
  run_lexer Zed.ts_lex 10 (codes ": x") 0 = Some (NoToken 0).
Proof.
  exact (proj2 (proj2 (proj2 (proj2
           (colons Zed.ts_lex Zed.anon_sym_COLON Zed.anon_sym_COLON_COLON 9 10
              (or_introl eq_refl) (codes " x"))))) eq_refl).
Defined.

(** ** White space *)

(** White space before a token is skipped ([ts_lex], the [SKIP] cases):
    in every scanning start state, a scan of a text that begins with
    white space is the scan of the text after it, at the position
    after it.  Both grammars. *)
Theorem leading_space_skipped :
  forall lex states,
    In (lex, states) [(Zed.ts_lex, zed_scanning_states);
                      (SysmlTs.ts_lex, ts_scanning_states)] ->
    forall s ws text pos,
      In s states ->
      forallb is_space ws = true ->
      run_lexer lex s (ws ++ text) pos = run_lexer lex s text (pos + length ws).
Proof.
  intros lex states [H|[H|[]]]; inversion H; subst; intros s ws text pos Hs Hws;
    unfold run_lexer.
  - apply skip_spaces; [|exact Hws]. intros c Hc. now apply zed_skip_space.
  - apply skip_spaces; [|exact Hws]. intros c Hc. now apply ts_skip_space.
Qed.

Lemma leading_space_skipped_witness :
  run_lexer Zed.ts_lex 0 (codes "  {") 0 = run_lexer Zed.ts_lex 0 (codes "{") 2.
Proof.
  exact (leading_space_skipped Zed.ts_lex zed_scanning_states (or_introl eq_refl)
           0 (codes "  ") (codes "{") 0 (or_introl eq_refl) eq_refl).
Defined.

(** ** Every scan is well formed *)

(** Whatever the parse state and the text ([ts_lex] from each start state
    of [ts_lex_modes]): the scan returns (it does not spin at the end of
    the input); a token lies in the text, after skipped white space
    only, and is not empty unless it is the end of input; its symbol is
    a terminal; the end of input is returned only at the end of the
    text.  Both grammars. *)
Theorem scans_are_well_formed :
  forall L skipper,
    In (L, skipper) grammars ->
    forall state text pos,
      exists r,
        run_lexer (lex_fn L) (ts_language_lex_state L state) text pos = Some r /\
        lexed_ok pos (pos + length text) r /\
        forallb is_space (firstn (lexed_start r - pos) text) = true /\
        forall sym st e,
          r = Token sym st e ->
          0 <= sym < token_count L /\
          (sym = ts_builtin_sym_end -> e = (pos + length text)%nat).
Proof.
  intros L skipper HL state text pos.
  assert (OK : lexers_ok L skipper).
  { destruct HL as [H|[H|[]]]; inversion H; subst;
      [exact zed_lexers_ok|exact ts_lexers_ok]. }
  destruct (run_lexer_ok _ _ (main_ok _ _ OK) (ts_language_lex_state L state) text pos
              (main_clean _ _ OK state)) as (r & Hr & Hok & Hws).
  exists r. split; [exact Hr|]. split; [exact Hok|]. split.
  - apply forallb_forall. rewrite Forall_forall in Hws. exact Hws.
  - intros sym st e ->. split.
    + exact (run_lexer_only _ _ (main_terminals _ _ OK) _ _ _ _ _ _ Hr).
    + intros ->.
      exact (run_lexer_end _ (main_end _ _ OK) _ _ _ _ _ (main_clean _ _ OK state) Hr).
Qed.

Lemma scans_are_well_formed_witness :
  exists r,
    run_lexer Zed.ts_lex 5 (codes "a::b;") 0 = Some r /\
    lexed_ok 0 5 r /\
    forallb is_space (firstn (lexed_start r - 0) (codes "a::b;")) = true /\
    forall sym st e,
      r = Token sym st e ->
      0 <= sym < 24 /\ (sym = ts_builtin_sym_end -> e = 5%nat).
Proof.
  exact (scans_are_well_formed Zed.tree_sitter_sysml zed_skipper (or_introl eq_refl)
           48 (codes "a::b;") 0).
Defined.

(** ** NUL ends every scan *)

Section Nul.
Variable lex : LexFn.
Hypothesis nul_stops : forall s acc act,
  lex s false 0 = Some (acc, act) -> act = END_STATE.

Lemma lex_loop_nul text : forall s pos start found sym st e,
  (forall sy e0, found = Some (sy, e0) -> (e0 <= pos)%nat) ->
  lex_loop lex text s pos start found = Some (Token sym st e) ->
  ~ In 0 (firstn (e - pos) text).
Proof.
  induction text as [|c text IH]; intros s pos start found sym st e Hf H.
  - rewrite firstn_nil. exact (fun x => x).
  - cbn [lex_loop] in H. destruct (lex s false c) as [[acc act]|] eqn:Hl; [|discriminate H].
    assert (Hf' : forall sy e0, accept_token acc pos found = Some (sy, e0) -> (e0 <= S pos)%nat).
    { destruct acc as [sy'|]; cbn; intros sy e0 E.
      - inversion E; subst. lia.
      - specialize (Hf _ _ E). lia. }
    assert (Hc : act <> END_STATE -> c <> 0).
    { intros Ha ->. apply Ha. exact (nul_stops _ _ _ Hl). }
    assert (Hgo : forall s' start', lex_loop lex text s' (S pos) start'
                    (accept_token acc pos found) = Some (Token sym st e) ->
                  c <> 0 -> ~ In 0 (firstn (e - pos) (c :: text))).
    { intros s' start' H' Hne. specialize (IH _ _ _ _ _ _ _ Hf' H').
      destruct (e - pos)%nat as [|k] eqn:Ek; [exact (fun x => x)|].
      replace (e - S pos)%nat with k in IH by lia.
      cbn [firstn]. intros [E|E]; [now elim Hne|contradiction]. }
    destruct act as [s'|s'|].
    + apply (Hgo s' start H). apply Hc. discriminate.
    + apply (Hgo s' (S pos) H). apply Hc. discriminate.
    + inversion H as [H']. destruct (accept_token acc pos found) as [[sy e0]|] eqn:Ea;
        cbn in H'; inversion H'; subst.
      assert (He : (e <= pos)%nat).
      { destruct acc as [sy'|]; cbn in Ea;
          [inversion Ea; subst; lia|exact (Hf _ _ Ea)]. }
      replace (e - pos)%nat with 0%nat by lia. exact (fun x => x).
Qed.

Lemma run_lexer_nul s text pos sym st e :
  run_lexer lex s text pos = Some (Token sym st e) ->
  ~ In 0 (firstn (e - pos) text).
Proof. apply lex_loop_nul. discriminate. Qed.
End Nul.

(** The case of a lexer function on the character NUL. *)
Ltac nul_case lex :=
  let s := fresh "s" in
  let H := fresh "H" in
  let G := fresh "G" in
  intros s acc act H;
  assert (G : forall c, c = 0 -> lex s false c = Some (acc, act) -> act = END_STATE);
  [ clear H; intros c Hc; unfold lex; switch_on s; try discriminate;
    cbn [ADVANCE_MAP]; intros H; split_ifs H; try discriminate H;
    inversion H; subst; try reflexivity;
    repeat match goal with
           | E : _ = true |- _ => vm_compute in E; discriminate E
           | E : _ = false |- _ => vm_compute in E; discriminate E
           end
  | exact (G 0 eq_refl H) ].

Lemma zed_nul_stops s acc act :
  Zed.ts_lex s false 0 = Some (acc, act) -> act = END_STATE.
Proof. revert s acc act. nul_case Zed.ts_lex. Qed.

Lemma ts_nul_stops s acc act :
  SysmlTs.ts_lex s false 0 = Some (acc, act) -> act = END_STATE.
Proof. revert s acc act. nul_case SysmlTs.ts_lex. Qed.

(** No scan goes past a NUL character ([ts_lex]: no case advances on
    lookahead 0): a token, with the white space skipped before it, never
    holds a NUL, in whatever state the scan starts.  Both grammars. *)
Theorem tokens_hold_no_nul :
  forall lex, In lex [Zed.ts_lex; SysmlTs.ts_lex] ->
  forall s text pos sym st e,
    run_lexer lex s text pos = Some (Token sym st e) ->
    ~ In 0 (firstn (e - pos) text).
Proof.
  intros lex [<-|[<-|[]]] s text pos sym st e.
  - apply run_lexer_nul. exact zed_nul_stops.
  - apply run_lexer_nul. exact ts_nul_stops.
Qed.

Lemma tokens_hold_no_nul_witness :
  ~ In 0 (firstn (3 - 0) (34 :: ch "a" :: 34 :: 0 :: [])).
Proof.
  apply (tokens_hold_no_nul Zed.ts_lex (or_introl eq_refl) 0
           (34 :: ch "a" :: 34 :: 0 :: []) 0%nat Zed.sym_string 0%nat 3%nat).
  vm_compute. reflexivity.
Defined.

(** ** The end of input *)

Lemma split_spaces text :
  forallb is_space text = true \/
  exists ws c rest,
    text = ws ++ c :: rest /\ forallb is_space ws = true /\ is_space c = false.
Proof.
  induction text as [|c text IH]; [now left|].
  destruct (is_space c) eqn:Ec.
  - destruct IH as [H|(ws & d & rest & -> & Hws & Hd)].
    + left. cbn. now rewrite Ec.
    + right. exists (c :: ws), d, rest. cbn. rewrite Ec. auto.
  - right. exists [], c, text. auto.
Qed.

Section EndAfterSpace.
Variable lex : LexFn.
Variable skipper : TSStateId -> bool.
Hypothesis OK : lexer_ok lex skipper.
Hypothesis lex_end : end_at_eof lex.
Hypothesis eof_from_skipper : forall s acc s',
  skipper s = false -> lex s true 0 <> Some (acc, ADVANCE s').

Lemma accept_not_end s eof c acc act pos found :
  (forall eof c act, lex s eof c <> Some (Some ts_builtin_sym_end, act)) ->
  lex s eof c = Some (acc, act) ->
  found_only (fun sym => sym <> ts_builtin_sym_end) found ->
  found_only (fun sym => sym <> ts_builtin_sym_end) (accept_token acc pos found).
Proof.
  intros Hs Hl Hf. destruct acc as [sy|]; cbn; [|exact Hf].
  intros ->. exact (Hs _ _ _ Hl).
Qed.

Lemma finish_not_end start found st e :
  found_only (fun sym => sym <> ts_builtin_sym_end) found ->
  finish_lex start found <> Token ts_builtin_sym_end st e.
Proof.
  destruct found as [[sy e0]|]; cbn; intros Hf H; inversion H; subst. now elim Hf.
Qed.

Lemma lex_at_eof_no_end fuel s pos start found st e :
  skipper s = false ->
  (forall eof c act, lex s eof c <> Some (Some ts_builtin_sym_end, act)) ->
  found_only (fun sym => sym <> ts_builtin_sym_end) found ->
  lex_at_eof lex fuel s pos start found <> Some (Token ts_builtin_sym_end st e).
Proof.
  intros Hk Hs Hf. destruct fuel as [|fuel]; cbn [lex_at_eof];
    (destruct (lex s true 0) as [[acc act]|] eqn:Hl; [|discriminate]);
    pose proof (accept_not_end _ _ _ _ _ pos _ Hs Hl Hf) as Hf';
    (destruct act as [s'|s'|];
     [ now elim (eof_from_skipper s acc s' Hk)
     | destruct (ok_skip _ _ OK _ _ _ _ _ Hl) as (_ & _ & H); discriminate H
     | intros H; inversion H as [H']; exact (finish_not_end _ _ _ _ Hf' H') ]).
Qed.

(** Past the start of a token, no end of input is returned. *)
Lemma lex_loop_no_end text : forall s pos start found st e,
  skipper s = false ->
  (forall eof c act, lex s eof c <> Some (Some ts_builtin_sym_end, act)) ->
  found_only (fun sym => sym <> ts_builtin_sym_end) found ->
  lex_loop lex text s pos start found <> Some (Token ts_builtin_sym_end st e).
Proof.
  induction text as [|c text IH]; intros s pos start found st e Hk Hs Hf;
    cbn [lex_loop].
  - now apply lex_at_eof_no_end.
  - destruct (lex s false c) as [[acc act]|] eqn:Hl; [|discriminate].
    pose proof (accept_not_end _ _ _ _ _ pos _ Hs Hl Hf) as Hf'.
    destruct act as [s'|s'|].
    + apply IH; [exact (ok_advance _ _ OK _ _ _ _ _ Hl)| |exact Hf'].
      apply (lex_end s c acc s'). now left.
    + destruct (ok_skip _ _ OK _ _ _ _ _ Hl) as (K & _). congruence.
    + intros H. inversion H as [H']. exact (finish_not_end _ _ _ _ Hf' H').
Qed.

Lemma no_end_before_text s c rest pos st e :
  clean lex s ->
  is_space c = false ->
  lex_loop lex (c :: rest) s pos pos None <> Some (Token ts_builtin_sym_end st e).
Proof.
  intros Hc Hsp. cbn [lex_loop].
  destruct (lex s false c) as [[acc act]|] eqn:Hl; [|discriminate].
  assert (acc = None) by exact (Hc _ _ _ _ Hl). subst acc. cbn [accept_token].
  destruct act as [s'|s'|]; [| |cbn; discriminate].
  - apply lex_loop_no_end; [exact (ok_advance _ _ OK _ _ _ _ _ Hl)| |exact I].
    apply (lex_end s c None s'). now left.
  - destruct (ok_skip _ _ OK _ _ _ _ _ Hl) as (_ & _ & H). congruence.
Qed.
End EndAfterSpace.

(** The case of a lexer function at the end of the input. *)
Ltac eof_case lex skipper :=
  let G := fresh "G" in
  intros s acc s' Hk H;
  assert (G : forall eof c, eof = true -> c = 0 ->
              lex s eof c = Some (acc, ADVANCE s') -> False);
  [ clear H; intros eof c He Hc; revert Hk; unfold lex, skipper; switch_on s;
    try discriminate; cbn [ADVANCE_MAP]; intros Hk H; split_ifs H;
    try discriminate H; try discriminate Hk; try discriminate He;
    subst;
    repeat match goal with
           | E : _ = true |- _ => vm_compute in E; discriminate E
           | E : _ = false |- _ => vm_compute in E; discriminate E
           end
  | exact (G true 0 eq_refl eq_refl H) ].

Lemma zed_eof_from_skipper s acc s' :
  zed_skipper s = false -> Zed.ts_lex s true 0 <> Some (acc, ADVANCE s').
Proof. revert s acc s'. eof_case Zed.ts_lex zed_skipper. Qed.

Lemma ts_eof_from_skipper s acc s' :
  ts_skipper s = false -> SysmlTs.ts_lex s true 0 <> Some (acc, ADVANCE s').
Proof. revert s acc s'. eof_case SysmlTs.ts_lex ts_skipper. Qed.

(** The end of input ([ts_lex], the [eof] cases): in a scanning start
    state, the scan returns the end of input exactly when the text that
    is left is white space only, and then as an empty token at the end
    of the text.  Both grammars. *)
Theorem end_of_input_after_space :
  forall L skipper states,
    In (L, skipper, states)
       [(Zed.tree_sitter_sysml, zed_skipper, zed_scanning_states);
        (SysmlTs.tree_sitter_sysml, ts_skipper, ts_scanning_states)] ->
    forall s text pos,
      In s states ->
      (forallb is_space text = true ->
       run_lexer (lex_fn L) s text pos
       = Some (Token ts_builtin_sym_end (pos + length text) (pos + length text))) /\
      (forall st e,
         run_lexer (lex_fn L) s text pos = Some (Token ts_builtin_sym_end st e) ->
         forallb is_space text = true).
Proof.
  intros L skipper states HL s text pos Hs.
  assert (Hfacts : lexers_ok L skipper /\
                   (forall c, is_space c = true -> lex_fn L s false c = Some (None, SKIP s)) /\
                   (forall s0 acc s', skipper s0 = false ->
                      lex_fn L s0 true 0 <> Some (acc, ADVANCE s')) /\
                   clean (lex_fn L) s /\
                   forall p, run_lexer (lex_fn L) s [] p = Some (Token ts_builtin_sym_end p p)).
  { destruct HL as [H|[H|[]]]; inversion H; subst.
    - split; [exact zed_lexers_ok|]. split; [intros c Hc; now apply zed_skip_space|].
      split; [exact zed_eof_from_skipper|].
      destruct Hs as [<-|[<-|[<-|[]]]];
        (split; [clean_state Zed.ts_lex|intros p; reflexivity]).
    - split; [exact ts_lexers_ok|]. split; [intros c Hc; now apply ts_skip_space|].
      split; [exact ts_eof_from_skipper|].
      destruct Hs as [<-|[<-|[<-|[]]]];
        (split; [clean_state SysmlTs.ts_lex|intros p; reflexivity]). }
  destruct Hfacts as (OK & Hskip & Heof & Hclean & Hempty). split.
  - intros Hws. rewrite <- (app_nil_r text) at 1. unfold run_lexer.
    rewrite (skip_spaces (lex_fn L) s Hskip text [] pos Hws). apply Hempty.
  - intros st e H. destruct (split_spaces text) as [Hws|(ws & c & rest & -> & Hws & Hc)];
      [exact Hws|]. exfalso. unfold run_lexer in H.
    rewrite (skip_spaces (lex_fn L) s Hskip ws (c :: rest) pos Hws) in H.
    exact (no_end_before_text (lex_fn L) skipper (main_ok _ _ OK) (main_end _ _ OK) Heof
             s c rest _ st e Hclean Hc H).
Qed.

Lemma end_of_input_after_space_witness :
  run_lexer Zed.ts_lex 9 (codes "  ") 3
  = Some (Token ts_builtin_sym_end 5 5).
Proof.
  exact (proj1 (end_of_input_after_space Zed.tree_sitter_sysml zed_skipper
                  zed_scanning_states (or_introl eq_refl) 9 (codes "  ") 3
                  (or_intror (or_introl eq_refl))) eq_refl).
Defined.

(** ** Reserved words and the two automata *)

Section KeywordAccepts.
Variable kw : LexFn.
Variable T : KeywordTable.
Variable P : TSSymbol -> bool.

Hypothesis kw_shape : forall s eof c,
  kw s eof c =
  if s =? 0 then
    Some (None, ADVANCE_MAP (match assoc_Z 0 T with Some (_, m) => m | None => [] end) c
                  (if is_space c then SKIP 0 else END_STATE))
  else
    match assoc_Z s T with
    | Some (a, m) => Some (a, ADVANCE_MAP m c END_STATE)
    | None => None
    end.
Hypothesis T_accepts :
  forallb (fun r : TSStateId * (option TSSymbol * list (Z * TSStateId)) =>
             match fst (snd r) with
             | Some k => P k
             | None => true
             end) T = true.

Lemma kw_accepts_only : accepts_only kw (fun sym => P sym = true).
Proof.
  intros s eof c sym act H. rewrite kw_shape in H.
  destruct (s =? 0); [discriminate H|].
  destruct (assoc_Z s T) as [[a m]|] eqn:Es; [|discriminate H].
  inversion H; subst. pose proof T_accepts as Hall. rewrite forallb_forall in Hall.
  exact (Hall _ (assoc_Z_In _ _ _ Es)).
Qed.
End KeywordAccepts.

Lemma mem_Z_true x l : mem_Z x l = true -> In x l.
Proof.
  unfold mem_Z. intros H. apply existsb_exists in H as (y & Hy & E).
  apply Z.eqb_eq in E. now subst.
Qed.

Lemma is_reserved_In L k : is_reserved L k = true <-> In k (map snd (reserved_words L)).
Proof.
  unfold is_reserved. rewrite existsb_exists, in_map_iff. split.
  - intros (p & Hp & E). apply Z.eqb_eq in E. eauto.
  - intros (p & E & Hp). exists p. split; [exact Hp|]. now apply Z.eqb_eq.
Qed.

Lemma not_reserved_by_lists L reserved others k :
  map snd (reserved_words L) = reserved ->
  forallb (fun x => negb (mem_Z x reserved)) others = true ->
  mem_Z k others = true ->
  is_reserved L k = false.
Proof.
  intros Hr Hd Hk. destruct (is_reserved L k) eqn:E; [|reflexivity].
  apply is_reserved_In in E. rewrite Hr in E.
  rewrite forallb_forall in Hd. specialize (Hd _ (mem_Z_true _ _ Hk)).
  unfold mem_Z in Hd. apply negb_true_iff in Hd.
  assert (existsb (Z.eqb k) reserved = true).
  { apply existsb_exists. exists k. split; [exact E|apply Z.eqb_refl]. }
  congruence.
Qed.

Lemma reserved_by_list L reserved k :
  map snd (reserved_words L) = reserved -> mem_Z k reserved = true -> is_reserved L k = true.
Proof. intros Hr Hk. apply is_reserved_In. rewrite Hr. now apply mem_Z_true. Qed.

(** The symbols of the reserved words, and the symbols that the cases
    of a lexer function accept, each computed once. *)
Ltac main_not_reserved lex L :=
  let r := eval vm_compute in (map snd (reserved_words L)) in
  let o := eval vm_compute in
             (filter (fun k => negb (mem_Z k r)) (map fst (symbol_metadata L))) in
  intros s eof c sym act Hl;
  apply (not_reserved_by_lists L r o);
  [ vm_compute; reflexivity
  | vm_compute; reflexivity
  | revert Hl; lexer_paths lex s; reflexivity ].

Ltac keywords_reserved kw T shape L :=
  let r := eval vm_compute in (map snd (reserved_words L)) in
  intros s eof c sym act Hl;
  apply (reserved_by_list L r);
  [ vm_compute; reflexivity
  | exact (kw_accepts_only kw T (fun k => mem_Z k r) shape
             ltac:(vm_compute; reflexivity) s eof c sym act Hl) ].

Lemma zed_main_not_reserved :
  accepts_only Zed.ts_lex (fun sym => is_reserved Zed.tree_sitter_sysml sym = false).
Proof. main_not_reserved Zed.ts_lex Zed.tree_sitter_sysml. Qed.

Lemma ts_main_not_reserved :
  accepts_only SysmlTs.ts_lex (fun sym => is_reserved SysmlTs.tree_sitter_sysml sym = false).
Proof. main_not_reserved SysmlTs.ts_lex SysmlTs.tree_sitter_sysml. Qed.

Lemma zed_keywords_reserved :
  accepts_only Zed.ts_lex_keywords
    (fun sym => is_reserved Zed.tree_sitter_sysml sym = true).
Proof.
  keywords_reserved Zed.ts_lex_keywords zed_keywords zed_kw_shape Zed.tree_sitter_sysml.
Qed.

Lemma ts_keywords_reserved :
  accepts_only SysmlTs.ts_lex_keywords
    (fun sym => is_reserved SysmlTs.tree_sitter_sysml sym = true).
Proof.
  keywords_reserved SysmlTs.ts_lex_keywords ts_keywords ts_kw_shape
    SysmlTs.tree_sitter_sysml.
Qed.

(** The two automata divide the terminals between them ([ts_lex],
    [ts_lex_keywords], every [ACCEPT_TOKEN]): whatever the state and the
    text, the main automaton never returns the symbol of a reserved
    word, and the keyword automaton returns nothing else.  Both
    grammars. *)
Theorem reserved_words_by_keyword_automaton :
  forall L, In L [Zed.tree_sitter_sysml; SysmlTs.tree_sitter_sysml] ->
  forall s text pos sym st e,
    (run_lexer (lex_fn L) s text pos = Some (Token sym st e) ->
     is_reserved L sym = false) /\
    (run_lexer (keyword_lex_fn L) s text pos = Some (Token sym st e) ->
     is_reserved L sym = true).
Proof.
  intros L [<-|[<-|[]]] s text pos sym st e; split.
  - apply (run_lexer_only _ _ zed_main_not_reserved).
  - apply (run_lexer_only _ _ zed_keywords_reserved).
  - apply (run_lexer_only _ _ ts_main_not_reserved).
  - apply (run_lexer_only _ _ ts_keywords_reserved).
Qed.

Lemma reserved_words_by_keyword_automaton_witness :
  is_reserved Zed.tree_sitter_sysml Zed.sym_identifier = false.
Proof.
  apply (reserved_words_by_keyword_automaton Zed.tree_sitter_sysml (or_introl eq_refl)
           0 (codes "package") 0%nat Zed.sym_identifier 0%nat 7%nat).
  vm_compute. reflexivity.
Defined.

(** ** The rows of the parse table *)

Lemma nodup_Z_NoDup l : nodup_Z l = true -> NoDup l.
Proof.
  induction l as [|x l IH]; cbn; intros H; constructor.
  - apply andb_true_iff in H as [H _]. apply negb_true_iff in H.
    intros Hin. apply mem_Z_In in Hin. congruence.
  - apply IH. now apply andb_true_iff in H as [_ H].
Qed.

Lemma assoc_Z_NoDup {A} k (v : A) l :
  NoDup (map fst l) -> In (k, v) l -> assoc_Z k l = Some v.
Proof.
  induction l as [|[k' v'] l IH]; cbn; intros Hn Hin; [contradiction|].
  inversion Hn as [|x l' Hx Hn']; subst.
  destruct Hin as [E|Hin].
  - inversion E; subst. now rewrite Z.eqb_refl.
  - destruct (Z.eqb_spec k k') as [->|_]; [|now apply IH].
    elim Hx. apply in_map_iff. exists (k', v). auto.
Qed.

Lemma small_cells_keys g : forall data symbol v,
  In (symbol, v) (small_cells g data) -> In symbol (map fst (small_cells g data)).
Proof. intros data symbol v H. apply in_map_iff. exists (symbol, v). auto. Qed.

Lemma small_groups_NoDup g : forall data symbol v,
  NoDup (map fst (small_cells g data)) ->
  In (symbol, v) (small_cells g data) ->
  small_groups g data symbol = v.
Proof.
  induction g as [|g IH]; intros data symbol v Hn Hin; cbn [small_cells small_groups] in *;
    [contradiction|].
  destruct data as [|v0 [|n data]]; try contradiction.
  rewrite map_app in Hn. apply in_app_or in Hin as [Hin|Hin].
  - apply in_map_iff in Hin as (x & E & Hx). inversion E; subst.
    assert (Hex : existsb (Z.eqb symbol) (firstn (Z.to_nat n) data) = true).
    { apply existsb_exists. exists symbol. split; [exact Hx|apply Z.eqb_refl]. }
    now rewrite Hex.
  - assert (Hex : existsb (Z.eqb symbol) (firstn (Z.to_nat n) data) = false).
    { destruct (existsb (Z.eqb symbol) (firstn (Z.to_nat n) data)) eqn:E; [|reflexivity].
      apply existsb_exists in E as (x & Hx & Ex). apply Z.eqb_eq in Ex. subst x.
      exfalso. revert Hn. rewrite map_map. cbn [fst]. rewrite map_id. intros Hn.
      apply NoDup_app_remove_l in Hn as Hn2.
      assert (Hd : forall a, In a (firstn (Z.to_nat n) data) ->
                   ~ In a (map fst (small_cells g (skipn (Z.to_nat n) data)))).
      { clear -Hn. induction (firstn (Z.to_nat n) data) as [|y l IHl]; [contradiction|].
        cbn in Hn. inversion Hn as [|? ? Hy Hn']; subst. intros a [<-|Ha].
        - intros Hin. apply Hy. apply in_or_app. now right.
        - now apply IHl. }
      exact (Hd _ Hx (small_cells_keys _ _ _ _ Hin)). }
    rewrite Hex. apply IH; [|exact Hin]. now apply NoDup_app_remove_l in Hn.
Qed.

Lemma In_states_upto n s : In s (states_upto n) <-> 0 <= s < n.
Proof.
  unfold states_upto. rewrite in_map_iff. split.
  - intros (k & <- & Hk). apply in_seq in Hk. lia.
  - intros H. exists (Z.to_nat s). split; [lia|]. apply in_seq. lia.
Qed.

Section Rows.
Variable L : TSLanguage.
Hypothesis states_all : table_states L = states_upto (state_count L).
Hypothesis rows : rows_ok L = true.

Lemma cells_state state : cells L state <> [] -> In state (table_states L).
Proof.
  unfold cells, table_states. intros H. apply in_or_app.
  destruct (large_state_count L <=? state).
  - right.
    destruct (assoc_Z (state - large_state_count L) (small_parse_table_map L))
      as [index|] eqn:E; [|now elim H].
    apply assoc_Z_In in E. apply in_map_iff.
    exists (state - large_state_count L, index). split; [cbn; lia|exact E].
  - left. destruct (assoc_Z state (parse_table L)) as [row|] eqn:E; [|now elim H].
    apply assoc_Z_In in E. apply in_map_iff. exists (state, row). auto.
Qed.

Lemma row_facts state :
  NoDup (map fst (cells L state)) /\
  forall symbol v, In (symbol, v) (cells L state) ->
    v <> 0 /\ 0 <= symbol < symbol_count L /\ 0 <= state < state_count L.
Proof.
  destruct (cells L state) as [|c row] eqn:Ec.
  - split; [constructor|]. intros symbol v [].
  - assert (Hs : In state (table_states L)) by (apply cells_state; rewrite Ec; discriminate).
    pose proof rows as H. unfold rows_ok in H. rewrite forallb_forall in H.
    specialize (H _ Hs). rewrite Ec in H. unfold row_ok in H.
    apply andb_true_iff in H as [Hn Hc]. split; [now apply nodup_Z_NoDup|].
    intros symbol v Hin. rewrite forallb_forall in Hc. specialize (Hc _ Hin).
    cbn [fst snd] in Hc. apply andb_true_iff in Hc as [Hc H3].
    apply andb_true_iff in Hc as [H1 H2].
    apply negb_true_iff, Z.eqb_neq in H1. apply Z.leb_le in H2. apply Z.ltb_lt in H3.
    rewrite states_all in Hs. apply In_states_upto in Hs. auto.
Qed.

Lemma cells_lookup state symbol v :
  In (symbol, v) (cells L state) -> ts_language_lookup L state symbol = v.
Proof.
  intros Hin. pose proof (proj1 (row_facts state)) as Hn. revert Hn Hin.
  unfold cells, ts_language_lookup.
  destruct (large_state_count L <=? state).
  - destruct (assoc_Z (state - large_state_count L) (small_parse_table_map L));
      [|intros _ []].
    destruct (skipn n (small_parse_table L)) as [|g data]; [intros _ []|].
    apply small_groups_NoDup.
  - destruct (assoc_Z state (parse_table L)) as [row|]; [|intros _ []].
    intros Hn Hin. now rewrite (assoc_Z_NoDup _ _ _ Hn Hin).
Qed.
End Rows.

Lemma zed_states_all :
  table_states Zed.tree_sitter_sysml = states_upto (state_count Zed.tree_sitter_sysml).
Proof. vm_compute. reflexivity. Qed.

Lemma ts_states_all :
  table_states SysmlTs.tree_sitter_sysml = states_upto (state_count SysmlTs.tree_sitter_sysml).
Proof. vm_compute. reflexivity. Qed.

Lemma zed_rows_ok : rows_ok Zed.tree_sitter_sysml = true.
Proof. vm_compute. reflexivity. Qed.

Lemma ts_rows_ok : rows_ok SysmlTs.tree_sitter_sysml = true.
Proof. vm_compute. reflexivity. Qed.

(** The parse table is a function ([ts_parse_table], [ts_small_parse_table],
    [ts_small_parse_table_map]): a row, dense or sparse, holds no symbol
    twice, so the cell looked up for a state and a symbol is the one
    cell the row has for the symbol, and no cell is empty; rows exist
    for the states below [STATE_COUNT] only, cells for the symbols
    below [SYMBOL_COUNT] only.  Both grammars. *)
Theorem lookup_reads_the_cells :
  forall L, In L [Zed.tree_sitter_sysml; SysmlTs.tree_sitter_sysml] ->
  forall state symbol v,
    (In (symbol, v) (cells L state) <->
     ts_language_lookup L state symbol = v /\ v <> 0) /\
    (In (symbol, v) (cells L state) ->
     0 <= state < state_count L /\ 0 <= symbol < symbol_count L) /\
    NoDup (map fst (cells L state)).
Proof.
  intros L HL state symbol v.
  assert (H : table_states L = states_upto (state_count L) /\ rows_ok L = true).
  { destruct HL as [<-|[<-|[]]];
      [exact (conj zed_states_all zed_rows_ok)|exact (conj ts_states_all ts_rows_ok)]. }
  destruct H as [Hs Hr]. pose proof (row_facts L Hs Hr state) as [Hn Hf].
  split; [|split; [|exact Hn]].
  - split.
    + intros Hin. split; [exact (cells_lookup L Hs Hr _ _ _ Hin)|exact (proj1 (Hf _ _ Hin))].
    + intros [<- Hne]. now apply lookup_cells.
  - intros Hin. destruct (Hf _ _ Hin) as (_ & H1 & H2). auto.
Qed.

Lemma lookup_reads_the_cells_witness :
  ts_language_lookup Zed.tree_sitter_sysml 46 ts_builtin_sym_end = 135 /\ 135 <> 0.
Proof.
  apply (proj1 (lookup_reads_the_cells Zed.tree_sitter_sysml (or_introl eq_refl)
                  46 ts_builtin_sym_end 135)).
  vm_compute. repeat (first [left; reflexivity | right]).
Defined.

(** ** Actions within bounds *)

Section Bounds.
Variable L : TSLanguage.
Variable max_children : nat.
Variable production_count : Z.
Hypothesis bounds : cells_in_bounds L max_children production_count = true.
Hypothesis entry0 : entry_actions L 0 = [].
Hypothesis states : 0 < state_count L.

Lemma cell_bounds state symbol :
  ts_language_lookup L state symbol <> 0 ->
  cell_in_bounds L max_children production_count
    (symbol, ts_language_lookup L state symbol) = true.
Proof.
  intros H0. pose proof bounds as H. unfold cells_in_bounds in H.
  rewrite forallb_forall in H. specialize (H _ (lookup_state L _ _ H0)).
  rewrite forallb_forall in H. exact (H _ (lookup_cells L _ _ H0)).
Qed.

Lemma actions_bounded state symbol :
  is_terminal L symbol = true ->
  Forall (fun a => action_in_bounds L max_children production_count a = true)
         (ts_language_actions L state symbol).
Proof.
  intros Ht. destruct (Z.eq_dec (ts_language_lookup L state symbol) 0) as [H0|H0].
  - rewrite (no_cell_actions L _ _ H0), entry0. constructor.
  - pose proof (cell_bounds state symbol H0) as H. unfold cell_in_bounds in H.
    cbn [fst snd] in H. rewrite Ht in H. unfold ts_language_actions.
    destruct (find (fun e => entry_index e =? ts_language_lookup L state symbol)
                   (parse_actions L)) as [e|]; [|discriminate H].
    apply andb_true_iff in H as [_ H]. apply Forall_forall.
    rewrite forallb_forall in H. exact H.
Qed.

Lemma next_state_bounded state symbol :
  is_terminal L symbol = false ->
  0 <= ts_language_next_state L state symbol < state_count L.
Proof.
  intros Ht. unfold ts_language_next_state.
  destruct (Z.eq_dec (ts_language_lookup L state symbol) 0) as [H0|H0]; [lia|].
  pose proof (cell_bounds state symbol H0) as H. unfold cell_in_bounds in H.
  cbn [fst snd] in H. rewrite Ht in H. apply andb_true_iff in H as [H1 H2].
  apply Z.ltb_lt in H1. apply Z.ltb_lt in H2. lia.
Qed.
End Bounds.

(** Nothing in the tables points outside them ([ts_parse_table],
    [ts_small_parse_table], [ts_parse_actions]): for every state and
    terminal, each action shifts to a state below [STATE_COUNT] other
    than 0, or reduces to a nonterminal below [SYMBOL_COUNT] with at
    most [MAX_ALIAS_SEQUENCE_LENGTH] children and a production below
    [PRODUCTION_ID_COUNT]; for every state and nonterminal, the state
    entered is below [STATE_COUNT].  Both grammars. *)
Theorem actions_in_bounds :
  forall L max_children production_count,
    In (L, max_children, production_count)
       [(Zed.tree_sitter_sysml, Z.to_nat Zed.MAX_ALIAS_SEQUENCE_LENGTH,
         Zed.PRODUCTION_ID_COUNT);
        (SysmlTs.tree_sitter_sysml, Z.to_nat SysmlTs.MAX_ALIAS_SEQUENCE_LENGTH,
         SysmlTs.PRODUCTION_ID_COUNT)] ->
    forall state symbol,
      (is_terminal L symbol = true ->
       Forall (fun a => action_in_bounds L max_children production_count a = true)
              (ts_language_actions L state symbol)) /\
      (is_terminal L symbol = false ->
       0 <= ts_language_next_state L state symbol < state_count L).
Proof.
  intros L max_children production_count [H|[H|[]]]; inversion H; subst;
    intros state symbol; split.
  - apply actions_bounded; [vm_compute; reflexivity|reflexivity].
  - apply (next_state_bounded _ (Z.to_nat Zed.MAX_ALIAS_SEQUENCE_LENGTH)
             Zed.PRODUCTION_ID_COUNT); [vm_compute; reflexivity|reflexivity].
  - apply actions_bounded; [vm_compute; reflexivity|reflexivity].
  - apply (next_state_bounded _ (Z.to_nat SysmlTs.MAX_ALIAS_SEQUENCE_LENGTH)
             SysmlTs.PRODUCTION_ID_COUNT); [vm_compute; reflexivity|reflexivity].
Qed.

Lemma actions_in_bounds_witness :
  Forall (fun a => action_in_bounds Zed.tree_sitter_sysml 6 4 a = true)
         (ts_language_actions Zed.tree_sitter_sysml 2 Zed.anon_sym_part).
Proof.
  exact (proj1 (actions_in_bounds Zed.tree_sitter_sysml 6%nat 4 (or_introl eq_refl)
                  2 Zed.anon_sym_part) eq_refl).
Defined.

(** ** Checks of every cell, as facts of every state and symbol *)

Section Cells.
Variable L : TSLanguage.

Lemma terminal_cells_fact p state symbol :
  terminal_cells L p = true ->
  is_terminal L symbol = true ->
  ts_language_actions L state symbol = [] \/
  p state symbol (ts_language_actions L state symbol) = true.
Proof.
  intros H Ht. apply andb_true_iff in H as [H H0].
  destruct (Z.eq_dec (ts_language_lookup L state symbol) 0) as [E|E].
  - left. rewrite (no_cell_actions L _ _ E). now destruct (entry_actions L 0).
  - right. exact (action_cells L p state symbol H Ht E).
Qed.

Lemma terminal_cell_fact p state symbol :
  terminal_cells L p = true ->
  is_terminal L symbol = true ->
  ts_language_lookup L state symbol <> 0 ->
  p state symbol (ts_language_actions L state symbol) = true.
Proof.
  intros H Ht E. apply andb_true_iff in H as [H _].
  exact (action_cells L p state symbol H Ht E).
Qed.

Lemma nonterminal_cells_fact p state symbol :
  nonterminal_cells L p = true ->
  is_terminal L symbol = false ->
  ts_language_next_state L state symbol <> 0 ->
  p state symbol (ts_language_next_state L state symbol) = true.
Proof.
  intros H Ht E. unfold ts_language_next_state in *. unfold nonterminal_cells in H.
  rewrite forallb_forall in H. specialize (H _ (lookup_state L _ _ E)).
  rewrite forallb_forall in H. specialize (H _ (lookup_cells L _ _ E)).
  cbn [fst snd] in H. now rewrite Ht in H.
Qed.
End Cells.

Lemma only_action_eq p acts a :
  only_action p acts = true -> (forall b, p b = true -> b = a) -> acts = [a].
Proof.
  destruct acts as [|b [|c l]]; cbn; try discriminate. intros H Hp. now rewrite (Hp b H).
Qed.

Lemma existsb_In (p : TSParseAction -> bool) a acts :
  p a = true -> In a acts -> existsb p acts = true.
Proof. intros Hp Hin. apply existsb_exists. eauto. Qed.

(** ** Comments *)

(** Comments may stand anywhere ([ts_parse_table], [ts_small_parse_table]):
    in every state, the state of recovery included, the one action on a
    comment is [SHIFT_EXTRA], which attaches the comment without a
    change of state; and no other terminal has that action.  Both
    grammars. *)
Theorem comments_everywhere :
  forall L comment,
    In (L, comment) [(Zed.tree_sitter_sysml, Zed.sym_comment);
                     (SysmlTs.tree_sitter_sysml, SysmlTs.sym_comment)] ->
    (forall state,
       0 <= state < state_count L ->
       ts_language_actions L state comment = [SHIFT_EXTRA]) /\
    (forall state symbol,
       is_terminal L symbol = true ->
       In SHIFT_EXTRA (ts_language_actions L state symbol) ->
       symbol = comment).
Proof.
  intros L comment HL.
  assert (H : comments_are_extras L comment = true /\
              table_states L = states_upto (state_count L)).
  { destruct HL as [H|[H|[]]]; inversion H; subst; split; vm_compute; reflexivity. }
  destruct H as [H Hs]. apply andb_true_iff in H as [H1 H2]. split.
  - intros state Hst. rewrite forallb_forall in H1.
    apply (only_action_eq is_shift_extra).
    + apply H1. rewrite Hs. now apply In_states_upto.
    + intros [| | | | |]; cbn; congruence.
  - intros state symbol Ht Hin.
    destruct (terminal_cells_fact L _ state symbol H2 Ht) as [E|E].
    + rewrite E in Hin. contradiction.
    + cbv beta in E. rewrite (existsb_In is_shift_extra SHIFT_EXTRA _ eq_refl Hin) in E.
      now apply Z.eqb_eq.
Qed.

Lemma comments_everywhere_witness :
  ts_language_actions SysmlTs.tree_sitter_sysml 57 SysmlTs.sym_comment = [SHIFT_EXTRA].
Proof.
  apply (proj1 (comments_everywhere SysmlTs.tree_sitter_sysml SysmlTs.sym_comment
                  (or_intror (or_introl eq_refl))) 57).
  vm_compute. split; [discriminate|reflexivity].
Defined.

(** ** The state of recovery *)

(** State 0 is the state of recovery and nothing else ([ts_parse_table],
    row 0): on every terminal but the comment and the import payload its
    one action is [RECOVER]; it enters no state on a nonterminal; and
    [RECOVER] is an action of no other state.  Both grammars. *)
Theorem recovery_state :
  forall L comment payload,
    In (L, comment, payload)
       [(Zed.tree_sitter_sysml, Zed.sym_comment, Zed.aux_sym_import_decl_token1);
        (SysmlTs.tree_sitter_sysml, SysmlTs.sym_comment, SysmlTs.sym_import_path)] ->
    (forall symbol,
       0 <= symbol < token_count L -> symbol <> comment -> symbol <> payload ->
       ts_language_actions L 0 symbol = [RECOVER]) /\
    (forall state symbol,
       is_terminal L symbol = true ->
       In RECOVER (ts_language_actions L state symbol) ->
       state = 0) /\
    (forall symbol,
       is_terminal L symbol = false -> ts_language_next_state L 0 symbol = 0).
Proof.
  intros L comment payload HL.
  assert (H : recovery_is_state_0 L comment payload = true).
  { destruct HL as [H|[H|[]]]; inversion H; subst; vm_compute; reflexivity. }
  apply andb_true_iff in H as [H H3]. apply andb_true_iff in H as [H1 H2].
  split; [|split].
  - intros symbol Hs Hc Hp. rewrite forallb_forall in H1.
    specialize (H1 symbol (proj2 (In_states_upto _ _) Hs)).
    apply Z.eqb_neq in Hc, Hp. rewrite Hc, Hp in H1. cbn [orb] in H1.
    apply (only_action_eq is_recover _ _ H1). intros [| | | | |]; cbn; congruence.
  - intros state symbol Ht Hin.
    destruct (terminal_cells_fact L _ state symbol H2 Ht) as [E|E].
    + rewrite E in Hin. contradiction.
    + cbv beta in E. rewrite (existsb_In is_recover RECOVER _ eq_refl Hin) in E.
      now apply Z.eqb_eq.
  - intros symbol Ht.
    destruct (Z.eq_dec (ts_language_next_state L 0 symbol) 0) as [E|E]; [exact E|].
    pose proof (nonterminal_cells_fact L _ 0 symbol H3 Ht E) as Hf. discriminate Hf.
Qed.

Lemma recovery_state_witness :
  ts_language_actions Zed.tree_sitter_sysml 0 Zed.sym_string = [RECOVER].
Proof.
  apply (proj1 (recovery_state Zed.tree_sitter_sysml Zed.sym_comment
                  Zed.aux_sym_import_decl_token1 (or_introl eq_refl)) Zed.sym_string);
    vm_compute; try discriminate. split; [discriminate|reflexivity].
Defined.

(** ** Acceptance *)

(** Input is accepted at its end only, and once ([ts_parse_actions],
    the [ACCEPT_INPUT] entry): [ACCEPT_INPUT] is the action of one cell,
    that of the accepting state on the end of input; the accepting
    state is entered from the start state 1 on the start symbol and in
    no other way, neither on a nonterminal nor by a shift; and no state
    shifts the end of input.  Both grammars. *)
Theorem accept_at_the_end_only :
  forall L accept_state start_symbol,
    In (L, accept_state, start_symbol)
       [(Zed.tree_sitter_sysml, 46, Zed.sym_source_file);
        (SysmlTs.tree_sitter_sysml, 62, SysmlTs.sym_source_file)] ->
    ts_language_actions L accept_state ts_builtin_sym_end = [ACCEPT_INPUT] /\
    ts_language_next_state L 1 start_symbol = accept_state /\
    (forall state symbol,
       is_terminal L symbol = true ->
       In ACCEPT_INPUT (ts_language_actions L state symbol) ->
       state = accept_state /\ symbol = ts_builtin_sym_end) /\
    (forall state symbol a,
       is_terminal L symbol = true ->
       In a (ts_language_actions L state symbol) ->
       shifts_to accept_state a = false /\
       (symbol = ts_builtin_sym_end -> is_shift a = false)) /\
    (forall state symbol,
       is_terminal L symbol = false ->
       ts_language_next_state L state symbol = accept_state ->
       state = 1 /\ symbol = start_symbol).
Proof.
  intros L accept_state start_symbol HL.
  assert (H : accept_is_final L 1 accept_state start_symbol = true /\ accept_state <> 0).
  { destruct HL as [H|[H|[]]]; inversion H; subst;
      (split; [vm_compute; reflexivity|discriminate]). }
  destruct H as [H Hne].
  apply andb_true_iff in H as [H H4]. apply andb_true_iff in H as [H H3].
  apply andb_true_iff in H as [H1 H2].
  split; [|split; [|split; [|split]]].
  - apply (only_action_eq is_accept _ _ H3). intros [| | | | |]; cbn; congruence.
  - now apply Z.eqb_eq.
  - intros state symbol Ht Hin.
    destruct (terminal_cells_fact L _ state symbol H1 Ht) as [E|E].
    + rewrite E in Hin. contradiction.
    + cbv beta in E. apply andb_true_iff in E as [E _]. apply andb_true_iff in E as [E _].
      rewrite (existsb_In is_accept ACCEPT_INPUT _ eq_refl Hin) in E. cbn [negb orb] in E.
      apply andb_true_iff in E as [Ea Eb]. apply Z.eqb_eq in Ea, Eb. auto.
  - intros state symbol a Ht Hin.
    destruct (terminal_cells_fact L _ state symbol H1 Ht) as [E|E].
    + rewrite E in Hin. contradiction.
    + cbv beta in E. apply andb_true_iff in E as [E E3]. apply andb_true_iff in E as [_ E2].
      split.
      * destruct (shifts_to accept_state a) eqn:Ea; [|reflexivity].
        rewrite (existsb_In _ _ _ Ea Hin) in E2. discriminate E2.
      * intros ->. rewrite Z.eqb_refl in E3. cbn [negb orb] in E3.
        destruct (is_shift a) eqn:Ea; [|reflexivity].
        rewrite (existsb_In _ _ _ Ea Hin) in E3. discriminate E3.
  - intros state symbol Ht Hn.
    assert (E : ts_language_next_state L state symbol <> 0) by congruence.
    pose proof (nonterminal_cells_fact L _ state symbol H2 Ht E) as Hf. cbv beta in Hf.
    rewrite Hn, Z.eqb_refl in Hf. cbn [negb orb] in Hf.
    apply andb_true_iff in Hf as [Ha Hb]. apply Z.eqb_eq in Ha, Hb. auto.
Qed.

Lemma accept_at_the_end_only_witness :
  In ACCEPT_INPUT (ts_language_actions SysmlTs.tree_sitter_sysml 62 ts_builtin_sym_end) /\
  (62 = 62 /\ ts_builtin_sym_end = ts_builtin_sym_end).
Proof.
  assert (H : In ACCEPT_INPUT
                (ts_language_actions SysmlTs.tree_sitter_sysml 62 ts_builtin_sym_end)).
  { vm_compute. now left. }
  split; [exact H|].
  exact (proj1 (proj2 (proj2 (accept_at_the_end_only SysmlTs.tree_sitter_sysml 62
                                SysmlTs.sym_source_file (or_intror (or_introl eq_refl)))))
           62 ts_builtin_sym_end eq_refl H).
Defined.

Lemma has_actions_cell L state symbol :
  ts_language_has_actions L state symbol = true <-> ts_language_lookup L state symbol <> 0.
Proof.
  unfold ts_language_has_actions. rewrite negb_true_iff. apply Z.eqb_neq.
Qed.

(** ** Literals *)

(** The names of the literals are their texts ([ts_symbol_names],
    [ts_symbol_metadata], [ts_lex], [ts_lex_keywords], [ts_lex_modes]
    and the parse table together): in every state that has an action
    on a literal, be it a reserved word, a punctuation mark or an
    operator, the text of its name alone is scanned as one token, the
    literal itself.  Both grammars. *)
Theorem literals_scan_as_themselves :
  forall L, In L [Zed.tree_sitter_sysml; SysmlTs.tree_sitter_sysml] ->
  forall state symbol name,
    In (symbol, name) (symbol_names L) ->
    is_literal L symbol = true ->
    ts_language_has_actions L state symbol = true ->
    ts_parser_lex L state (codes name) 0
    = Some (Token symbol 0 (length (codes name))).
Proof.
  intros L HL state symbol name Hin Hl Ha.
  assert (H : literals_scan L = true).
  { destruct HL as [<-|[<-|[]]]; vm_compute; reflexivity. }
  unfold literals_scan in H. rewrite forallb_forall in H.
  specialize (H state (lookup_state L state symbol (proj1 (has_actions_cell _ _ _) Ha))).
  rewrite forallb_forall in H. specialize (H _ Hin). cbn [fst snd] in H.
  rewrite Hl, Ha in H. cbn [andb negb orb] in H. unfold scans_as in H.
  destruct (ts_parser_lex L state (codes name) 0) as [[sym [|st] e|st]|];
    try discriminate H.
  apply andb_true_iff in H as [H1 H2]. apply Z.eqb_eq in H1. apply Nat.eqb_eq in H2.
  now subst.
Qed.

Lemma literals_scan_as_themselves_witness :
  ts_parser_lex Zed.tree_sitter_sysml 1 (codes "package") 0
  = Some (Token Zed.anon_sym_package 0 7).
Proof.
  apply (literals_scan_as_themselves Zed.tree_sitter_sysml (or_introl eq_refl)
           1 Zed.anon_sym_package "package").
  - vm_compute. repeat (first [left; reflexivity | right]).
  - vm_compute. reflexivity.
  - vm_compute. reflexivity.
Defined.

(** ** The payload of an import *)



(** ** Terminals of no rule *)

(** The automata scan terminals that no rule of the grammar uses
    ([ts_parse_table], [ts_small_parse_table]): no state but the state
    of recovery has an action on a string or a number, nor, in the
    larger grammar, on any of the terminals from [sym_string] up to
    [sym_comment], the 21 operators and 161 of the 174 reserved words
    among them.  Both grammars. *)
Theorem terminals_without_a_rule :
  forall L first last,
    In (L, first, last)
       [(Zed.tree_sitter_sysml, Zed.sym_string, Zed.sym_comment);
        (SysmlTs.tree_sitter_sysml, SysmlTs.sym_string, SysmlTs.sym_comment)] ->
    forall state symbol,
      state <> 0 -> first <= symbol < last ->
      ts_language_has_actions L state symbol = false /\
      ts_language_actions L state symbol = [].
Proof.
  intros L first last HL state symbol Hst Hsym.
  assert (H : without_a_rule L first last = true /\ last <= token_count L).
  { destruct HL as [H|[H|[]]]; inversion H; subst;
      (split; [vm_compute; reflexivity|vm_compute; discriminate]). }
  destruct H as [H Hl].
  assert (Ht : is_terminal L symbol = true) by (apply Z.ltb_lt; lia).
  assert (E : ts_language_lookup L state symbol = 0).
  { destruct (Z.eq_dec (ts_language_lookup L state symbol) 0) as [E|E]; [exact E|].
    pose proof (terminal_cell_fact L _ state symbol H Ht E) as Hf. cbv beta in Hf.
    apply Z.eqb_neq in Hst. rewrite Hst in Hf. cbn [orb] in Hf.
    apply orb_true_iff in Hf as [Hf|Hf]; [apply Z.ltb_lt in Hf|apply Z.leb_le in Hf]; lia. }
  split.
  - unfold ts_language_has_actions. now rewrite E.
  - apply andb_true_iff in H as [_ H0]. rewrite (no_cell_actions L _ _ E).
    now destruct (entry_actions L 0).
Qed.

Lemma terminals_without_a_rule_witness :
  ts_language_has_actions SysmlTs.tree_sitter_sysml 1 SysmlTs.sym_number = false /\
  ts_language_actions SysmlTs.tree_sitter_sysml 1 SysmlTs.sym_number = [].
Proof.
  apply (terminals_without_a_rule SysmlTs.tree_sitter_sysml SysmlTs.sym_string
           SysmlTs.sym_comment (or_intror (or_introl eq_refl)) 1 SysmlTs.sym_number).
  - discriminate.
  - vm_compute. split; [discriminate|reflexivity].
Defined.

(** ** Reductions *)

(** A reduction never comes to a dead end ([ts_parse_table],
    [ts_small_parse_table], [ts_parse_actions]): when the first action
    of a state on a terminal reduces [child_count] children to
    [symbol], [symbol] is a nonterminal, the start state 1 lies no
    fewer than [child_count] edges back from the state, and every state
    that lies [child_count] edges back has a state to enter on
    [symbol].  An edge is a shift or the entry on a nonterminal.  Both
    grammars. *)
Theorem reductions_find_their_state :
  forall L, In L [Zed.tree_sitter_sysml; SysmlTs.tree_sitter_sysml] ->
  forall state lookahead symbol child_count precedence production rest,
    is_terminal L lookahead = true ->
    ts_language_actions L state lookahead
    = REDUCE symbol child_count precedence production :: rest ->
    is_terminal L symbol = false /\
    (forall k, (k < child_count)%nat -> ~ In 1 (back (all_edges L) k state)) /\
    (forall p, In p (back (all_edges L) child_count state) ->
               ts_language_next_state L p symbol <> 0).
Proof.
  intros L HL state lookahead symbol child_count precedence production rest Ht Ha.
  assert (H : exists W, tables_ok L W 2 1 = true).
  { destruct HL as [<-|[<-|[]]];
      [exists zed_weights; exact zed_tables_ok|exists ts_weights; exact ts_tables_ok]. }
  destruct H as [W H]. pose proof (action_fact L 1 W 2 H state lookahead Ht) as Hf.
  rewrite Ha in Hf. cbn [action_ok] in Hf. unfold reduce_ok_at in Hf.
  apply andb_true_iff in Hf as [Hf H3]. apply andb_true_iff in Hf as [H1 H2].
  split; [|split].
  - now apply negb_true_iff.
  - intros k Hk Hin. rewrite forallb_forall in H2.
    specialize (H2 k (proj2 (in_seq _ _ _) (conj (Nat.le_0_l _) Hk))).
    rewrite (mem_Z_In _ _ Hin) in H2. discriminate H2.
  - intros p Hp. rewrite forallb_forall in H3. specialize (H3 p Hp). cbv zeta in H3.
    apply andb_true_iff in H3 as [H3 _]. apply negb_true_iff in H3. now apply Z.eqb_neq.
Qed.

Lemma reductions_find_their_state_witness :
  ts_language_next_state Zed.tree_sitter_sysml 1 Zed.sym_package_decl <> 0.
Proof.
  apply (proj2 (proj2 (reductions_find_their_state Zed.tree_sitter_sysml (or_introl eq_refl)
                         17 Zed.anon_sym_part Zed.sym_package_decl 2 0 1 [] eq_refl eq_refl))).
  vm_compute. repeat (first [left; reflexivity | right]).
Defined.

(** ** Fields *)

(** Fields go to children that exist ([ts_field_map_slices],
    [ts_field_map_entries], [ts_field_names], [ts_parse_actions]): when
    the field map of the production of a reduction gives a field to
    the child slot [index], the reduction has more than [index]
    children and the field has a name.  Both grammars. *)
Theorem fields_of_children :
  forall L, In L [Zed.tree_sitter_sysml; SysmlTs.tree_sitter_sysml] ->
  forall state lookahead symbol child_count precedence production index,
    In (REDUCE symbol child_count precedence production)
       (ts_language_actions L state lookahead) ->
    ts_language_field L production index <> 0 ->
    (index < child_count)%nat /\
    exists name,
      assoc_Z (ts_language_field L production index) (field_names L) = Some name.
Proof.
  intros L HL state lookahead symbol child_count precedence production index Hin Hf.
  assert (H : fields_ok L = true).
  { destruct HL as [<-|[<-|[]]]; vm_compute; reflexivity. }
  unfold ts_language_actions in Hin.
  destruct (find (fun e => entry_index e =? ts_language_lookup L state lookahead)
                 (parse_actions L)) as [e|] eqn:E; [|contradiction].
  apply find_some in E as [E _]. unfold fields_ok in H. rewrite forallb_forall in H.
  specialize (H e E). rewrite forallb_forall in H. specialize (H _ Hin).
  cbn [fields_of_action_ok] in H. unfold production_fields in H.
  unfold ts_language_field in *.
  destruct (assoc_Z production (field_map_slices L)) as [s|]; [|now elim Hf].
  destruct (find (fun e0 => (child_index e0 =? index)%nat)
                 (firstn (slice_length s) (skipn (slice_index s) (field_map_entries L))))
    as [f|] eqn:F; [|now elim Hf].
  apply find_some in F as [F Hi]. apply Nat.eqb_eq in Hi.
  rewrite forallb_forall in H. specialize (H f F).
  apply andb_true_iff in H as [H H3]. apply andb_true_iff in H as [H1 _].
  apply Nat.ltb_lt in H1. split; [lia|].
  unfold has_name in H3. destruct (assoc_Z (field_id f) (field_names L)) as [name|];
    [eauto|discriminate H3].
Qed.

Lemma fields_of_children_witness :
  (2 < 3)%nat /\
  exists name,
    assoc_Z (ts_language_field Zed.tree_sitter_sysml 2 2)
            (field_names Zed.tree_sitter_sysml) = Some name.
Proof.
  apply (fields_of_children Zed.tree_sitter_sysml (or_introl eq_refl)
           6 Zed.anon_sym_import Zed.sym_part_def 3%nat 0 2 2%nat).
  - vm_compute. now left.
  - vm_compute. discriminate.
Defined.

(** ** The sparse rows *)

(** [ts_small_parse_table_map] points each small state at a whole row
    of [ts_small_parse_table]: the row begins with a group count that
    is not negative and none of its groups is cut short by the end of
    the table; the rows lie end to end, each ending where the row of
    the next small state begins and the last one at the end of the
    table.  Both grammars. *)
Theorem sparse_rows_end_to_end :
  forall L, In L [Zed.tree_sitter_sysml; SysmlTs.tree_sitter_sysml] ->
  forall small_state index,
    assoc_Z small_state (small_parse_table_map L) = Some index ->
    (exists group_count data,
       skipn index (small_parse_table L) = group_count :: data /\
       0 <= group_count /\
       small_row_fits (Z.to_nat group_count) data = true) /\
    small_row_end (small_parse_table L) index
    = match assoc_Z (small_state + 1) (small_parse_table_map L) with
      | Some next => next
      | None => length (small_parse_table L)
      end.
Proof.
  intros L HL small_state index Hi.
  assert (H : rows_end_to_end L = true).
  { destruct HL as [<-|[<-|[]]]; vm_compute; reflexivity. }
  apply andb_true_iff in H as [H _]. rewrite forallb_forall in H.
  specialize (H _ (assoc_Z_In _ _ _ Hi)). cbn [fst snd] in H.
  apply andb_true_iff in H as [H1 H2]. apply Nat.eqb_eq in H2. split; [|exact H2].
  destruct (skipn index (small_parse_table L)) as [|group_count data]; [discriminate H1|].
  apply andb_true_iff in H1 as [H1 H3]. apply Z.leb_le in H1. eauto.
Qed.

Lemma sparse_rows_end_to_end_witness :
  small_row_end (small_parse_table Zed.tree_sitter_sysml) 0 = 29%nat.
Proof.
  exact (proj2 (sparse_rows_end_to_end Zed.tree_sitter_sysml (or_introl eq_refl)
                  0 0%nat eq_refl)).
Defined.

(** ** The counts of the language *)

Lemma assoc_Z_key {A} k (l : list (Z * A)) :
  In k (map fst l) -> exists v, assoc_Z k l = Some v.
Proof.
  induction l as [|[k' v'] l IH]; cbn; [contradiction|].
  intros [H|H]; destruct (k =? k') eqn:E; eauto.
  subst. rewrite Z.eqb_refl in E. discriminate E.
Qed.

Lemma keys_upto {A} (l : list (Z * A)) n k :
  map fst l = states_upto n ->
  (0 <= k < n <-> exists v, assoc_Z k l = Some v).
Proof.
  intros H. rewrite <- In_states_upto, <- H. split.
  - apply assoc_Z_key.
  - intros [v Hv]. apply in_map_iff. exists (k, v). split; [reflexivity|].
    now apply assoc_Z_In.
Qed.

Lemma keys_from {A} (l : list (Z * A)) a n k :
  map (fun p => fst p + a) l = map (fun s => s + a) (states_upto (n - a)) ->
  (a <= k < n <-> exists v, assoc_Z (k - a) l = Some v).
Proof.
  intros H. rewrite <- (keys_upto l (n - a) (k - a)); [lia|].
  assert (G : forall x y : list Z, map (fun s => s + a) x = map (fun s => s + a) y -> x = y).
  { induction x as [|u x IH]; destruct y as [|w y]; cbn; intros K;
      try discriminate K; [reflexivity|].
    injection K as K1 K2. f_equal; [lia|now apply IH]. }
  apply G. now rewrite map_map.
Qed.

(** The counts that [tree_sitter_sysml] gives are those of the tables
    ([ts_symbol_names], [ts_symbol_metadata], [ts_lex_modes],
    [ts_parse_table], [ts_small_parse_table_map]): the symbols below
    [SYMBOL_COUNT], and no others, have a name and metadata; the states
    below [STATE_COUNT], and no others, have a lexical mode; of these
    the states below [LARGE_STATE_COUNT] have a dense row and the
    others a sparse one.  Both grammars. *)
Theorem counts_match_tables :
  forall L, In L [Zed.tree_sitter_sysml; SysmlTs.tree_sitter_sysml] ->
    0 < token_count L <= symbol_count L /\
    0 < large_state_count L <= state_count L /\
    (forall symbol,
       0 <= symbol < symbol_count L <->
       exists name, assoc_Z symbol (symbol_names L) = Some name) /\
    (forall symbol,
       0 <= symbol < symbol_count L <->
       exists m, assoc_Z symbol (symbol_metadata L) = Some m) /\
    (forall state,
       0 <= state < state_count L <->
       exists mode, assoc_Z state (lex_modes L) = Some mode) /\
    (forall state,
       0 <= state < large_state_count L <->
       exists row, assoc_Z state (parse_table L) = Some row) /\
    (forall state,
       large_state_count L <= state < state_count L <->
       exists index,
         assoc_Z (state - large_state_count L) (small_parse_table_map L) = Some index).
Proof.
  intros L HL.
  assert (H : (0 <? token_count L) && (token_count L <=? symbol_count L)
              && (0 <? large_state_count L) && (large_state_count L <=? state_count L)
              = true /\
              map fst (symbol_names L) = states_upto (symbol_count L) /\
              map fst (symbol_metadata L) = states_upto (symbol_count L) /\
              map fst (lex_modes L) = states_upto (state_count L) /\
              map fst (parse_table L) = states_upto (large_state_count L) /\
              map (fun p => fst p + large_state_count L) (small_parse_table_map L)
              = map (fun s => s + large_state_count L)
                    (states_upto (state_count L - large_state_count L))).
  { destruct HL as [<-|[<-|[]]]; repeat split; vm_compute; reflexivity. }
  destruct H as (H0 & H1 & H2 & H3 & H4 & H5).
  apply andb_true_iff in H0 as [H0 Hd]. apply andb_true_iff in H0 as [H0 Hc].
  apply andb_true_iff in H0 as [Ha Hb].
  apply Z.ltb_lt in Ha, Hc. apply Z.leb_le in Hb, Hd.
  split; [lia|]. split; [lia|].
  split; [intros symbol; exact (keys_upto _ _ _ H1)|].
  split; [intros symbol; exact (keys_upto _ _ _ H2)|].
  split; [intros state; exact (keys_upto _ _ _ H3)|].
  split; [intros state; exact (keys_upto _ _ _ H4)|].
  intros state. exact (keys_from _ _ _ _ H5).
Qed.

Lemma counts_match_tables_witness :
  exists mode, assoc_Z 53 (lex_modes Zed.tree_sitter_sysml) = Some mode.
Proof.
  apply (proj1 (proj2 (proj2 (proj2 (proj2 (counts_match_tables Zed.tree_sitter_sysml
                                              (or_introl eq_refl)))))) 53).
  vm_compute. split; [discriminate|reflexivity].
Defined.

(** ** No conflicts *)

Section Entries.
Variable L : TSLanguage.
Hypothesis entries : forallb (fun e => entry_ok L (actions e)) (parse_actions L) = true.

Lemma actions_entry_ok state symbol :
  entry_ok L (ts_language_actions L state symbol) = true.
Proof.
  unfold ts_language_actions.
  destruct (find (fun e => entry_index e =? ts_language_lookup L state symbol)
                 (parse_actions L)) as [e|] eqn:E; [|reflexivity].
  apply find_some in E as [E _]. pose proof entries as H.
  rewrite forallb_forall in H. exact (H _ E).
Qed.
End Entries.

(** The tables hold no conflict ([ts_parse_actions] and the parse
    table): whatever the state and the symbol, the entry has no action,
    or one, or two: the reduction of two children to an auxiliary
    repetition (a nonterminal neither visible nor named) followed by a
    [SHIFT_REPEAT] to a state of the table.  That [SHIFT_REPEAT]
    extends the repetition: in every state that lies two edges back,
    the state entered on the repetition has an action that shifts the
    same terminal to the same state, so both actions of the cell bring
    the token to one state.  Both grammars. *)
Theorem no_conflicts :
  forall L, In L [Zed.tree_sitter_sysml; SysmlTs.tree_sitter_sysml] ->
  forall state symbol,
    ts_language_actions L state symbol = [] \/
    (exists a, ts_language_actions L state symbol = [a]) \/
    (exists repetition precedence production next,
       ts_language_actions L state symbol
       = [REDUCE repetition 2 precedence production; SHIFT_REPEAT next]
       /\ is_auxiliary L repetition = true
       /\ 0 < next < state_count L
       /\ (is_terminal L symbol = true ->
           forall p, In p (back (all_edges L) 2 state) ->
             exists a,
               In a (ts_language_actions L (ts_language_next_state L p repetition) symbol)
               /\ shifts_to next a = true)).
Proof.
  intros L HL state symbol.
  assert (H : entry_ok L (ts_language_actions L state symbol) = true).
  { apply actions_entry_ok. destruct HL as [<-|[<-|[]]]; vm_compute; reflexivity. }
  assert (Hx : repeats_extend L = true).
  { destruct HL as [<-|[<-|[]]]; vm_compute; reflexivity. }
  destruct (ts_language_actions L state symbol) as [|a [|b [|c l]]] eqn:Ea; auto.
  - right. left. eauto.
  - right. right. cbn in H.
    destruct a as [s|s| |r n d p| |]; try discriminate H.
    destruct b as [s|s| |r' n' d' p'| |]; try discriminate H.
    apply andb_true_iff in H as [H H4]. apply andb_true_iff in H as [H H3].
    apply andb_true_iff in H as [H1 H2].
    apply Nat.eqb_eq in H2. subst n. apply Z.ltb_lt in H3, H4.
    exists r, d, p, s. split; [reflexivity|]. split; [exact H1|]. split; [lia|].
    intros Ht q Hq.
    destruct (terminal_cells_fact L _ state symbol Hx Ht) as [E|E];
      [rewrite Ea in E; discriminate E|].
    rewrite Ea in E. cbn [repeat_extends] in E. rewrite forallb_forall in E.
    apply existsb_exists. exact (E q Hq).
  - cbn in H. destruct a as [s|s| |r n d p| |]; try discriminate H.
    destruct b as [s|s| |r' n' d' p'| |]; discriminate H.
Qed.

Lemma no_conflicts_witness :
  exists a,
    In a (ts_language_actions Zed.tree_sitter_sysml
            (ts_language_next_state Zed.tree_sitter_sysml 1 Zed.aux_sym_source_file_repeat1)
            Zed.anon_sym_import)
    /\ shifts_to 48 a = true.
Proof.
  destruct (no_conflicts Zed.tree_sitter_sysml (or_introl eq_refl) 2 Zed.anon_sym_import)
    as [H|[[a H]|(r & d & p & s & H & _ & _ & Hx)]]; try discriminate H.
  injection H as <- _ _ <-.
  apply (Hx eq_refl 1). vm_compute. repeat (first [left; reflexivity | right]).
Defined.
